(** * shadowsocks/tcprelay.py: the TCP relay handler and its timeout queue

    A shallow embedding of [TCPRelayHandler] and of the timeout queue of
    [TCPRelay].  A handler method becomes a computation in a state and
    exception monad over the handler's own attributes and the objects it
    shares with its relay (the fd table, the event loop registrations, the
    timeout queue, the configuration).  Whatever the operating system, the
    cipher, the resolver and the clock answer is a parameter of the
    development. *)

From Stdlib Require Import ZArith List QArith Qround Lia.
From Stdlib.Strings Require Import Byte.
From stdpp Require Import base gmap list strings.

Local Open Scope Z_scope.

(** ** Bytes, slices and [struct] *)

Abbreviation bytes := (list byte).

#[global] Instance byte_eq_dec : EqDecision byte := Byte.byte_eq_dec.

(** [common.ord] and [common.chr] on single bytes. *)
Definition ord (b : byte) : Z := Z.of_N (Byte.to_N b).

Definition chr (n : Z) : option byte :=
  if (0 <=? n) && (n <? 256) then Byte.of_N (Z.to_N n) else None.

Definition len {A} (l : list A) : Z := Z.of_nat (length l).

(** Python slices [l[:n]] and [l[n:]]; a negative bound counts from the end. *)
Definition slice_to {A} (l : list A) (n : Z) : list A :=
  if n <? 0 then take (Z.to_nat (len l + n)) l else take (Z.to_nat n) l.

Definition slice_from {A} (l : list A) (n : Z) : list A :=
  if n <? 0 then drop (Z.to_nat (len l + n)) l else drop (Z.to_nat n) l.

Definition slice {A} (l : list A) (i j : Z) : list A :=
  slice_from (slice_to l j) (if i <? 0 then Z.max 0 (len l + i) else i).

(** Python indexing [l[i]]: [None] stands for [IndexError]. *)
Definition index_of {A} (l : list A) (i : Z) : option nat :=
  let j := if i <? 0 then i + len l else i in
  if (0 <=? j) && (j <? len l) then Some (Z.to_nat j) else None.

Definition getitem {A} (l : list A) (i : Z) : option A :=
  j ← index_of l i; l !! j.

Definition setitem {A} (l : list A) (i : Z) (x : A) : option (list A) :=
  j ← index_of l i; Some (<[j:=x]> l).

(** [struct.pack('>H', n)], [struct.pack('>I', n)] and
    [struct.unpack('>H', b)[0]]; [None] stands for [struct.error]. *)
Definition pack_H (n : Z) : option bytes :=
  if (0 <=? n) && (n <? 65536) then
    hi ← chr (n / 256); lo ← chr (n mod 256); Some [hi; lo]
  else None.

Definition pack_I (n : Z) : option bytes :=
  if (0 <=? n) && (n <? 4294967296) then
    b3 ← chr (n / 16777216); b2 ← chr ((n / 65536) mod 256);
    b1 ← chr ((n / 256) mod 256); b0 ← chr (n mod 256);
    Some [b3; b2; b1; b0]
  else None.

Definition unpack_H (b : bytes) : option Z :=
  match b with
  | [hi; lo] => Some (ord hi * 256 + ord lo)
  | _ => None
  end.

(** [b''.join(chunks)] *)
Definition join (chunks : list bytes) : bytes := concat chunks.

(** ** Constants of the module *)

Definition TIMEOUTS_CLEAN_SIZE : Z := 512.

Definition METHOD_NOAUTH : Z := 0.
Definition CMD_CONNECT : Z := 1.
Definition CMD_BIND : Z := 2.
Definition CMD_UDP_ASSOCIATE : Z := 3.

Inductive Stage :=
| STAGE_INIT | STAGE_ADDR | STAGE_UDP_ASSOC | STAGE_DNS
| STAGE_CONNECTING | STAGE_STREAM | STAGE_DESTROYED.

#[global] Instance Stage_eq_dec : EqDecision Stage.
Proof. solve_decision. Defined.

Inductive Stream := STREAM_UP | STREAM_DOWN.

Definition WAIT_STATUS_INIT : Z := 0.
Definition WAIT_STATUS_READING : Z := 1.
Definition WAIT_STATUS_WRITING : Z := 2.
Definition WAIT_STATUS_READWRITING : Z :=
  Z.lor WAIT_STATUS_READING WAIT_STATUS_WRITING.

Definition BUF_SIZE : Z := 32 * 1024.
Definition UP_STREAM_BUF_SIZE : Z := 16 * 1024.
Definition DOWN_STREAM_BUF_SIZE : Z := 32 * 1024.

(** Modelled from the spec: the constants the module imports from [common],
    which is not among the sources.  The length prefix of a chunk is 2 bytes,
    a one-time-auth MAC is 10 bytes, so the prefix of a chunk is 12 bytes, and
    the mask [0x10] on the address type signals one-time auth. *)
Definition ONETIMEAUTH_BYTES : Z := 10.
Definition ONETIMEAUTH_CHUNK_DATA_LEN : Z := 2.
Definition ONETIMEAUTH_CHUNK_BYTES : Z := 12.
Definition ADDRTYPE_AUTH : Z := 16.

(** ** Sockets, errors and log records *)

Inductive Family := AF_INET | AF_INET6.

#[global] Instance Family_eq_dec : EqDecision Family.
Proof. solve_decision. Defined.

(** A socket object: its descriptor and address family.  Two socket objects
    are the same object when they agree on both. *)
Record Sock := mkSock { fileno : Z; family : Family }.

#[global] Instance Sock_eq_dec : EqDecision Sock.
Proof. solve_decision. Defined.

Inductive Errno :=
| EAGAIN | EINPROGRESS | EWOULDBLOCK | ETIMEDOUT | ENOTCONN
| EOTHER (code : Z).

#[global] Instance Errno_eq_dec : EqDecision Errno.
Proof. solve_decision. Defined.

Inductive Exn :=
| OSError (e : Errno)
| KeyError
| IndexError
| AttributeError
| TypeError
| ValueError
| StructError
| CryptoError
| BadSocksHeader
| NoAcceptableMethods
| Exception (msg : string).

Definition Address : Type := string * Z.

Inductive Level := DEBUG | VERBOSE | INFO | WARN | ERROR.

(** What a log call says; the formatted text is kept as its arguments. *)
Inductive LogMsg :=
| Msg (text : string)
| MsgConnecting (remote : Address) (client : Address)
| MsgTimedOut (remote : option Address)
| MsgDestroy (remote : option Address)
| MsgChosenServer (server : Address)
| MsgUnknownCommand (cmd : Z)
| MsgUnsupportedVersion (v : Z)
| MsgSockError (e : option Errno) (client : Address)
| MsgException (e : Exn)
| MsgConnException (e : Exn) (client : Address)
| MsgTraceback.

(** What the handler did to the world outside the process, in order. *)
Inductive IO :=
| IOSend (s : Sock) (data : bytes) (r : Errno + Z)
| IOSendto (s : Sock) (data : bytes) (dest : Address) (r : Errno + Z)
| IORecv (s : Sock) (bufsize : Z) (r : Errno + bytes)
| IOSocket (s : Sock)
| IOConnect (s : Sock) (dest : Address) (r : option Errno)
| IOClose (s : Sock)
| IOResolve (host : string)
| IORemoveCallback
| IOAccept (r : Errno + Sock)
| IOStat (port : Z) (n : Z).

(** ** The configuration dictionary

    The keys the module reads with [config[key]] are fields; the keys it reads
    with [config.get(key, ...)] are optional, [None] when the key is absent. *)
Record Config := mkConfig {
  cfg_server : string + list string;
  cfg_server_port : Z + list Z;
  cfg_password : string;
  cfg_method : string;
  cfg_crypto_path : string;
  cfg_fast_open : bool;
  cfg_verbose : bool;
  cfg_timeout : Z;
  cfg_one_time_auth : option bool;
  cfg_forbidden_ip : option (list string);
  cfg_tunnel_remote : option string;
  cfg_tunnel_remote_port : option Z;
  cfg_tunnel_port : option Z
}.

Definition set_cfg_fast_open (v : bool) (c : Config) : Config :=
  mkConfig (cfg_server c) (cfg_server_port c) (cfg_password c) (cfg_method c)
    (cfg_crypto_path c) v (cfg_verbose c) (cfg_timeout c)
    (cfg_one_time_auth c) (cfg_forbidden_ip c) (cfg_tunnel_remote c)
    (cfg_tunnel_remote_port c) (cfg_tunnel_port c).

(** [config.get(key, default)] *)
Definition config_get {A} (entry : option A) (dflt : A) : A :=
  match entry with Some v => v | None => dflt end.

(** ** What the module takes from outside

    The cipher, the MAC, the header parser of [common], the constants of
    [eventloop], and the answers of the operating system, the resolver, the
    clock and the random generator.  An answer may depend on everything the
    process did to the outside so far ([list IO]). *)
Class Externals := {
  Cryptor : Type;
  new_cryptor : list IO -> string -> string -> string -> Cryptor;
  encrypt : Cryptor -> bytes -> Cryptor * bytes;
  decrypt : Cryptor -> bytes -> Cryptor * (Exn + bytes);
  cipher_iv : Cryptor -> bytes;
  decipher_iv : Cryptor -> bytes;
  key : Cryptor -> bytes;
  sha1_hmac : bytes -> bytes -> bytes;
  parse_header : bytes -> option (Z * bytes * Z * Z);
  add_header : string -> Z -> bytes -> bytes;
  POLL_IN : Z;
  POLL_OUT : Z;
  POLL_ERR : Z;
  POLL_HUP : Z;
  TIMEOUT_PRECISION : Z;
  time_time : list IO -> Q;
  random_choice : list IO -> nat -> nat;
  send_result : list IO -> Sock -> bytes -> Errno + Z;
  sendto_result : list IO -> Sock -> bytes -> Address -> Errno + Z;
  recv_result : list IO -> Sock -> Z -> Errno + bytes;
  connect_result : list IO -> Sock -> Address -> option Errno;
  getaddrinfo : list IO -> string -> Z -> Errno + list (Family * Address);
  socket_fileno : list IO -> Family -> Z;
  resolve_now :
    list IO -> string -> option (option (string * string) * option Exn);
  get_sock_error : list IO -> Sock -> option Errno;
  getsockname : Sock -> Address;
  getpeername : Sock -> Address;
  inet_pton : Family -> string -> option bytes;
  accept_result : list IO -> Errno + Sock
}.

(** ** How a method ends

    A method either returns, or raises a Python exception, or never returns
    ([Hang]): a loop that does not end, or a state no run reaches, such as a
    reference to a handler that does not exist.  No [except] clause catches
    [Hang]. *)
Inductive Outcome (A : Type) :=
| Ret (a : A)
| Raise (e : Exn)
| Hang.
Arguments Ret {A} a.
Arguments Raise {A} e.
Arguments Hang {A}.

(** [common.to_str] *)
Definition to_str (b : bytes) : string := String.string_of_list_byte b.

Section Model.
Context {E : Externals}.

(** Modelled from the spec: the two MAC helpers of [common], which is not
    among the sources.  The MAC is HMAC-SHA1 truncated to its first 10 bytes;
    verification compares the received MAC with the one computed. *)
Definition onetimeauth_gen (data key : bytes) : bytes :=
  slice_to (sha1_hmac key data) ONETIMEAUTH_BYTES.

Definition onetimeauth_verify (_hash data key : bytes) : bool :=
  bool_decide (_hash = slice_to (sha1_hmac key data) ONETIMEAUTH_BYTES).

(** ** The handler and what it shares with its relay *)

Record Handler := mkHandler {
  h_id : positive;  (* id(self), also hash(self) *)
  _local_sock : option Sock;
  _remote_sock : option Sock;
  tunnel_remote : string;
  tunnel_remote_port : Z;
  tunnel_port : Z;
  _is_tunnel : bool;
  _is_local : bool;
  _stage : Stage;
  _cryptor : Cryptor;
  _ota_enable : bool;
  _ota_enable_session : bool;
  _ota_buff_head : bytes;
  _ota_buff_data : bytes;
  _ota_len : Z;
  _ota_chunk_idx : Z;
  _fastopen_connected : bool;
  _data_to_write_to_local : list bytes;
  _data_to_write_to_remote : list bytes;
  _upstream_status : Z;
  _downstream_status : Z;
  _client_address : Address;
  _remote_address : option Address;
  _forbidden_iplist : option (list string);
  _chosen_server : option Address;  (* set only when is_local *)
  last_activity : Z
}.

Definition set_local_sock (v : option Sock) (r : Handler) : Handler :=
  mkHandler (h_id r) v (_remote_sock r) (tunnel_remote r)
    (tunnel_remote_port r) (tunnel_port r) (_is_tunnel r) (_is_local r)
    (_stage r) (_cryptor r) (_ota_enable r) (_ota_enable_session r)
    (_ota_buff_head r) (_ota_buff_data r) (_ota_len r) (_ota_chunk_idx r)
    (_fastopen_connected r) (_data_to_write_to_local r)
    (_data_to_write_to_remote r) (_upstream_status r) (_downstream_status r)
    (_client_address r) (_remote_address r) (_forbidden_iplist r)
    (_chosen_server r) (last_activity r).

Definition set_remote_sock (v : option Sock) (r : Handler) : Handler :=
  mkHandler (h_id r) (_local_sock r) v (tunnel_remote r) (tunnel_remote_port
    r) (tunnel_port r) (_is_tunnel r) (_is_local r) (_stage r) (_cryptor r)
    (_ota_enable r) (_ota_enable_session r) (_ota_buff_head r)
    (_ota_buff_data r) (_ota_len r) (_ota_chunk_idx r) (_fastopen_connected
    r) (_data_to_write_to_local r) (_data_to_write_to_remote r)
    (_upstream_status r) (_downstream_status r) (_client_address r)
    (_remote_address r) (_forbidden_iplist r) (_chosen_server r)
    (last_activity r).

Definition set_stage (v : Stage) (r : Handler) : Handler :=
  mkHandler (h_id r) (_local_sock r) (_remote_sock r) (tunnel_remote r)
    (tunnel_remote_port r) (tunnel_port r) (_is_tunnel r) (_is_local r) v
    (_cryptor r) (_ota_enable r) (_ota_enable_session r) (_ota_buff_head r)
    (_ota_buff_data r) (_ota_len r) (_ota_chunk_idx r) (_fastopen_connected
    r) (_data_to_write_to_local r) (_data_to_write_to_remote r)
    (_upstream_status r) (_downstream_status r) (_client_address r)
    (_remote_address r) (_forbidden_iplist r) (_chosen_server r)
    (last_activity r).

Definition set_cryptor (v : Cryptor) (r : Handler) : Handler :=
  mkHandler (h_id r) (_local_sock r) (_remote_sock r) (tunnel_remote r)
    (tunnel_remote_port r) (tunnel_port r) (_is_tunnel r) (_is_local r)
    (_stage r) v (_ota_enable r) (_ota_enable_session r) (_ota_buff_head r)
    (_ota_buff_data r) (_ota_len r) (_ota_chunk_idx r) (_fastopen_connected
    r) (_data_to_write_to_local r) (_data_to_write_to_remote r)
    (_upstream_status r) (_downstream_status r) (_client_address r)
    (_remote_address r) (_forbidden_iplist r) (_chosen_server r)
    (last_activity r).

Definition set_ota_enable_session (v : bool) (r : Handler) : Handler :=
  mkHandler (h_id r) (_local_sock r) (_remote_sock r) (tunnel_remote r)
    (tunnel_remote_port r) (tunnel_port r) (_is_tunnel r) (_is_local r)
    (_stage r) (_cryptor r) (_ota_enable r) v (_ota_buff_head r)
    (_ota_buff_data r) (_ota_len r) (_ota_chunk_idx r) (_fastopen_connected
    r) (_data_to_write_to_local r) (_data_to_write_to_remote r)
    (_upstream_status r) (_downstream_status r) (_client_address r)
    (_remote_address r) (_forbidden_iplist r) (_chosen_server r)
    (last_activity r).

Definition set_ota_buff_head (v : bytes) (r : Handler) : Handler :=
  mkHandler (h_id r) (_local_sock r) (_remote_sock r) (tunnel_remote r)
    (tunnel_remote_port r) (tunnel_port r) (_is_tunnel r) (_is_local r)
    (_stage r) (_cryptor r) (_ota_enable r) (_ota_enable_session r) v
    (_ota_buff_data r) (_ota_len r) (_ota_chunk_idx r) (_fastopen_connected
    r) (_data_to_write_to_local r) (_data_to_write_to_remote r)
    (_upstream_status r) (_downstream_status r) (_client_address r)
    (_remote_address r) (_forbidden_iplist r) (_chosen_server r)
    (last_activity r).

Definition set_ota_buff_data (v : bytes) (r : Handler) : Handler :=
  mkHandler (h_id r) (_local_sock r) (_remote_sock r) (tunnel_remote r)
    (tunnel_remote_port r) (tunnel_port r) (_is_tunnel r) (_is_local r)
    (_stage r) (_cryptor r) (_ota_enable r) (_ota_enable_session r)
    (_ota_buff_head r) v (_ota_len r) (_ota_chunk_idx r)
    (_fastopen_connected r) (_data_to_write_to_local r)
    (_data_to_write_to_remote r) (_upstream_status r) (_downstream_status r)
    (_client_address r) (_remote_address r) (_forbidden_iplist r)
    (_chosen_server r) (last_activity r).

Definition set_ota_len (v : Z) (r : Handler) : Handler :=
  mkHandler (h_id r) (_local_sock r) (_remote_sock r) (tunnel_remote r)
    (tunnel_remote_port r) (tunnel_port r) (_is_tunnel r) (_is_local r)
    (_stage r) (_cryptor r) (_ota_enable r) (_ota_enable_session r)
    (_ota_buff_head r) (_ota_buff_data r) v (_ota_chunk_idx r)
    (_fastopen_connected r) (_data_to_write_to_local r)
    (_data_to_write_to_remote r) (_upstream_status r) (_downstream_status r)
    (_client_address r) (_remote_address r) (_forbidden_iplist r)
    (_chosen_server r) (last_activity r).

Definition set_ota_chunk_idx (v : Z) (r : Handler) : Handler :=
  mkHandler (h_id r) (_local_sock r) (_remote_sock r) (tunnel_remote r)
    (tunnel_remote_port r) (tunnel_port r) (_is_tunnel r) (_is_local r)
    (_stage r) (_cryptor r) (_ota_enable r) (_ota_enable_session r)
    (_ota_buff_head r) (_ota_buff_data r) (_ota_len r) v
    (_fastopen_connected r) (_data_to_write_to_local r)
    (_data_to_write_to_remote r) (_upstream_status r) (_downstream_status r)
    (_client_address r) (_remote_address r) (_forbidden_iplist r)
    (_chosen_server r) (last_activity r).

Definition set_fastopen_connected (v : bool) (r : Handler) : Handler :=
  mkHandler (h_id r) (_local_sock r) (_remote_sock r) (tunnel_remote r)
    (tunnel_remote_port r) (tunnel_port r) (_is_tunnel r) (_is_local r)
    (_stage r) (_cryptor r) (_ota_enable r) (_ota_enable_session r)
    (_ota_buff_head r) (_ota_buff_data r) (_ota_len r) (_ota_chunk_idx r) v
    (_data_to_write_to_local r) (_data_to_write_to_remote r)
    (_upstream_status r) (_downstream_status r) (_client_address r)
    (_remote_address r) (_forbidden_iplist r) (_chosen_server r)
    (last_activity r).

Definition set_data_to_write_to_local (v : list bytes) (r : Handler) : Handler :=
  mkHandler (h_id r) (_local_sock r) (_remote_sock r) (tunnel_remote r)
    (tunnel_remote_port r) (tunnel_port r) (_is_tunnel r) (_is_local r)
    (_stage r) (_cryptor r) (_ota_enable r) (_ota_enable_session r)
    (_ota_buff_head r) (_ota_buff_data r) (_ota_len r) (_ota_chunk_idx r)
    (_fastopen_connected r) v (_data_to_write_to_remote r) (_upstream_status
    r) (_downstream_status r) (_client_address r) (_remote_address r)
    (_forbidden_iplist r) (_chosen_server r) (last_activity r).

Definition set_data_to_write_to_remote (v : list bytes) (r : Handler) : Handler :=
  mkHandler (h_id r) (_local_sock r) (_remote_sock r) (tunnel_remote r)
    (tunnel_remote_port r) (tunnel_port r) (_is_tunnel r) (_is_local r)
    (_stage r) (_cryptor r) (_ota_enable r) (_ota_enable_session r)
    (_ota_buff_head r) (_ota_buff_data r) (_ota_len r) (_ota_chunk_idx r)
    (_fastopen_connected r) (_data_to_write_to_local r) v (_upstream_status
    r) (_downstream_status r) (_client_address r) (_remote_address r)
    (_forbidden_iplist r) (_chosen_server r) (last_activity r).

Definition set_upstream_status (v : Z) (r : Handler) : Handler :=
  mkHandler (h_id r) (_local_sock r) (_remote_sock r) (tunnel_remote r)
    (tunnel_remote_port r) (tunnel_port r) (_is_tunnel r) (_is_local r)
    (_stage r) (_cryptor r) (_ota_enable r) (_ota_enable_session r)
    (_ota_buff_head r) (_ota_buff_data r) (_ota_len r) (_ota_chunk_idx r)
    (_fastopen_connected r) (_data_to_write_to_local r)
    (_data_to_write_to_remote r) v (_downstream_status r) (_client_address
    r) (_remote_address r) (_forbidden_iplist r) (_chosen_server r)
    (last_activity r).

Definition set_downstream_status (v : Z) (r : Handler) : Handler :=
  mkHandler (h_id r) (_local_sock r) (_remote_sock r) (tunnel_remote r)
    (tunnel_remote_port r) (tunnel_port r) (_is_tunnel r) (_is_local r)
    (_stage r) (_cryptor r) (_ota_enable r) (_ota_enable_session r)
    (_ota_buff_head r) (_ota_buff_data r) (_ota_len r) (_ota_chunk_idx r)
    (_fastopen_connected r) (_data_to_write_to_local r)
    (_data_to_write_to_remote r) (_upstream_status r) v (_client_address r)
    (_remote_address r) (_forbidden_iplist r) (_chosen_server r)
    (last_activity r).

Definition set_remote_address (v : option Address) (r : Handler) : Handler :=
  mkHandler (h_id r) (_local_sock r) (_remote_sock r) (tunnel_remote r)
    (tunnel_remote_port r) (tunnel_port r) (_is_tunnel r) (_is_local r)
    (_stage r) (_cryptor r) (_ota_enable r) (_ota_enable_session r)
    (_ota_buff_head r) (_ota_buff_data r) (_ota_len r) (_ota_chunk_idx r)
    (_fastopen_connected r) (_data_to_write_to_local r)
    (_data_to_write_to_remote r) (_upstream_status r) (_downstream_status r)
    (_client_address r) v (_forbidden_iplist r) (_chosen_server r)
    (last_activity r).

Definition set_chosen_server (v : option Address) (r : Handler) : Handler :=
  mkHandler (h_id r) (_local_sock r) (_remote_sock r) (tunnel_remote r)
    (tunnel_remote_port r) (tunnel_port r) (_is_tunnel r) (_is_local r)
    (_stage r) (_cryptor r) (_ota_enable r) (_ota_enable_session r)
    (_ota_buff_head r) (_ota_buff_data r) (_ota_len r) (_ota_chunk_idx r)
    (_fastopen_connected r) (_data_to_write_to_local r)
    (_data_to_write_to_remote r) (_upstream_status r) (_downstream_status r)
    (_client_address r) (_remote_address r) (_forbidden_iplist r) v
    (last_activity r).

Definition set_last_activity (v : Z) (r : Handler) : Handler :=
  mkHandler (h_id r) (_local_sock r) (_remote_sock r) (tunnel_remote r)
    (tunnel_remote_port r) (tunnel_port r) (_is_tunnel r) (_is_local r)
    (_stage r) (_cryptor r) (_ota_enable r) (_ota_enable_session r)
    (_ota_buff_head r) (_ota_buff_data r) (_ota_len r) (_ota_chunk_idx r)
    (_fastopen_connected r) (_data_to_write_to_local r)
    (_data_to_write_to_remote r) (_upstream_status r) (_downstream_status r)
    (_client_address r) (_remote_address r) (_forbidden_iplist r)
    (_chosen_server r) v.

(** The objects a handler shares with its relay and with the other handlers:
    the attributes of the [TCPRelay], the fd table, the event loop, the
    resolver's callback table and the configuration; and the record of what
    went out of the process. *)
Record Shared := mkShared {
  _config : Config;
  _fd_to_handlers : gmap Z positive;
  _loop : gmap Z Z;  (* the event loop: descriptor to registered events *)
  _dns_resolver : gset positive;  (* handlers whose callback the resolver holds *)
  _timeout : Z;
  _timeouts : list (option positive);
  _timeout_offset : Z;
  _handler_to_timeouts : gmap positive Z;
  _listen_port : Z;
  _stat_callback : bool;  (* whether a callback was given *)
  relay_is_local : bool;
  relay_is_tunnel : bool;
  _closed : bool;
  _server_socket : option Sock;
  loop_stopped : bool;  (* the event loop was told to stop *)
  wire : list IO;  (* calls made to the outside, oldest first *)
  log : list (Level * LogMsg)  (* log records, oldest first *)
}.

Definition set_config (v : Config) (r : Shared) : Shared :=
  mkShared v (_fd_to_handlers r) (_loop r) (_dns_resolver r) (_timeout r)
    (_timeouts r) (_timeout_offset r) (_handler_to_timeouts r) (_listen_port
    r) (_stat_callback r) (relay_is_local r) (relay_is_tunnel r) (_closed r)
    (_server_socket r) (loop_stopped r) (wire r) (log r).

Definition set_fd_to_handlers (v : gmap Z positive) (r : Shared) : Shared :=
  mkShared (_config r) v (_loop r) (_dns_resolver r) (_timeout r) (_timeouts
    r) (_timeout_offset r) (_handler_to_timeouts r) (_listen_port r)
    (_stat_callback r) (relay_is_local r) (relay_is_tunnel r) (_closed r)
    (_server_socket r) (loop_stopped r) (wire r) (log r).

Definition set_loop (v : gmap Z Z) (r : Shared) : Shared :=
  mkShared (_config r) (_fd_to_handlers r) v (_dns_resolver r) (_timeout r)
    (_timeouts r) (_timeout_offset r) (_handler_to_timeouts r) (_listen_port
    r) (_stat_callback r) (relay_is_local r) (relay_is_tunnel r) (_closed r)
    (_server_socket r) (loop_stopped r) (wire r) (log r).

Definition set_dns_resolver (v : gset positive) (r : Shared) : Shared :=
  mkShared (_config r) (_fd_to_handlers r) (_loop r) v (_timeout r)
    (_timeouts r) (_timeout_offset r) (_handler_to_timeouts r) (_listen_port
    r) (_stat_callback r) (relay_is_local r) (relay_is_tunnel r) (_closed r)
    (_server_socket r) (loop_stopped r) (wire r) (log r).

Definition set_timeouts (v : list (option positive)) (r : Shared) : Shared :=
  mkShared (_config r) (_fd_to_handlers r) (_loop r) (_dns_resolver r)
    (_timeout r) v (_timeout_offset r) (_handler_to_timeouts r)
    (_listen_port r) (_stat_callback r) (relay_is_local r) (relay_is_tunnel
    r) (_closed r) (_server_socket r) (loop_stopped r) (wire r) (log r).

Definition set_timeout_offset (v : Z) (r : Shared) : Shared :=
  mkShared (_config r) (_fd_to_handlers r) (_loop r) (_dns_resolver r)
    (_timeout r) (_timeouts r) v (_handler_to_timeouts r) (_listen_port r)
    (_stat_callback r) (relay_is_local r) (relay_is_tunnel r) (_closed r)
    (_server_socket r) (loop_stopped r) (wire r) (log r).

Definition set_handler_to_timeouts (v : gmap positive Z) (r : Shared) : Shared :=
  mkShared (_config r) (_fd_to_handlers r) (_loop r) (_dns_resolver r)
    (_timeout r) (_timeouts r) (_timeout_offset r) v (_listen_port r)
    (_stat_callback r) (relay_is_local r) (relay_is_tunnel r) (_closed r)
    (_server_socket r) (loop_stopped r) (wire r) (log r).

Definition set_server_socket (v : option Sock) (r : Shared) : Shared :=
  mkShared (_config r) (_fd_to_handlers r) (_loop r) (_dns_resolver r)
    (_timeout r) (_timeouts r) (_timeout_offset r) (_handler_to_timeouts r)
    (_listen_port r) (_stat_callback r) (relay_is_local r) (relay_is_tunnel
    r) (_closed r) v (loop_stopped r) (wire r) (log r).

Definition set_loop_stopped (v : bool) (r : Shared) : Shared :=
  mkShared (_config r) (_fd_to_handlers r) (_loop r) (_dns_resolver r)
    (_timeout r) (_timeouts r) (_timeout_offset r) (_handler_to_timeouts r)
    (_listen_port r) (_stat_callback r) (relay_is_local r) (relay_is_tunnel
    r) (_closed r) (_server_socket r) v (wire r) (log r).

Definition set_wire (v : list IO) (r : Shared) : Shared :=
  mkShared (_config r) (_fd_to_handlers r) (_loop r) (_dns_resolver r)
    (_timeout r) (_timeouts r) (_timeout_offset r) (_handler_to_timeouts r)
    (_listen_port r) (_stat_callback r) (relay_is_local r) (relay_is_tunnel
    r) (_closed r) (_server_socket r) (loop_stopped r) v (log r).

Definition set_log (v : list (Level * LogMsg)) (r : Shared) : Shared :=
  mkShared (_config r) (_fd_to_handlers r) (_loop r) (_dns_resolver r)
    (_timeout r) (_timeouts r) (_timeout_offset r) (_handler_to_timeouts r)
    (_listen_port r) (_stat_callback r) (relay_is_local r) (relay_is_tunnel
    r) (_closed r) (_server_socket r) (loop_stopped r) (wire r) v.

(** ** The monad of handler methods

    A method runs on the handler's attributes and on the shared objects.  The
    state it leaves behind is kept also when it raises. *)
Definition St : Type := Handler * Shared.

Definition M (A : Type) : Type := St -> Outcome A * St.

#[global] Instance M_ret : MRet M := fun A a st => (Ret a, st).

#[global] Instance M_bind : MBind M := fun A B f m st =>
  match m st with
  | (Ret a, st') => f a st'
  | (Raise e, st') => (Raise e, st')
  | (Hang, st') => (Hang, st')
  end.

#[global] Instance M_fmap : FMap M := fun A B f m st =>
  match m st with
  | (Ret a, st') => (Ret (f a), st')
  | (Raise e, st') => (Raise e, st')
  | (Hang, st') => (Hang, st')
  end.

Definition raise {A} (e : Exn) : M A := fun st => (Raise e, st).

Definition hang {A} : M A := fun st => (Hang, st).

(** [try: body  except Exception as e: handler(e)] *)
Definition try_except {A} (body : M A) (handler : Exn -> M A) : M A :=
  fun st =>
    match body st with
    | (Raise e, st') => handler e st'
    | r => r
    end.

Definition get_h : M Handler := fun st => (Ret (fst st), st).
Definition get_s : M Shared := fun st => (Ret (snd st), st).
Definition modify_h (f : Handler -> Handler) : M unit :=
  fun st => (Ret tt, (f (fst st), snd st)).
Definition modify_s (f : Shared -> Shared) : M unit :=
  fun st => (Ret tt, (fst st, f (snd st))).

Definition pass : M unit := mret tt.

(** A value that a failed step would have produced, or the exception. *)
Definition or_raise {A} (x : option A) (e : Exn) : M A :=
  match x with Some a => mret a | None => raise e end.

Definition logging (lvl : Level) (msg : LogMsg) : M unit :=
  modify_s (fun s => set_log (log s ++ [(lvl, msg)]) s).

Definition io (ev : IO) : M unit :=
  modify_s (fun s => set_wire (wire s ++ [ev]) s).

(** [shell.print_exception] and [traceback.print_exc] write to the log. *)
Definition print_exception (e : Exn) : M unit := logging ERROR (MsgException e).

Definition print_exc : M unit := logging ERROR MsgTraceback.

(** The event loop, as far as the handler uses it: [add], [modify] and
    [remove] keep a table from descriptors to the events asked for. *)
Definition loop_add (sock : Sock) (mode : Z) : M unit :=
  modify_s (fun s => set_loop (<[fileno sock := mode]> (_loop s)) s).

Definition loop_modify (sock : Sock) (mode : Z) : M unit :=
  modify_s (fun s => set_loop (<[fileno sock := mode]> (_loop s)) s).

Definition loop_remove (sock : Sock) : M unit :=
  modify_s (fun s => set_loop (delete (fileno sock) (_loop s)) s).

(** [self._cryptor.encrypt(data)] and [self._cryptor.decrypt(data)] *)
Definition cryptor_encrypt (data : bytes) : M bytes :=
  h ← get_h;
  let '(c, out) := encrypt (_cryptor h) data in
  modify_h (set_cryptor c);; mret out.

Definition cryptor_decrypt (data : bytes) : M bytes :=
  h ← get_h;
  let '(c, out) := decrypt (_cryptor h) data in
  modify_h (set_cryptor c);;
  match out with inr plain => mret plain | inl e => raise e end.

(** Truth of a status or event mask: [if flags & bit]. *)
Definition has (flags bit : Z) : bool := negb (Z.land flags bit =? 0).

(** ** TCPRelay: the activity queue, as called by a handler *)

(** [int(time.time())] *)
Definition int_of (q : Q) : Z := Z.quot (Qnum q) (Zpos (Qden q)).

Definition remove_handler : M unit :=
  h ← get_h; s ← get_s;
  let index := config_get (_handler_to_timeouts s !! h_id h) (-1) in
  if 0 <=? index then
    ts ← or_raise (setitem (_timeouts s) index None) IndexError;
    modify_s (set_timeouts ts);;
    modify_s (fun s =>
      set_handler_to_timeouts (delete (h_id h) (_handler_to_timeouts s)) s)
  else pass.

Definition update_activity (data_len : Z) : M unit :=
  s ← get_s;
  (if negb (data_len =? 0) && _stat_callback s
   then io (IOStat (_listen_port s) data_len) else pass);;
  s ← get_s; h ← get_h;
  let now := int_of (time_time (wire s)) in
  if now - last_activity h <? TIMEOUT_PRECISION then pass
  else
    modify_h (set_last_activity now);;
    let index := config_get (_handler_to_timeouts s !! h_id h) (-1) in
    (if 0 <=? index then
       ts ← or_raise (setitem (_timeouts s) index None) IndexError;
       modify_s (set_timeouts ts)
     else pass);;
    s ← get_s;
    let length := len (_timeouts s) in
    modify_s (set_timeouts (_timeouts s ++ [Some (h_id h)]));;
    modify_s (fun s =>
      set_handler_to_timeouts (<[h_id h := length]> (_handler_to_timeouts s)) s).

(** ** TCPRelayHandler *)

Definition transient_write (e : Errno) : bool :=
  bool_decide (e = EAGAIN) || bool_decide (e = EINPROGRESS)
  || bool_decide (e = EWOULDBLOCK).

Definition transient_read (e : Errno) : bool :=
  bool_decide (e = ETIMEDOUT) || bool_decide (e = EAGAIN)
  || bool_decide (e = EWOULDBLOCK).

Definition _update_activity (data_len : Z) : M unit := update_activity data_len.

Definition destroy : M unit :=
  h ← get_h;
  if decide (_stage h = STAGE_DESTROYED) then
    logging DEBUG (Msg "already destroyed")
  else
    modify_h (set_stage STAGE_DESTROYED);;
    logging DEBUG (MsgDestroy (_remote_address h));;
    match _remote_sock h with
    | Some sock =>
        logging DEBUG (Msg "destroying remote");;
        loop_remove sock;;
        s ← get_s;
        (if decide (is_Some (_fd_to_handlers s !! fileno sock)) then
           modify_s (set_fd_to_handlers (delete (fileno sock) (_fd_to_handlers s)))
         else raise KeyError);;
        io (IOClose sock);;
        modify_h (set_remote_sock None)
    | None => pass
    end;;
    match _local_sock h with
    | Some sock =>
        logging DEBUG (Msg "destroying local");;
        loop_remove sock;;
        s ← get_s;
        (if decide (is_Some (_fd_to_handlers s !! fileno sock)) then
           modify_s (set_fd_to_handlers (delete (fileno sock) (_fd_to_handlers s)))
         else raise KeyError);;
        io (IOClose sock);;
        modify_h (set_local_sock None)
    | None => pass
    end;;
    io IORemoveCallback;;
    modify_s (fun s => set_dns_resolver (_dns_resolver s ∖ {[h_id h]}) s);;
    remove_handler.

(** Modelled from the spec: the decorator [shell.exception_handle], which is
    not among the sources.  An exception does not leave the decorated method:
    it is printed, logged with the client's address when [conn_err] is set,
    and the handler is destroyed when [destroy] is set. *)
Definition exception_handle (destroy_ conn_err : bool) (func : M unit) : M unit :=
  try_except func (fun e =>
    print_exception e;;
    h ← get_h; s ← get_s;
    (if conn_err then logging ERROR (MsgConnException e (_client_address h))
     else pass);;
    (if cfg_verbose (_config s) then print_exc else pass);;
    (if destroy_ then destroy else pass)).

Definition _get_a_server : M Address :=
  s ← get_s;
  server_port ←
    match cfg_server_port (_config s) with
    | inl p => mret p
    | inr ps =>
        or_raise (ps !! (random_choice (wire s) (length ps) `mod` length ps)%nat)
                 IndexError
    end;
  server ←
    match cfg_server (_config s) with
    | inl a => mret a
    | inr l =>
        or_raise (l !! (random_choice (wire s) (length l) `mod` length l)%nat)
                 IndexError
    end;
  logging DEBUG (MsgChosenServer (server, server_port));;
  mret (server, server_port).

Definition _update_stream (stream : Stream) (status : Z) : M unit :=
  h ← get_h;
  dirty ←
    match stream with
    | STREAM_DOWN =>
        if negb (_downstream_status h =? status)
        then modify_h (set_downstream_status status);; mret true
        else mret false
    | STREAM_UP =>
        if negb (_upstream_status h =? status)
        then modify_h (set_upstream_status status);; mret true
        else mret false
    end;
  if negb dirty then pass
  else
    h ← get_h;
    match _local_sock h with
    | Some sock =>
        let event := POLL_ERR in
        let event := if has (_downstream_status h) WAIT_STATUS_WRITING
                     then Z.lor event POLL_OUT else event in
        let event := if has (_upstream_status h) WAIT_STATUS_READING
                     then Z.lor event POLL_IN else event in
        loop_modify sock event
    | None => pass
    end;;
    match _remote_sock h with
    | Some sock =>
        let event := POLL_ERR in
        let event := if has (_downstream_status h) WAIT_STATUS_READING
                     then Z.lor event POLL_IN else event in
        let event := if has (_upstream_status h) WAIT_STATUS_WRITING
                     then Z.lor event POLL_OUT else event in
        loop_modify sock event
    | None => pass
    end.

Definition append_to_local (data : bytes) : M unit :=
  modify_h (fun h =>
    set_data_to_write_to_local (_data_to_write_to_local h ++ [data]) h).

Definition append_to_remote (data : bytes) : M unit :=
  modify_h (fun h =>
    set_data_to_write_to_remote (_data_to_write_to_remote h ++ [data]) h).

Definition _write_to_sock (data : bytes) (sock : option Sock) : M bool :=
  match data, sock with
  | [], _ | _, None => mret false
  | _, Some sk =>
      s ← get_s;
      let r := send_result (wire s) sk data in
      io (IOSend sk data r);;
      sent ←
        (match r with
         | inr n =>
             if n <? len data then mret (Some (slice_from data n, true))
             else mret (Some (data, false))
         | inl error_no =>
             if transient_write error_no then mret (Some (data, true))
             else print_exception (OSError error_no);; destroy;; mret None
         end : M (option (bytes * bool)));
      match sent with
      | None => mret false
      | Some (data, uncomplete) =>
          h ← get_h;
          (if (uncomplete : bool) then
             if decide (Some sk = _local_sock h) then
               append_to_local data;;
               _update_stream STREAM_DOWN WAIT_STATUS_WRITING
             else if decide (Some sk = _remote_sock h) then
               append_to_remote data;;
               _update_stream STREAM_UP WAIT_STATUS_WRITING
             else logging ERROR (Msg "write_all_to_sock:unknown socket")
           else
             if decide (Some sk = _local_sock h) then
               _update_stream STREAM_DOWN WAIT_STATUS_READING
             else if decide (Some sk = _remote_sock h) then
               _update_stream STREAM_UP WAIT_STATUS_READING
             else logging ERROR (Msg "write_all_to_sock:unknown socket"));;
          mret true
      end
  end.

Definition _write_to_sock_remote (data : bytes) : M unit :=
  h ← get_h; _write_to_sock data (_remote_sock h);; pass.

(** The loop of [_ota_chunk_data].  It returns the payload gathered when the
    loop ends with the input used up, and [None] when the method returns from
    inside the loop to wait for the rest of a chunk prefix.  The loop is run
    on fuel; it hangs when the fuel is used up. *)
Fixpoint _ota_chunk_data_loop (fuel : nat) (data unchunk_data : bytes)
  : M (option bytes) :=
  match fuel with
  | O => hang
  | S fuel =>
      if 0 <? len data then
        h ← get_h;
        head ←
          (if _ota_len h =? 0 then
             let length := ONETIMEAUTH_CHUNK_BYTES - len (_ota_buff_head h) in
             modify_h (set_ota_buff_head (_ota_buff_head h ++ slice_to data length));;
             let data := slice_from data length in
             h ← get_h;
             if len (_ota_buff_head h) <? ONETIMEAUTH_CHUNK_BYTES then mret None
             else
               let data_len :=
                 slice_to (_ota_buff_head h) ONETIMEAUTH_CHUNK_DATA_LEN in
               n ← or_raise (unpack_H data_len) StructError;
               modify_h (set_ota_len n);; mret (Some data)
           else mret (Some data));
        match head with
        | None => mret None
        | Some data =>
            h ← get_h;
            let length := Z.min (_ota_len h - len (_ota_buff_data h)) (len data) in
            modify_h (set_ota_buff_data (_ota_buff_data h ++ slice_to data length));;
            let data := slice_from data length in
            h ← get_h;
            unchunk_data ←
              (if len (_ota_buff_data h) =? _ota_len h then
                 let _hash :=
                   slice_from (_ota_buff_head h) ONETIMEAUTH_CHUNK_DATA_LEN in
                 let _data := _ota_buff_data h in
                 index ← or_raise (pack_I (_ota_chunk_idx h)) StructError;
                 let key := decipher_iv (_cryptor h) ++ index in
                 unchunk_data ←
                   (if negb (onetimeauth_verify _hash _data key) then
                      logging WARN (Msg "one time auth fail, drop chunk !");;
                      mret unchunk_data
                    else
                      modify_h (set_ota_chunk_idx (_ota_chunk_idx h + 1));;
                      mret (unchunk_data ++ _data));
                 modify_h (set_ota_buff_head []);;
                 modify_h (set_ota_buff_data []);;
                 modify_h (set_ota_len 0);;
                 mret unchunk_data
               else mret unchunk_data);
            _ota_chunk_data_loop fuel data unchunk_data
        end
      else mret (Some unchunk_data)
  end.

Definition _ota_chunk_data (data : bytes) (data_cb : bytes -> M unit) : M unit :=
  r ← _ota_chunk_data_loop (S (S (length data))) data [];
  match r with
  | Some unchunk_data => data_cb unchunk_data
  | None => pass
  end.

Definition _ota_chunk_data_gen (data : bytes) : M bytes :=
  h ← get_h;
  data_len ← or_raise (pack_H (len data)) StructError;
  index ← or_raise (pack_I (_ota_chunk_idx h)) StructError;
  let key := cipher_iv (_cryptor h) ++ index in
  let sha110 := onetimeauth_gen data key in
  modify_h (set_ota_chunk_idx (_ota_chunk_idx h + 1));;
  mret (data_len ++ sha110 ++ data).

(** [try: body  except (OSError, IOError) as e: handler(errno of e)] *)
Definition try_except_os {A} (body : M A) (handler : Errno -> M A) : M A :=
  try_except body (fun e =>
    match e with OSError error_no => handler error_no | _ => raise e end).

Definition _create_remote_socket (ip : string) (port : Z) : M Sock :=
  s ← get_s;
  addrs ←
    match getaddrinfo (wire s) ip port with
    | inr l => mret l
    | inl e => raise (OSError e)
    end;
  match addrs with
  | [] => raise (Exception "getaddrinfo failed")
  | (af, sa) :: _ =>
      h ← get_h;
      match _forbidden_iplist h with
      | Some ((_ :: _) as forbidden) =>
          if bool_decide (fst sa ∈ forbidden)
          then raise (Exception "IP is in forbidden list, reject")
          else pass
      | _ => pass
      end;;
      s ← get_s;
      let remote_sock := mkSock (socket_fileno (wire s) af) af in
      io (IOSocket remote_sock);;
      modify_h (set_remote_sock (Some remote_sock));;
      modify_s (fun s =>
        set_fd_to_handlers (<[fileno remote_sock := h_id h]> (_fd_to_handlers s)) s);;
      mret remote_sock
  end.

Definition _handle_stage_connecting (data : bytes) : M unit :=
  exception_handle true true (
    h ← get_h;
    if negb (_is_local h) then
      if _ota_enable_session h then _ota_chunk_data data append_to_remote
      else append_to_remote data
    else
      data ← (if _ota_enable_session h then _ota_chunk_data_gen data
              else mret data);
      data ← cryptor_encrypt data;
      append_to_remote data;;
      h ← get_h; s ← get_s;
      if cfg_fast_open (_config s) && negb (_fastopen_connected h) then
        try_except_os (
          modify_h (set_fastopen_connected true);;
          chosen ← or_raise (_chosen_server h) AttributeError;
          remote_sock ← _create_remote_socket (fst chosen) (snd chosen);
          loop_add remote_sock POLL_ERR;;
          h ← get_h;
          let data := join (_data_to_write_to_remote h) in
          let l := len data in
          s ← get_s;
          let r := sendto_result (wire s) remote_sock data chosen in
          io (IOSendto remote_sock data chosen r);;
          sent ← match r with inr n => mret n | inl e => raise (OSError e) end;
          (if sent <? l then
             modify_h (set_data_to_write_to_remote [slice_from data sent])
           else modify_h (set_data_to_write_to_remote []));;
          _update_stream STREAM_UP WAIT_STATUS_READWRITING)
        (fun error_no =>
          if decide (error_no = EINPROGRESS) then
            _update_stream STREAM_UP WAIT_STATUS_READWRITING
          else if decide (error_no = ENOTCONN) then
            logging ERROR (Msg "fast open not supported on this OS");;
            modify_s (fun s => set_config (set_cfg_fast_open false (_config s)) s);;
            destroy
          else
            print_exception (OSError error_no);;
            s ← get_s;
            (if cfg_verbose (_config s) then print_exc else pass);;
            destroy)
      else pass).

Definition _handle_dns_resolved
    (result : option (string * string)) (error : option Exn) : M unit :=
  exception_handle false true (
    h ← get_h;
    match error with
    | Some err =>
        logging ERROR (MsgConnException err (_client_address h));;
        destroy
    | None =>
        match result with
        | Some (_, ip) =>
            if bool_decide (ip = "") then destroy
            else
              modify_h (set_stage STAGE_CONNECTING);;
              let remote_addr := ip in
              remote_port ←
                (if _is_local h
                 then snd <$> or_raise (_chosen_server h) AttributeError
                 else snd <$> or_raise (_remote_address h) TypeError);
              s ← get_s;
              if _is_local h && cfg_fast_open (_config s) then
                modify_h (set_stage STAGE_CONNECTING);;
                _update_stream STREAM_UP WAIT_STATUS_READING
              else
                remote_sock ← _create_remote_socket remote_addr remote_port;
                s ← get_s;
                io (IOConnect remote_sock (remote_addr, remote_port)
                      (connect_result (wire s) remote_sock
                         (remote_addr, remote_port)));;
                loop_add remote_sock (Z.lor POLL_ERR POLL_OUT);;
                modify_h (set_stage STAGE_CONNECTING);;
                _update_stream STREAM_UP WAIT_STATUS_READWRITING;;
                _update_stream STREAM_DOWN WAIT_STATUS_READING
        | None => destroy
        end
    end).

(** [self._dns_resolver.resolve(host, self._handle_dns_resolved)]: the
    resolver either calls back before it returns, or keeps the callback. *)
Definition resolve (host : string) : M unit :=
  io (IOResolve host);;
  s ← get_s; h ← get_h;
  match resolve_now (wire s) host with
  | Some (result, error) => _handle_dns_resolved result error
  | None =>
      modify_s (fun s => set_dns_resolver ({[h_id h]} ∪ _dns_resolver s) s)
  end.

Definition _handle_stage_addr (data : bytes) : M unit :=
  exception_handle true true (
    h ← get_h;
    trimmed ←
      (if _is_local h then
         if _is_tunnel h then
           mret (Some (add_header (tunnel_remote h) (tunnel_remote_port h) data))
         else
           cmd ← ord <$> or_raise (getitem data 1) IndexError;
           if cmd =? CMD_UDP_ASSOCIATE then
             logging DEBUG (Msg "UDP associate");;
             local_sock ← or_raise (_local_sock h) AttributeError;
             let header :=
               if decide (family local_sock = AF_INET6)
               then [x05; x00; x00; x04] else [x05; x00; x00; x01] in
             let '(addr, port) := getsockname local_sock in
             addr_to_send ← or_raise (inet_pton (family local_sock) addr)
                                     (OSError (EOTHER 0));
             port_to_send ← or_raise (pack_H port) StructError;
             _write_to_sock (header ++ addr_to_send ++ port_to_send)
                            (_local_sock h);;
             modify_h (set_stage STAGE_UDP_ASSOC);;
             mret None
           else if cmd =? CMD_CONNECT then
             mret (Some (slice_from data 3))
           else
             logging ERROR (MsgUnknownCommand cmd);;
             destroy;; mret None
       else mret (Some data));
    match trimmed with
    | None => pass
    | Some data =>
      '(addrtype, remote_addr, remote_port, header_length) ←
        or_raise (parse_header data) (Exception "can not parse header");
      logging INFO (MsgConnecting (to_str remote_addr, remote_port)
                                  (_client_address h));;
      checked ←
        (if negb (_is_local h) then
           modify_h (set_ota_enable_session
                       (negb (Z.land addrtype ADDRTYPE_AUTH =? 0)));;
           h ← get_h;
           if _ota_enable h && negb (_ota_enable_session h) then
             logging WARN (Msg "client one time auth is required");;
             mret None
           else if _ota_enable_session h then
             if len data <? header_length + ONETIMEAUTH_BYTES then
               logging WARN (Msg "one time auth header is too short");;
               mret None
             else
               let offset := header_length + ONETIMEAUTH_BYTES in
               let _hash := slice data header_length offset in
               let _data := slice_to data header_length in
               let key := decipher_iv (_cryptor h) ++ key (_cryptor h) in
               if negb (onetimeauth_verify _hash _data key) then
                 logging WARN (Msg "one time auth fail");;
                 destroy;; mret None
               else mret (Some (header_length + ONETIMEAUTH_BYTES))
           else mret (Some header_length)
         else mret (Some header_length));
      match checked with
      | None => pass
      | Some header_length =>
        modify_h (set_remote_address (Some (to_str remote_addr, remote_port)));;
        _update_stream STREAM_UP WAIT_STATUS_WRITING;;
        modify_h (set_stage STAGE_DNS);;
        h ← get_h;
        if _is_local h then
          (if negb (_is_tunnel h) then
             _write_to_sock [x05; x00; x00; x01; x00; x00; x00; x00; x10; x10]
                            (_local_sock h);; pass
           else pass);;
          h ← get_h;
          data ←
            (if _ota_enable_session h then
               first ← or_raise (chr (Z.lor addrtype ADDRTYPE_AUTH)) ValueError;
               let data := first :: slice_from data 1 in
               let key := cipher_iv (_cryptor h) ++ key (_cryptor h) in
               let _header := slice_to data header_length in
               let sha110 := onetimeauth_gen data key in
               mret (_header ++ sha110 ++ slice_from data header_length)
             else mret data);
          data_to_send ← cryptor_encrypt data;
          append_to_remote data_to_send;;
          h ← get_h;
          chosen ← or_raise (_chosen_server h) AttributeError;
          resolve (fst chosen)
        else
          (if _ota_enable_session h then
             _ota_chunk_data (slice_from data header_length) append_to_remote
           else if header_length <? len data then
             append_to_remote (slice_from data header_length)
           else pass);;
          resolve (to_str remote_addr)
      end
    end).

Definition _handle_stage_stream (data : bytes) : M unit :=
  h ← get_h;
  if _is_local h then
    data ← (if _ota_enable_session h then _ota_chunk_data_gen data
            else mret data);
    data ← cryptor_encrypt data;
    h ← get_h;
    _write_to_sock data (_remote_sock h);; pass
  else
    if _ota_enable_session h then _ota_chunk_data data _write_to_sock_remote
    else _write_to_sock data (_remote_sock h);; pass.

Definition _check_auth_method (data : bytes) : M unit :=
  if len data <? 3 then
    logging WARN (Msg "method selection header too short");;
    raise BadSocksHeader
  else
    socks_version ← ord <$> or_raise (getitem data 0) IndexError;
    nmethods ← ord <$> or_raise (getitem data 1) IndexError;
    if negb (socks_version =? 5) then
      logging WARN (MsgUnsupportedVersion socks_version);;
      raise BadSocksHeader
    else if (nmethods <? 1) || negb (len data =? nmethods + 2) then
      logging WARN (Msg "NMETHODS and number of METHODS mismatch");;
      raise BadSocksHeader
    else
      let noauth_exist :=
        existsb (fun method => ord method =? METHOD_NOAUTH) (slice_from data 2) in
      if negb noauth_exist then
        logging WARN
          (Msg "none of SOCKS METHOD's requested by client is supported");;
        raise NoAcceptableMethods
      else pass.

Definition _handle_stage_init (data : bytes) : M unit :=
  accepted ←
    try_except (_check_auth_method data;; mret true) (fun e =>
      match e with
      | BadSocksHeader => destroy;; mret false
      | NoAcceptableMethods =>
          h ← get_h;
          _write_to_sock [x05; xff] (_local_sock h);;
          destroy;; mret false
      | _ => raise e
      end);
  if (accepted : bool) then
    h ← get_h;
    _write_to_sock [x05; x00] (_local_sock h);;
    modify_h (set_stage STAGE_ADDR)
  else pass.

Definition _on_local_read : M unit :=
  h ← get_h;
  match _local_sock h with
  | None => pass
  | Some local_sock =>
      let is_local := _is_local h in
      let buf_size :=
        if is_local then UP_STREAM_BUF_SIZE else DOWN_STREAM_BUF_SIZE in
      s ← get_s;
      let r := recv_result (wire s) local_sock buf_size in
      io (IORecv local_sock buf_size r);;
      match r with
      | inl error_no => if transient_read error_no then pass else destroy
      | inr [] => destroy
      | inr data =>
          _update_activity (len data);;
          decrypted ←
            (if negb is_local then
               try_except (Some <$> cryptor_decrypt data) (fun error =>
                 h ← get_h;
                 logging ERROR (MsgConnException error (_client_address h));;
                 mret None)
             else mret (Some data));
          match decrypted with
          | None | Some [] => pass
          | Some data =>
              h ← get_h;
              if decide (_stage h = STAGE_STREAM) then
                _handle_stage_stream data
              else if is_local && bool_decide (_stage h = STAGE_INIT) then
                if _is_tunnel h then _handle_stage_addr data
                else _handle_stage_init data
              else if decide (_stage h = STAGE_CONNECTING) then
                _handle_stage_connecting data
              else if (is_local && bool_decide (_stage h = STAGE_ADDR))
                      || (negb is_local && bool_decide (_stage h = STAGE_INIT))
              then _handle_stage_addr data
              else pass
          end
      end
  end.

Definition _on_remote_read : M unit :=
  h ← get_h;
  let buf_size :=
    if _is_local h then UP_STREAM_BUF_SIZE else DOWN_STREAM_BUF_SIZE in
  remote_sock ← or_raise (_remote_sock h) AttributeError;
  s ← get_s;
  let r := recv_result (wire s) remote_sock buf_size in
  io (IORecv remote_sock buf_size r);;
  match r with
  | inl error_no => if transient_read error_no then pass else destroy
  | inr [] => destroy
  | inr data =>
      _update_activity (len data);;
      data ← (if _is_local h then cryptor_decrypt data
              else cryptor_encrypt data);
      try_except
        (h ← get_h; _write_to_sock data (_local_sock h);; pass)
        (fun e =>
          print_exception e;;
          s ← get_s;
          (if cfg_verbose (_config s) then print_exc else pass);;
          destroy)
  end.

Definition _on_local_write : M unit :=
  h ← get_h;
  match _data_to_write_to_local h with
  | _ :: _ =>
      let data := join (_data_to_write_to_local h) in
      modify_h (set_data_to_write_to_local []);;
      _write_to_sock data (_local_sock h);; pass
  | [] => _update_stream STREAM_DOWN WAIT_STATUS_READING
  end.

Definition _on_remote_write : M unit :=
  modify_h (set_stage STAGE_STREAM);;
  h ← get_h;
  match _data_to_write_to_remote h with
  | _ :: _ =>
      let data := join (_data_to_write_to_remote h) in
      modify_h (set_data_to_write_to_remote []);;
      _write_to_sock data (_remote_sock h);; pass
  | [] => _update_stream STREAM_UP WAIT_STATUS_READING
  end.

Definition _on_local_error : M unit :=
  logging DEBUG (Msg "got local error");;
  h ← get_h; s ← get_s;
  match _local_sock h with
  | Some sock =>
      logging ERROR (MsgSockError (get_sock_error (wire s) sock)
                                  (_client_address h))
  | None => pass
  end;;
  destroy.

Definition _on_remote_error : M unit :=
  logging DEBUG (Msg "got remote error");;
  h ← get_h; s ← get_s;
  match _remote_sock h with
  | Some sock =>
      logging ERROR (MsgSockError (get_sock_error (wire s) sock)
                                  (_client_address h))
  | None => pass
  end;;
  destroy.

(** [if self._stage == STAGE_DESTROYED: return], written as the test whether
    to go on. *)
Definition unless_destroyed (next : M unit) : M unit :=
  h ← get_h;
  if decide (_stage h = STAGE_DESTROYED) then pass else next.

Definition handle_event (sock : Sock) (event : Z) : M unit :=
  exception_handle true false (
    h ← get_h;
    if decide (_stage h = STAGE_DESTROYED) then
      logging DEBUG (Msg "ignore handle_event: destroyed")
    else if decide (Some sock = _remote_sock h) then
      (if has event POLL_ERR then _on_remote_error else pass);;
      unless_destroyed (
        (if has event (Z.lor POLL_IN POLL_HUP) then _on_remote_read else pass);;
        unless_destroyed (
          if has event POLL_OUT then _on_remote_write else pass))
    else if decide (Some sock = _local_sock h) then
      (if has event POLL_ERR then _on_local_error else pass);;
      unless_destroyed (
        (if has event (Z.lor POLL_IN POLL_HUP) then _on_local_read else pass);;
        unless_destroyed (
          if has event POLL_OUT then _on_local_write else pass))
    else logging WARN (Msg "unknown socket")).

(** [TCPRelayHandler.__init__]: the attributes as the constructor first sets
    them, and then the statements of the constructor that act on them. *)
Definition new_handler (s : Shared) (hid : positive) (local_sock : Sock)
    (is_local : bool) : Handler :=
  let config := _config s in
  {| h_id := hid;
     _local_sock := Some local_sock;
     _remote_sock := None;
     tunnel_remote := config_get (cfg_tunnel_remote config) "8.8.8.8";
     tunnel_remote_port := config_get (cfg_tunnel_remote_port config) 53;
     tunnel_port := config_get (cfg_tunnel_port config) 53;
     _is_tunnel := relay_is_tunnel s;
     _is_local := is_local;
     _stage := STAGE_INIT;
     _cryptor := new_cryptor (wire s) (cfg_password config) (cfg_method config)
                             (cfg_crypto_path config);
     _ota_enable := config_get (cfg_one_time_auth config) false;
     _ota_enable_session := config_get (cfg_one_time_auth config) false;
     _ota_buff_head := [];
     _ota_buff_data := [];
     _ota_len := 0;
     _ota_chunk_idx := 0;
     _fastopen_connected := false;
     _data_to_write_to_local := [];
     _data_to_write_to_remote := [];
     _upstream_status := WAIT_STATUS_READING;
     _downstream_status := WAIT_STATUS_INIT;
     _client_address := getpeername local_sock;
     _remote_address := None;
     _forbidden_iplist := cfg_forbidden_ip config;
     _chosen_server := None;
     last_activity := 0 |}.

Definition __init__ (hid : positive) (local_sock : Sock) (is_local : bool)
    (s : Shared) : Outcome unit * St :=
  ((if is_local then
      chosen ← _get_a_server; modify_h (set_chosen_server (Some chosen))
    else pass);;
   modify_s (fun s =>
     set_fd_to_handlers (<[fileno local_sock := hid]> (_fd_to_handlers s)) s);;
   loop_add local_sock (Z.lor POLL_IN POLL_ERR);;
   modify_h (set_last_activity 0);;
   _update_activity 0)
  (new_handler s hid local_sock is_local, s).

(** ** TCPRelay

    The relay with the handlers it refers to.  The timeout queue and the fd
    table hold handlers by identity ([h_id]); [handlers] is where each of
    them lives. *)
Record Relay := mkRelay {
  shared : Shared;
  handlers : gmap positive Handler
}.

(** Run a method of the handler [hid] inside the relay.  A reference to a
    handler that does not exist is no Python state: [Hang]. *)
Definition on_handler {A} (hid : positive) (method : M A) (r : Relay)
  : Outcome A * Relay :=
  match handlers r !! hid with
  | None => (Hang, r)
  | Some h =>
      let '(out, (h', s')) := method (h, shared r) in
      (out, mkRelay s' (<[hid := h']> (handlers r)))
  end.

Definition Qlt_bool (x y : Q) : bool := negb (Qle_bool y x).

(** The [while] loop of [_sweep_timeout]; it returns the final [pos]. *)
Fixpoint _sweep_timeout_loop (fuel : nat) (now : Q) (length pos : Z) (r : Relay)
  : Outcome Z * Relay :=
  match fuel with
  | O => (Hang, r)
  | S fuel =>
      if pos <? length then
        match getitem (_timeouts (shared r)) pos with
        | None => (Raise IndexError, r)
        | Some None => _sweep_timeout_loop fuel now length (pos + 1) r
        | Some (Some hid) =>
            match handlers r !! hid with
            | None => (Hang, r)
            | Some handler =>
                if Qlt_bool (now - inject_Z (last_activity handler))
                            (inject_Z (_timeout (shared r)))
                then (Ret pos, r)
                else
                  match
                    on_handler hid
                      (logging WARN (MsgTimedOut (_remote_address handler));;
                       destroy;;
                       s ← get_s;
                       ts ← or_raise (setitem (_timeouts s) pos None) IndexError;
                       modify_s (set_timeouts ts)) r
                  with
                  | (Ret _, r) => _sweep_timeout_loop fuel now length (pos + 1) r
                  | (Raise e, r) => (Raise e, r)
                  | (Hang, r) => (Hang, r)
                  end
            end
        end
      else (Ret pos, r)
  end.

Definition _sweep_timeout (r : Relay) : Outcome unit * Relay :=
  let s := shared r in
  match _timeouts s with
  | [] => (Ret tt, r)
  | _ :: _ =>
      let s := set_log (log s ++ [(VERBOSE, Msg "sweeping timeouts")]) s in
      let now := time_time (wire s) in
      let length := len (_timeouts s) in
      let pos := _timeout_offset s in
      match
        _sweep_timeout_loop (S (Z.to_nat (length - pos))) now length pos
                            (mkRelay s (handlers r))
      with
      | (Ret pos, r) =>
          let s := shared r in
          if (TIMEOUTS_CLEAN_SIZE <? pos) && (Z.shiftr length 1 <? pos) then
            let s := set_timeouts (slice_from (_timeouts s) pos) s in
            let s :=
              set_handler_to_timeouts
                ((fun index => index - pos) <$> _handler_to_timeouts s) s in
            (Ret tt, mkRelay (set_timeout_offset 0 s) (handlers r))
          else (Ret tt, mkRelay (set_timeout_offset pos s) (handlers r))
      | (Raise e, r) => (Raise e, r)
      | (Hang, r) => (Hang, r)
      end
  end.

(** [print_exception] and, when verbose, [print_exc], on the relay's log. *)
Definition relay_log_exception (e : Exn) (s : Shared) : Shared :=
  let s := set_log (log s ++ [(ERROR, MsgException e)]) s in
  if cfg_verbose (_config s) then set_log (log s ++ [(ERROR, MsgTraceback)]) s
  else s.

(** The [try] block of [TCPRelay.handle_event]: accept one connection and
    build its handler. *)
Definition accept (r : Relay) : Outcome unit * Relay :=
  let s := set_log (log (shared r) ++ [(DEBUG, Msg "accept")]) (shared r) in
  match _server_socket s with
  | None => (Raise AttributeError, mkRelay s (handlers r))
  | Some _ =>
      let conn := accept_result (wire s) in
      let s := set_wire (wire s ++ [IOAccept conn]) s in
      match conn with
      | inl error_no => (Raise (OSError error_no), mkRelay s (handlers r))
      | inr local_sock =>
          let hid := fresh (dom (handlers r)) in
          let '(out, (h, s)) := __init__ hid local_sock (relay_is_local s) s in
          (out, mkRelay s (<[hid := h]> (handlers r)))
      end
  end.

(** [TCPRelay.handle_event]: accept on the server socket, or hand the event
    to the handler that owns the descriptor. *)
Definition relay_handle_event (sock : option Sock) (fd : Z) (event : Z)
    (r : Relay) : Outcome unit * Relay :=
  let s := shared r in
  let s :=
    match sock with
    | Some _ => set_log (log s ++ [(VERBOSE, Msg "fd event")]) s
    | None => s
    end in
  let r := mkRelay s (handlers r) in
  if decide (sock = _server_socket s) then
    if has event POLL_ERR then (Raise (Exception "server_socket error"), r)
    else
      match accept r with
      | (Raise (OSError error_no), r) =>
          if transient_write error_no then (Ret tt, r)
          else
            (Ret tt, mkRelay (relay_log_exception (OSError error_no) (shared r))
                             (handlers r))
      | result => result
      end
  else
    match sock with
    | Some sock =>
        match _fd_to_handlers s !! fd with
        | Some hid => on_handler hid (handle_event sock event) r
        | None => (Ret tt, r)
        end
    | None =>
        (Ret tt, mkRelay (set_log (log s ++ [(WARN, Msg "poll removed fd")]) s)
                         (handlers r))
    end.

Definition handle_periodic (r : Relay) : Outcome unit * Relay :=
  let s := shared r in
  let s :=
    if _closed s then
      let s :=
        match _server_socket s with
        | Some sock =>
            let s := set_loop (delete (fileno sock) (_loop s)) s in
            let s := set_wire (wire s ++ [IOClose sock]) s in
            let s := set_server_socket None s in
            set_log (log s ++ [(INFO, Msg "closed TCP port")]) s
        | None => s
        end in
      if decide (_fd_to_handlers s = ∅) then
        set_loop_stopped true (set_log (log s ++ [(INFO, Msg "stopping")]) s)
      else s
    else s in
  _sweep_timeout (mkRelay s (handlers r)).

End Model.

(** ** A small instance of the outside world

    Used to run the model on concrete inputs: an identity cipher whose
    decryption answers [dec], a checksum in place of HMAC-SHA1, a header
    parser for the IPv4 address type, and an operating system whose [recv]
    and [send] answer as [recv] and [send] say. *)
Definition demo_hmac (secret data : bytes) : bytes :=
  let sum := fold_right (fun b acc => ord b + 3 * acc) 7 (secret ++ data) in
  replicate 20 (default x00 (chr (sum mod 256))).

(** Modelled from the spec: [common.parse_header], which is not among the
    sources, for the IPv4 address type only: [ATYP || 4 address bytes ||
    be_u16(port)], a header of 7 bytes; the low four bits of [ATYP] give the
    address type, the mask [0x10] is the one-time-auth flag. *)
Definition demo_parse_header (data : bytes) : option (Z * bytes * Z * Z) :=
  match data with
  | atyp :: a :: b :: c :: d :: p1 :: p0 :: _ =>
      if Z.land (ord atyp) 15 =? 1
      then Some (ord atyp, [a; b; c; d], ord p1 * 256 + ord p0, 7)
      else None
  | _ => None
  end.

Definition demo_add_header (host : string) (port : Z) (data : bytes) : bytes :=
  let name := String.list_byte_of_string host in
  x03 :: default x00 (chr (len name)) :: name
    ++ default [] (pack_H port) ++ data.

Definition demo_externals
    (recv : list IO -> Sock -> Errno + bytes)
    (send : list IO -> Sock -> bytes -> Errno + Z)
    (dec : bytes -> Exn + bytes) (now : Q) : Externals :=
  {| Cryptor := unit;
     new_cryptor := fun _ _ _ _ => tt;
     encrypt := fun c data => (c, data);
     decrypt := fun c data => (c, dec data);
     cipher_iv := fun _ => [x01; x02; x03; x04];
     decipher_iv := fun _ => [x01; x02; x03; x04];
     key := fun _ => [x6b; x65; x79];
     sha1_hmac := demo_hmac;
     parse_header := demo_parse_header;
     add_header := demo_add_header;
     POLL_IN := 1;
     POLL_OUT := 4;
     POLL_ERR := 8;
     POLL_HUP := 16;
     TIMEOUT_PRECISION := 10;
     time_time := fun _ => now;
     random_choice := fun _ _ => O;
     send_result := send;
     sendto_result := fun _ _ data _ => inr (len data);
     recv_result := fun w sock _ => recv w sock;
     connect_result := fun _ _ _ => Some EINPROGRESS;
     getaddrinfo := fun _ host port => inr [(AF_INET, (host, port))];
     socket_fileno := fun _ _ => 9;
     resolve_now := fun _ _ => None;
     get_sock_error := fun _ _ => None;
     getsockname := fun _ => ("127.0.0.1"%string, 1080);
     getpeername := fun _ => ("127.0.0.1"%string, 40000);
     inet_pton := fun _ _ => Some [x7f; x00; x00; x01];
     accept_result := fun _ => inl EAGAIN |}.

Definition demo_config : Config :=
  {| cfg_server := inl "203.0.113.7"%string;
     cfg_server_port := inl 8388;
     cfg_password := "secret"%string;
     cfg_method := "aes-256-cfb"%string;
     cfg_crypto_path := ""%string;
     cfg_fast_open := false;
     cfg_verbose := false;
     cfg_timeout := 300;
     cfg_one_time_auth := None;
     cfg_forbidden_ip := None;
     cfg_tunnel_remote := None;
     cfg_tunnel_remote_port := None;
     cfg_tunnel_port := None |}.

(** A relay that listens on descriptor 3 and has no connection yet. *)
Definition demo_shared (config : Config) (is_local : bool) : Shared :=
  {| _config := config;
     _fd_to_handlers := ∅;
     _loop := {[3 := 9]};
     _dns_resolver := ∅;
     _timeout := cfg_timeout config;
     _timeouts := [];
     _timeout_offset := 0;
     _handler_to_timeouts := ∅;
     _listen_port := 1080;
     _stat_callback := false;
     relay_is_local := is_local;
     relay_is_tunnel := false;
     _closed := false;
     _server_socket := Some (mkSock 3 AF_INET);
     loop_stopped := false;
     wire := [];
     log := [] |}.

Definition demo_sock : Sock := mkSock 5 AF_INET.

(** * Vocabulary of the statements *)

Section Vocabulary.
Context {E : Externals}.

(** A property of the state that a computation keeps, however it ends. *)
Definition keeps {A} (P : St -> Prop) (m : M A) : Prop :=
  forall st, P st -> P (snd (m st)).

(** The buffer size both read methods ask [recv] for. *)
Definition buf_size (h : Handler) : Z :=
  if _is_local h then UP_STREAM_BUF_SIZE else DOWN_STREAM_BUF_SIZE.

(** The shared state once a [recv] on [sk] has been made. *)
Definition after_recv (h : Handler) (s : Shared) (sk : Sock) : Shared :=
  set_wire (wire s ++ [IORecv sk (buf_size h)
                         (recv_result (wire s) sk (buf_size h))]) s.

(** A scalar, or a list that [random.choice] can choose from. *)
Definition choosable {A} (x : A + list A) : Prop :=
  match x with inl _ => True | inr l => l <> [] end.

Definition is_destroyed (st : St) : Prop := _stage (fst st) = STAGE_DESTROYED.

(** The two sockets of a handler, and for each the buffer of bytes waiting
    to be written to it and the wait status of the stream that writes to it. *)
Inductive Side := Local | Remote.

Definition sock_of (side : Side) (h : Handler) : option Sock :=
  match side with Local => _local_sock h | Remote => _remote_sock h end.

Definition pending (side : Side) (h : Handler) : list bytes :=
  match side with
  | Local => _data_to_write_to_local h
  | Remote => _data_to_write_to_remote h
  end.

Definition wait_of (side : Side) (h : Handler) : Z :=
  match side with
  | Local => _downstream_status h
  | Remote => _upstream_status h
  end.

Definition other (side : Side) : Side :=
  match side with Local => Remote | Remote => Local end.

(** The events [_update_stream] asks the loop for. *)
Definition local_events (h : Handler) : Z :=
  let event := POLL_ERR in
  let event := if has (_downstream_status h) WAIT_STATUS_WRITING
               then Z.lor event POLL_OUT else event in
  if has (_upstream_status h) WAIT_STATUS_READING
  then Z.lor event POLL_IN else event.

Definition remote_events (h : Handler) : Z :=
  let event := POLL_ERR in
  let event := if has (_downstream_status h) WAIT_STATUS_READING
               then Z.lor event POLL_IN else event in
  if has (_upstream_status h) WAIT_STATUS_WRITING
  then Z.lor event POLL_OUT else event.

Definition reregister (h : Handler) (s : Shared) : Shared :=
  let s := match _local_sock h with
           | Some sk => set_loop (<[fileno sk := local_events h]> (_loop s)) s
           | None => s
           end in
  match _remote_sock h with
  | Some sk => set_loop (<[fileno sk := remote_events h]> (_loop s)) s
  | None => s
  end.

(** The wait status of a stream, and [_update_stream]'s assignment to it. *)
Definition set_wait (stream : Stream) (status : Z) (h : Handler) : Handler :=
  match stream with
  | STREAM_DOWN => set_downstream_status status h
  | STREAM_UP => set_upstream_status status h
  end.

Definition wait (stream : Stream) (h : Handler) : Z :=
  match stream with
  | STREAM_DOWN => _downstream_status h
  | STREAM_UP => _upstream_status h
  end.

(** The stream whose wait status a write to the socket updates. *)
Definition stream_of (side : Side) : Stream :=
  match side with Local => STREAM_DOWN | Remote => STREAM_UP end.

(** [self._data_to_write_to_local.append(data)], or the same for remote. *)
Definition push (side : Side) (data : bytes) (h : Handler) : Handler :=
  match side with
  | Local => set_data_to_write_to_local (_data_to_write_to_local h ++ [data]) h
  | Remote => set_data_to_write_to_remote (_data_to_write_to_remote h ++ [data]) h
  end.

(** What [send] left unsent, and whether anything is left: all of [data]
    after a transient error, [data[n:]] after a short count [n]. *)
Definition unsent (data : bytes) (r : Errno + Z) : bytes * bool :=
  match r with
  | inr n => if n <? len data then (slice_from data n, true) else (data, false)
  | inl _ => (data, true)
  end.

(** The loop watches [sk] for all the events of [ev]. *)
Definition registered_for (s : Shared) (sk : Sock) (ev : Z) : Prop :=
  exists mask, _loop s !! fileno sk = Some mask /\ Z.land mask ev = ev.

(** An event that is [POLL_OUT] and nothing else. *)
Definition only_writable (event : Z) : Prop :=
  has event POLL_ERR = false
  /\ has event (Z.lor POLL_IN POLL_HUP) = false
  /\ has event POLL_OUT = true.

(** A SOCKS5 method selection that is well formed: at least 3 bytes, version
    5, at least one method, and as many methods as it announces. *)
Definition method_selection_wellformed (body : bytes) : bool :=
  match body with
  | version :: nmethods :: _ =>
      (3 <=? len body) && (ord version =? 5) && (1 <=? ord nmethods)
      && (len body =? ord nmethods + 2)
  | _ => false
  end.

(** "No authentication" ([0x00]) is among the methods offered. *)
Definition offers_noauth (body : bytes) : bool :=
  bool_decide (x00 ∈ drop 2 body).

(** The warning [_check_auth_method] logs for a selection it refuses. *)
Definition method_selection_warning (body : bytes) : LogMsg :=
  match body with
  | version :: nmethods :: _ =>
      if len body <? 3 then Msg "method selection header too short"
      else if negb (ord version =? 5) then MsgUnsupportedVersion (ord version)
      else if negb (method_selection_wellformed body)
      then Msg "NMETHODS and number of METHODS mismatch"
      else Msg "none of SOCKS METHOD's requested by client is supported"
  | _ => Msg "method selection header too short"
  end.

(** The calls in a record of calls that put bytes on a socket. *)
Definition is_send (ev : IO) : bool :=
  match ev with IOSend _ _ _ | IOSendto _ _ _ _ => true | _ => false end.

(** An error of [send] that [_write_to_sock] does not take for "try later". *)
Definition fatal (r : Errno + Z) : bool :=
  match r with inl e => negb (transient_write e) | inr _ => false end.

(** An event that reports something to read and no error. *)
Definition readable (event : Z) : Prop :=
  has event POLL_ERR = false /\ has event (Z.lor POLL_IN POLL_HUP) = true.

(** *** One-time-auth chunks, as the spec describes them *)

(** The reassembler's four attributes. *)
Record Ota := mkOta {
  o_head : bytes;
  o_buf : bytes;
  o_len : Z;
  o_idx : Z
}.

Definition ota_of (h : Handler) : Ota :=
  mkOta (_ota_buff_head h) (_ota_buff_data h) (_ota_len h) (_ota_chunk_idx h).

Definition with_ota (o : Ota) (h : Handler) : Handler :=
  set_ota_buff_head (o_head o)
    (set_ota_buff_data (o_buf o)
       (set_ota_len (o_len o) (set_ota_chunk_idx (o_idx o) h))).

(** Between two calls the reassembler either collects a chunk prefix and has
    no payload yet, or knows the length and has less payload than that. *)
Definition ota_inv (o : Ota) : Prop :=
  (o_len o = 0 /\ len (o_head o) < ONETIMEAUTH_CHUNK_BYTES /\ o_buf o = [])
  \/ (0 < o_len o /\ len (o_buf o) < o_len o).

(** What happens to a chunk once all of it has arrived. *)
Inductive OtaEvent :=
| Verified (payload : bytes)
| Rejected.

(** The spec's reassembler, one byte at a time: collect the 12-byte prefix
    [be_u16(len) || mac], then [len] bytes of payload; verify the MAC under
    [iv || be_u32(index)]; on success deliver and count the chunk, on failure
    drop it; in both cases start over.  [None]: the index does not fit
    [be_u32]. *)
Definition ota_complete (iv : bytes) (o : Ota) : option (Ota * list OtaEvent) :=
  index ← pack_I (o_idx o);
  if onetimeauth_verify (drop 2 (o_head o)) (o_buf o) (iv ++ index)
  then Some (mkOta [] [] 0 (o_idx o + 1), [Verified (o_buf o)])
  else Some (mkOta [] [] 0 (o_idx o), [Rejected]).

Definition ota_byte (iv : bytes) (o : Ota) (b : byte)
  : option (Ota * list OtaEvent) :=
  if o_len o =? 0 then
    let head := o_head o ++ [b] in
    if len head <? ONETIMEAUTH_CHUNK_BYTES
    then Some (mkOta head (o_buf o) 0 (o_idx o), [])
    else
      n ← unpack_H (take 2 head);
      if n =? 0 then ota_complete iv (mkOta head (o_buf o) 0 (o_idx o))
      else Some (mkOta head (o_buf o) n (o_idx o), [])
  else
    let buf := o_buf o ++ [b] in
    if len buf =? o_len o
    then ota_complete iv (mkOta (o_head o) buf (o_len o) (o_idx o))
    else Some (mkOta (o_head o) buf (o_len o) (o_idx o), []).

Fixpoint ota_bytes (iv : bytes) (o : Ota) (data : bytes)
  : option (Ota * list OtaEvent) :=
  match data with
  | [] => Some (o, [])
  | b :: data =>
      '(o, evs) ← ota_byte iv o b;
      '(o, evs') ← ota_bytes iv o data;
      Some (o, evs ++ evs')
  end.

(** The payloads delivered, in order, and the number of chunks rejected. *)
Definition delivered (evs : list OtaEvent) : bytes :=
  concat (map (fun ev => match ev with Verified p => p | Rejected => [] end) evs).

Definition is_rejected (ev : OtaEvent) : bool :=
  match ev with Rejected => true | Verified _ => false end.

Definition rejected (evs : list OtaEvent) : nat :=
  length (filter is_rejected evs).

Definition verified (evs : list OtaEvent) : nat :=
  length (filter (fun ev => negb (is_rejected ev)) evs).

(** The log after [n] more chunks were dropped. *)
Definition chunk_warnings (n : nat) (s : Shared) : Shared :=
  set_log (log s ++ replicate n (WARN, Msg "one time auth fail, drop chunk !")) s.

(** What [_ota_chunk_data_loop] hands to the callback at the end of a read:
    nothing when it returned from inside the loop, waiting for the rest of a
    chunk prefix. *)
Definition loop_result (o : Ota) (data out : bytes) : option bytes :=
  if (o_len o =? 0) && (0 <? len (o_head o)) && (0 <? len data)
  then None else Some out.

(** The second half of the body of the loop of [_ota_chunk_data], from
    [length = min(...)] on, followed by the rest of the loop. *)
Definition ota_payload_part (fuel : nat) (data unchunk_data : bytes)
  : M (option bytes) :=
  h ← get_h;
  let length := Z.min (_ota_len h - len (_ota_buff_data h)) (len data) in
  modify_h (set_ota_buff_data (_ota_buff_data h ++ slice_to data length));;
  let data := slice_from data length in
  h ← get_h;
  unchunk_data ←
    (if len (_ota_buff_data h) =? _ota_len h then
       let _hash :=
         slice_from (_ota_buff_head h) ONETIMEAUTH_CHUNK_DATA_LEN in
       let _data := _ota_buff_data h in
       index ← or_raise (pack_I (_ota_chunk_idx h)) StructError;
       let key := decipher_iv (_cryptor h) ++ index in
       unchunk_data ←
         (if negb (onetimeauth_verify _hash _data key) then
            logging WARN (Msg "one time auth fail, drop chunk !");;
            mret unchunk_data
          else
            modify_h (set_ota_chunk_idx (_ota_chunk_idx h + 1));;
            mret (unchunk_data ++ _data));
       modify_h (set_ota_buff_head []);;
       modify_h (set_ota_buff_data []);;
       modify_h (set_ota_len 0);;
       mret unchunk_data
     else mret unchunk_data);
  _ota_chunk_data_loop fuel data unchunk_data.

(** A chunk on the wire, as [_ota_chunk_data_gen] lays it out:
    [be_u16(len) || mac || payload]. *)
Definition ota_frame (mac payload : bytes) : option bytes :=
  data_len ← pack_H (len payload); Some (data_len ++ mac ++ payload).

(** Chunks as they come off the wire, each a MAC and a payload, laid end to
    end; and what becomes of each when the reassembler starts at index [idx]:
    a chunk whose MAC is the one of its payload under [iv || be_u32(index)]
    is delivered and counted, any other is dropped. *)
Fixpoint frames_stream (frames : list (bytes * bytes)) : option bytes :=
  match frames with
  | [] => Some []
  | (mac, payload) :: frames =>
      frame ← ota_frame mac payload;
      rest ← frames_stream frames;
      Some (frame ++ rest)
  end.

Fixpoint frame_events (iv : bytes) (idx : Z) (frames : list (bytes * bytes))
  : list OtaEvent :=
  match frames with
  | [] => []
  | (mac, payload) :: frames =>
      match pack_I idx with
      | Some index =>
          if onetimeauth_verify mac payload (iv ++ index)
          then Verified payload :: frame_events iv (idx + 1) frames
          else Rejected :: frame_events iv idx frames
      | None => []
      end
  end.

(** The reassembler holds no part of a chunk. *)
Definition ota_idle (h : Handler) : Prop :=
  _ota_buff_head h = [] /\ _ota_buff_data h = [] /\ _ota_len h = 0.

(** Feed the reads, in order, to [_ota_chunk_data] with the callback of the
    connecting stage, which appends what it is given to
    [_data_to_write_to_remote]. *)
Fixpoint ota_feed (reads : list bytes) (st : St) : St :=
  match reads with
  | [] => st
  | r :: reads => ota_feed reads (snd (_ota_chunk_data r append_to_remote st))
  end.

(** Frame the payloads, in order, with [_ota_chunk_data_gen]. *)
Fixpoint ota_gen_all (payloads : list bytes) (st : St) : Outcome (list bytes) * St :=
  match payloads with
  | [] => (Ret [], st)
  | p :: payloads =>
      match _ota_chunk_data_gen p st with
      | (Ret frame, st) =>
          match ota_gen_all payloads st with
          | (Ret frames, st) => (Ret (frame :: frames), st)
          | r => r
          end
      | (Raise e, st) => (Raise e, st)
      | (Hang, st) => (Hang, st)
      end
  end.

(** One call of the loop of [_ota_chunk_data] computes what the byte-wise
    reassembler computes on the same bytes. *)
Definition loop_agrees (fuel : nat) (data : bytes) : Prop :=
  forall (u : bytes) (h : Handler) (s : Shared) (o' : Ota) (evs : list OtaEvent),
    ota_inv (ota_of h) ->
    ota_bytes (decipher_iv (_cryptor h)) (ota_of h) data = Some (o', evs) ->
    _ota_chunk_data_loop fuel data u (h, s) =
    (Ret (loop_result o' data (u ++ delivered evs)),
     (with_ota o' h, chunk_warnings (rejected evs) s))
    /\ ota_inv o'.

(** *** The timeout queue *)

(** A handler whose last activity is less than [timeout] seconds before
    [now]; the sweep stops at the first such handler. *)
Definition fresh (now : Q) (timeout : Z) (h : Handler) : bool :=
  Qlt_bool (now - inject_Z (last_activity h)) (inject_Z timeout).

(** Every live entry of the queue is a handler of the relay that is not
    destroyed, under its own identity, and the index table knows its slot. *)
Definition queue_ok (r : Relay) : Prop :=
  forall (i : nat) (hid : positive),
    _timeouts (shared r) !! i = Some (Some hid) ->
    exists h,
      handlers r !! hid = Some h /\ h_id h = hid
      /\ _stage h <> STAGE_DESTROYED
      /\ _handler_to_timeouts (shared r) !! hid = Some (Z.of_nat i).

(** The fd table has the sockets of every handler, under the handler's
    identity, and the two sockets of a handler have different descriptors. *)
Definition fds_ok (r : Relay) : Prop :=
  forall (hid : positive) (h : Handler),
    handlers r !! hid = Some h ->
    (forall sk, _local_sock h = Some sk ->
       _fd_to_handlers (shared r) !! fileno sk = Some hid)
    /\ (forall sk, _remote_sock h = Some sk ->
       _fd_to_handlers (shared r) !! fileno sk = Some hid)
    /\ (forall l rm, _local_sock h = Some l -> _remote_sock h = Some rm ->
       fileno l <> fileno rm).

Definition relay_ok (r : Relay) : Prop := queue_ok r /\ fds_ok r.

(** The sweep that starts at [_timeout_offset] gets as far as slot [p]: every
    live entry before it has expired. *)
Definition sweep_reaches (r : Relay) (now : Q) (p : nat) : Prop :=
  forall (i : nat) (hid : positive) (h : Handler),
    _timeout_offset (shared r) <= Z.of_nat i -> (i < p)%nat ->
    _timeouts (shared r) !! i = Some (Some hid) ->
    handlers r !! hid = Some h ->
    fresh now (_timeout (shared r)) h = false.

(** What the loop of the sweep does to an entry that has expired. *)
Definition sweep_expire (pos : Z) (handler : Handler) : M unit :=
  logging WARN (MsgTimedOut (_remote_address handler));;
  destroy;;
  s ← get_s;
  ts ← or_raise (setitem (_timeouts s) pos None) IndexError;
  modify_s (set_timeouts ts).

(** Whether a sweep that ends at [pos] compacts the queue. *)
Definition compacts (length pos : Z) : bool :=
  (TIMEOUTS_CLEAN_SIZE <? pos) && (Z.shiftr length 1 <? pos).

(** The fd table without the descriptors of the sockets of [h]. *)
Definition without_fds (h : Handler) (table : gmap Z positive) : gmap Z positive :=
  let table := match _remote_sock h with
               | Some sk => delete (fileno sk) table
               | None => table
               end in
  match _local_sock h with
  | Some sk => delete (fileno sk) table
  | None => table
  end.

(** A handler after [destroy]. *)
Definition destroyed_handler (h : Handler) : Handler :=
  set_local_sock None (set_remote_sock None (set_stage STAGE_DESTROYED h)).

(** What the loop of the sweep, run from slot [pos] to slot [pos'], has done
    to the relay: the slots in between are tombstones, and each handler that
    was in one of them had expired and is destroyed; every other slot and
    every other handler is as before; and if the loop stopped before the end
    of the queue, it stopped at a handler that is still fresh. *)
Definition swept (now : Q) (r r' : Relay) (pos pos' : nat) : Prop :=
  length (_timeouts (shared r')) = length (_timeouts (shared r))
  /\ _timeout (shared r') = _timeout (shared r)
  /\ (forall j, (pos <= j < pos')%nat ->
        _timeouts (shared r') !! j = Some None
        /\ forall hid h,
             _timeouts (shared r) !! j = Some (Some hid) ->
             handlers r !! hid = Some h ->
             fresh now (_timeout (shared r)) h = false
             /\ handlers r' !! hid = Some (destroyed_handler h))
  /\ (forall j, ~ (pos <= j < pos')%nat ->
        _timeouts (shared r') !! j = _timeouts (shared r) !! j)
  /\ (forall hid,
        (forall j, (pos <= j < pos')%nat ->
           _timeouts (shared r) !! j <> Some (Some hid)) ->
        handlers r' !! hid = handlers r !! hid)
  /\ ((pos' < length (_timeouts (shared r)))%nat ->
      exists hid h,
        _timeouts (shared r) !! pos' = Some (Some hid)
        /\ handlers r !! hid = Some h
        /\ fresh now (_timeout (shared r)) h = true).

End Vocabulary.

(** ** Concrete worlds, handlers and relays

    The worlds differ in what [recv] and [send] answer and in whether the
    cipher can decrypt; every one of them has the clock at 1000 seconds. *)

Definition recv_eof : list IO -> Sock -> Errno + bytes := fun _ _ => inr [].

Definition recv_again : list IO -> Sock -> Errno + bytes := fun _ _ => inl EAGAIN.

Definition recv_always (data : bytes) : list IO -> Sock -> Errno + bytes :=
  fun _ _ => inr data.

(** The first [recv] answers [first], every later one [later]. *)
Definition recv_then (first later : bytes) : list IO -> Sock -> Errno + bytes :=
  fun w _ => match w with [] => inr first | _ => inr later end.

Definition send_all : list IO -> Sock -> bytes -> Errno + Z :=
  fun _ _ data => inr (len data).

(** The first [send] takes one byte, every later one takes all it is given. *)
Definition send_one_then_all : list IO -> Sock -> bytes -> Errno + Z :=
  fun w _ data => match w with [] => inr 1 | _ => inr (len data) end.

Definition cannot_decrypt : bytes -> Exn + bytes := fun _ => inl CryptoError.

Definition world_eof : Externals := demo_externals recv_eof send_all inr 1000.

Definition world_again : Externals := demo_externals recv_again send_all inr 1000.

Definition world_short_send : Externals :=
  demo_externals recv_again send_one_then_all inr 1000.

Definition world_bad_cipher : Externals :=
  demo_externals (recv_always [x2a; x2b]) send_all cannot_decrypt 1000.

(** An address header for 8.8.8.8, port 53, without the one-time-auth flag,
    and the same header with the flag and its MAC. *)
Definition plain_header : bytes := [x01; x08; x08; x08; x08; x00; x35].

Definition auth_header : bytes :=
  let header := [x11; x08; x08; x08; x08; x00; x35] in
  header ++ slice_to (demo_hmac ([x01; x02; x03; x04] ++ [x6b; x65; x79]) header)
                     ONETIMEAUTH_BYTES.

Definition world_header_twice : Externals :=
  demo_externals (recv_then plain_header auth_header) send_all inr 1000.

(** The configuration of a server that requires one-time auth, and the
    configuration of a tunnel that names none of the tunnel keys. *)
Definition demo_config_ota : Config :=
  {| cfg_server := inl "203.0.113.7"%string;
     cfg_server_port := inl 8388;
     cfg_password := "secret"%string;
     cfg_method := "aes-256-cfb"%string;
     cfg_crypto_path := EmptyString;
     cfg_fast_open := false;
     cfg_verbose := false;
     cfg_timeout := 300;
     cfg_one_time_auth := Some true;
     cfg_forbidden_ip := None;
     cfg_tunnel_remote := None;
     cfg_tunnel_remote_port := None;
     cfg_tunnel_port := None |}.

Definition demo_tunnel_shared : Shared :=
  let s := demo_shared demo_config true in
  mkShared (_config s) (_fd_to_handlers s) (_loop s) (_dns_resolver s)
    (_timeout s) (_timeouts s) (_timeout_offset s) (_handler_to_timeouts s)
    (_listen_port s) (_stat_callback s) (relay_is_local s) true (_closed s)
    (_server_socket s) (loop_stopped s) (wire s) (log s).

(** The handler of the first connection of a fresh relay, as the constructor
    leaves it, with the relay's shared state. *)
Definition demo_st {E : Externals} (config : Config) (is_local : bool) : St :=
  snd (__init__ 1%positive demo_sock is_local (demo_shared config is_local)).

(** The same handler once it relays: in STREAM, with a remote socket that the
    relay knows. *)
Definition demo_remote : Sock := mkSock 7 AF_INET.

Definition demo_streaming {E : Externals} (config : Config) (is_local : bool) : St :=
  let '(h, s) := demo_st config is_local in
  (set_stage STAGE_STREAM (set_remote_sock (Some demo_remote) h),
   set_loop (<[7 := Z.lor POLL_ERR POLL_IN]> (_loop s))
     (set_fd_to_handlers (<[7 := 1%positive]> (_fd_to_handlers s)) s)).

(** A relay with that one handler, whose last activity was at [last]. *)
Definition demo_relay {E : Externals} (last : Z) : Relay :=
  let '(h, s) := demo_st demo_config false in
  mkRelay s {[1%positive := set_last_activity last h]}.

(** Two payloads of one byte each, for the one-time-auth framer. *)
Definition two_payloads : list bytes := [[x61]; [x62]].

(** What the framer of a client writes for [two_payloads], chunk by chunk. *)
Definition two_frames : list bytes :=
  match ota_gen_all (E := world_eof) two_payloads (demo_st demo_config_ota true) with
  | (Ret frames, _) => frames
  | _ => []
  end.

(** The framed bytes in one read, and in two reads of which the first ends
    one byte into the second chunk. *)
Definition one_read : list bytes := [concat two_frames].

Definition split_reads : list bytes :=
  let stream := concat two_frames in
  [take 14 stream; drop 14 stream].

(** Two chunks as they may come off the wire: the first with the MAC of its
    payload under chunk index 0, the second with a MAC of zeros. *)
Definition forged_frames : list (bytes * bytes) :=
  [(onetimeauth_gen (E := world_eof) [x61]
      ([x01; x02; x03; x04] ++ [x00; x00; x00; x00]), [x61]);
   (replicate 10 x00, [x62])].

Definition forged_stream : bytes :=
  default [] (frames_stream forged_frames).

(** * More vocabulary: the relay as a whole *)

Section RelayVocabulary.
Context {E : Externals}.

(** The index table points back into the queue: a handler it knows is the
    live entry of the slot it names. *)
Definition index_ok (r : Relay) : Prop :=
  forall (hid : positive) (index : Z),
    _handler_to_timeouts (shared r) !! hid = Some index ->
    exists i : nat,
      index = Z.of_nat i /\ _timeouts (shared r) !! i = Some (Some hid).

(** The sweep's offset lies inside the queue, and every slot before it is a
    tombstone. *)
Definition offset_ok (r : Relay) : Prop :=
  (0 <= _timeout_offset (shared r) <= len (_timeouts (shared r)))
  /\ forall i : nat,
       Z.of_nat i < _timeout_offset (shared r) ->
       _timeouts (shared r) !! i = Some None.

(** The relay's bookkeeping is consistent: queue, index table, fd table and
    offset. *)
Definition relay_inv (r : Relay) : Prop :=
  relay_ok r /\ index_ok r /\ offset_ok r.

(** The live entries of the queue are in the order of their last activity. *)
Definition queue_sorted (r : Relay) : Prop :=
  forall (i j : nat) (hi hj : positive) (a b : Handler),
    (i <= j)%nat ->
    _timeouts (shared r) !! i = Some (Some hi) ->
    _timeouts (shared r) !! j = Some (Some hj) ->
    handlers r !! hi = Some a ->
    handlers r !! hj = Some b ->
    last_activity a <= last_activity b.

(** The shared state once [update_activity] has told the statistics callback
    of [data_len] bytes, if there is a callback and there are bytes. *)
Definition after_stat (data_len : Z) (s : Shared) : Shared :=
  if negb (data_len =? 0) && _stat_callback s
  then set_wire (wire s ++ [IOStat (_listen_port s) data_len]) s
  else s.

(** The queue with the slot of [hid], if it has one, made a tombstone. *)
Definition tombstoned (hid : positive) (s : Shared) : list (option positive) :=
  match _handler_to_timeouts s !! hid with
  | Some index =>
      if 0 <=? index then <[Z.to_nat index := None]> (_timeouts s)
      else _timeouts s
  | None => _timeouts s
  end.

(** The end of [_sweep_timeout], after its loop has stopped at slot [pos] of
    a queue of [length] slots: the queue is compacted or not, and the offset
    is set. *)
Definition sweep_finish (length pos : Z) (r : Relay) : Relay :=
  let s := shared r in
  if compacts length pos then
    let s := set_timeouts (slice_from (_timeouts s) pos) s in
    let s :=
      set_handler_to_timeouts
        ((fun index => index - pos) <$> _handler_to_timeouts s) s in
    mkRelay (set_timeout_offset 0 s) (handlers r)
  else mkRelay (set_timeout_offset pos s) (handlers r).

(** The handler is as it was, or it had expired and is destroyed. *)
Definition kept_or_expired (now : Q) (timeout : Z) (h : Handler)
    (after : option Handler) : Prop :=
  after = Some h
  \/ (fresh now timeout h = false /\ after = Some (destroyed_handler h)).

(** The calls [destroy] makes to the outside: it closes the remote socket,
    then the local socket, and takes its callback from the resolver. *)
Definition closes (h : Handler) : list IO :=
  match _remote_sock h with Some sk => [IOClose sk] | None => [] end
  ++ match _local_sock h with Some sk => [IOClose sk] | None => [] end
  ++ [IORemoveCallback].

(** The event loop without the sockets of [h]. *)
Definition unwatched (h : Handler) (loop : gmap Z Z) : gmap Z Z :=
  let loop := match _remote_sock h with
              | Some sk => delete (fileno sk) loop
              | None => loop
              end in
  match _local_sock h with
  | Some sk => delete (fileno sk) loop
  | None => loop
  end.

(** What the relay's tables hold for a handler: the descriptors of its
    sockets are in the fd table and differ from each other, and the slot the
    index table gives for it lies inside the queue. *)
Definition held (h : Handler) (s : Shared) : Prop :=
  (forall sk, _local_sock h = Some sk ->
     is_Some (_fd_to_handlers s !! fileno sk))
  /\ (forall sk, _remote_sock h = Some sk ->
        is_Some (_fd_to_handlers s !! fileno sk))
  /\ (forall l rm, _local_sock h = Some l -> _remote_sock h = Some rm ->
        fileno l <> fileno rm)
  /\ (forall index, _handler_to_timeouts s !! h_id h = Some index ->
        0 <= index < len (_timeouts s)).

(** The run [result] has torn the handler [h] down from the shared state
    [s], as [destroy] does: it returned normally; the handler is left in
    [STAGE_DESTROYED] without sockets and otherwise as it was; the only calls
    to the outside are those that close its sockets and take its callback
    from the resolver; its descriptors are out of the fd table and of the
    event loop, its slot in the queue is a tombstone and the index table has
    forgotten it. *)
Definition torn_down (h : Handler) (s : Shared) (result : Outcome unit * St)
  : Prop :=
  fst result = Ret tt
  /\ fst (snd result) = destroyed_handler h
  /\ wire (snd (snd result)) = wire s ++ closes h
  /\ _fd_to_handlers (snd (snd result)) = without_fds h (_fd_to_handlers s)
  /\ _loop (snd (snd result)) = unwatched h (_loop s)
  /\ _dns_resolver (snd (snd result)) = (_dns_resolver s ∖ {[h_id h]})
  /\ _timeouts (snd (snd result)) = tombstoned (h_id h) s
  /\ _handler_to_timeouts (snd (snd result))
     = delete (h_id h) (_handler_to_timeouts s).

(** Hand the reads, in order, to [_handle_stage_connecting]. *)
Fixpoint connecting_reads (reads : list bytes) (st : St) : St :=
  match reads with
  | [] => st
  | data :: reads =>
      connecting_reads reads (snd (_handle_stage_connecting data st))
  end.

(** The port [_handle_dns_resolved] connects to: the chosen server's for a
    client, the requested address's for a server. *)
Definition connect_port (h : Handler) : option Z :=
  if _is_local h then snd <$> _chosen_server h else snd <$> _remote_address h.

(** From [s] to [s'] the relay's own life cycle has not moved, no descriptor
    has been added to the event loop, and the calls made to the outside have
    only grown. *)
Definition only_releases (s s' : Shared) : Prop :=
  _server_socket s' = _server_socket s
  /\ _closed s' = _closed s
  /\ loop_stopped s' = loop_stopped s
  /\ (forall fd : Z, _loop s !! fd = None -> _loop s' !! fd = None)
  /\ exists more : list IO, wire s' = wire s ++ more.

(** The relay once [handle_periodic] has shut a closed relay's listening
    socket [srv], before it looks at the fd table. *)
Definition listener_shut (srv : Sock) (s : Shared) : Shared :=
  let s := set_loop (delete (fileno srv) (_loop s)) s in
  let s := set_wire (wire s ++ [IOClose srv]) s in
  let s := set_server_socket None s in
  set_log (log s ++ [(INFO, Msg "closed TCP port")]) s.

(** Frame the payloads group by group with [_ota_chunk_data_gen]; the
    frames of one group, laid end to end, are what one read will bring. *)
Fixpoint ota_gen_groups (groups : list (list bytes)) (st : St)
  : Outcome (list bytes) * St :=
  match groups with
  | [] => (Ret [], st)
  | payloads :: groups =>
      match ota_gen_all payloads st with
      | (Ret frames, st) =>
          match ota_gen_groups groups st with
          | (Ret reads, st) => (Ret (concat frames :: reads), st)
          | r => r
          end
      | (Raise e, st) => (Raise e, st)
      | (Hang, st) => (Hang, st)
      end
  end.

End RelayVocabulary.

(** ** More concrete worlds and relays *)

(** Every [send] fails with [e]. *)
Definition send_fails (e : Errno) : list IO -> Sock -> bytes -> Errno + Z :=
  fun _ _ _ => inl e.

Definition world_send_again : Externals :=
  demo_externals recv_again (send_fails EAGAIN) inr 1000.

Definition world_send_broken : Externals :=
  demo_externals recv_again (send_fails (EOTHER 32)) inr 1000.



(** The relay of [demo_relay] after [close(next_tick=True)]. *)
Definition closed_relay {E : Externals} (last : Z) : Relay :=
  let r := demo_relay last in
  let s := shared r in
  mkRelay
    (mkShared (_config s) (_fd_to_handlers s) (_loop s) (_dns_resolver s)
       (_timeout s) (_timeouts s) (_timeout_offset s) (_handler_to_timeouts s)
       (_listen_port s) (_stat_callback s) (relay_is_local s)
       (relay_is_tunnel s) true (_server_socket s) (loop_stopped s) (wire s)
       (log s))
    (handlers r).

(** The relay of [demo_relay] whose handler relays, with its remote socket on
    descriptor 7. *)
Definition streaming_relay {E : Externals} (last : Z) : Relay :=
  mkRelay (snd (demo_streaming demo_config false))
    {[1%positive := set_last_activity last (fst (demo_streaming demo_config false))]}.

(** Payloads for the one-time-auth framer, in two groups: what two reads
    bring. *)
Definition two_groups : list (list bytes) := [[[x61]; [x62]]; [[x63]]].

(** What the framer of a client writes for [two_groups], read by read. *)
Definition two_reads : list bytes :=
  match
    ota_gen_groups (E := world_eof) two_groups
      (fst (demo_st (E := world_eof) demo_config_ota true),
       snd (demo_st (E := world_eof) demo_config_ota true))
  with
  | (Ret reads, _) => reads
  | _ => []
  end.

(** A SOCKS5 request to connect to 8.8.8.8, port 53. *)
Definition connect_request : bytes := [x05; x01; x00] ++ plain_header.

(** A world in which every [recv] brings [connect_request] and every [send]
    fails with EPIPE (errno 32); the resolver answers later. *)
Definition world_reply_fails : Externals :=
  demo_externals (recv_always connect_request) (send_fails (EOTHER 32)) inr 1000.

(** The relay with two handlers, on descriptors 5 and 6, last active at
    [first] and at [second]; the first is at the head of the queue. *)
Definition two_relay {E : Externals} (first second : Z) : Relay :=
  let st1 := snd (__init__ 1%positive demo_sock false (demo_shared demo_config false)) in
  let st2 := snd (__init__ 2%positive (mkSock 6 AF_INET) false (snd st1)) in
  mkRelay (snd st2)
    (<[2%positive := set_last_activity second (fst st2)]>
       {[1%positive := set_last_activity first (fst st1)]}).

(** * Proofs *)

Section Proofs.
Context {E : Externals}.

(** The methods are unfolded by name only, never by [cbn]. *)
Arguments destroy : simpl never.
Arguments remove_handler : simpl never.
Arguments update_activity : simpl never.
Arguments _update_activity : simpl never.
Arguments _update_stream : simpl never.
Arguments _write_to_sock : simpl never.
Arguments _write_to_sock_remote : simpl never.
Arguments _ota_chunk_data_loop : simpl never.
Arguments _ota_chunk_data : simpl never.
Arguments _ota_chunk_data_gen : simpl never.
Arguments _get_a_server : simpl never.
Arguments _create_remote_socket : simpl never.
Arguments _handle_stage_connecting : simpl never.
Arguments _handle_dns_resolved : simpl never.
Arguments resolve : simpl never.
Arguments _handle_stage_addr : simpl never.
Arguments _handle_stage_stream : simpl never.
Arguments _handle_stage_init : simpl never.
Arguments _check_auth_method : simpl never.
Arguments _on_local_read : simpl never.
Arguments _on_remote_read : simpl never.
Arguments _on_local_write : simpl never.
Arguments _on_remote_write : simpl never.
Arguments _on_local_error : simpl never.
Arguments _on_remote_error : simpl never.
Arguments handle_event : simpl never.
Arguments exception_handle : simpl never.
Arguments cryptor_encrypt : simpl never.
Arguments cryptor_decrypt : simpl never.
Arguments onetimeauth_gen : simpl never.
Arguments onetimeauth_verify : simpl never.

(** ** Running the monad *)

Lemma run_bind {A B} (m : M A) (f : A -> M B) (st : St) :
  (m ≫= f) st =
  match m st with
  | (Ret a, st') => f a st'
  | (Raise e, st') => (Raise e, st')
  | (Hang, st') => (Hang, st')
  end.
Proof. reflexivity. Qed.

Lemma run_bind_ret {A B} (m : M A) (f : A -> M B) (st st' : St) (a : A) :
  m st = (Ret a, st') -> (m ≫= f) st = f a st'.
Proof. intros H. rewrite run_bind, H. reflexivity. Qed.

(** Unfold the monad and its primitives and compute. *)
Ltac munfold :=
  unfold mbind, M_bind, mret, M_ret, fmap, M_fmap, pass, get_h, get_s,
    modify_h, modify_s, raise, hang, logging, io, print_exception,
    print_exc, loop_add, loop_modify, loop_remove, try_except_os, try_except,
    append_to_local, append_to_remote;
  cbn.

(** ** Properties that every step keeps *)

Lemma keeps_ret {A} P (a : A) : keeps P (mret a).
Proof. intros st H. exact H. Qed.

Lemma keeps_raise {A} P e : keeps P (@raise _ A e).
Proof. intros st H. exact H. Qed.

Lemma keeps_hang {A} P : keeps P (@hang _ A).
Proof. intros st H. exact H. Qed.

Lemma keeps_bind {A B} P (m : M A) (f : A -> M B) :
  keeps P m -> (forall a, keeps P (f a)) -> keeps P (m ≫= f).
Proof.
  intros Hm Hf st H. rewrite run_bind. specialize (Hm st H).
  destruct (m st) as [[a|e|] st']; cbn in *; auto. apply Hf, Hm.
Qed.

Lemma keeps_fmap {A B} P (m : M A) (f : A -> B) : keeps P m -> keeps P (f <$> m).
Proof.
  intros Hm st H. specialize (Hm st H). unfold fmap, M_fmap.
  destruct (m st) as [[a|e|] st']; cbn in *; auto.
Qed.

Lemma keeps_try_except {A} P (m : M A) (f : Exn -> M A) :
  keeps P m -> (forall e, keeps P (f e)) -> keeps P (try_except m f).
Proof.
  intros Hm Hf st H. unfold try_except. specialize (Hm st H).
  destruct (m st) as [[a|e|] st']; cbn in *; auto. apply Hf, Hm.
Qed.

Lemma keeps_get_h P : keeps P get_h.
Proof. intros st H. exact H. Qed.

Lemma keeps_get_s P : keeps P get_s.
Proof. intros st H. exact H. Qed.

Lemma keeps_or_raise {A} P (x : option A) e : keeps P (or_raise x e).
Proof. destruct x; intros st H; exact H. Qed.

Lemma keeps_modify_h P f :
  (forall h s, P (h, s) -> P (f h, s)) -> keeps P (modify_h f).
Proof. intros Hf [h s] H. cbn. auto. Qed.

Lemma keeps_modify_s P f :
  (forall h s, P (h, s) -> P (h, f s)) -> keeps P (modify_s f).
Proof. intros Hf [h s] H. cbn. auto. Qed.

Lemma keeps_logging P lvl msg :
  (forall h s, P (h, s) -> P (h, set_log (log s ++ [(lvl, msg)]) s)) ->
  keeps P (logging lvl msg).
Proof. intros Hf [h s] H. cbn. auto. Qed.

Lemma keeps_io P ev :
  (forall h s, P (h, s) -> P (h, set_wire (wire s ++ [ev]) s)) ->
  keeps P (io ev).
Proof. intros Hf [h s] H. cbn. auto. Qed.

(** Take a computation apart along its syntax. *)
Ltac keeps_step :=
  lazymatch goal with
  | |- keeps _ (mbind _ _) => apply keeps_bind; [| intros ?]
  | |- keeps _ (mret _) => apply keeps_ret
  | |- keeps _ pass => apply keeps_ret
  | |- keeps _ (raise _) => apply keeps_raise
  | |- keeps _ hang => apply keeps_hang
  | |- keeps _ get_h => apply keeps_get_h
  | |- keeps _ get_s => apply keeps_get_s
  | |- keeps _ (or_raise _ _) => apply keeps_or_raise
  | |- keeps _ (fmap _ _) => apply keeps_fmap
  | |- keeps _ (try_except _ _) => apply keeps_try_except; [| intros ?]
  | |- keeps _ (try_except_os _ _) =>
      unfold try_except_os; apply keeps_try_except; [| intros ?]
  | |- keeps _ (modify_h _) => apply keeps_modify_h; intros ? ?
  | |- keeps _ (modify_s _) => apply keeps_modify_s; intros ? ?
  | |- keeps _ (logging _ _) => apply keeps_logging; intros ? ?
  | |- keeps _ (io _) => apply keeps_io; intros ? ?
  | |- keeps _ (print_exception _) => apply keeps_logging; intros ? ?
  | |- keeps _ print_exc => apply keeps_logging; intros ? ?
  | |- keeps _ (loop_add _ _) => apply keeps_modify_s; intros ? ?
  | |- keeps _ (loop_modify _ _) => apply keeps_modify_s; intros ? ?
  | |- keeps _ (loop_remove _) => apply keeps_modify_s; intros ? ?
  | |- keeps _ (append_to_local _) => apply keeps_modify_h; intros ? ?
  | |- keeps _ (append_to_remote _) => apply keeps_modify_h; intros ? ?
  | |- keeps _ (if ?c then _ else _) => destruct c
  | |- keeps _ (match ?x with _ => _ end) => destruct x
  end.

Ltac keeps_auto := repeat keeps_step.

(** ** Facts about [destroy] *)

Lemma remove_handler_keeps_handler (Q : Handler -> Prop) :
  keeps (fun st => Q (fst st)) remove_handler.
Proof. unfold remove_handler. keeps_auto; cbn; auto. Qed.

Lemma destroy_destroys (st : St) : is_destroyed (snd (destroy st)).
Proof.
  unfold destroy. rewrite run_bind. cbn.
  destruct (decide (_stage (fst st) = STAGE_DESTROYED)) as [Hd | Hd].
  - exact Hd.
  - rewrite run_bind. cbn.
    match goal with |- is_destroyed (snd (?m ?st)) =>
      assert (Hk : keeps is_destroyed m) end.
    { keeps_auto; try (cbn; auto; fail).
      apply (remove_handler_keeps_handler (fun h => _stage h = STAGE_DESTROYED)). }
    apply Hk. reflexivity.
Qed.

(** A call that finds the handler in [STAGE_DESTROYED]: an event on any
    socket returns normally and changes nothing of the handler (sockets,
    buffers, stage and every other attribute) and nothing of the relay but
    one debug line of the log; [destroy] likewise returns normally, raises
    nothing, and only logs a debug line. *)
Lemma destroyed_calls_only_log (h : Handler) (s : Shared) (sock : Sock) (event : Z) :
  _stage h = STAGE_DESTROYED ->
  handle_event sock event (h, s)
    = (Ret tt, (h, set_log (log s ++ [(DEBUG, Msg "ignore handle_event: destroyed")]) s))
  /\ destroy (h, s)
    = (Ret tt, (h, set_log (log s ++ [(DEBUG, Msg "already destroyed")]) s)).
Proof.
  intros Hd. split.
  - unfold handle_event, exception_handle, try_except. rewrite run_bind. cbn.
    rewrite Hd. cbn. reflexivity.
  - unfold destroy. rewrite run_bind. cbn. rewrite Hd. reflexivity.
Qed.

(** ** Reads: end of file and transient errors *)

Lemma on_local_read_no_data (h : Handler) (s : Shared) (sk : Sock) :
  _local_sock h = Some sk ->
  match recv_result (wire s) sk (buf_size h) with
  | inl error_no =>
      _on_local_read (h, s) =
      if transient_read error_no then (Ret tt, (h, after_recv h s sk))
      else destroy (h, after_recv h s sk)
  | inr [] => _on_local_read (h, s) = destroy (h, after_recv h s sk)
  | inr _ => True
  end.
Proof.
  intros Hs. unfold _on_local_read. rewrite run_bind. cbn. rewrite Hs.
  rewrite run_bind. cbn. rewrite run_bind. cbn.
  unfold after_recv, buf_size.
  destruct (recv_result _ _ _) as [e | [| b data]] eqn:Hr; cbn.
  - destruct (transient_read e); reflexivity.
  - reflexivity.
  - exact I.
Qed.

Lemma on_remote_read_no_data (h : Handler) (s : Shared) (sk : Sock) :
  _remote_sock h = Some sk ->
  match recv_result (wire s) sk (buf_size h) with
  | inl error_no =>
      _on_remote_read (h, s) =
      if transient_read error_no then (Ret tt, (h, after_recv h s sk))
      else destroy (h, after_recv h s sk)
  | inr [] => _on_remote_read (h, s) = destroy (h, after_recv h s sk)
  | inr _ => True
  end.
Proof.
  intros Hs. unfold _on_remote_read. rewrite run_bind. cbn. rewrite Hs.
  cbn. rewrite run_bind. cbn. rewrite run_bind. cbn.
  unfold after_recv, buf_size.
  destruct (recv_result _ _ _) as [e | [| b data]] eqn:Hr; cbn.
  - destruct (transient_read e); reflexivity.
  - reflexivity.
  - exact I.
Qed.

(** ** The constructor and the tunnel keys *)

Lemma update_activity_keeps (Q : Handler -> Prop) (n : Z) :
  (forall v h, Q h -> Q (set_last_activity v h)) ->
  keeps (fun st => Q (fst st)) (update_activity n).
Proof. intros HQ. unfold update_activity. keeps_auto; cbn; auto. Qed.

Lemma get_a_server_keeps (Q : Handler -> Prop) :
  keeps (fun st => Q (fst st)) _get_a_server.
Proof. unfold _get_a_server. keeps_auto; cbn; auto. Qed.

Lemma init_field (Q : Handler -> Prop) hid local_sock is_local s :
  (forall v h, Q h -> Q (set_last_activity v h)) ->
  (forall v h, Q h -> Q (set_chosen_server v h)) ->
  Q (new_handler s hid local_sock is_local) ->
  Q (fst (snd (__init__ hid local_sock is_local s))).
Proof.
  intros H1 H2 H0. unfold __init__.
  match goal with |- Q (fst (snd (?m _))) =>
    assert (Hk : keeps (fun x => Q (fst x)) m) end.
  { keeps_auto; try (cbn; auto; fail).
    - apply get_a_server_keeps.
    - apply update_activity_keeps, H1. }
  apply (Hk (_, _)). exact H0.
Qed.

Lemma choice_lookup {A} (l : list A) (n : nat) :
  l <> [] -> is_Some (l !! (n `mod` length l)%nat).
Proof.
  intros Hl. apply lookup_lt_is_Some_2. apply Nat.mod_upper_bound.
  destruct l; [congruence | discriminate].
Qed.

Lemma update_activity_new (h : Handler) (s : Shared) (n : Z) :
  n = 0 \/ _stat_callback s = false ->
  _handler_to_timeouts s !! h_id h = None ->
  fst (update_activity n (h, s)) = Ret tt.
Proof.
  intros Hn Hq. unfold update_activity. munfold.
  assert (Hst : negb (n =? 0) && _stat_callback s = false).
  { destruct Hn as [-> | ->]; [reflexivity | apply andb_false_r]. }
  rewrite Hst. cbn. rewrite Hq. cbn.
  destruct (_ <? TIMEOUT_PRECISION); reflexivity.
Qed.

Lemma init_returns hid local_sock is_local s :
  _handler_to_timeouts s !! hid = None ->
  (is_local = true ->
     choosable (cfg_server (_config s)) /\ choosable (cfg_server_port (_config s))) ->
  fst (__init__ hid local_sock is_local s) = Ret tt.
Proof.
  intros Hq Hc. unfold __init__, _update_activity.
  destruct is_local.
  - destruct (Hc eq_refl) as [Hs Hp]. unfold _get_a_server. munfold.
    destruct (cfg_server_port (_config s)) as [p | ps]; cbn.
    + destruct (cfg_server (_config s)) as [a | l]; cbn.
      * apply update_activity_new; [left; reflexivity | exact Hq].
      * destruct (choice_lookup l (random_choice (wire s) (length l)) Hs) as [a Ha].
        rewrite Ha. cbn. apply update_activity_new; [left; reflexivity | exact Hq].
    + destruct (choice_lookup ps (random_choice (wire s) (length ps)) Hp) as [p Hpp].
      rewrite Hpp. cbn.
      destruct (cfg_server (_config s)) as [a | l]; cbn.
      * apply update_activity_new; [left; reflexivity | exact Hq].
      * destruct (choice_lookup l (random_choice (wire s) (length l)) Hs) as [a Ha].
        rewrite Ha. cbn. apply update_activity_new; [left; reflexivity | exact Hq].
  - munfold. apply update_activity_new; [left; reflexivity | exact Hq].
Qed.

(** C10. A handler built by a relay in tunnel mode whose configuration lacks
    [tunnel_remote], [tunnel_remote_port] or [tunnel_port] takes
    ["8.8.8.8"], [53] and [53] for them; the constructor returns without an
    exception (given a server to choose, and a handler that is not yet in the
    timeout queue). *)
Theorem tunnel_keys_default
    (s : Shared) (hid : positive) (local_sock : Sock) (is_local : bool) :
  relay_is_tunnel s = true ->
  _handler_to_timeouts s !! hid = None ->
  (is_local = true ->
     choosable (cfg_server (_config s)) /\ choosable (cfg_server_port (_config s))) ->
  let built := __init__ hid local_sock is_local s in
  let h := fst (snd built) in
  fst built = Ret tt
  /\ _is_tunnel h = true
  /\ (cfg_tunnel_remote (_config s) = None -> tunnel_remote h = "8.8.8.8"%string)
  /\ (cfg_tunnel_remote_port (_config s) = None -> tunnel_remote_port h = 53)
  /\ (cfg_tunnel_port (_config s) = None -> tunnel_port h = 53).
Proof.
  intros Ht Hq Hc. cbn zeta. split; [apply init_returns; assumption |].
  repeat split.
  - apply (init_field (fun h => _is_tunnel h = true)); auto.
  - intros Hn. apply (init_field (fun h => tunnel_remote h = "8.8.8.8"%string)); auto.
    cbn. rewrite Hn. reflexivity.
  - intros Hn. apply (init_field (fun h => tunnel_remote_port h = 53)); auto.
    cbn. rewrite Hn. reflexivity.
  - intros Hn. apply (init_field (fun h => tunnel_port h = 53)); auto.
    cbn. rewrite Hn. reflexivity.
Qed.

(** ** Writes *)

Lemma update_stream_run (stream : Stream) (status : Z) (h : Handler) (s : Shared) :
  _update_stream stream status (h, s) =
  (Ret tt,
   if wait stream h =? status then (h, s)
   else (set_wait stream status h, reregister (set_wait stream status h) s)).
Proof.
  unfold _update_stream, reregister, local_events, remote_events. munfold.
  destruct stream; cbn;
    (destruct (_ =? status) eqn:Hc; cbn; [reflexivity |]);
    destruct (_local_sock h), (_remote_sock h); reflexivity.
Qed.

Lemma write_to_sock_run (side : Side) (h : Handler) (s : Shared) (sk : Sock)
    (data : bytes) :
  data <> [] ->
  sock_of side h = Some sk ->
  (side = Remote -> _local_sock h <> Some sk) ->
  (forall e, send_result (wire s) sk data = inl e -> transient_write e = true) ->
  _write_to_sock data (Some sk) (h, s) =
  let r := send_result (wire s) sk data in
  let s1 := set_wire (wire s ++ [IOSend sk data r]) s in
  let '(rest, uncomplete) := unsent data r in
  (Ret true,
   snd (_update_stream (stream_of side)
          (if uncomplete then WAIT_STATUS_WRITING else WAIT_STATUS_READING)
          (if uncomplete then push side rest h else h, s1))).
Proof.
  intros Hd Hsk Hne Hr. destruct data as [| b data]; [congruence |].
  unfold _write_to_sock, unsent. cbn zeta.
  destruct (send_result (wire s) sk (b :: data)) as [e | n] eqn:Hsend.
  - specialize (Hr e eq_refl). munfold. rewrite Hsend. cbn. rewrite Hr. cbn.
    destruct side; cbn in *.
    + rewrite Hsk. destruct (decide (Some sk = Some sk)); [| congruence].
      cbn. rewrite !update_stream_run. reflexivity.
    + destruct (decide (Some sk = _local_sock h)) as [Heq | _].
      { exfalso. apply (Hne eq_refl). symmetry. exact Heq. }
      rewrite Hsk. destruct (decide (Some sk = Some sk)); [| congruence].
      cbn. rewrite !update_stream_run. reflexivity.
  - munfold. rewrite Hsend. cbn.
    destruct (n <? len (b :: data)) eqn:Hn; cbn.
    + destruct side; cbn in *.
      * rewrite Hsk. destruct (decide (Some sk = Some sk)); [| congruence].
        cbn. rewrite !update_stream_run. reflexivity.
      * destruct (decide (Some sk = _local_sock h)) as [Heq | _].
        { exfalso. apply (Hne eq_refl). symmetry. exact Heq. }
        rewrite Hsk. destruct (decide (Some sk = Some sk)); [| congruence].
        cbn. rewrite !update_stream_run. reflexivity.
    + destruct side; cbn in *.
      * rewrite Hsk. destruct (decide (Some sk = Some sk)); [| congruence].
        cbn. rewrite !update_stream_run. reflexivity.
      * destruct (decide (Some sk = _local_sock h)) as [Heq | _].
        { exfalso. apply (Hne eq_refl). symmetry. exact Heq. }
        rewrite Hsk. destruct (decide (Some sk = Some sk)); [| congruence].
        cbn. rewrite !update_stream_run. reflexivity.
Qed.

Lemma land_lor_same (a b : Z) : Z.land (Z.lor a b) b = b.
Proof.
  apply Z.bits_inj'. intros n _. rewrite Z.land_spec, Z.lor_spec.
  destruct (Z.testbit a n), (Z.testbit b n); reflexivity.
Qed.

Lemma land_lor_keep (a b c : Z) : Z.land a c = c -> Z.land (Z.lor a b) c = c.
Proof.
  intros H. apply Z.bits_inj'. intros n _.
  apply (f_equal (fun x => Z.testbit x n)) in H.
  rewrite Z.land_spec in *. rewrite Z.lor_spec.
  destruct (Z.testbit a n), (Z.testbit b n), (Z.testbit c n); cbn in *; congruence.
Qed.

Lemma local_events_out (h : Handler) :
  has (_downstream_status h) WAIT_STATUS_WRITING = true ->
  Z.land (local_events h) POLL_OUT = POLL_OUT.
Proof.
  intros H. unfold local_events. rewrite H.
  destruct (has (_upstream_status h) WAIT_STATUS_READING).
  - apply land_lor_keep, land_lor_same.
  - apply land_lor_same.
Qed.

Lemma remote_events_out (h : Handler) :
  has (_upstream_status h) WAIT_STATUS_WRITING = true ->
  Z.land (remote_events h) POLL_OUT = POLL_OUT.
Proof.
  intros H. unfold remote_events. rewrite H. apply land_lor_same.
Qed.

Lemma reregister_wire (h : Handler) (s : Shared) :
  wire (reregister h s) = wire s.
Proof.
  unfold reregister. destruct (_local_sock h), (_remote_sock h); reflexivity.
Qed.

Lemma reregister_out (side : Side) (h : Handler) (s : Shared) (sk : Sock) :
  sock_of side h = Some sk ->
  (forall sk', sock_of (other side) h = Some sk' -> fileno sk' <> fileno sk) ->
  wait_of side h = WAIT_STATUS_WRITING ->
  registered_for (reregister h s) sk POLL_OUT.
Proof.
  intros Hsk Hother Hw. unfold registered_for, reregister.
  destruct side; cbn in *.
  - rewrite Hsk. destruct (_remote_sock h) as [rs |] eqn:Hrs; cbn.
    + exists (local_events h). split.
      * rewrite lookup_insert_ne by (apply Hother; reflexivity).
        apply lookup_insert_eq.
      * apply local_events_out. rewrite Hw. reflexivity.
    + exists (local_events h). split; [apply lookup_insert_eq |].
      apply local_events_out. rewrite Hw. reflexivity.
  - rewrite Hsk. exists (remote_events h). split.
    + destruct (_local_sock h); cbn; apply lookup_insert_eq.
    + apply remote_events_out. rewrite Hw. reflexivity.
Qed.

Lemma slice_from_nonempty {A} (l : list A) (n : Z) :
  l <> [] -> n < len l -> slice_from l n <> [].
Proof.
  intros Hl Hn Hd. apply (f_equal length) in Hd. revert Hd.
  unfold slice_from, len in *.
  destruct l as [| a l]; [congruence |].
  destruct (n <? 0) eqn:Hneg; rewrite length_drop; cbn [length] in *; lia.
Qed.

Lemma join_app_nonempty (chunks : list bytes) (last : bytes) :
  last <> [] -> join (chunks ++ [last]) <> [].
Proof.
  intros Hl. unfold join. rewrite concat_app. cbn. rewrite app_nil_r.
  intros Hd. apply app_eq_nil in Hd. destruct Hd. congruence.
Qed.

Lemma write_partial (side : Side) (h : Handler) (s : Shared) (sk : Sock)
    (data : bytes) (n : Z) :
  data <> [] ->
  sock_of side h = Some sk ->
  (forall sk', sock_of (other side) h = Some sk' -> fileno sk' <> fileno sk) ->
  send_result (wire s) sk data = inr n ->
  n < len data ->
  (wait_of side h = WAIT_STATUS_WRITING -> registered_for s sk POLL_OUT) ->
  exists h' s',
    _write_to_sock data (Some sk) (h, s) = (Ret true, (h', s'))
    /\ wire s' = wire s ++ [IOSend sk data (inr n)]
    /\ pending side h' = pending side h ++ [slice_from data n]
    /\ pending (other side) h' = pending (other side) h
    /\ wait_of side h' = WAIT_STATUS_WRITING
    /\ registered_for s' sk POLL_OUT
    /\ _stage h' = _stage h
    /\ sock_of side h' = Some sk
    /\ sock_of (other side) h' = sock_of (other side) h.
Proof.
  intros Hd Hsk Hother Hsend Hn Hreg.
  assert (Hne : side = Remote -> _local_sock h <> Some sk).
  { intros -> Heq. apply (Hother sk Heq). reflexivity. }
  rewrite (write_to_sock_run side h s sk data Hd Hsk Hne)
    by (intros e He; congruence).
  cbn zeta. rewrite Hsend. unfold unsent.
  apply Z.ltb_lt in Hn. rewrite Hn. rewrite update_stream_run.
  destruct (wait (stream_of side) (push side (slice_from data n) h)
              =? WAIT_STATUS_WRITING) eqn:Hw; cbn [snd].
  - apply Z.eqb_eq in Hw. eexists _, _. split; [reflexivity |].
    destruct side; cbn in *; repeat split; auto.
  - eexists _, _. split; [reflexivity |].
    split; [apply reregister_wire |].
    assert (Hreg' : registered_for
              (reregister (set_wait (stream_of side) WAIT_STATUS_WRITING
                             (push side (slice_from data n) h))
                 (set_wire (wire s ++ [IOSend sk data (inr n)]) s)) sk POLL_OUT).
    { apply (reregister_out side); destruct side; cbn in *; auto. }
    destruct side; cbn in *; repeat split; auto.
Qed.

Lemma write_complete (side : Side) (h : Handler) (s : Shared) (sk : Sock)
    (data : bytes) (n : Z) :
  data <> [] ->
  sock_of side h = Some sk ->
  (forall sk', sock_of (other side) h = Some sk' -> fileno sk' <> fileno sk) ->
  send_result (wire s) sk data = inr n ->
  len data <= n ->
  exists h' s',
    _write_to_sock data (Some sk) (h, s) = (Ret true, (h', s'))
    /\ wire s' = wire s ++ [IOSend sk data (inr n)]
    /\ pending side h' = pending side h
    /\ pending (other side) h' = pending (other side) h
    /\ wait_of side h' = WAIT_STATUS_READING
    /\ _stage h' = _stage h.
Proof.
  intros Hd Hsk Hother Hsend Hn.
  assert (Hne : side = Remote -> _local_sock h <> Some sk).
  { intros -> Heq. apply (Hother sk Heq). reflexivity. }
  rewrite (write_to_sock_run side h s sk data Hd Hsk Hne)
    by (intros e He; congruence).
  cbn zeta. rewrite Hsend. unfold unsent.
  apply Z.ltb_ge in Hn. rewrite Hn. rewrite update_stream_run.
  destruct (wait (stream_of side) h =? WAIT_STATUS_READING) eqn:Hw; cbn [snd].
  - apply Z.eqb_eq in Hw. eexists _, _. split; [reflexivity |].
    destruct side; cbn in *; repeat split; auto.
  - eexists _, _. split; [reflexivity |].
    split; [apply reregister_wire |].
    destruct side; cbn in *; repeat split; auto.
Qed.

Lemma writable_drains (side : Side) (h : Handler) (s : Shared) (sk : Sock)
    (event n : Z) :
  only_writable event ->
  _stage h <> STAGE_DESTROYED ->
  sock_of side h = Some sk ->
  (forall sk', sock_of (other side) h = Some sk' -> fileno sk' <> fileno sk) ->
  join (pending side h) <> [] ->
  send_result (wire s) sk (join (pending side h)) = inr n ->
  len (join (pending side h)) <= n ->
  exists h' s',
    handle_event sk event (h, s) = (Ret tt, (h', s'))
    /\ wire s' = wire s ++ [IOSend sk (join (pending side h)) (inr n)]
    /\ pending side h' = []
    /\ wait_of side h' = WAIT_STATUS_READING.
Proof.
  intros (He & Hi & Ho) Hst Hsk Hother Hj Hsend Hn.
  assert (Hp : pending side h <> []) by (intros Hp; rewrite Hp in Hj; auto).
  unfold handle_event, exception_handle, unless_destroyed. munfold.
  destruct (decide (_stage h = STAGE_DESTROYED)) as [? | _]; [contradiction |].
  rewrite He, Hi, Ho. cbn.
  destruct side; cbn in Hsk, Hother, Hp, Hj, Hsend, Hn.
  - destruct (decide (Some sk = _remote_sock h)) as [Heq | _].
    { exfalso. apply (Hother sk); auto. }
    rewrite Hsk. destruct (decide (Some sk = Some sk)); [| congruence]. cbn.
    destruct (decide (_stage h = STAGE_DESTROYED)) as [? | _]; [contradiction |].
    cbn. destruct (decide (_stage h = STAGE_DESTROYED)) as [? | _]; [contradiction |].
    unfold _on_local_write. munfold.
    destruct (_data_to_write_to_local h) as [| c cs] eqn:Hbuf; [congruence |].
    cbn. rewrite Hsk.
    destruct (write_complete Local (set_data_to_write_to_local [] h) s sk
                (join (c :: cs)) n) as (h' & s' & Hw & Hwire & Hpend & _ & Hwait & _);
      auto.
    change (c ++ concat cs) with (join (c :: cs)).
    rewrite Hw. cbn. eexists _, _. split; [reflexivity |].
    cbn in *. auto.
  - rewrite Hsk. destruct (decide (Some sk = Some sk)); [| congruence]. cbn.
    destruct (decide (_stage h = STAGE_DESTROYED)) as [? | _]; [contradiction |].
    cbn. destruct (decide (_stage h = STAGE_DESTROYED)) as [? | _]; [contradiction |].
    unfold _on_remote_write. munfold.
    destruct (_data_to_write_to_remote h) as [| c cs] eqn:Hbuf; [congruence |].
    cbn. rewrite Hsk.
    destruct (write_complete Remote
                (set_data_to_write_to_remote [] (set_stage STAGE_STREAM h)) s sk
                (join (c :: cs)) n) as (h' & s' & Hw & Hwire & Hpend & _ & Hwait & _);
      auto.
    change (c ++ concat cs) with (join (c :: cs)).
    rewrite Hw. cbn. eexists _, _. split; [reflexivity |].
    cbn in *. auto.
Qed.

(** C8. [_write_to_sock] with data and a socket of the handler, when [send]
    takes [n] bytes.  If [n] is short, the rest is appended to that socket's
    buffer, the wait status of the stream that writes to it becomes WRITING
    and the loop watches the socket for POLL_OUT; a later POLL_OUT event on
    the socket sends the buffer joined, and if [send] takes it all the buffer
    is empty and the status is READING.  If [n] covers the data, the buffer is
    as before and the status is READING. *)
Theorem write_to_sock_buffers_remainder
    (side : Side) (h : Handler) (s : Shared) (sk : Sock) (data : bytes) (n : Z) :
  data <> [] ->
  sock_of side h = Some sk ->
  (forall sk', sock_of (other side) h = Some sk' -> fileno sk' <> fileno sk) ->
  _stage h <> STAGE_DESTROYED ->
  send_result (wire s) sk data = inr n ->
  (wait_of side h = WAIT_STATUS_WRITING -> registered_for s sk POLL_OUT) ->
  exists h' s',
    _write_to_sock data (Some sk) (h, s) = (Ret true, (h', s'))
    /\ wire s' = wire s ++ [IOSend sk data (inr n)]
    /\ (n < len data ->
          pending side h' = pending side h ++ [slice_from data n]
          /\ wait_of side h' = WAIT_STATUS_WRITING
          /\ registered_for s' sk POLL_OUT
          /\ forall event m,
               only_writable event ->
               send_result (wire s') sk (join (pending side h')) = inr m ->
               len (join (pending side h')) <= m ->
               exists h'' s'',
                 handle_event sk event (h', s') = (Ret tt, (h'', s''))
                 /\ wire s'' =
                    wire s' ++ [IOSend sk (join (pending side h')) (inr m)]
                 /\ pending side h'' = []
                 /\ wait_of side h'' = WAIT_STATUS_READING)
    /\ (len data <= n ->
          pending side h' = pending side h
          /\ wait_of side h' = WAIT_STATUS_READING).
Proof.
  intros Hd Hsk Hother Hst Hsend Hreg.
  destruct (Z.lt_ge_cases n (len data)) as [Hn | Hn].
  - destruct (write_partial side h s sk data n Hd Hsk Hother Hsend Hn Hreg)
      as (h' & s' & Hw & Hwire & Hpend & Hpo & Hwait & Hr & Hstage & Hsk' & Hso).
    exists h', s'. split; [exact Hw |]. split; [exact Hwire |].
    split; [| intros; lia]. intros _.
    repeat split; auto.
    intros event m Hev Hsend' Hm.
    apply (writable_drains side h' s' sk event m); auto.
    + rewrite Hstage. exact Hst.
    + rewrite Hso. exact Hother.
    + rewrite Hpend. apply join_app_nonempty, slice_from_nonempty; auto.
  - destruct (write_complete side h s sk data n Hd Hsk Hother Hsend Hn)
      as (h' & s' & Hw & Hwire & Hpend & Hpo & Hwait & Hstage).
    exists h', s'. split; [exact Hw |]. split; [exact Hwire |].
    split; [intros; lia |]. intros _. auto.
Qed.

(** ** SOCKS5 method selection *)

Lemma ord_x00 (b : byte) : (ord b =? METHOD_NOAUTH) = bool_decide (b = x00).
Proof. destruct b; reflexivity. Qed.

Lemma existsb_noauth (l : bytes) :
  existsb (fun method => ord method =? METHOD_NOAUTH) l = bool_decide (x00 ∈ l).
Proof.
  induction l as [| b l IH]; cbn.
  - symmetry. apply bool_decide_eq_false. apply not_elem_of_nil.
  - rewrite IH, ord_x00.
    destruct (bool_decide (b = x00)) eqn:Hb; cbn.
    + apply bool_decide_eq_true in Hb. subst. symmetry.
      apply bool_decide_eq_true. apply elem_of_cons. left. reflexivity.
    + apply bool_decide_eq_false in Hb.
      destruct (bool_decide (x00 ∈ l)) eqn:Hl; symmetry.
      * apply bool_decide_eq_true in Hl. apply bool_decide_eq_true.
        apply elem_of_cons. right. exact Hl.
      * apply bool_decide_eq_false in Hl. apply bool_decide_eq_false.
        intros Hin. apply elem_of_cons in Hin. destruct Hin; auto.
Qed.

Lemma getitem_0 {A} (a : A) (l : list A) : getitem (a :: l) 0 = Some a.
Proof.
  unfold getitem, index_of. change (0 <? 0) with false. cbn match.
  assert (H : (0 <? len (a :: l)) = true)
    by (apply Z.ltb_lt; unfold len; cbn [length]; lia).
  rewrite H. reflexivity.
Qed.

Lemma getitem_1 {A} (a b : A) (l : list A) : getitem (a :: b :: l) 1 = Some b.
Proof.
  unfold getitem, index_of. change (1 <? 0) with false. cbn match.
  assert (H : (1 <? len (a :: b :: l)) = true)
    by (apply Z.ltb_lt; unfold len; cbn [length]; lia).
  rewrite H. reflexivity.
Qed.

Lemma check_auth_method_run (body : bytes) (h : Handler) (s : Shared) :
  _check_auth_method body (h, s) =
  if method_selection_wellformed body then
    if offers_noauth body then (Ret tt, (h, s))
    else (Raise NoAcceptableMethods,
          (h, set_log (log s ++ [(WARN, method_selection_warning body)]) s))
  else (Raise BadSocksHeader,
        (h, set_log (log s ++ [(WARN, method_selection_warning body)]) s)).
Proof.
  unfold _check_auth_method, offers_noauth.
  destruct body as [| v [| n rest]]; [reflexivity | reflexivity |].
  unfold method_selection_warning.
  destruct (len (v :: n :: rest) <? 3) eqn:Hlen.
  - unfold method_selection_wellformed.
    assert (H3 : (3 <=? len (v :: n :: rest)) = false)
      by (apply Z.ltb_lt in Hlen; apply Z.leb_gt; lia).
    rewrite H3. reflexivity.
  - assert (H3 : (3 <=? len (v :: n :: rest)) = true)
      by (apply Z.ltb_ge in Hlen; apply Z.leb_le; lia).
    unfold method_selection_wellformed at 1 3. rewrite H3.
    rewrite getitem_0, getitem_1. munfold.
    destruct (ord v =? 5) eqn:Hv; cbn -[len Z.ltb Z.leb existsb Z.eqb];
      [| reflexivity].
    unfold method_selection_wellformed. rewrite ?H3, ?Hv.
    cbn -[len Z.ltb Z.leb existsb Z.eqb].
    rewrite (Z.ltb_antisym 1 (ord n)).
    destruct (1 <=? ord n) eqn:Hn; cbn -[len Z.ltb Z.leb existsb Z.eqb];
      [| reflexivity].
    destruct (len (v :: n :: rest) =? ord n + 2) eqn:Hl;
      cbn -[len Z.ltb Z.leb existsb Z.eqb]; [| reflexivity].
    change (drop (Z.to_nat 2) (v :: n :: rest)) with (drop 0 rest).
    rewrite existsb_noauth.
    destruct (bool_decide (x00 ∈ drop 0 rest)); reflexivity.
Qed.

Lemma handle_stage_init_run (body : bytes) (h : Handler) (s : Shared) :
  let warned :=
    set_log (log s ++ [(WARN, method_selection_warning body)]) s in
  _handle_stage_init body (h, s) =
  if method_selection_wellformed body then
    if offers_noauth body then
      (_write_to_sock [x05; x00] (_local_sock h)
         ≫= fun _ => modify_h (set_stage STAGE_ADDR)) (h, s)
    else
      (_write_to_sock [x05; xff] (_local_sock h) ≫= fun _ => destroy)
        (h, warned)
  else destroy (h, warned).
Proof.
  cbn zeta. unfold _handle_stage_init. munfold.
  rewrite check_auth_method_run.
  destruct (method_selection_wellformed body).
  - destruct (offers_noauth body); cbn.
    + destruct (_write_to_sock _ _ _) as [[b | e |] st']; reflexivity.
    + destruct (_write_to_sock _ _ _) as [[b | e |] st']; cbn; try reflexivity.
      destruct (destroy st') as [[[] | e |] st'']; reflexivity.
  - cbn. destruct (destroy _) as [[[] | e |] st'']; reflexivity.
Qed.

(** *** What [destroy] and [_write_to_sock] put on the record of calls *)

Lemma remove_handler_keeps_wire (W : list IO -> Prop) :
  keeps (fun st => W (wire (snd st))) remove_handler.
Proof. unfold remove_handler. keeps_auto; cbn; auto. Qed.

Lemma destroy_keeps_wire (W : list IO -> Prop) :
  (forall w sk, W w -> W (w ++ [IOClose sk])) ->
  (forall w, W w -> W (w ++ [IORemoveCallback])) ->
  keeps (fun st => W (wire (snd st))) destroy.
Proof.
  intros Hc Hr. unfold destroy. keeps_auto; try (cbn; auto; fail).
  apply remove_handler_keeps_wire.
Qed.

Lemma update_stream_keeps_wire (W : list IO -> Prop) stream status :
  keeps (fun st => W (wire (snd st))) (_update_stream stream status).
Proof.
  intros [h s] H. rewrite update_stream_run. cbn.
  destruct (_ =? status); cbn; [exact H |]. rewrite reregister_wire. exact H.
Qed.

Lemma destroy_sends_nothing (st : St) :
  filter is_send (wire (snd (snd (destroy st)))) = filter is_send (wire (snd st)).
Proof.
  apply (destroy_keeps_wire
           (fun w => filter is_send w = filter is_send (wire (snd st))));
    [| | reflexivity];
    intros; rewrite filter_app; cbn; rewrite app_nil_r; assumption.
Qed.

Lemma destroy_extends_wire (l : list IO) (st : St) :
  l `prefix_of` wire (snd st) -> l `prefix_of` wire (snd (snd (destroy st))).
Proof.
  apply (destroy_keeps_wire (fun w => l `prefix_of` w));
    intros; apply prefix_app_r; assumption.
Qed.

Lemma write_to_sock_sends_first (h : Handler) (s : Shared) (sk : Sock)
    (data : bytes) :
  data <> [] ->
  (wire s ++ [IOSend sk data (send_result (wire s) sk data)])
    `prefix_of` wire (snd (snd (_write_to_sock data (Some sk) (h, s)))).
Proof.
  intros Hd. destruct data as [| b data]; [congruence |].
  unfold _write_to_sock. rewrite run_bind. cbn. rewrite run_bind. cbn.
  set (ev := IOSend sk (b :: data) (send_result (wire s) sk (b :: data))).
  match goal with |- _ `prefix_of` wire (snd (snd (?m ?st))) =>
    assert (Hk : keeps (fun x => (wire s ++ [ev]) `prefix_of` wire (snd x)) m)
  end.
  { keeps_auto; try (cbn; auto using prefix_app_r; fail).
    all: try apply update_stream_keeps_wire.
    all: try (intros st; apply destroy_extends_wire). }
  apply Hk. cbn. reflexivity.
Qed.

Lemma write_to_sock_returns_or_destroyed (data : bytes) (sock : option Sock)
    (st : St) :
  (exists b, fst (_write_to_sock data sock st) = Ret b)
  \/ is_destroyed (snd (_write_to_sock data sock st)).
Proof.
  destruct st as [h s]. unfold _write_to_sock.
  destruct data as [| b data]; [left; eexists; reflexivity |].
  destruct sock as [sk |]; [| left; eexists; reflexivity].
  munfold.
  destruct (send_result (wire s) sk (b :: data)) as [e | n]; cbn.
  - destruct (transient_write e); cbn.
    + left. repeat (first [rewrite update_stream_run | case_decide | cbn]);
        eexists; reflexivity.
    + match goal with |- context [destroy ?st] =>
        pose proof (destroy_destroys st) as Hd; destruct (destroy st) as [[[] | e' |] st']
      end; cbn in *.
      * left. eexists; reflexivity.
      * right. exact Hd.
      * right. exact Hd.
  - left. destruct (n <? len (b :: data)); cbn;
      repeat (first [rewrite update_stream_run | case_decide | cbn]);
      eexists; reflexivity.
Qed.

(** ** A request without the one-time-auth flag *)

(** C7, as amended.  A server-role handler with [one_time_auth] configured
    that parses a request whose address type lacks the flag [0x10] logs the
    connection and a warning and returns: the session flag is cleared and
    nothing else changes, so the stage, the sockets, the buffers, the loop
    and the record of calls are as before (nothing is sent, no resolution is
    asked for, the handler is not destroyed). *)
Theorem missing_ota_is_dropped
    (data : bytes) (h : Handler) (s : Shared)
    (addrtype remote_port header_length : Z) (remote_addr : bytes) :
  _is_local h = false ->
  _ota_enable h = true ->
  parse_header data = Some (addrtype, remote_addr, remote_port, header_length) ->
  Z.land addrtype ADDRTYPE_AUTH = 0 ->
  _handle_stage_addr data (h, s) =
  (Ret tt,
   (set_ota_enable_session false h,
    set_log (log s ++ [(INFO, MsgConnecting (to_str remote_addr, remote_port)
                                (_client_address h));
                       (WARN, Msg "client one time auth is required")]) s)).
Proof.
  intros Hl Ho Hp Ha. unfold _handle_stage_addr, exception_handle. munfold.
  rewrite Hl. cbn. rewrite Hp. cbn. rewrite Ha, Ho. cbn.
  rewrite <- app_assoc. reflexivity.
Qed.

(** ** Decryption failures *)

Lemma update_activity_keeps_but_activity (h : Handler) (s : Shared) (n : Z) :
  let h' := fst (snd (update_activity n (h, s))) in
  h' = h \/ exists t, h' = set_last_activity t h.
Proof.
  cbn zeta. unfold update_activity. munfold.
  destruct (negb (n =? 0) && _stat_callback s); cbn;
    destruct (_ <? TIMEOUT_PRECISION); cbn; auto;
    destruct (0 <=? _); cbn; try (right; eexists; reflexivity);
    destruct (setitem _ _ _); cbn; right; eexists; reflexivity.
Qed.

Lemma update_activity_same_fields (h : Handler) (s : Shared) (n : Z) :
  let h' := fst (snd (update_activity n (h, s))) in
  _stage h' = _stage h /\ _cryptor h' = _cryptor h
  /\ _is_local h' = _is_local h /\ _is_tunnel h' = _is_tunnel h
  /\ _local_sock h' = _local_sock h /\ _remote_sock h' = _remote_sock h
  /\ _client_address h' = _client_address h.
Proof.
  cbn zeta.
  destruct (update_activity_keeps_but_activity h s n) as [-> | [t ->]];
    repeat split; reflexivity.
Qed.

Lemma server_decrypt_failure (h : Handler) (s : Shared) (sk : Sock)
    (data : bytes) (c : Cryptor) (e : Exn) :
  _is_local h = false ->
  _local_sock h = Some sk ->
  recv_result (wire s) sk (buf_size h) = inr data ->
  data <> [] ->
  let ua := _update_activity (len data) (h, after_recv h s sk) in
  fst ua = Ret tt ->
  decrypt (_cryptor h) data = (c, inl e) ->
  _on_local_read (h, s) =
  (Ret tt,
   (set_cryptor c (fst (snd ua)),
    set_log (log (snd (snd ua))
               ++ [(ERROR, MsgConnException e (_client_address h))])
            (snd (snd ua)))).
Proof.
  intros Hl Hsk Hr Hd ua Hua Hdec. subst ua.
  unfold after_recv, buf_size, _update_activity in *. rewrite Hl in *.
  rewrite Hr in *. destruct data as [| b data]; [congruence |].
  unfold _on_local_read. munfold. rewrite Hsk, Hl. cbn. rewrite Hr. cbn.
  unfold _update_activity.
  match goal with |- context [update_activity ?n ?st] =>
    pose proof (update_activity_same_fields (fst st) (snd st) n) as Hf;
    cbn zeta in Hf; cbn [fst snd] in Hf;
    destruct (update_activity n st) as [o [h1 s1]]
  end.
  destruct Hf as (_ & Hc & _ & _ & _ & _ & Ha). cbn in *. subst o.
  unfold cryptor_decrypt. munfold.
  rewrite Hc, Hdec. cbn. rewrite Ha. reflexivity.
Qed.

Lemma client_decrypt_failure (h : Handler) (s : Shared) (sk : Sock)
    (data : bytes) (c : Cryptor) (e : Exn) :
  _is_local h = true ->
  _remote_sock h = Some sk ->
  recv_result (wire s) sk (buf_size h) = inr data ->
  data <> [] ->
  let ua := _update_activity (len data) (h, after_recv h s sk) in
  fst ua = Ret tt ->
  decrypt (_cryptor h) data = (c, inl e) ->
  _on_remote_read (h, s) = (Raise e, (set_cryptor c (fst (snd ua)), snd (snd ua))).
Proof.
  intros Hl Hsk Hr Hd ua Hua Hdec. subst ua.
  unfold after_recv, buf_size, _update_activity in *. rewrite Hl in *.
  rewrite Hr in *. destruct data as [| b data]; [congruence |].
  unfold _on_remote_read. munfold. rewrite Hsk, Hl. cbn. rewrite Hr. cbn.
  unfold _update_activity.
  match goal with |- context [update_activity ?n ?st] =>
    pose proof (update_activity_same_fields (fst st) (snd st) n) as Hf;
    cbn zeta in Hf; cbn [fst snd] in Hf;
    destruct (update_activity n st) as [o [h1 s1]]
  end.
  destruct Hf as (_ & Hc & _ & _ & _ & _ & Ha). cbn in *. subst o.
  unfold cryptor_decrypt. munfold.
  rewrite Hc, Hdec. reflexivity.
Qed.

Lemma client_decrypt_failure_destroys (h : Handler) (s : Shared) (sk : Sock)
    (data : bytes) (c : Cryptor) (e : Exn) (event : Z) :
  _is_local h = true ->
  _remote_sock h = Some sk ->
  _stage h <> STAGE_DESTROYED ->
  readable event ->
  recv_result (wire s) sk (buf_size h) = inr data ->
  data <> [] ->
  fst (_update_activity (len data) (h, after_recv h s sk)) = Ret tt ->
  decrypt (_cryptor h) data = (c, inl e) ->
  _stage (fst (snd (handle_event sk event (h, s)))) = STAGE_DESTROYED.
Proof.
  intros Hl Hsk Hst [He Hi] Hr Hd Hua Hdec.
  unfold handle_event, exception_handle, unless_destroyed. munfold.
  destruct (decide (_stage h = STAGE_DESTROYED)) as [? | _]; [contradiction |].
  rewrite Hsk. destruct (decide (Some sk = Some sk)); [| congruence].
  rewrite He, Hi. cbn.
  destruct (decide (_stage h = STAGE_DESTROYED)) as [? | _]; [contradiction |].
  rewrite (client_decrypt_failure h s sk data c e Hl Hsk Hr Hd Hua Hdec). cbn.
  destruct (cfg_verbose _); apply destroy_destroys.
Qed.

(** C5, as amended.  A decryption failure on a read.  On a server-role
    handler, which decrypts what it reads from its local socket, the failure
    is logged and the read is dropped: the method returns, the stage, the
    sockets and the write buffers are as before.  On a client-role handler,
    which decrypts what it reads from its remote socket (the downstream
    direction), the exception leaves [_on_remote_read], and [handle_event]
    destroys the handler. *)
Theorem decrypt_failure_by_role (h : Handler) (s : Shared) (sk : Sock)
    (data : bytes) (c : Cryptor) (e : Exn) :
  recv_result (wire s) sk (buf_size h) = inr data ->
  data <> [] ->
  fst (_update_activity (len data) (h, after_recv h s sk)) = Ret tt ->
  decrypt (_cryptor h) data = (c, inl e) ->
  (_is_local h = false -> _local_sock h = Some sk ->
     let ua := _update_activity (len data) (h, after_recv h s sk) in
     let r := _on_local_read (h, s) in
     r = (Ret tt,
          (set_cryptor c (fst (snd ua)),
           set_log (log (snd (snd ua))
                      ++ [(ERROR, MsgConnException e (_client_address h))])
                   (snd (snd ua))))
     /\ _stage (fst (snd r)) = _stage h
     /\ _local_sock (fst (snd r)) = _local_sock h
     /\ _remote_sock (fst (snd r)) = _remote_sock h
     /\ _data_to_write_to_local (fst (snd r)) = _data_to_write_to_local h
     /\ _data_to_write_to_remote (fst (snd r)) = _data_to_write_to_remote h)
  /\ (_is_local h = true -> _remote_sock h = Some sk ->
      fst (_on_remote_read (h, s)) = Raise e
      /\ (_stage h <> STAGE_DESTROYED ->
          forall event, readable event ->
            _stage (fst (snd (handle_event sk event (h, s)))) = STAGE_DESTROYED)).
Proof.
  intros Hr Hd Hua Hdec. split.
  - intros Hl Hsk. cbn zeta.
    rewrite (server_decrypt_failure h s sk data c e Hl Hsk Hr Hd Hua Hdec).
    split; [reflexivity |]. cbn [fst snd]. unfold _update_activity.
    destruct (update_activity_keeps_but_activity h (after_recv h s sk) (len data))
      as [-> | [t ->]]; repeat split; reflexivity.
  - intros Hl Hsk. split.
    + rewrite (client_decrypt_failure h s sk data c e Hl Hsk Hr Hd Hua Hdec).
      reflexivity.
    + intros Hst event Hev.
      apply (client_decrypt_failure_destroys h s sk data c e event); assumption.
Qed.

(** ** One-time-auth chunks *)

Lemma with_ota_of (h : Handler) : with_ota (ota_of h) h = h.
Proof. destruct h. reflexivity. Qed.

Lemma with_ota_twice (o o' : Ota) (h : Handler) :
  with_ota o' (with_ota o h) = with_ota o' h.
Proof. destruct h. reflexivity. Qed.

Lemma ota_of_with (o : Ota) (h : Handler) : ota_of (with_ota o h) = o.
Proof. destruct o, h. reflexivity. Qed.

Lemma chunk_warnings_0 (s : Shared) : chunk_warnings 0 s = s.
Proof. destruct s. unfold chunk_warnings. cbn. rewrite app_nil_r. reflexivity. Qed.

Lemma chunk_warnings_add (n m : nat) (s : Shared) :
  chunk_warnings m (chunk_warnings n s) = chunk_warnings (n + m) s.
Proof.
  destruct s. unfold chunk_warnings. cbn.
  rewrite replicate_add, app_assoc. reflexivity.
Qed.

Lemma loop_unfold (fuel : nat) (data unchunk_data : bytes) :
  _ota_chunk_data_loop (S fuel) data unchunk_data =
  if 0 <? len data then
    h ← get_h;
    head ←
      (if _ota_len h =? 0 then
         let length := ONETIMEAUTH_CHUNK_BYTES - len (_ota_buff_head h) in
         modify_h (set_ota_buff_head (_ota_buff_head h ++ slice_to data length));;
         let data := slice_from data length in
         h ← get_h;
         if len (_ota_buff_head h) <? ONETIMEAUTH_CHUNK_BYTES then mret None
         else
           let data_len :=
             slice_to (_ota_buff_head h) ONETIMEAUTH_CHUNK_DATA_LEN in
           n ← or_raise (unpack_H data_len) StructError;
           modify_h (set_ota_len n);; mret (Some data)
       else mret (Some data));
    match head with
    | None => mret None
    | Some data => ota_payload_part fuel data unchunk_data
    end
  else mret (Some unchunk_data).
Proof. reflexivity. Qed.

(** *** The byte-wise reassembler on blocks of bytes *)

Lemma len_app {A} (l k : list A) : len (l ++ k) = len l + len k.
Proof. unfold len. rewrite length_app. lia. Qed.

Lemma len_nonneg {A} (l : list A) : 0 <= len l.
Proof. unfold len. lia. Qed.

Lemma len_cons {A} (a : A) (l : list A) : len (a :: l) = 1 + len l.
Proof. unfold len. cbn [length]. lia. Qed.

Lemma ota_bytes_app (iv : bytes) (o : Ota) (a b : bytes) :
  ota_bytes iv o (a ++ b) =
  match ota_bytes iv o a with
  | Some (o1, e1) =>
      match ota_bytes iv o1 b with
      | Some (o2, e2) => Some (o2, e1 ++ e2)
      | None => None
      end
  | None => None
  end.
Proof.
  revert o. induction a as [| x a IH]; intros o; cbn.
  - destruct (ota_bytes iv o b) as [[o2 e2] |]; reflexivity.
  - destruct (ota_byte iv o x) as [[o1 e1] |]; cbn; [| reflexivity].
    rewrite IH.
    destruct (ota_bytes iv o1 a) as [[o2 e2] |]; cbn; [| reflexivity].
    destruct (ota_bytes iv o2 b) as [[o3 e3] |]; cbn; [| reflexivity].
    rewrite app_assoc. reflexivity.
Qed.

Lemma ota_bytes_head_partial (iv : bytes) (o : Ota) (d : bytes) :
  o_len o = 0 ->
  len (o_head o) + len d < ONETIMEAUTH_CHUNK_BYTES ->
  ota_bytes iv o d = Some (mkOta (o_head o ++ d) (o_buf o) 0 (o_idx o), []).
Proof.
  revert o. induction d as [| x d IH]; intros o Hl Hd; cbn.
  - rewrite app_nil_r. destruct o; cbn in *; subst; reflexivity.
  - unfold ota_byte. rewrite Hl. cbn.
    rewrite len_cons in Hd.
    assert (Hx : (len (o_head o ++ [x]) <? ONETIMEAUTH_CHUNK_BYTES) = true).
    { apply Z.ltb_lt. rewrite len_app, len_cons. pose proof (len_nonneg d).
      unfold len at 2. cbn. lia. }
    rewrite Hx. cbn. rewrite IH; cbn.
    + rewrite <- app_assoc. reflexivity.
    + reflexivity.
    + rewrite len_app, len_cons. unfold len at 2. cbn. lia.
Qed.

Lemma ota_bytes_data_partial (iv : bytes) (o : Ota) (d : bytes) :
  0 < o_len o ->
  len (o_buf o) + len d < o_len o ->
  ota_bytes iv o d = Some (mkOta (o_head o) (o_buf o ++ d) (o_len o) (o_idx o), []).
Proof.
  revert o. induction d as [| x d IH]; intros o Hl Hd; cbn.
  - rewrite app_nil_r. destruct o; reflexivity.
  - unfold ota_byte.
    assert (H0 : (o_len o =? 0) = false) by (apply Z.eqb_neq; lia).
    rewrite H0. cbn. rewrite len_cons in Hd. pose proof (len_nonneg d).
    assert (Hx : (len (o_buf o ++ [x]) =? o_len o) = false).
    { apply Z.eqb_neq. rewrite len_app, len_cons. unfold len at 2. cbn. lia. }
    rewrite Hx. cbn. rewrite IH; cbn.
    + rewrite <- app_assoc. reflexivity.
    + exact Hl.
    + rewrite len_app, len_cons. unfold len at 2. cbn. lia.
Qed.

Lemma ota_bytes_head_complete (iv : bytes) (o : Ota) (d : bytes) :
  o_len o = 0 ->
  d <> [] ->
  len (o_head o) + len d = ONETIMEAUTH_CHUNK_BYTES ->
  ota_bytes iv o d =
  match unpack_H (take 2 (o_head o ++ d)) with
  | Some n =>
      if n =? 0 then ota_complete iv (mkOta (o_head o ++ d) (o_buf o) 0 (o_idx o))
      else Some (mkOta (o_head o ++ d) (o_buf o) n (o_idx o), [])
  | None => None
  end.
Proof.
  intros Hl Hd Hlen. destruct (exists_last Hd) as (d' & x & ->).
  rewrite len_app, len_cons in Hlen. change (len []) with 0 in Hlen.
  rewrite ota_bytes_app, ota_bytes_head_partial by (auto; lia).
  cbn. unfold ota_byte. cbn.
  assert (Hx : (len ((o_head o ++ d') ++ [x]) <? ONETIMEAUTH_CHUNK_BYTES) = false).
  { apply Z.ltb_ge. rewrite !len_app, len_cons. change (len []) with 0. lia. }
  rewrite Hx. rewrite <- app_assoc. cbn.
  destruct (unpack_H _) as [n |]; cbn; [| reflexivity].
  destruct (n =? 0); cbn.
  - destruct (ota_complete _ _) as [[o1 e1] |]; cbn; [| reflexivity].
    rewrite app_nil_r. reflexivity.
  - reflexivity.
Qed.

Lemma ota_bytes_data_complete (iv : bytes) (o : Ota) (d : bytes) :
  0 < o_len o ->
  d <> [] ->
  len (o_buf o) + len d = o_len o ->
  ota_bytes iv o d =
  ota_complete iv (mkOta (o_head o) (o_buf o ++ d) (o_len o) (o_idx o)).
Proof.
  intros Hl Hd Hlen. destruct (exists_last Hd) as (d' & x & ->).
  rewrite len_app, len_cons in Hlen. change (len []) with 0 in Hlen.
  rewrite ota_bytes_app, ota_bytes_data_partial by (auto; lia).
  cbn. unfold ota_byte. cbn.
  assert (H0 : (o_len o =? 0) = false) by (apply Z.eqb_neq; lia).
  rewrite H0.
  assert (Hx : (len ((o_buf o ++ d') ++ [x]) =? o_len o) = true).
  { apply Z.eqb_eq. rewrite !len_app, len_cons. change (len []) with 0. lia. }
  rewrite Hx. rewrite <- app_assoc. cbn.
  destruct (ota_complete _ _) as [[o1 e1] |]; cbn; [| reflexivity].
  rewrite app_nil_r. reflexivity.
Qed.

Lemma take_drop_len {A} (l : list A) (r : Z) :
  0 <= r <= len l ->
  len (take (Z.to_nat r) l) = r /\ len (drop (Z.to_nat r) l) = len l - r.
Proof.
  intros Hr. unfold len in *. rewrite length_take, length_drop. lia.
Qed.

Lemma ota_bytes_in_data (iv : bytes) (o : Ota) (d : bytes) :
  0 < o_len o ->
  len (o_buf o) < o_len o ->
  let r := o_len o - len (o_buf o) in
  ota_bytes iv o d =
  if len d <? r
  then Some (mkOta (o_head o) (o_buf o ++ d) (o_len o) (o_idx o), [])
  else
    match ota_complete iv (mkOta (o_head o) (o_buf o ++ take (Z.to_nat r) d)
                             (o_len o) (o_idx o)) with
    | Some (o1, e1) =>
        match ota_bytes iv o1 (drop (Z.to_nat r) d) with
        | Some (o2, e2) => Some (o2, e1 ++ e2)
        | None => None
        end
    | None => None
    end.
Proof.
  intros Hl Hb r. destruct (len d <? r) eqn:Hd.
  - apply Z.ltb_lt in Hd. apply ota_bytes_data_partial; [exact Hl | lia].
  - apply Z.ltb_ge in Hd.
    rewrite <- (take_drop (Z.to_nat r) d) at 1.
    destruct (take_drop_len d r) as [Ht _]; [subst r; lia |].
    rewrite ota_bytes_app, ota_bytes_data_complete; auto.
    + intros Hn. rewrite Hn in Ht. change (len []) with 0 in Ht. lia.
    + lia.
Qed.

(** *** The loop, one iteration at a time *)

Lemma slice_to_take {A} (l : list A) (n : Z) :
  0 <= n -> slice_to l n = take (Z.to_nat n) l.
Proof. intros Hn. unfold slice_to. destruct (n <? 0) eqn:H; [lia | reflexivity]. Qed.

Lemma slice_from_drop {A} (l : list A) (n : Z) :
  0 <= n -> slice_from l n = drop (Z.to_nat n) l.
Proof. intros Hn. unfold slice_from. destruct (n <? 0) eqn:H; [lia | reflexivity]. Qed.

Lemma take_len {A} (l : list A) : take (Z.to_nat (len l)) l = l.
Proof. unfold len. rewrite Nat2Z.id. apply firstn_all. Qed.

Lemma drop_len {A} (l : list A) : drop (Z.to_nat (len l)) l = [].
Proof. unfold len. rewrite Nat2Z.id. apply drop_all. Qed.

Lemma payload_part_run (fuel : nat) (data u : bytes) (h : Handler) (s : Shared) :
  0 <= _ota_len h ->
  len (_ota_buff_data h) <= _ota_len h ->
  let r := _ota_len h - len (_ota_buff_data h) in
  let chunk := _ota_buff_data h ++ take (Z.to_nat r) data in
  ota_payload_part fuel data u (h, s) =
  if len data <? r then
    _ota_chunk_data_loop fuel [] u
      (set_ota_buff_data (_ota_buff_data h ++ data) h, s)
  else
    match pack_I (_ota_chunk_idx h) with
    | None => (Raise StructError, (set_ota_buff_data chunk h, s))
    | Some index =>
        if onetimeauth_verify (drop 2 (_ota_buff_head h)) chunk
             (decipher_iv (_cryptor h) ++ index)
        then
          _ota_chunk_data_loop fuel (drop (Z.to_nat r) data) (u ++ chunk)
            (with_ota (mkOta [] [] 0 (_ota_chunk_idx h + 1)) h, s)
        else
          _ota_chunk_data_loop fuel (drop (Z.to_nat r) data) u
            (with_ota (mkOta [] [] 0 (_ota_chunk_idx h)) h, chunk_warnings 1 s)
    end.
Proof.
  intros Hl Hb r chunk. subst chunk. unfold ota_payload_part. munfold.
  pose proof (len_nonneg data) as Hd.
  destruct (len data <? r) eqn:Hlt.
  - apply Z.ltb_lt in Hlt. fold r. rewrite Z.min_r by lia.
    rewrite slice_to_take, slice_from_drop, take_len, drop_len by lia.
    assert (Hne : (len (_ota_buff_data h ++ data) =? _ota_len h) = false).
    { apply Z.eqb_neq. rewrite len_app. subst r. lia. }
    rewrite Hne. reflexivity.
  - apply Z.ltb_ge in Hlt. fold r. rewrite Z.min_l by lia.
    rewrite slice_to_take, slice_from_drop by (subst r; lia).
    destruct (take_drop_len data r) as [Ht _]; [subst r; lia |].
    assert (Heq : (len (_ota_buff_data h ++ take (Z.to_nat r) data)
                   =? _ota_len h) = true).
    { apply Z.eqb_eq. rewrite len_app, Ht. subst r. lia. }
    rewrite Heq.
    destruct (pack_I (_ota_chunk_idx h)) as [index |]; cbn; [| reflexivity].
    change (slice_from (_ota_buff_head h) ONETIMEAUTH_CHUNK_DATA_LEN)
      with (drop 2 (_ota_buff_head h)).
    destruct (onetimeauth_verify _ _ _); cbn.
    + destruct h; reflexivity.
    + destruct h, s; reflexivity.
Qed.

Lemma len_pos {A} (l : list A) : l <> [] -> 0 < len l.
Proof. destruct l; [congruence |]. intros _. rewrite len_cons. pose proof (len_nonneg l). lia. Qed.

Lemma len_0_nil {A} (l : list A) : len l = 0 -> l = [].
Proof. destruct l; [reflexivity |]. rewrite len_cons. pose proof (len_nonneg l). lia. Qed.

Lemma loop_nil (fuel : nat) (u : bytes) (st : St) :
  _ota_chunk_data_loop (S fuel) [] u st = (Ret (Some u), st).
Proof. reflexivity. Qed.

Lemma loop_head_mode (fuel : nat) (data u : bytes) (h : Handler) (s : Shared) :
  data <> [] ->
  _ota_len h = 0 ->
  len (_ota_buff_head h) < ONETIMEAUTH_CHUNK_BYTES ->
  let k := ONETIMEAUTH_CHUNK_BYTES - len (_ota_buff_head h) in
  let head := _ota_buff_head h ++ take (Z.to_nat k) data in
  _ota_chunk_data_loop (S fuel) data u (h, s) =
  if len data <? k
  then (Ret None, (set_ota_buff_head (_ota_buff_head h ++ data) h, s))
  else
    match unpack_H (take 2 head) with
    | None => (Raise StructError, (set_ota_buff_head head h, s))
    | Some n =>
        ota_payload_part fuel (drop (Z.to_nat k) data) u
          (set_ota_len n (set_ota_buff_head head h), s)
    end.
Proof.
  intros Hd Hl Hh k head. subst head. rewrite loop_unfold.
  pose proof (len_pos data Hd) as Hpos.
  assert (H0 : (0 <? len data) = true) by (apply Z.ltb_lt; lia).
  rewrite H0. munfold. rewrite Hl. cbn. fold k.
  rewrite slice_to_take, slice_from_drop by (subst k; lia).
  destruct (len data <? k) eqn:Hlt.
  - apply Z.ltb_lt in Hlt.
    rewrite take_ge by (unfold len in *; lia).
    assert (Hx : (len (_ota_buff_head h ++ data) <? ONETIMEAUTH_CHUNK_BYTES) = true).
    { apply Z.ltb_lt. rewrite len_app. subst k. lia. }
    rewrite Hx. reflexivity.
  - apply Z.ltb_ge in Hlt.
    destruct (take_drop_len data k) as [Ht _]; [subst k; lia |].
    assert (Hx : (len (_ota_buff_head h ++ take (Z.to_nat k) data)
                  <? ONETIMEAUTH_CHUNK_BYTES) = false).
    { apply Z.ltb_ge. rewrite len_app, Ht. subst k. lia. }
    rewrite Hx.
    change (slice_to (_ota_buff_head h ++ take (Z.to_nat k) data)
              ONETIMEAUTH_CHUNK_DATA_LEN)
      with (take 2 (_ota_buff_head h ++ take (Z.to_nat k) data)).
    destruct (unpack_H _) as [n |]; reflexivity.
Qed.

Lemma loop_data_mode (fuel : nat) (data u : bytes) (h : Handler) (s : Shared) :
  data <> [] ->
  _ota_len h <> 0 ->
  _ota_chunk_data_loop (S fuel) data u (h, s) =
  ota_payload_part fuel data u (h, s).
Proof.
  intros Hd Hl. rewrite loop_unfold.
  pose proof (len_pos data Hd) as Hpos.
  assert (H0 : (0 <? len data) = true) by (apply Z.ltb_lt; lia).
  rewrite H0. munfold.
  apply Z.eqb_neq in Hl. rewrite Hl. reflexivity.
Qed.

Lemma unpack_H_nonneg (b : bytes) (n : Z) : unpack_H b = Some n -> 0 <= n.
Proof.
  destruct b as [| hi [| lo [| ? ?]]]; cbn; try discriminate.
  intros [= <-]. unfold ord. lia.
Qed.

Lemma delivered_app (e1 e2 : list OtaEvent) :
  delivered (e1 ++ e2) = delivered e1 ++ delivered e2.
Proof. unfold delivered. rewrite map_app, concat_app. reflexivity. Qed.

Lemma rejected_app (e1 e2 : list OtaEvent) :
  rejected (e1 ++ e2) = (rejected e1 + rejected e2)%nat.
Proof. unfold rejected. rewrite filter_app, length_app. reflexivity. Qed.

Lemma verified_app (e1 e2 : list OtaEvent) :
  verified (e1 ++ e2) = (verified e1 + verified e2)%nat.
Proof. unfold verified. rewrite filter_app, length_app. reflexivity. Qed.

Lemma loop_result_some (o : Ota) (data out : bytes) :
  o_len o <> 0 \/ o_head o = [] \/ data = [] ->
  loop_result o data out = Some out.
Proof.
  unfold loop_result. intros [H | [H | H]].
  - apply Z.eqb_neq in H. rewrite H. reflexivity.
  - rewrite H. change (0 <? len []) with false. rewrite andb_false_r. reflexivity.
  - rewrite H. change (0 <? len []) with false. rewrite andb_false_r. reflexivity.
Qed.

Lemma loop_result_nonempty (o : Ota) (d d' out : bytes) :
  d <> [] -> d' <> [] -> loop_result o d out = loop_result o d' out.
Proof.
  intros H H'. unfold loop_result.
  apply len_pos, Z.ltb_lt in H. apply len_pos, Z.ltb_lt in H'.
  rewrite H, H'. reflexivity.
Qed.

Lemma ota_complete_idle (iv : bytes) (o o1 : Ota) (e1 : list OtaEvent) :
  ota_complete iv o = Some (o1, e1) ->
  o_head o1 = [] /\ o_buf o1 = [] /\ o_len o1 = 0.
Proof.
  unfold ota_complete. destruct (pack_I _); cbn; [| discriminate].
  destruct (onetimeauth_verify _ _ _); intros [= <- <-]; auto.
Qed.

(** *** The loop computes what the byte-wise reassembler computes *)

Lemma loop_agrees_nil (fuel : nat) : loop_agrees (S fuel) [].
Proof.
  intros u h s o' evs Hinv Hspec. cbn in Hspec. injection Hspec as <- <-.
  rewrite loop_nil, with_ota_of, chunk_warnings_0. cbn. rewrite app_nil_r.
  split; [| exact Hinv]. rewrite loop_result_some by auto. reflexivity.
Qed.

Lemma payload_part_agrees (fuel : nat) (data u : bytes) (h : Handler)
    (s : Shared) (o' : Ota) (evs : list OtaEvent) :
  let o := ota_of h in
  let r := o_len o - len (o_buf o) in
  (o_len o = 0 /\ o_buf o = []) \/ (0 < o_len o /\ len (o_buf o) < o_len o) ->
  (r <= len data -> loop_agrees fuel (drop (Z.to_nat r) data)) ->
  (0 < fuel)%nat ->
  (if len data <? r
   then Some (mkOta (o_head o) (o_buf o ++ data) (o_len o) (o_idx o), [])
   else
     match ota_complete (decipher_iv (_cryptor h))
             (mkOta (o_head o) (o_buf o ++ take (Z.to_nat r) data)
                (o_len o) (o_idx o)) with
     | Some (o1, e1) =>
         match ota_bytes (decipher_iv (_cryptor h)) o1 (drop (Z.to_nat r) data) with
         | Some (o2, e2) => Some (o2, e1 ++ e2)
         | None => None
         end
     | None => None
     end) = Some (o', evs) ->
  ota_payload_part fuel data u (h, s) =
  (Ret (if len data <? r then Some u
        else loop_result o' (drop (Z.to_nat r) data) (u ++ delivered evs)),
   (with_ota o' h, chunk_warnings (rejected evs) s))
  /\ ota_inv o'
  /\ (drop (Z.to_nat r) data = [] -> o_len o' <> 0 \/ o_head o' = []).
Proof.
  intros o r Hpend IH Hfuel Hspec. subst o. cbn [ota_of o_len o_buf o_head o_idx] in *.
  pose proof (len_nonneg (_ota_buff_data h)) as Hb.
  pose proof (len_nonneg data) as Hd.
  rewrite payload_part_run; cbn zeta; fold r.
  2:{ destruct Hpend as [[H1 H2] | [H1 H2]]; lia. }
  2:{ destruct Hpend as [[H1 H2] | [H1 H2]]; [rewrite H2; change (len []) with 0 |]; lia. }
  destruct (len data <? r) eqn:Hlt.
  - apply Z.ltb_lt in Hlt. injection Hspec as <- <-.
    destruct fuel as [| fuel]; [lia |]. rewrite loop_nil.
    rewrite chunk_warnings_0. cbn.
    split; [| split].
    + destruct h; reflexivity.
    + right. cbn. rewrite len_app. subst r. lia.
    + intros _. left. lia.
  - apply Z.ltb_ge in Hlt. specialize (IH Hlt).
    unfold ota_complete in Hspec. cbn [o_idx o_head o_buf] in Hspec.
    destruct (pack_I (_ota_chunk_idx h)) as [index |]; cbn in Hspec;
      [| discriminate].
    destruct (onetimeauth_verify _ _ _).
    + destruct (ota_bytes _ _ _) as [[o2 e2] |] eqn:Hrest; [| discriminate].
      injection Hspec as <- <-.
      destruct (IH (u ++ _ota_buff_data h ++ take (Z.to_nat r) data)
                  (with_ota (mkOta [] [] 0 (_ota_chunk_idx h + 1)) h) s o2 e2)
        as [Hrun Hinv].
      { left. cbn. repeat split; reflexivity. }
      { rewrite ota_of_with. exact Hrest. }
      rewrite Hrun, with_ota_twice. split; [| split].
      * cbn. rewrite <- !app_assoc. reflexivity.
      * exact Hinv.
      * intros Hnil. rewrite Hnil in Hrest. cbn in Hrest.
        injection Hrest as <- _. right. reflexivity.
    + destruct (ota_bytes _ _ _) as [[o2 e2] |] eqn:Hrest; [| discriminate].
      injection Hspec as <- <-.
      destruct (IH u (with_ota (mkOta [] [] 0 (_ota_chunk_idx h)) h)
                  (chunk_warnings 1 s) o2 e2) as [Hrun Hinv].
      { left. cbn. repeat split; reflexivity. }
      { rewrite ota_of_with. exact Hrest. }
      rewrite Hrun, with_ota_twice, chunk_warnings_add. split; [| split].
      * reflexivity.
      * exact Hinv.
      * intros Hnil. rewrite Hnil in Hrest. cbn in Hrest.
        injection Hrest as <- _. right. reflexivity.
Qed.

Lemma with_ota_after_head (o : Ota) (n : Z) (head : bytes) (h : Handler) :
  with_ota o (set_ota_len n (set_ota_buff_head head h)) = with_ota o h.
Proof. destruct h. reflexivity. Qed.

Lemma loop_agrees_all (n : nat) :
  forall (data : bytes) (fuel : nat),
    (length data <= n)%nat -> (n < fuel)%nat -> loop_agrees fuel data.
Proof.
  induction n as [| n IH]; intros data fuel Hlen Hfuel.
  { destruct data; [| cbn in Hlen; lia].
    destruct fuel; [lia |]. apply loop_agrees_nil. }
  destruct fuel as [| fuel]; [lia |].
  destruct data as [| b rest] eqn:Hdata; [apply loop_agrees_nil |].
  rewrite <- Hdata in *.
  assert (Hne : data <> []) by (subst; discriminate).
  assert (Hlen' : len data <= Z.of_nat (S n)) by (unfold len; lia).
  clear Hdata b rest.
  intros u h s o' evs Hinv Hspec.
  destruct Hinv as [(Hl & Hh & Hb) | (Hl & Hb)];
    cbn [ota_of o_len o_head o_buf] in Hl, Hb.
  - (* collecting the prefix *)
    cbn [ota_of o_head] in Hh.
    pose proof (len_nonneg (_ota_buff_head h)) as Hh0.
    rewrite loop_head_mode by assumption. cbn zeta.
    set (k := ONETIMEAUTH_CHUNK_BYTES - len (_ota_buff_head h)) in *.
    assert (Hk : 1 <= k) by (subst k; lia).
    destruct (len data <? k) eqn:Hlt.
    + apply Z.ltb_lt in Hlt.
      rewrite ota_bytes_head_partial in Hspec by (cbn; subst k; lia).
      injection Hspec as <- <-. rewrite chunk_warnings_0. cbn. split.
      * unfold loop_result. cbn.
        assert (H1 : (0 <? len (_ota_buff_head h ++ data)) = true).
        { apply Z.ltb_lt. rewrite len_app. pose proof (len_pos data Hne). lia. }
        assert (H2 : (0 <? len data) = true)
          by (apply Z.ltb_lt, len_pos, Hne).
        rewrite H1, H2. cbn. destruct h; cbn in *; subst; reflexivity.
      * left. cbn. rewrite len_app. repeat split; [subst k; lia | exact Hb].
    + apply Z.ltb_ge in Hlt.
      destruct (take_drop_len data k) as [Ht Hdr]; [lia |].
      rewrite <- (take_drop (Z.to_nat k) data) in Hspec at 1.
      rewrite ota_bytes_app in Hspec.
      rewrite ota_bytes_head_complete in Hspec; cbn [ota_of o_len o_head o_buf o_idx];
        [| exact Hl
         | intros Hn; rewrite Hn in Ht; change (len []) with 0 in Ht; lia
         | rewrite Ht; subst k; lia].
      cbn [ota_of o_len o_head o_buf o_idx] in Hspec.
      destruct (unpack_H _) as [m |] eqn:Hm; [| discriminate].
      pose proof (unpack_H_nonneg _ _ Hm) as Hm0.
      set (head := _ota_buff_head h ++ take (Z.to_nat k) data) in *.
      set (data1 := drop (Z.to_nat k) data) in *.
      assert (Hlen1 : (length data1 <= n)%nat).
      { unfold len in *. lia. }
      set (h1 := set_ota_len m (set_ota_buff_head head h)).
      destruct (payload_part_agrees fuel data1 u h1 s o' evs) as (Hrun & Hinv' & Hidle).
      * subst h1. cbn. rewrite Hb.
        destruct (Z.eq_dec m 0) as [-> | Hm1]; [left; auto |].
        right. change (len []) with 0. lia.
      * intros _. apply IH; [| lia]. rewrite length_drop. lia.
      * lia.
      * subst h1. cbn [ota_of o_len o_head o_buf o_idx]. cbn.
        rewrite Hb. change (len []) with 0. rewrite Z.sub_0_r. cbn [app].
        destruct (m =? 0) eqn:Hm1.
        -- apply Z.eqb_eq in Hm1. subst m.
           assert (Hnl : (len data1 <? 0) = false)
             by (apply Z.ltb_ge, len_nonneg).
           rewrite Hnl. change (Z.to_nat 0) with 0%nat. rewrite take_0, drop_0.
           rewrite Hb in Hspec. exact Hspec.
        -- apply Z.eqb_neq in Hm1. rewrite Hb in Hspec.
           rewrite ota_bytes_in_data in Hspec;
             cbn [o_len o_buf o_head o_idx] in *;
             [| lia | change (len []) with 0; lia].
           change (len []) with 0 in Hspec. rewrite Z.sub_0_r in Hspec.
           cbn [app] in Hspec.
           destruct (len data1 <? m); [| destruct (ota_complete _ _) as [[o1 e1] |];
             [destruct (ota_bytes _ o1 _) as [[o2 e2] |] |]];
             cbn in Hspec |- *; congruence.
      * rewrite Hrun. subst h1. rewrite with_ota_after_head.
        split; [| exact Hinv'].
        f_equal. f_equal. cbn [ota_of o_len o_buf]. cbn. rewrite Hb.
        change (len []) with 0. rewrite Z.sub_0_r.
        destruct (len data1 <? m) eqn:Hlm.
        -- (* the payload is still short: the state is in payload mode *)
           symmetry. apply Z.ltb_lt in Hlm.
           rewrite Hb in Hspec. destruct (m =? 0) eqn:Hm1; [lia |].
           rewrite ota_bytes_data_partial in Hspec;
             cbn [o_len o_buf]; [| lia | change (len []) with 0; lia].
           injection Hspec as <- <-. cbn.
           rewrite app_nil_r. apply loop_result_some. left. cbn. lia.
        -- destruct data1 as [| c data1'] eqn:Hd1.
           ++ rewrite drop_nil. rewrite loop_result_some by auto.
              symmetry. apply loop_result_some.
              specialize (Hidle ltac:(cbn; rewrite drop_nil; reflexivity)).
              destruct Hidle; auto.
           ++ rewrite <- Hd1 in *.
              assert (Hd1ne : data1 <> []) by (rewrite Hd1; discriminate).
              cbn [ota_of o_len o_buf] in Hidle. cbn in Hidle.
              rewrite Hb in Hidle. change (len []) with 0 in Hidle.
              rewrite Z.sub_0_r in Hidle.
              destruct (drop (Z.to_nat m) data1) eqn:Hdm.
              ** rewrite loop_result_some by auto. symmetry.
                 apply loop_result_some. destruct (Hidle eq_refl); auto.
              ** apply loop_result_nonempty; [discriminate | exact Hne].
  - (* collecting the payload *)
    pose proof (len_nonneg (_ota_buff_data h)) as Hb0.
    rewrite loop_data_mode by (auto; lia).
    set (r := _ota_len h - len (_ota_buff_data h)) in *.
    assert (Hr : 1 <= r) by (subst r; lia).
    destruct (payload_part_agrees fuel data u h s o' evs) as (Hrun & Hinv' & Hidle).
    + right. cbn. lia.
    + intros Hrd. cbn [ota_of o_len o_buf]. fold r. apply IH; [| lia].
      rewrite length_drop. unfold len in *. lia.
    + lia.
    + cbn [ota_of o_len o_head o_buf o_idx]. fold r.
      rewrite ota_bytes_in_data in Hspec; cbn [ota_of o_len o_head o_buf o_idx];
        [| lia | lia].
      cbn [ota_of o_len o_head o_buf o_idx] in Hspec. fold r in Hspec.
      exact Hspec.
    + rewrite Hrun. split; [| exact Hinv'].
      f_equal. f_equal. cbn [ota_of o_len o_buf] in *. fold r in Hidle |- *.
      destruct (len data <? r) eqn:Hlr.
      * symmetry. apply Z.ltb_lt in Hlr.
        rewrite ota_bytes_data_partial in Hspec; cbn [ota_of o_len o_buf];
          [| lia | lia].
        injection Hspec as <- <-. cbn. rewrite app_nil_r.
        apply loop_result_some. left. cbn. lia.
      * destruct (drop (Z.to_nat r) data) eqn:Hdm.
        -- rewrite loop_result_some by auto. symmetry.
           apply loop_result_some. destruct (Hidle eq_refl); auto.
        -- apply loop_result_nonempty; [discriminate | exact Hne].
Qed.

(** One call of [_ota_chunk_data], by the byte-wise reassembler. *)
Lemma ota_chunk_data_run (data : bytes) (cb : bytes -> M unit) (h : Handler)
    (s : Shared) (o' : Ota) (evs : list OtaEvent) :
  ota_inv (ota_of h) ->
  ota_bytes (decipher_iv (_cryptor h)) (ota_of h) data = Some (o', evs) ->
  _ota_chunk_data data cb (h, s) =
  match loop_result o' data (delivered evs) with
  | Some out => cb out (with_ota o' h, chunk_warnings (rejected evs) s)
  | None => (Ret tt, (with_ota o' h, chunk_warnings (rejected evs) s))
  end
  /\ ota_inv o'.
Proof.
  intros Hinv Hspec. unfold _ota_chunk_data.
  destruct (loop_agrees_all (S (length data)) data (S (S (length data))))
    with (u := @nil byte) (h := h) (s := s) (o' := o') (evs := evs)
    as [Hrun Hinv']; auto.
  split; [| exact Hinv'].
  rewrite run_bind, Hrun. cbn [app].
  destruct (loop_result _ _ _); reflexivity.
Qed.

Lemma verified_cons (ev : OtaEvent) (evs : list OtaEvent) :
  verified (ev :: evs) =
  match ev with Verified _ => S (verified evs) | Rejected => verified evs end.
Proof. destruct ev; reflexivity. Qed.

Lemma rejected_cons (ev : OtaEvent) (evs : list OtaEvent) :
  rejected (ev :: evs) =
  match ev with Verified _ => rejected evs | Rejected => S (rejected evs) end.
Proof. destruct ev; reflexivity. Qed.

Lemma delivered_cons (ev : OtaEvent) (evs : list OtaEvent) :
  delivered (ev :: evs) =
  match ev with Verified p => p ++ delivered evs | Rejected => delivered evs end.
Proof. destruct ev; reflexivity. Qed.

Lemma ota_complete_idx (iv : bytes) (o o1 : Ota) (e1 : list OtaEvent) :
  ota_complete iv o = Some (o1, e1) ->
  o_idx o1 = o_idx o + Z.of_nat (verified e1).
Proof.
  unfold ota_complete. destruct (pack_I _); cbn; [| discriminate].
  destruct (onetimeauth_verify _ _ _); intros [= <- <-];
    rewrite verified_cons; cbn; lia.
Qed.

Lemma ota_byte_idx (iv : bytes) (o o1 : Ota) (b : byte) (e1 : list OtaEvent) :
  ota_byte iv o b = Some (o1, e1) ->
  o_idx o1 = o_idx o + Z.of_nat (verified e1).
Proof.
  unfold ota_byte.
  destruct (o_len o =? 0).
  - destruct (_ <? _); [intros [= <- <-]; cbn; lia |].
    destruct (unpack_H _) as [n |]; cbn; [| discriminate].
    destruct (n =? 0).
    + intros H. apply ota_complete_idx in H. exact H.
    + intros [= <- <-]. cbn. lia.
  - destruct (_ =? _).
    + intros H. apply ota_complete_idx in H. exact H.
    + intros [= <- <-]. cbn. lia.
Qed.

(** The index moves by the number of chunks verified, and by nothing else. *)
Lemma ota_bytes_idx (iv : bytes) (data : bytes) :
  forall (o o' : Ota) (evs : list OtaEvent),
    ota_bytes iv o data = Some (o', evs) ->
    o_idx o' = o_idx o + Z.of_nat (verified evs).
Proof.
  induction data as [| b data IH]; intros o o' evs; cbn.
  - intros [= <- <-]. cbn. lia.
  - destruct (ota_byte iv o b) as [[o1 e1] |] eqn:Hb; cbn; [| discriminate].
    destruct (ota_bytes iv o1 data) as [[o2 e2] |] eqn:Hd; cbn; [| discriminate].
    intros [= <- <-]. apply ota_byte_idx in Hb. apply IH in Hd.
    rewrite verified_app. lia.
Qed.

(** *** [struct.pack] and [struct.unpack] *)

Lemma chr_ord (n : Z) (b : byte) : chr n = Some b -> ord b = n.
Proof.
  unfold chr, ord. destruct ((0 <=? n) && (n <? 256)) eqn:Hr; [| discriminate].
  intros H. apply Byte.to_of_N in H. rewrite H. lia.
Qed.

Lemma chr_some (n : Z) : 0 <= n < 256 -> exists b, chr n = Some b.
Proof.
  intros Hn. unfold chr.
  assert (Hr : (0 <=? n) && (n <? 256) = true) by lia.
  rewrite Hr. destruct (Byte.of_N (Z.to_N n)) as [b |] eqn:Hb; [eauto |].
  apply Byte.of_N_None_iff in Hb. lia.
Qed.

Lemma pack_H_unpack (n : Z) (b : bytes) :
  pack_H n = Some b -> unpack_H b = Some n /\ len b = 2.
Proof.
  unfold pack_H. destruct ((0 <=? n) && (n <? 65536)) eqn:Hr; [| discriminate].
  destruct (chr (n / 256)) as [hi |] eqn:Hhi; cbn; [| discriminate].
  destruct (chr (n mod 256)) as [lo |] eqn:Hlo; cbn; [| discriminate].
  intros [= <-]. apply chr_ord in Hhi, Hlo. cbn. rewrite Hhi, Hlo.
  split; [| reflexivity]. f_equal.
  pose proof (Z.div_mod n 256). lia.
Qed.

Lemma pack_H_some (n : Z) : 0 <= n < 65536 -> exists b, pack_H n = Some b.
Proof.
  intros Hn. unfold pack_H.
  assert (Hr : (0 <=? n) && (n <? 65536) = true) by lia.
  rewrite Hr.
  destruct (chr_some (n / 256)) as [hi Hhi].
  { split; [apply Z.div_pos; lia | apply Z.div_lt_upper_bound; lia]. }
  destruct (chr_some (n mod 256)) as [lo Hlo].
  { apply Z.mod_pos_bound. lia. }
  rewrite Hhi, Hlo. cbn. eauto.
Qed.

Lemma pack_I_some (n : Z) : 0 <= n < 4294967296 -> exists b, pack_I n = Some b.
Proof.
  intros Hn. unfold pack_I.
  assert (Hr : (0 <=? n) && (n <? 4294967296) = true) by lia.
  rewrite Hr.
  destruct (chr_some (n / 16777216)) as [b3 H3].
  { split; [apply Z.div_pos; lia | apply Z.div_lt_upper_bound; lia]. }
  destruct (chr_some ((n / 65536) mod 256)) as [b2 H2].
  { apply Z.mod_pos_bound. lia. }
  destruct (chr_some ((n / 256) mod 256)) as [b1 H1].
  { apply Z.mod_pos_bound. lia. }
  destruct (chr_some (n mod 256)) as [b0 H0].
  { apply Z.mod_pos_bound. lia. }
  rewrite H3, H2, H1, H0. cbn. eauto.
Qed.

(** *** Whole chunks *)

Lemma ota_bytes_frame (iv mac payload frame : bytes) (i : Z) :
  len mac = ONETIMEAUTH_BYTES ->
  ota_frame mac payload = Some frame ->
  ota_bytes iv (mkOta [] [] 0 i) frame =
  ota_complete iv (mkOta (take 2 frame ++ mac) payload (len payload) i).
Proof.
  intros Hmac. unfold ota_frame.
  destruct (pack_H (len payload)) as [l2 |] eqn:Hl2; cbn; [| discriminate].
  intros [= <-]. destruct (pack_H_unpack _ _ Hl2) as [Hun Hlen2].
  assert (Ht : take 2 (l2 ++ mac ++ payload) = l2).
  { rewrite take_app_le by (unfold len in Hlen2; lia).
    apply take_ge. unfold len in Hlen2. lia. }
  rewrite Ht. rewrite app_assoc, ota_bytes_app.
  rewrite ota_bytes_head_complete; cbn [o_len o_head o_buf o_idx app].
  - rewrite take_app_le by (unfold len in Hlen2; lia).
    rewrite take_ge by (unfold len in Hlen2; lia).
    rewrite Hun.
    destruct (len payload =? 0) eqn:Hp.
    + apply Z.eqb_eq in Hp. rewrite (len_0_nil _ Hp). cbn.
      destruct (ota_complete _ _) as [[o1 e1] |]; cbn; [| reflexivity].
      rewrite app_nil_r. reflexivity.
    + apply Z.eqb_neq in Hp.
      rewrite ota_bytes_data_complete; cbn [o_len o_head o_buf o_idx app].
      * destruct (ota_complete _ _) as [[o1 e1] |]; reflexivity.
      * pose proof (len_nonneg payload). lia.
      * intros Hn. rewrite Hn in Hp. apply Hp. reflexivity.
      * reflexivity.
  - reflexivity.
  - intros Hn. apply app_eq_nil in Hn. destruct Hn as [Hn _].
    rewrite Hn in Hlen2. discriminate.
  - rewrite len_app, Hlen2, Hmac. reflexivity.
Qed.

Lemma ota_bytes_frames (iv : bytes) (frames : list (bytes * bytes)) :
  forall (i : Z) (stream : bytes),
    0 <= i ->
    i + Z.of_nat (length frames) <= 4294967296 ->
    Forall (fun frame => len (fst frame) = ONETIMEAUTH_BYTES) frames ->
    frames_stream frames = Some stream ->
    ota_bytes iv (mkOta [] [] 0 i) stream =
    Some (mkOta [] [] 0 (i + Z.of_nat (verified (frame_events iv i frames))),
          frame_events iv i frames).
Proof.
  induction frames as [| [mac payload] frames IH]; intros i stream Hi Hn Hmacs Hs.
  - cbn in Hs. injection Hs as <-. cbn. rewrite Z.add_0_r. reflexivity.
  - cbn in Hs. cbn [length] in Hn.
    destruct (ota_frame mac payload) as [frame |] eqn:Hf; cbn in Hs; [| discriminate].
    destruct (frames_stream frames) as [rest |] eqn:Hrest; cbn in Hs; [| discriminate].
    injection Hs as <-. inversion Hmacs as [| ? ? Hmac Hmacs']; subst.
    cbn [fst] in Hmac.
    rewrite ota_bytes_app, (ota_bytes_frame iv mac payload frame i Hmac Hf).
    destruct (pack_I_some i) as [index Hidx]; [lia |].
    assert (Hd : drop 2 (take 2 frame ++ mac) = mac).
    { unfold ota_frame in Hf.
      destruct (pack_H (len payload)) as [l2 |] eqn:Hl2; cbn in Hf; [| discriminate].
      injection Hf as <-. destruct (pack_H_unpack _ _ Hl2) as [_ Hlen2].
      rewrite take_app_le by (unfold len in Hlen2; lia).
      rewrite take_ge by (unfold len in Hlen2; lia).
      rewrite drop_app_le by (unfold len in Hlen2; lia).
      rewrite drop_ge by (unfold len in Hlen2; lia). reflexivity. }
    unfold ota_complete. cbn [o_idx o_head o_buf frame_events]. rewrite Hidx, Hd. cbn.
    destruct (onetimeauth_verify mac payload (iv ++ index)).
    + rewrite (IH (i + 1) rest) by (auto; lia).
      rewrite verified_cons. cbn. f_equal. f_equal. f_equal. lia.
    + rewrite (IH i rest) by (auto; lia).
      rewrite verified_cons. reflexivity.
Qed.

(** *** Reads that cut the stream anywhere *)

Lemma loop_result_out (o : Ota) (data out out' : bytes) :
  loop_result o data out = Some out' -> out' = out.
Proof.
  unfold loop_result. destruct (_ && _); [discriminate |].
  intros [= <-]. reflexivity.
Qed.

Lemma ota_feed_run (reads : list bytes) :
  forall (h : Handler) (s : Shared) (o' : Ota) (evs : list OtaEvent),
    ota_inv (ota_of h) ->
    ota_bytes (decipher_iv (_cryptor h)) (ota_of h) (concat reads) = Some (o', evs) ->
    exists (out : list bytes) (kept : list OtaEvent),
      ota_feed reads (h, s) =
      (with_ota o' (set_data_to_write_to_remote
                      (_data_to_write_to_remote h ++ out) h),
       chunk_warnings (rejected evs) s)
      /\ kept `sublist_of` evs
      /\ concat out = delivered kept.
Proof.
  induction reads as [| r reads IH]; intros h s o' evs Hinv Hspec.
  - cbn in Hspec. injection Hspec as <- <-. exists [], []. cbn.
    split; [| split; [constructor | reflexivity]].
    rewrite chunk_warnings_0. f_equal. destruct h; cbn. rewrite app_nil_r.
    reflexivity.
  - cbn [concat] in Hspec. rewrite ota_bytes_app in Hspec.
    destruct (ota_bytes _ _ r) as [[o1 e1] |] eqn:Hr; [| discriminate].
    destruct (ota_bytes _ o1 _) as [[o2 e2] |] eqn:Hrest; [| discriminate].
    injection Hspec as <- <-.
    destruct (ota_chunk_data_run r append_to_remote h s o1 e1 Hinv Hr)
      as [Hrun Hinv1].
    cbn [ota_feed]. rewrite Hrun.
    destruct (loop_result o1 r (delivered e1)) as [out1 |] eqn:Hout.
    + apply loop_result_out in Hout. subst out1.
      cbn [snd append_to_remote modify_h fst].
      destruct (IH (set_data_to_write_to_remote
                      (_data_to_write_to_remote (with_ota o1 h)
                       ++ [delivered e1])
                      (with_ota o1 h))
                  (chunk_warnings (rejected e1) s) o2 e2)
        as (out2 & kept2 & Hfeed & Hsub & Hcat).
      { destruct h, o1; exact Hinv1. }
      { destruct h, o1; exact Hrest. }
      exists (delivered e1 :: out2), (e1 ++ kept2).
      split; [| split].
      * rewrite Hfeed, rejected_app, chunk_warnings_add.
        f_equal. destruct h; cbn. rewrite <- app_assoc. reflexivity.
      * apply sublist_app; [reflexivity | exact Hsub].
      * cbn [concat]. rewrite Hcat, delivered_app. reflexivity.
    + cbn [snd].
      destruct (IH (with_ota o1 h) (chunk_warnings (rejected e1) s) o2 e2)
        as (out2 & kept2 & Hfeed & Hsub & Hcat).
      { rewrite ota_of_with. exact Hinv1. }
      { rewrite ota_of_with. destruct h; exact Hrest. }
      exists out2, kept2. split; [| split; [| exact Hcat]].
      * rewrite Hfeed, rejected_app, chunk_warnings_add. reflexivity.
      * apply sublist_inserts_l. exact Hsub.
Qed.

(** *** Framing *)

Lemma ota_chunk_data_gen_run (payload : bytes) (h : Handler) (s : Shared) :
  0 <= _ota_chunk_idx h < 4294967296 ->
  len payload < 65536 ->
  exists data_len index,
    pack_H (len payload) = Some data_len
    /\ pack_I (_ota_chunk_idx h) = Some index
    /\ _ota_chunk_data_gen payload (h, s) =
       (Ret (data_len
               ++ onetimeauth_gen payload (cipher_iv (_cryptor h) ++ index)
               ++ payload),
        (set_ota_chunk_idx (_ota_chunk_idx h + 1) h, s)).
Proof.
  intros Hi Hp.
  destruct (pack_H_some (len payload)) as [data_len Hl];
    [pose proof (len_nonneg payload); lia |].
  destruct (pack_I_some (_ota_chunk_idx h)) as [index Hx]; [lia |].
  exists data_len, index. split; [exact Hl |]. split; [exact Hx |].
  unfold _ota_chunk_data_gen. munfold. rewrite Hl, Hx. reflexivity.
Qed.

Lemma ota_gen_all_run (payloads : list bytes) :
  forall (h : Handler) (s : Shared),
    0 <= _ota_chunk_idx h ->
    _ota_chunk_idx h + Z.of_nat (length payloads) <= 4294967296 ->
    Forall (fun payload => len payload < 65536) payloads ->
    exists frames,
      ota_gen_all payloads (h, s) =
      (Ret frames,
       (set_ota_chunk_idx (_ota_chunk_idx h + Z.of_nat (length payloads)) h, s))
      /\ length frames = length payloads.
Proof.
  induction payloads as [| p payloads IH]; intros h s Hi Hn Hlen.
  - exists []. cbn. rewrite Z.add_0_r. split; [| reflexivity].
    f_equal. f_equal. destruct h; reflexivity.
  - cbn [length] in Hn. inversion Hlen as [| ? ? Hp Hlen']; subst.
    destruct (ota_chunk_data_gen_run p h s) as (l2 & index & _ & _ & Hrun);
      [lia | exact Hp |].
    cbn [ota_gen_all]. rewrite Hrun.
    destruct (IH (set_ota_chunk_idx (_ota_chunk_idx h + 1) h) s)
      as (frames & Hrest & Hlenf); [cbn; lia | cbn; lia | exact Hlen' |].
    rewrite Hrest.
    exists ((l2 ++ onetimeauth_gen p (cipher_iv (_cryptor h) ++ index) ++ p)
            :: frames).
    split; [| cbn [length]; rewrite Hlenf; reflexivity].
    change (set_ota_chunk_idx
              (_ota_chunk_idx (set_ota_chunk_idx (_ota_chunk_idx h + 1) h)
               + Z.of_nat (length payloads))
              (set_ota_chunk_idx (_ota_chunk_idx h + 1) h))
      with (set_ota_chunk_idx
              (_ota_chunk_idx h + 1 + Z.of_nat (length payloads)) h).
    replace (_ota_chunk_idx h + 1 + Z.of_nat (length payloads))
      with (_ota_chunk_idx h + Z.of_nat (S (length payloads))) by lia.
    reflexivity.
Qed.

Lemma with_ota_idle (h : Handler) (idx : Z) :
  ota_idle h -> with_ota (mkOta [] [] 0 idx) h = set_ota_chunk_idx idx h.
Proof.
  intros (Hh & Hb & Hl). destruct h; cbn in *; subst. reflexivity.
Qed.

Lemma ota_idle_inv (h : Handler) : ota_idle h -> ota_inv (ota_of h).
Proof.
  intros (Hh & Hb & Hl). left. cbn. rewrite Hh, Hb, Hl.
  repeat split; reflexivity.
Qed.

Lemma ota_idle_of (h : Handler) :
  ota_idle h -> ota_of h = mkOta [] [] 0 (_ota_chunk_idx h).
Proof. intros (Hh & Hb & Hl). unfold ota_of. rewrite Hh, Hb, Hl. reflexivity. Qed.

(** C4. Chunks that arrive at a handler whose reassembler is idle, each with
    its MAC, cut into reads anywhere.  A chunk whose MAC does not verify is
    dropped with one warning and the index stays; a chunk whose MAC verifies
    is counted and the index moves by one.  So after the reads the index
    has moved by the number of chunks verified, the buffers are empty again,
    and nothing else of the handler changed (it is not destroyed).  Fed in
    one read, the callback gets the payloads of the verified chunks and no
    other.  Cut into reads anywhere, what is handed on is, joined, the
    payloads of some of the verified chunks, in their order, and nothing of a
    chunk that was dropped; and a read that sits anywhere in the stream calls
    any callback at most once, with the payloads of the chunks that were
    verified in that read.  On the way out [_ota_chunk_data_gen] moves the
    index by one for each chunk it frames.  A new handler starts at
    index 0. *)
Theorem ota_index_counts_chunks
    (h : Handler) (s : Shared) (frames : list (bytes * bytes))
    (stream : bytes) (reads payloads : list bytes) :
  ota_idle h ->
  0 <= _ota_chunk_idx h ->
  _ota_chunk_idx h + Z.of_nat (length frames) <= 4294967296 ->
  Forall (fun frame => len (fst frame) = ONETIMEAUTH_BYTES) frames ->
  frames_stream frames = Some stream ->
  concat reads = stream ->
  _ota_chunk_idx h + Z.of_nat (length payloads) <= 4294967296 ->
  Forall (fun payload => len payload < 65536) payloads ->
  let evs := frame_events (decipher_iv (_cryptor h)) (_ota_chunk_idx h) frames in
  let h_end :=
    set_ota_chunk_idx (_ota_chunk_idx h + Z.of_nat (verified evs)) h in
  (forall cb : bytes -> M unit,
     _ota_chunk_data stream cb (h, s) =
     cb (delivered evs) (h_end, chunk_warnings (rejected evs) s))
  /\ (exists (out : list bytes) (kept : list OtaEvent),
        ota_feed reads (h, s) =
        (set_data_to_write_to_remote (_data_to_write_to_remote h ++ out) h_end,
         chunk_warnings (rejected evs) s)
        /\ kept `sublist_of` evs
        /\ concat out = delivered kept)
  /\ (forall before data after : bytes,
        before ++ data ++ after = stream ->
        exists (o1 o2 : Ota) (e1 e2 e3 : list OtaEvent),
          evs = e1 ++ e2 ++ e3
          /\ ota_bytes (decipher_iv (_cryptor h)) (ota_of h) before
             = Some (o1, e1)
          /\ forall (cb : bytes -> M unit) (h0 : Handler) (s0 : Shared),
               ota_of h0 = o1 ->
               decipher_iv (_cryptor h0) = decipher_iv (_cryptor h) ->
               _ota_chunk_data data cb (h0, s0) =
               match loop_result o2 data (delivered e2) with
               | Some out =>
                   cb out (with_ota o2 h0, chunk_warnings (rejected e2) s0)
               | None =>
                   (Ret tt, (with_ota o2 h0, chunk_warnings (rejected e2) s0))
               end)
  /\ (exists framed : list bytes,
        ota_gen_all payloads (h, s) =
        (Ret framed,
         (set_ota_chunk_idx
            (_ota_chunk_idx h + Z.of_nat (length payloads)) h, s))
        /\ length framed = length payloads)
  /\ (forall s0 hid sock is_local,
        _ota_chunk_idx (fst (snd (__init__ hid sock is_local s0))) = 0).
Proof.
  intros Hidle Hi Hn Hmacs Hstream Hreads Hpn Hpl evs h_end.
  pose proof (ota_bytes_frames (decipher_iv (_cryptor h)) frames
                (_ota_chunk_idx h) stream Hi Hn Hmacs Hstream) as Hspec.
  fold evs in Hspec. rewrite <- (ota_idle_of h Hidle) in Hspec.
  split; [| split; [| split; [| split]]].
  - intros cb.
    destruct (ota_chunk_data_run stream cb h s _ _ (ota_idle_inv h Hidle) Hspec)
      as [Hrun _].
    rewrite Hrun, loop_result_some by auto.
    rewrite with_ota_idle by exact Hidle. reflexivity.
  - rewrite <- Hreads in Hspec.
    destruct (ota_feed_run reads h s _ _ (ota_idle_inv h Hidle) Hspec)
      as (out & kept & Hfeed & Hsub & Hcat).
    exists out, kept. split; [| split; [exact Hsub | exact Hcat]].
    rewrite Hfeed. f_equal.
    destruct Hidle as (Hh & Hb & Hl). destruct h; cbn in *; subst. reflexivity.
  - intros before data after Hcut. rewrite <- Hcut in Hspec.
    rewrite ota_bytes_app in Hspec.
    destruct (ota_bytes _ _ before) as [[o1 e1] |] eqn:Hb; [| discriminate].
    rewrite ota_bytes_app in Hspec.
    destruct (ota_bytes _ o1 data) as [[o2 e2] |] eqn:Hd; [| discriminate].
    destruct (ota_bytes _ o2 after) as [[o3 e3] |] eqn:Ha; [| discriminate].
    injection Hspec as _ Hevs.
    exists o1, o2, e1, e2, e3. split; [symmetry; exact Hevs |].
    split; [reflexivity |].
    intros cb h0 s0 Ho Hiv.
    destruct (ota_chunk_data_run before cb h s o1 e1 (ota_idle_inv h Hidle) Hb)
      as [_ Hinv1].
    apply (ota_chunk_data_run data cb h0 s0 o2 e2).
    + rewrite Ho. exact Hinv1.
    + rewrite Ho, Hiv. exact Hd.
  - apply ota_gen_all_run; assumption.
  - intros s0 hid sock is_local.
    apply (init_field (fun h => _ota_chunk_idx h = 0)); auto.
Qed.

(** *** Round trip, one read for the whole stream *)

Lemma onetimeauth_verify_gen (data key : bytes) :
  onetimeauth_verify (onetimeauth_gen data key) data key = true.
Proof. unfold onetimeauth_verify, onetimeauth_gen. apply bool_decide_eq_true. reflexivity. Qed.

Lemma onetimeauth_gen_len (data key : bytes) :
  (forall k d, ONETIMEAUTH_BYTES <= len (sha1_hmac k d)) ->
  len (onetimeauth_gen data key) = ONETIMEAUTH_BYTES.
Proof.
  intros Hmac. unfold onetimeauth_gen. rewrite slice_to_take by (cbv; discriminate).
  specialize (Hmac key data). unfold len in *. rewrite length_take.
  change (Z.to_nat ONETIMEAUTH_BYTES) with 10%nat in *.
  change ONETIMEAUTH_BYTES with 10 in *. lia.
Qed.

Lemma ota_gen_all_frames (iv : bytes) (payloads : list bytes) :
  (forall k d, ONETIMEAUTH_BYTES <= len (sha1_hmac k d)) ->
  forall (h : Handler) (s : Shared) (framed : list bytes) (st : St),
    cipher_iv (_cryptor h) = iv ->
    ota_gen_all payloads (h, s) = (Ret framed, st) ->
    exists frames,
      frames_stream frames = Some (concat framed)
      /\ Forall (fun frame => len (fst frame) = ONETIMEAUTH_BYTES) frames
      /\ length frames = length payloads
      /\ frame_events iv (_ota_chunk_idx h) frames = map Verified payloads.
Proof.
  intros Hmac. induction payloads as [| p payloads IH];
    intros h s framed st Hiv Hgen.
  - cbn in Hgen. injection Hgen as <- <-. exists []. cbn. auto.
  - cbn [ota_gen_all] in Hgen.
    unfold _ota_chunk_data_gen in Hgen at 1. unfold or_raise in Hgen.
    cbn in Hgen. unfold mbind, M_bind, mret, M_ret, raise in Hgen. cbn in Hgen.
    destruct (pack_H (len p)) as [l2 |] eqn:Hl2; cbn in Hgen; [| discriminate].
    destruct (pack_I (_ota_chunk_idx h)) as [index |] eqn:Hx; cbn in Hgen;
      [| discriminate].
    destruct (ota_gen_all payloads _) as [[rest | e |] st'] eqn:Hrest;
      try discriminate.
    injection Hgen as <- <-.
    destruct (IH (set_ota_chunk_idx (_ota_chunk_idx h + 1) h) s rest st' Hiv Hrest)
      as (frames & Hfs & Hlen & Hcount & Hev).
    exists ((onetimeauth_gen p (iv ++ index), p) :: frames).
    rewrite Hiv. cbn [frames_stream concat]. unfold ota_frame. rewrite Hl2. cbn.
    rewrite Hfs. cbn. split; [reflexivity |]. split; [| split].
    + constructor; [apply onetimeauth_gen_len, Hmac | exact Hlen].
    + rewrite Hcount. reflexivity.
    + rewrite Hx, onetimeauth_verify_gen. cbn in Hev. rewrite Hev. reflexivity.
Qed.

Lemma delivered_verified (payloads : list bytes) :
  delivered (map Verified payloads) = concat payloads
  /\ verified (map Verified payloads) = length payloads
  /\ rejected (map Verified payloads) = 0%nat.
Proof.
  induction payloads as [| p payloads (IH1 & IH2 & IH3)]; [auto |].
  cbn [map]. rewrite delivered_cons, verified_cons, rejected_cons.
  rewrite IH1, IH2, IH3. auto.
Qed.

(** What the framer writes comes back when the reassembler gets it in one
    read: the payloads, joined, and the two indices agree. *)
Lemma ota_round_trip_one_read
    (sender receiver : Handler) (s s' : Shared) (payloads framed : list bytes)
    (st : St) (cb : bytes -> M unit) :
  (forall k d, ONETIMEAUTH_BYTES <= len (sha1_hmac k d)) ->
  cipher_iv (_cryptor sender) = decipher_iv (_cryptor receiver) ->
  _ota_chunk_idx sender = _ota_chunk_idx receiver ->
  ota_idle receiver ->
  0 <= _ota_chunk_idx receiver ->
  _ota_chunk_idx receiver + Z.of_nat (length payloads) <= 4294967296 ->
  ota_gen_all payloads (sender, s) = (Ret framed, st) ->
  _ota_chunk_data (concat framed) cb (receiver, s') =
  cb (concat payloads)
     (set_ota_chunk_idx (_ota_chunk_idx receiver + Z.of_nat (length payloads))
        receiver, s').
Proof.
  intros Hmac Hiv Hidx Hidle Hi Hn Hgen.
  destruct (ota_gen_all_frames _ payloads Hmac sender s framed st Hiv Hgen)
    as (frames & Hfs & Hlen & Hcount & Hev).
  rewrite Hidx in Hev.
  pose proof (ota_bytes_frames (decipher_iv (_cryptor receiver)) frames
                (_ota_chunk_idx receiver) (concat framed) Hi
                ltac:(rewrite Hcount; exact Hn) Hlen Hfs) as Hspec.
  rewrite Hev in Hspec. rewrite <- (ota_idle_of receiver Hidle) in Hspec.
  destruct (ota_chunk_data_run (concat framed) cb receiver s' _ _
              (ota_idle_inv receiver Hidle) Hspec) as [Hrun _].
  destruct (delivered_verified payloads) as (Hd & Hv & Hr).
  rewrite Hrun, loop_result_some by auto.
  rewrite with_ota_idle by exact Hidle.
  rewrite Hd, Hv, Hr, chunk_warnings_0. reflexivity.
Qed.

(** ** The timeout sweep *)

Lemma setitem_nat {A} (l : list A) (i : nat) (x : A) :
  (i < length l)%nat -> setitem l (Z.of_nat i) x = Some (<[i := x]> l).
Proof.
  intros Hi. unfold setitem, index_of.
  assert (H1 : (Z.of_nat i <? 0) = false) by lia.
  assert (H2 : (0 <=? Z.of_nat i) && (Z.of_nat i <? len l) = true)
    by (unfold len; lia).
  rewrite H1, H2. cbn. rewrite Nat2Z.id. reflexivity.
Qed.

Lemma getitem_nat {A} (l : list A) (i : nat) :
  (i < length l)%nat -> getitem l (Z.of_nat i) = l !! i.
Proof.
  intros Hi. unfold getitem, index_of.
  assert (H1 : (Z.of_nat i <? 0) = false) by lia.
  assert (H2 : (0 <=? Z.of_nat i) && (Z.of_nat i <? len l) = true)
    by (unfold len; lia).
  rewrite H1, H2. cbn. rewrite Nat2Z.id. reflexivity.
Qed.

Lemma remove_handler_run (h : Handler) (s : Shared) (i : nat) :
  _handler_to_timeouts s !! h_id h = Some (Z.of_nat i) ->
  (i < length (_timeouts s))%nat ->
  remove_handler (h, s) =
  (Ret tt,
   (h, set_handler_to_timeouts (delete (h_id h) (_handler_to_timeouts s))
         (set_timeouts (<[i := None]> (_timeouts s)) s))).
Proof.
  intros Hq Hi. unfold remove_handler. munfold. rewrite Hq. cbn.
  assert (H0 : (0 <=? Z.of_nat i) = true) by lia.
  rewrite H0, setitem_nat by exact Hi. reflexivity.
Qed.

Lemma destroyed_handler_no_local (h : Handler) :
  _local_sock h = None ->
  set_remote_sock None (set_stage STAGE_DESTROYED h) = destroyed_handler h.
Proof. destruct h; cbn. intros ->. reflexivity. Qed.

Lemma destroyed_handler_no_remote (h : Handler) :
  _remote_sock h = None ->
  set_local_sock None (set_stage STAGE_DESTROYED h) = destroyed_handler h.
Proof. destruct h; cbn. intros ->. reflexivity. Qed.

Lemma destroyed_handler_no_sock (h : Handler) :
  _local_sock h = None -> _remote_sock h = None ->
  set_stage STAGE_DESTROYED h = destroyed_handler h.
Proof. destruct h; cbn. intros -> ->. reflexivity. Qed.

Lemma destroy_run (h : Handler) (s : Shared) (i : nat) :
  _stage h <> STAGE_DESTROYED ->
  (forall sk, _local_sock h = Some sk -> is_Some (_fd_to_handlers s !! fileno sk)) ->
  (forall sk, _remote_sock h = Some sk -> is_Some (_fd_to_handlers s !! fileno sk)) ->
  (forall l rm, _local_sock h = Some l -> _remote_sock h = Some rm ->
     fileno l <> fileno rm) ->
  _handler_to_timeouts s !! h_id h = Some (Z.of_nat i) ->
  (i < length (_timeouts s))%nat ->
  exists s',
    destroy (h, s) = (Ret tt, (destroyed_handler h, s'))
    /\ _timeouts s' = <[i := None]> (_timeouts s)
    /\ _handler_to_timeouts s' = delete (h_id h) (_handler_to_timeouts s)
    /\ _fd_to_handlers s' = without_fds h (_fd_to_handlers s)
    /\ _timeout s' = _timeout s
    /\ _timeout_offset s' = _timeout_offset s.
Proof.
  intros Hst Hl Hr Hne Hq Hi. unfold destroy, without_fds.
  munfold. destruct (decide (_stage h = STAGE_DESTROYED)); [contradiction |].
  cbn.
  destruct (_remote_sock h) as [rm |] eqn:Hrm; cbn.
  - destruct (decide (is_Some (_fd_to_handlers s !! fileno rm))) as [_ | Hn];
      [| exfalso; apply Hn, Hr; reflexivity]. cbn.
    destruct (_local_sock h) as [l |] eqn:Hloc; cbn.
    + destruct (decide (is_Some (delete (fileno rm) (_fd_to_handlers s) !! fileno l)))
        as [_ | Hn].
      2:{ exfalso. apply Hn. rewrite lookup_delete_ne.
          - apply Hl. reflexivity.
          - intros Heq. apply (Hne l rm); auto. }
      cbn. rewrite remove_handler_run with (i := i); [| exact Hq | exact Hi].
      eexists. split; [reflexivity |]. cbn. auto.
    + rewrite remove_handler_run with (i := i); [| exact Hq | exact Hi].
      rewrite (destroyed_handler_no_local h Hloc).
      eexists. split; [reflexivity |]. cbn. auto.
  - destruct (_local_sock h) as [l |] eqn:Hloc; cbn.
    + destruct (decide (is_Some (_fd_to_handlers s !! fileno l))) as [_ | Hn];
        [| exfalso; apply Hn, Hl; reflexivity]. cbn.
      rewrite remove_handler_run with (i := i); [| exact Hq | exact Hi].
      rewrite (destroyed_handler_no_remote h Hrm).
      eexists. split; [reflexivity |]. cbn. auto.
    + rewrite remove_handler_run with (i := i); [| exact Hq | exact Hi].
      rewrite (destroyed_handler_no_sock h Hloc Hrm).
      eexists. split; [reflexivity |]. cbn. auto.
Qed.

Lemma without_fds_lookup_ne (h : Handler) (table : gmap Z positive) (fd : Z) :
  (forall sk, _local_sock h = Some sk -> fileno sk <> fd) ->
  (forall sk, _remote_sock h = Some sk -> fileno sk <> fd) ->
  without_fds h table !! fd = table !! fd.
Proof.
  intros Hl Hr. unfold without_fds.
  destruct (_local_sock h) as [l |], (_remote_sock h) as [rm |];
    rewrite ?lookup_delete_ne by auto; reflexivity.
Qed.

Lemma sweep_expire_step (r : Relay) (i : nat) (hid : positive) (h : Handler) :
  relay_ok r ->
  _timeouts (shared r) !! i = Some (Some hid) ->
  handlers r !! hid = Some h ->
  exists r1,
    on_handler hid (sweep_expire (Z.of_nat i) h) r = (Ret tt, r1)
    /\ handlers r1 = <[hid := destroyed_handler h]> (handlers r)
    /\ _timeouts (shared r1) = <[i := None]> (_timeouts (shared r))
    /\ _handler_to_timeouts (shared r1)
       = delete hid (_handler_to_timeouts (shared r))
    /\ _timeout (shared r1) = _timeout (shared r)
    /\ relay_ok r1.
Proof.
  intros [Hq Hf] Hi Hh.
  destruct (Hq i hid Hi) as (h0 & Hh0 & Hid & Hst & Hmap).
  rewrite Hh in Hh0. injection Hh0 as <-.
  destruct (Hf hid h Hh) as (Hl & Hr & Hne).
  assert (Hlen : (i < length (_timeouts (shared r)))%nat)
    by (apply lookup_lt_is_Some; eauto).
  set (s0 := set_log (log (shared r) ++ [(WARN, MsgTimedOut (_remote_address h))])
               (shared r)).
  destruct (destroy_run h s0 i) as (s' & Hd & Hts & Hm & Hfd & Hto & Hoff); auto.
  { intros sk Hsk. cbn. rewrite (Hl sk Hsk). eauto. }
  { intros sk Hsk. cbn. rewrite (Hr sk Hsk). eauto. }
  { cbn. rewrite Hid. exact Hmap. }
  unfold on_handler, sweep_expire. rewrite Hh.
  rewrite run_bind. cbn [logging modify_s fst snd]. fold s0.
  rewrite run_bind, Hd. rewrite run_bind. cbn [get_s fst snd].
  rewrite run_bind. rewrite Hts, setitem_nat by (rewrite length_insert; exact Hlen).
  cbn. rewrite list_insert_insert_eq.
  eexists. split; [reflexivity |]. cbn.
  rewrite Hm, Hid. cbn.
  split; [reflexivity |]. split; [reflexivity |]. split; [reflexivity |].
  split; [exact Hto |]. split.
  - (* the queue *)
    intros j hid' Hj. cbn in Hj.
    destruct (decide (j = i)) as [-> | Hji].
    { rewrite list_lookup_insert_eq in Hj by exact Hlen. discriminate. }
    rewrite list_lookup_insert_ne in Hj by auto.
    destruct (Hq j hid' Hj) as (h' & Hh' & Hid' & Hst' & Hmap').
    assert (Hne' : hid' <> hid).
    { intros ->. rewrite Hmap in Hmap'. injection Hmap' as Heq. lia. }
    exists h'. cbn. rewrite lookup_insert_ne by auto.
    rewrite Hm, Hid. cbn. rewrite lookup_delete_ne by auto. auto.
  - (* the fd table *)
    intros hid' h' Hh'. cbn in Hh'. cbn.
    destruct (decide (hid' = hid)) as [-> | Hne'].
    { rewrite lookup_insert_eq in Hh'. injection Hh' as <-.
      unfold destroyed_handler. cbn. repeat split; intros; discriminate. }
    rewrite lookup_insert_ne in Hh' by auto.
    destruct (Hf hid' h' Hh') as (Hl' & Hr' & Hne2).
    rewrite Hfd. cbn.
    assert (Hother : forall sk fd,
              _fd_to_handlers (shared r) !! fd = Some hid' ->
              (_local_sock h = Some sk \/ _remote_sock h = Some sk) ->
              fileno sk <> fd).
    { intros sk fd Hfdl [Hs | Hs] Heq; subst fd.
      - rewrite (Hl sk Hs) in Hfdl. congruence.
      - rewrite (Hr sk Hs) in Hfdl. congruence. }
    repeat split.
    + intros sk Hsk. rewrite without_fds_lookup_ne; [apply Hl', Hsk | |];
        intros sk' Hs'; apply (Hother sk' (fileno sk)); auto.
    + intros sk Hsk. rewrite without_fds_lookup_ne; [apply Hr', Hsk | |];
        intros sk' Hs'; apply (Hother sk' (fileno sk)); auto.
    + exact Hne2.
Qed.

Lemma sweep_loop_unfold (fuel : nat) (now : Q) (length pos : Z) (r : Relay) :
  _sweep_timeout_loop (S fuel) now length pos r =
  if pos <? length then
    match getitem (_timeouts (shared r)) pos with
    | None => (Raise IndexError, r)
    | Some None => _sweep_timeout_loop fuel now length (pos + 1) r
    | Some (Some hid) =>
        match handlers r !! hid with
        | None => (Hang, r)
        | Some handler =>
            if fresh now (_timeout (shared r)) handler then (Ret pos, r)
            else
              match on_handler hid (sweep_expire pos handler) r with
              | (Ret _, r) => _sweep_timeout_loop fuel now length (pos + 1) r
              | (Raise e, r) => (Raise e, r)
              | (Hang, r) => (Hang, r)
              end
        end
    end
  else (Ret pos, r).
Proof. reflexivity. Qed.

Lemma swept_none (now : Q) (r : Relay) (pos : nat) :
  ((pos < length (_timeouts (shared r)))%nat ->
   exists hid h,
     _timeouts (shared r) !! pos = Some (Some hid)
     /\ handlers r !! hid = Some h
     /\ fresh now (_timeout (shared r)) h = true) ->
  swept now r r pos pos.
Proof.
  intros Hd. unfold swept. repeat split; auto; intros; lia.
Qed.

Lemma sweep_loop_run (now : Q) (fuel : nat) :
  forall (pos : nat) (r : Relay),
    relay_ok r ->
    (length (_timeouts (shared r)) - pos < fuel)%nat ->
    exists (pos' : nat) (r' : Relay),
      _sweep_timeout_loop fuel now (len (_timeouts (shared r))) (Z.of_nat pos) r
      = (Ret (Z.of_nat pos'), r')
      /\ relay_ok r'
      /\ (pos <= pos')%nat
      /\ ((pos <= length (_timeouts (shared r)))%nat ->
          (pos' <= length (_timeouts (shared r)))%nat)
      /\ swept now r r' pos pos'.
Proof.
  induction fuel as [| fuel IH]; intros pos r Hok Hfuel; [lia |].
  rewrite sweep_loop_unfold.
  destruct (Z.of_nat pos <? len (_timeouts (shared r))) eqn:Hlt.
  2:{ apply Z.ltb_ge in Hlt. unfold len in Hlt.
      exists pos, r. split; [reflexivity |]. split; [exact Hok |].
      split; [lia |]. split; [auto |]. apply swept_none. intros; lia. }
  apply Z.ltb_lt in Hlt. unfold len in Hlt.
  assert (Hpos : (pos < length (_timeouts (shared r)))%nat) by lia.
  rewrite getitem_nat by exact Hpos.
  destruct (lookup_lt_is_Some_2 _ _ Hpos) as [entry Hentry]. rewrite Hentry.
  destruct entry as [hid |].
  - (* a live entry *)
    destruct (proj1 Hok pos hid Hentry) as (h & Hh & Hid & Hst & Hmap).
    rewrite Hh.
    destruct (fresh now (_timeout (shared r)) h) eqn:Hfresh.
    + exists pos, r. split; [reflexivity |]. split; [exact Hok |].
      split; [lia |]. split; [auto |]. apply swept_none. intros _.
      exists hid, h. auto.
    + destruct (sweep_expire_step r pos hid h Hok Hentry Hh)
        as (r1 & Hstep & Hhs & Hts & Hm & Hto & Hok1).
      rewrite Hstep.
      assert (Hlen1 : length (_timeouts (shared r1)) = length (_timeouts (shared r)))
        by (rewrite Hts; apply length_insert).
      destruct (IH (S pos) r1 Hok1) as (pos' & r' & Hrun & Hok' & Hle & Hle' & Hsw);
        [lia |].
      replace (Z.of_nat pos + 1) with (Z.of_nat (S pos)) by lia.
      unfold len in *. rewrite Hlen1 in Hrun, Hle'. rewrite Hrun.
      exists pos', r'. split; [reflexivity |]. split; [exact Hok' |].
      split; [lia |]. split; [intros; apply Hle'; lia |].
      destruct Hsw as (S1 & S2 & S3 & S4 & S5 & S6).
      assert (Hother : forall j hid', j <> pos ->
                _timeouts (shared r) !! j = Some (Some hid') -> hid' <> hid).
      { intros j hid' Hj Hl ->.
        destruct (proj1 Hok j hid Hl) as (_ & _ & _ & _ & Hmap').
        rewrite Hmap in Hmap'. injection Hmap' as Heq. lia. }
      unfold swept. rewrite S1, S2, Hlen1, Hto.
      split; [reflexivity |]. split; [reflexivity |]. split; [| split; [| split]].
      * intros j Hj. destruct (decide (j = pos)) as [-> | Hjp].
        -- split.
           ++ rewrite S4 by lia. rewrite Hts.
              apply list_lookup_insert_eq. exact Hpos.
           ++ intros hid0 h0 H0 Hh0. rewrite Hentry in H0. injection H0 as <-.
              rewrite Hh in Hh0. injection Hh0 as <-.
              split; [exact Hfresh |].
              rewrite S5, Hhs; [apply lookup_insert_eq |].
              intros j Hj' Hl.
              destruct (proj1 Hok1 j hid Hl) as (_ & _ & _ & _ & Hmap1).
              rewrite Hm, lookup_delete_eq in Hmap1. discriminate.
        -- destruct (S3 j ltac:(lia)) as [T1 T2]. split; [exact T1 |].
           intros hid0 h0 H0 Hh0.
           pose proof (Hother j hid0 Hjp H0) as Hne0.
           rewrite <- Hto. apply T2.
           ++ rewrite Hts, list_lookup_insert_ne by auto. exact H0.
           ++ rewrite Hhs, lookup_insert_ne by auto. exact Hh0.
      * intros j Hj. rewrite S4 by lia. rewrite Hts.
        apply list_lookup_insert_ne. lia.
      * intros hid0 Hnl.
        assert (Hne0 : hid0 <> hid).
        { intros ->. apply (Hnl pos); [lia | exact Hentry]. }
        rewrite S5, Hhs; [apply lookup_insert_ne; auto |].
        intros j Hj Hl. rewrite Hts, list_lookup_insert_ne in Hl by lia.
        apply (Hnl j); [lia | exact Hl].
      * intros Hp'. rewrite Hlen1 in S6.
        destruct (S6 Hp') as (hid0 & h0 & H0 & Hh0 & Hf0).
        rewrite Hts, list_lookup_insert_ne in H0 by lia.
        pose proof (Hother pos' hid0 ltac:(lia) H0) as Hne0.
        rewrite Hhs, lookup_insert_ne in Hh0 by auto.
        exists hid0, h0. rewrite <- Hto. auto.
  - (* a tombstone *)
    destruct (IH (S pos) r Hok) as (pos' & r' & Hrun & Hok' & Hle & Hle' & Hsw);
      [lia |].
    replace (Z.of_nat pos + 1) with (Z.of_nat (S pos)) by lia.
    rewrite Hrun. exists pos', r'. split; [reflexivity |]. split; [exact Hok' |].
    split; [lia |]. split; [intros; apply Hle'; lia |].
    destruct Hsw as (S1 & S2 & S3 & S4 & S5 & S6).
    unfold swept. split; [exact S1 |]. split; [exact S2 |].
    split; [| split; [| split]].
    + intros j Hj. destruct (decide (j = pos)) as [-> | Hjp].
      * split; [rewrite S4 by lia; exact Hentry |].
        intros hid0 h0 H0. rewrite Hentry in H0. discriminate.
      * apply S3. lia.
    + intros j Hj. apply S4. lia.
    + intros hid0 Hnl. apply S5. intros j Hj. apply Hnl. lia.
    + exact S6.
Qed.

Lemma fresh_lt (now : Q) (timeout : Z) (h : Handler) :
  fresh now timeout h = true
  <-> (now - inject_Z (last_activity h) < inject_Z timeout)%Q.
Proof.
  unfold fresh, Qlt_bool. rewrite negb_true_iff, <- not_true_iff_false.
  rewrite Qle_bool_iff. split; [apply Qnot_le_lt | apply Qlt_not_le].
Qed.

Lemma fresh_ge (now : Q) (timeout : Z) (h : Handler) :
  fresh now timeout h = false
  <-> (inject_Z timeout <= now - inject_Z (last_activity h))%Q.
Proof.
  unfold fresh, Qlt_bool. rewrite negb_false_iff. apply Qle_bool_iff.
Qed.

Lemma sweep_timeout_unfold (r : Relay) :
  _timeouts (shared r) <> [] ->
  _sweep_timeout r =
  let s := set_log (log (shared r) ++ [(VERBOSE, Msg "sweeping timeouts")]) (shared r) in
  let now := time_time (wire s) in
  let length := len (_timeouts s) in
  let pos := _timeout_offset s in
  match
    _sweep_timeout_loop (S (Z.to_nat (length - pos))) now length pos
                        (mkRelay s (handlers r))
  with
  | (Ret pos, r) =>
      let s := shared r in
      if compacts length pos then
        let s := set_timeouts (slice_from (_timeouts s) pos) s in
        let s :=
          set_handler_to_timeouts
            ((fun index => index - pos) <$> _handler_to_timeouts s) s in
        (Ret tt, mkRelay (set_timeout_offset 0 s) (handlers r))
      else (Ret tt, mkRelay (set_timeout_offset pos s) (handlers r))
  | (Raise e, r) => (Raise e, r)
  | (Hang, r) => (Hang, r)
  end.
Proof.
  intros Hne. unfold _sweep_timeout.
  destruct (_timeouts (shared r)) eqn:Hts; [congruence | reflexivity].
Qed.

Lemma queue_slot_unique (r : Relay) (i j : nat) (hid : positive) :
  relay_ok r ->
  _timeouts (shared r) !! i = Some (Some hid) ->
  _timeouts (shared r) !! j = Some (Some hid) ->
  i = j.
Proof.
  intros [Hq _] Hi Hj.
  destruct (Hq i hid Hi) as (_ & _ & _ & _ & Mi).
  destruct (Hq j hid Hj) as (_ & _ & _ & _ & Mj).
  rewrite Mi in Mj. injection Mj as Heq. lia.
Qed.

(** C3 (amended).  A sweep that gets as far as a live entry of the timeout
    queue leaves the handler alone, with every later entry, and stops there
    when the handler's idle time [now - last_activity] is strictly less than
    the timeout; it destroys the handler and takes it out of the queue (its
    slot is a tombstone, or is compacted away) when the idle time is greater
    than or equal to the timeout, so also when it is exactly the timeout. *)
Theorem sweep_destroys_from_timeout_on
    (r : Relay) (p : nat) (hid : positive) (h : Handler) :
  relay_ok r ->
  0 <= _timeout_offset (shared r) <= Z.of_nat p ->
  _timeouts (shared r) !! p = Some (Some hid) ->
  handlers r !! hid = Some h ->
  sweep_reaches r (time_time (wire (shared r))) p ->
  let now := time_time (wire (shared r)) in
  let idle := (now - inject_Z (last_activity h))%Q in
  let timeout := inject_Z (_timeout (shared r)) in
  exists r',
    _sweep_timeout r = (Ret tt, r')
    /\ ((idle < timeout)%Q ->
        let shift :=
          if compacts (len (_timeouts (shared r))) (Z.of_nat p) then p else 0%nat in
        _timeout_offset (shared r') = Z.of_nat (p - shift)
        /\ (forall j, (p <= j)%nat ->
              _timeouts (shared r') !! (j - shift)%nat = _timeouts (shared r) !! j)
        /\ (forall j hid' h', (p <= j)%nat ->
              _timeouts (shared r) !! j = Some (Some hid') ->
              handlers r !! hid' = Some h' ->
              handlers r' !! hid' = Some h'))
    /\ ((timeout <= idle)%Q ->
        handlers r' !! hid = Some (destroyed_handler h)
        /\ (forall j, _timeouts (shared r') !! j <> Some (Some hid))
        /\ (len (_timeouts (shared r)) <= TIMEOUTS_CLEAN_SIZE ->
            _timeouts (shared r') !! p = Some None)).
Proof.
  intros Hok Hoff Hp Hh Hreach now idle timeout. subst idle timeout now.
  assert (Hplen : (p < length (_timeouts (shared r)))%nat)
    by (apply lookup_lt_is_Some_1; eauto).
  rewrite sweep_timeout_unfold by (intros Hnil; rewrite Hnil in Hp; discriminate).
  set (r0 := mkRelay (set_log (log (shared r) ++ [(VERBOSE, Msg "sweeping timeouts")])
                              (shared r)) (handlers r)).
  assert (Hok0 : relay_ok r0) by exact Hok.
  set (posn := Z.to_nat (_timeout_offset (shared r))).
  destruct (sweep_loop_run (time_time (wire (shared r)))
              (S (Z.to_nat (len (_timeouts (shared r)) - _timeout_offset (shared r))))
              posn r0 Hok0)
    as (pos' & r1 & Hrun & Hok1 & Hle & Hle' & Hsw).
  { subst r0 posn. cbn. unfold len. lia. }
  assert (Hposn : Z.of_nat posn = _timeout_offset (shared r))
    by (subst posn; apply Z2Nat.id; lia).
  rewrite Hposn in Hrun.
  cbn zeta. 
  change (_timeouts (set_log (log (shared r) ++ [(VERBOSE, Msg "sweeping timeouts")])
                             (shared r))) with (_timeouts (shared r)).
  change (_timeout_offset (set_log (log (shared r) ++ [(VERBOSE, Msg "sweeping timeouts")])
                             (shared r))) with (_timeout_offset (shared r)).
  change (wire (set_log (log (shared r) ++ [(VERBOSE, Msg "sweeping timeouts")])
                             (shared r))) with (wire (shared r)).
  fold r0.
  change (_timeouts (shared r0)) with (_timeouts (shared r)) in Hrun.
  rewrite Hrun.
  destruct Hsw as (S1 & S2 & S3 & S4 & S5 & S6).
  change (_timeouts (shared r0)) with (_timeouts (shared r)) in *.
  change (_timeout (shared r0)) with (_timeout (shared r)) in *.
  change (handlers r0) with (handlers r) in *.
  assert (Hposle : (posn <= p)%nat) by lia.
  specialize (Hle' ltac:(lia)).
  (* the final state, whether or not the queue is compacted *)
  exists (if compacts (len (_timeouts (shared r))) (Z.of_nat pos') then
            mkRelay
              (set_timeout_offset 0
                 (set_handler_to_timeouts
                    ((fun index => index - Z.of_nat pos')
                       <$> _handler_to_timeouts
                             (set_timeouts
                                (slice_from (_timeouts (shared r1)) (Z.of_nat pos'))
                                (shared r1)))
                    (set_timeouts
                       (slice_from (_timeouts (shared r1)) (Z.of_nat pos'))
                       (shared r1))))
              (handlers r1)
          else mkRelay (set_timeout_offset (Z.of_nat pos') (shared r1)) (handlers r1)).
  split; [destruct (compacts _ _); reflexivity |]. split.
  - (* still fresh: the loop stops at [p] *)
    intros Hidle. apply fresh_lt in Hidle.
    assert (Hpos' : pos' = p).
    { destruct (Nat.lt_trichotomy pos' p) as [Hl | [He | Hg]]; [| exact He |].
      - destruct (S6 ltac:(lia)) as (hid0 & h0 & H0 & Hh0 & Hf0).
        rewrite (Hreach pos' hid0 h0 ltac:(lia) Hl H0 Hh0) in Hf0. discriminate.
      - destruct (S3 p ltac:(lia)) as [_ T]. destruct (T hid h Hp Hh) as [Hf _].
        rewrite Hidle in Hf. discriminate. }
    subst pos'.
    assert (Hkeep : forall j hid' h', (p <= j)%nat ->
              _timeouts (shared r) !! j = Some (Some hid') ->
              handlers r !! hid' = Some h' ->
              handlers r1 !! hid' = Some h').
    { intros j hid' h' Hj Hl Hh'. rewrite S5; [exact Hh' |].
      intros i Hi Hli. pose proof (queue_slot_unique r i j hid' Hok Hli Hl). lia. }
    destruct (compacts (len (_timeouts (shared r))) (Z.of_nat p)) eqn:Hc; cbn.
    + split; [f_equal; lia |]. split; [| exact Hkeep].
      intros j Hj. rewrite slice_from_drop by lia. rewrite Nat2Z.id, lookup_drop.
      replace (p + (j - p))%nat with j by lia. apply S4. lia.
    + split; [f_equal; lia |]. split; [| exact Hkeep].
      intros j Hj. rewrite Nat.sub_0_r. apply S4. lia.
  - (* expired: the loop goes past [p] *)
    intros Hidle. apply fresh_ge in Hidle.
    assert (Hpos' : (p < pos')%nat).
    { destruct (Nat.lt_trichotomy pos' p) as [Hl | [He | Hg]]; [| | exact Hg].
      - destruct (S6 ltac:(lia)) as (hid0 & h0 & H0 & Hh0 & Hf0).
        rewrite (Hreach pos' hid0 h0 ltac:(lia) Hl H0 Hh0) in Hf0. discriminate.
      - subst pos'. destruct (S6 Hplen) as (hid0 & h0 & H0 & Hh0 & Hf0).
        rewrite Hp in H0. injection H0 as <-. rewrite Hh in Hh0. injection Hh0 as <-.
        rewrite Hidle in Hf0. discriminate. }
    destruct (S3 p ltac:(lia)) as [Tp T]. destruct (T hid h Hp Hh) as [_ Hd].
    assert (Hgone : forall j, _timeouts (shared r1) !! j <> Some (Some hid)).
    { intros j Hj. destruct (decide (posn <= j < pos')%nat) as [Hin | Hout].
      - destruct (S3 j Hin) as [Tj _]. rewrite Tj in Hj. discriminate.
      - rewrite S4 in Hj by exact Hout.
        pose proof (queue_slot_unique r j p hid Hok Hj Hp). lia. }
    destruct (compacts (len (_timeouts (shared r))) (Z.of_nat pos')) eqn:Hc; cbn.
    + split; [exact Hd |]. split.
      * intros j. rewrite slice_from_drop by lia. rewrite Nat2Z.id, lookup_drop.
        apply Hgone.
      * intros Hsmall. unfold compacts in Hc. apply andb_true_iff in Hc.
        destruct Hc as [Hc _]. apply Z.ltb_lt in Hc. unfold len in Hsmall. lia.
    + split; [exact Hd |]. split; [exact Hgone |]. intros _. exact Tp.
Qed.

(** * More of the relay: the timeout queue as a whole *)

Lemma relay_inv_same (r r' : Relay) :
  _timeouts (shared r') = _timeouts (shared r) ->
  _handler_to_timeouts (shared r') = _handler_to_timeouts (shared r) ->
  _fd_to_handlers (shared r') = _fd_to_handlers (shared r) ->
  _timeout_offset (shared r') = _timeout_offset (shared r) ->
  handlers r' = handlers r ->
  relay_inv r -> relay_inv r'.
Proof.
  intros Hts Hm Hfd Hoff Hh.
  unfold relay_inv, relay_ok, queue_ok, fds_ok, index_ok, offset_ok.
  rewrite Hts, Hm, Hfd, Hoff, Hh. auto.
Qed.

Lemma after_stat_fields (data_len : Z) (s : Shared) :
  _timeouts (after_stat data_len s) = _timeouts s
  /\ _handler_to_timeouts (after_stat data_len s) = _handler_to_timeouts s
  /\ _fd_to_handlers (after_stat data_len s) = _fd_to_handlers s
  /\ _timeout_offset (after_stat data_len s) = _timeout_offset s.
Proof. unfold after_stat. destruct (_ && _); auto. Qed.

Lemma update_activity_run (h : Handler) (s : Shared) (data_len : Z) :
  (forall index, _handler_to_timeouts s !! h_id h = Some index ->
     0 <= index < len (_timeouts s)) ->
  let s1 := after_stat data_len s in
  let now := int_of (time_time (wire s1)) in
  update_activity data_len (h, s) =
  (Ret tt,
   if now - last_activity h <? TIMEOUT_PRECISION then (h, s1)
   else
     (set_last_activity now h,
      set_handler_to_timeouts
        (<[h_id h := len (_timeouts s)]> (_handler_to_timeouts s))
        (set_timeouts (tombstoned (h_id h) s ++ [Some (h_id h)]) s1))).
Proof.
  intros Hq. cbn zeta.
  assert (Hslot : _handler_to_timeouts s !! h_id h = None
                  \/ exists i : nat,
                       _handler_to_timeouts s !! h_id h = Some (Z.of_nat i)
                       /\ (i < length (_timeouts s))%nat).
  { destruct (_handler_to_timeouts s !! h_id h) as [index |]; [| auto].
    right. destruct (Hq index eq_refl) as [H0 H1]. exists (Z.to_nat index).
    unfold len in H1. rewrite Z2Nat.id by exact H0. split; [reflexivity | lia]. }
  clear Hq. unfold update_activity, after_stat, tombstoned. munfold.
  destruct Hslot as [Hm | (i & Hm & Hi)]; rewrite Hm; cbn.
  - destruct (negb (data_len =? 0) && _stat_callback s); cbn;
      (destruct (_ <? TIMEOUT_PRECISION); [reflexivity |]);
      cbn; rewrite ?Hm; reflexivity.
  - assert (Hz : (0 <=? Z.of_nat i) = true) by lia.
    rewrite Hz, Nat2Z.id.
    destruct (negb (data_len =? 0) && _stat_callback s); cbn;
      (destruct (_ <? TIMEOUT_PRECISION); [reflexivity |]); cbn;
      rewrite ?Hm; cbn; rewrite ?Hz;
      rewrite setitem_nat by exact Hi; cbn;
      unfold len; rewrite length_insert; reflexivity.
Qed.

Lemma tombstoned_lookup (r : Relay) (hid : positive) :
  relay_ok r -> index_ok r ->
  length (tombstoned hid (shared r)) = length (_timeouts (shared r))
  /\ forall j : nat,
       tombstoned hid (shared r) !! j =
       if decide (_timeouts (shared r) !! j = Some (Some hid)) then Some None
       else _timeouts (shared r) !! j.
Proof.
  intros Hok Hix. unfold tombstoned.
  destruct (_handler_to_timeouts (shared r) !! hid) as [index |] eqn:Hm.
  - destruct (Hix hid index Hm) as (i & -> & Hi).
    assert (Hz : (0 <=? Z.of_nat i) = true) by (apply Z.leb_le; lia).
    rewrite Hz, Nat2Z.id.
    split; [apply length_insert |]. intros j.
    destruct (decide (j = i)) as [-> | Hji].
    + rewrite list_lookup_insert_eq by (apply lookup_lt_is_Some; eauto).
      destruct (decide _); [reflexivity | contradiction].
    + rewrite list_lookup_insert_ne by auto.
      destruct (decide _) as [Hj | _]; [| reflexivity].
      pose proof (queue_slot_unique r j i hid Hok Hj Hi). contradiction.
  - split; [reflexivity |]. intros j.
    destruct (decide _) as [Hj | _]; [| reflexivity].
    destruct (proj1 Hok j hid Hj) as (_ & _ & _ & _ & Hm'). congruence.
Qed.

Lemma update_activity_on_relay
    (r : Relay) (hid : positive) (h : Handler) (data_len : Z) :
  relay_inv r ->
  handlers r !! hid = Some h ->
  h_id h = hid ->
  _stage h <> STAGE_DESTROYED ->
  let s1 := after_stat data_len (shared r) in
  let now := int_of (time_time (wire s1)) in
  exists r',
    on_handler hid (update_activity data_len) r = (Ret tt, r')
    /\ relay_inv r'
    /\ (now - last_activity h < TIMEOUT_PRECISION ->
        r' = mkRelay s1 (handlers r))
    /\ (TIMEOUT_PRECISION <= now - last_activity h ->
        handlers r' = <[hid := set_last_activity now h]> (handlers r)
        /\ _timeouts (shared r') = tombstoned hid (shared r) ++ [Some hid]
        /\ _handler_to_timeouts (shared r') !! hid
           = Some (len (_timeouts (shared r)))).
Proof.
  intros (Hok & Hix & Hoff) Hh Hid Hst. cbn zeta.
  destruct (after_stat_fields data_len (shared r)) as (A1 & A2 & A3 & A4).
  unfold on_handler. rewrite Hh.
  rewrite update_activity_run.
  2:{ rewrite Hid. intros index Hm. destruct (Hix hid index Hm) as (i & -> & Hi).
      apply lookup_lt_Some in Hi. unfold len. lia. }
  rewrite Hid.
  destruct (_ <? TIMEOUT_PRECISION) eqn:Hp.
  - (* active a moment ago *)
    rewrite insert_id by exact Hh.
    eexists. split; [reflexivity |]. split; [| split].
    + apply (relay_inv_same r);
        [exact A1 | exact A2 | exact A3 | exact A4 | reflexivity
        | exact (conj Hok (conj Hix Hoff))].
    + reflexivity.
    + intros Hge. apply Z.ltb_lt in Hp. lia.
  - (* to the tail of the queue *)
    destruct (tombstoned_lookup r hid Hok Hix) as [Tlen Tlook].
    set (now := int_of (time_time (wire (after_stat data_len (shared r))))).
    eexists. split; [reflexivity |]. split; [| split].
    2:{ intros Hlt. apply Z.ltb_ge in Hp. fold now in Hlt. lia. }
    2:{ intros _. cbn. split; [reflexivity |]. split; [reflexivity |].
        apply lookup_insert_eq. }
    destruct Hok as [Hq Hf]. unfold relay_inv, relay_ok. cbn.
    split; [split |]; [| | split].
    + (* the queue *)
      intros j hid' Hj. unfold queue_ok in Hq. cbn in Hj.
      destruct (decide (j < length (tombstoned hid (shared r)))%nat) as [Hlt | Hge].
      * rewrite lookup_app_l in Hj by exact Hlt. rewrite Tlook in Hj.
        destruct (decide _) as [_ | Hne]; [discriminate |].
        assert (Hne' : hid' <> hid) by (intros ->; contradiction).
        destruct (Hq j hid' Hj) as (h0 & Hh0 & Hid0 & Hst0 & Hm0).
        exists h0. cbn. rewrite ?A2, !lookup_insert_ne by auto. auto.
      * rewrite lookup_app_r in Hj by lia.
        destruct (j - length (tombstoned hid (shared r)))%nat as [| k] eqn:Hk;
          [| destruct k; discriminate].
        injection Hj as <-. eexists. cbn. rewrite ?A2, !lookup_insert_eq.
        split; [reflexivity |]. split; [exact Hid |]. split; [exact Hst |].
        unfold len. f_equal. lia.
    + (* the fd table *)
      intros hid' h' Hh'. cbn in Hh' |- *. rewrite ?A3.
      destruct (decide (hid' = hid)) as [-> | Hne].
      * rewrite lookup_insert_eq in Hh'. injection Hh' as <-.
        exact (Hf hid h Hh).
      * rewrite lookup_insert_ne in Hh' by auto. exact (Hf hid' h' Hh').
    + (* the index table *)
      intros hid' index Hm. cbn in Hm |- *. rewrite ?A2 in Hm.
      destruct (decide (hid' = hid)) as [-> | Hne].
      * rewrite lookup_insert_eq in Hm. injection Hm as <-.
        exists (length (_timeouts (shared r))). split; [reflexivity |].
        rewrite lookup_app_r by lia. rewrite Tlen, Nat.sub_diag. reflexivity.
      * rewrite lookup_insert_ne in Hm by auto.
        destruct (Hix hid' index Hm) as (i & -> & Hi). exists i.
        split; [reflexivity |].
        rewrite lookup_app_l by (rewrite Tlen; apply lookup_lt_is_Some; eauto).
        rewrite Tlook. destruct (decide _) as [Heq | _]; [| exact Hi].
        congruence.
    + (* the offset *)
      destruct Hoff as [Hb Hnone]. unfold offset_ok. cbn. rewrite ?A4. split.
      * unfold len in *. rewrite length_app, Tlen. cbn. lia.
      * intros i Hi. specialize (Hnone i Hi).
        rewrite lookup_app_l by (rewrite Tlen; apply lookup_lt_is_Some; eauto).
        rewrite Tlook. destruct (decide _) as [Heq | _]; [congruence | exact Hnone].
Qed.

(** X1.  [TCPRelay.update_activity] for a handler of a consistent relay
    returns normally and keeps the relay consistent.  When the handler was
    active less than [TIMEOUT_PRECISION] seconds ago nothing changes but the
    statistics call; otherwise the handler's old slot becomes a tombstone,
    the handler goes to the tail of the queue with the present time as its
    last activity, and the index table names the new slot. *)
Theorem update_activity_moves_to_tail
    (r : Relay) (hid : positive) (h : Handler) (data_len : Z) :
  relay_inv r ->
  handlers r !! hid = Some h ->
  h_id h = hid ->
  _stage h <> STAGE_DESTROYED ->
  let s1 := after_stat data_len (shared r) in
  let now := int_of (time_time (wire s1)) in
  exists r',
    on_handler hid (update_activity data_len) r = (Ret tt, r')
    /\ relay_inv r'
    /\ (now - last_activity h < TIMEOUT_PRECISION ->
        r' = mkRelay s1 (handlers r))
    /\ (TIMEOUT_PRECISION <= now - last_activity h ->
        handlers r' = <[hid := set_last_activity now h]> (handlers r)
        /\ _timeouts (shared r') = tombstoned hid (shared r) ++ [Some hid]
        /\ _handler_to_timeouts (shared r') !! hid
           = Some (len (_timeouts (shared r)))).
Proof. exact (update_activity_on_relay r hid h data_len). Qed.

(** X2.  [TCPRelay.update_activity] keeps the queue in the order of last
    activity, as long as the clock is not behind the last activity of any
    handler of the relay. *)
Theorem update_activity_keeps_order
    (r : Relay) (hid : positive) (h : Handler) (data_len : Z) :
  relay_inv r ->
  queue_sorted r ->
  handlers r !! hid = Some h ->
  h_id h = hid ->
  _stage h <> STAGE_DESTROYED ->
  (forall hid' h', handlers r !! hid' = Some h' ->
     last_activity h'
     <= int_of (time_time (wire (after_stat data_len (shared r))))) ->
  queue_sorted (snd (on_handler hid (update_activity data_len) r)).
Proof.
  intros Hinv Hsorted Hh Hid Hst Hclock.
  destruct (update_activity_on_relay r hid h data_len Hinv Hh Hid Hst)
    as (r' & -> & _ & Hsame & Hmoved).
  cbn [snd]. destruct Hinv as (Hok & Hix & _).
  set (now := int_of (time_time (wire (after_stat data_len (shared r))))) in *.
  destruct (Z_lt_ge_dec (now - last_activity h) TIMEOUT_PRECISION) as [Hlt | Hge].
  { rewrite (Hsame Hlt). intros i j hi hj a b Hij Hi Hj Ha Hb. cbn in *.
    destruct (after_stat_fields data_len (shared r)) as (A1 & _).
    rewrite A1 in Hi, Hj. exact (Hsorted i j hi hj a b Hij Hi Hj Ha Hb). }
  destruct (Hmoved ltac:(lia)) as (Hhs & Hts & _).
  destruct (tombstoned_lookup r hid Hok Hix) as [Tlen Tlook].
  assert (Hold : forall i hid' a,
            (i < length (tombstoned hid (shared r)))%nat ->
            _timeouts (shared r') !! i = Some (Some hid') ->
            handlers r' !! hid' = Some a ->
            _timeouts (shared r) !! i = Some (Some hid')
            /\ handlers r !! hid' = Some a).
  { intros i hid' a Hi Hl Ha. rewrite Hts, lookup_app_l, Tlook in Hl by exact Hi.
    destruct (decide _) as [_ | Hne]; [discriminate |].
    assert (Hne' : hid' <> hid) by (intros ->; contradiction).
    rewrite Hhs, lookup_insert_ne in Ha by auto. auto. }
  intros i j hi hj a b Hij Hi Hj Ha Hb.
  destruct (decide (j < length (tombstoned hid (shared r)))%nat) as [Hjl | Hjr].
  - destruct (Hold i hi a ltac:(lia) Hi Ha) as [Hi' Ha'].
    destruct (Hold j hj b Hjl Hj Hb) as [Hj' Hb'].
    exact (Hsorted i j hi hj a b Hij Hi' Hj' Ha' Hb').
  - assert (Hjhid : hj = hid).
    { rewrite Hts, lookup_app_r in Hj by lia.
      destruct (j - length (tombstoned hid (shared r)))%nat as [| k];
        [| destruct k; discriminate]. injection Hj as <-. reflexivity. }
    subst hj. rewrite Hhs, lookup_insert_eq in Hb. injection Hb as <-. cbn.
    destruct (decide (i < length (tombstoned hid (shared r)))%nat) as [Hil | Hir].
    + destruct (Hold i hi a Hil Hi Ha) as [_ Ha']. exact (Hclock hi a Ha').
    + assert (Hihid : hi = hid).
      { rewrite Hts, lookup_app_r in Hi by lia.
        destruct (i - length (tombstoned hid (shared r)))%nat as [| k];
          [| destruct k; discriminate]. injection Hi as <-. reflexivity. }
      subst hi. rewrite Hhs, lookup_insert_eq in Ha. injection Ha as <-. cbn. lia.
Qed.

Lemma sweep_expire_keeps_index (r r1 : Relay) (i : nat) (hid : positive) :
  index_ok r ->
  _timeouts (shared r) !! i = Some (Some hid) ->
  _timeouts (shared r1) = <[i := None]> (_timeouts (shared r)) ->
  _handler_to_timeouts (shared r1) = delete hid (_handler_to_timeouts (shared r)) ->
  index_ok r1.
Proof.
  intros Hix Hi Hts Hm hid' index Hl. rewrite Hm in Hl.
  destruct (decide (hid' = hid)) as [-> | Hne].
  - rewrite lookup_delete_eq in Hl. discriminate.
  - rewrite lookup_delete_ne in Hl by auto.
    destruct (Hix hid' index Hl) as (j & -> & Hj). exists j.
    split; [reflexivity |]. rewrite Hts, list_lookup_insert_ne; [exact Hj |].
    intros <-. congruence.
Qed.

Lemma sweep_loop_keeps_index (now : Q) (fuel : nat) :
  forall (pos : nat) (r : Relay) (n pos' : Z) (r' : Relay),
    relay_ok r -> index_ok r ->
    n = len (_timeouts (shared r)) ->
    _sweep_timeout_loop fuel now n (Z.of_nat pos) r = (Ret pos', r') ->
    index_ok r'.
Proof.
  induction fuel as [| fuel IH]; intros pos r n pos' r' Hok Hix Hn Hrun;
    [discriminate Hrun |].
  rewrite sweep_loop_unfold in Hrun.
  destruct (Z.of_nat pos <? n) eqn:Hlt; [| injection Hrun as _ <-; exact Hix].
  apply Z.ltb_lt in Hlt. subst n. unfold len in Hlt.
  assert (Hpos : (pos < length (_timeouts (shared r)))%nat) by lia.
  rewrite getitem_nat in Hrun by exact Hpos.
  destruct (lookup_lt_is_Some_2 _ _ Hpos) as [entry Hentry].
  rewrite Hentry in Hrun.
  replace (Z.of_nat pos + 1) with (Z.of_nat (S pos)) in Hrun by lia.
  destruct entry as [hid |]; [| exact (IH _ _ _ _ _ Hok Hix eq_refl Hrun)].
  destruct (proj1 Hok pos hid Hentry) as (h & Hh & _).
  rewrite Hh in Hrun.
  destruct (fresh now (_timeout (shared r)) h);
    [injection Hrun as _ <-; exact Hix |].
  destruct (sweep_expire_step r pos hid h Hok Hentry Hh)
    as (r1 & Hstep & _ & Hts & Hm & _ & Hok1).
  rewrite Hstep in Hrun.
  apply (IH (S pos) r1 (len (_timeouts (shared r))) pos' r' Hok1);
    [| | exact Hrun].
  - exact (sweep_expire_keeps_index r r1 pos hid Hix Hentry Hts Hm).
  - unfold len. rewrite Hts, length_insert. reflexivity.
Qed.

Lemma sweep_timeout_run (r : Relay) :
  relay_ok r -> index_ok r ->
  0 <= _timeout_offset (shared r) ->
  _timeouts (shared r) <> [] ->
  let now := time_time (wire (shared r)) in
  let start := Z.to_nat (_timeout_offset (shared r)) in
  exists (pos' : nat) (r1 : Relay),
    _sweep_timeout r
    = (Ret tt, sweep_finish (len (_timeouts (shared r))) (Z.of_nat pos') r1)
    /\ relay_ok r1 /\ index_ok r1
    /\ (start <= pos')%nat
    /\ ((start <= length (_timeouts (shared r)))%nat ->
        (pos' <= length (_timeouts (shared r)))%nat)
    /\ swept now r r1 start pos'.
Proof.
  intros Hok Hix Hoff Hne. cbn zeta.
  rewrite sweep_timeout_unfold by exact Hne.
  set (r0 := mkRelay (set_log (log (shared r) ++ [(VERBOSE, Msg "sweeping timeouts")])
                              (shared r)) (handlers r)).
  assert (Hok0 : relay_ok r0) by exact Hok.
  assert (Hix0 : index_ok r0) by exact Hix.
  set (start := Z.to_nat (_timeout_offset (shared r))).
  destruct (sweep_loop_run (time_time (wire (shared r)))
              (S (Z.to_nat (len (_timeouts (shared r)) - _timeout_offset (shared r))))
              start r0 Hok0)
    as (pos' & r1 & Hrun & Hok1 & Hle & Hle' & Hsw).
  { subst r0 start. cbn. unfold len. lia. }
  assert (Hstart : Z.of_nat start = _timeout_offset (shared r))
    by (subst start; apply Z2Nat.id; lia).
  rewrite Hstart in Hrun.
  pose proof (sweep_loop_keeps_index _ _ start r0 _ _ r1 Hok0 Hix0 eq_refl
                ltac:(rewrite Hstart; exact Hrun)) as Hix1.
  cbn zeta.
  change (_timeouts (set_log (log (shared r) ++ [(VERBOSE, Msg "sweeping timeouts")])
                             (shared r))) with (_timeouts (shared r)).
  change (_timeout_offset (set_log (log (shared r) ++ [(VERBOSE, Msg "sweeping timeouts")])
                             (shared r))) with (_timeout_offset (shared r)).
  change (wire (set_log (log (shared r) ++ [(VERBOSE, Msg "sweeping timeouts")])
                             (shared r))) with (wire (shared r)).
  fold r0.
  change (_timeouts (shared r0)) with (_timeouts (shared r)) in Hrun.
  rewrite Hrun.
  exists pos', r1.
  split; [unfold sweep_finish; destruct (compacts _ _); reflexivity |].
  split; [exact Hok1 |]. split; [exact Hix1 |]. split; [exact Hle |].
  split; [exact Hle' | exact Hsw].
Qed.

Lemma sweep_finish_handlers (n pos : Z) (r : Relay) :
  handlers (sweep_finish n pos r) = handlers r
  /\ _timeout (shared (sweep_finish n pos r)) = _timeout (shared r).
Proof. unfold sweep_finish. destruct (compacts n pos); split; reflexivity. Qed.

Lemma sweep_finish_queue (n : Z) (pos : nat) (r : Relay) :
  exists shift : nat,
    (shift <= pos)%nat
    /\ forall i, _timeouts (shared (sweep_finish n (Z.of_nat pos) r)) !! i
                 = _timeouts (shared r) !! (shift + i)%nat.
Proof.
  unfold sweep_finish. destruct (compacts n (Z.of_nat pos)).
  - exists pos. split; [lia |]. intros i. cbn.
    rewrite slice_from_drop by lia. rewrite Nat2Z.id. apply lookup_drop.
  - exists 0%nat. split; [lia |]. intros i. reflexivity.
Qed.

Lemma sweep_finish_inv (r : Relay) (n : Z) (pos : nat) :
  relay_ok r -> index_ok r ->
  (pos <= length (_timeouts (shared r)))%nat ->
  (forall i, (i < pos)%nat -> _timeouts (shared r) !! i = Some None) ->
  relay_inv (sweep_finish n (Z.of_nat pos) r).
Proof.
  intros [Hq Hf] Hix Hlen Hnone. unfold sweep_finish.
  destruct (compacts n (Z.of_nat pos)).
  - (* the queue is compacted *)
    split; [split |]; [| | split].
    + intros i hid Hi. cbn in Hi |- *.
      rewrite slice_from_drop in Hi by lia. rewrite Nat2Z.id, lookup_drop in Hi.
      destruct (Hq _ hid Hi) as (h & Hh & Hid & Hst & Hm).
      exists h. split; [exact Hh |]. split; [exact Hid |]. split; [exact Hst |].
      rewrite lookup_fmap, Hm. cbn. f_equal. lia.
    + exact Hf.
    + intros hid index Hm. cbn in Hm |- *.
      rewrite lookup_fmap in Hm.
      destruct (_handler_to_timeouts (shared r) !! hid) as [old |] eqn:Hold;
        [| discriminate]. cbn in Hm. injection Hm as <-.
      destruct (Hix hid old Hold) as (j & -> & Hj).
      assert (Hge : (pos <= j)%nat).
      { destruct (decide (pos <= j)%nat) as [? | Hlt]; [assumption |].
        rewrite Hnone in Hj by lia. discriminate. }
      exists (j - pos)%nat. split; [lia |].
      rewrite slice_from_drop by lia. rewrite Nat2Z.id, lookup_drop.
      replace (pos + (j - pos))%nat with j by lia. exact Hj.
    + split; cbn; [unfold len; lia | intros i Hi; lia].
  - (* the queue stays *)
    split; [split |]; [exact Hq | exact Hf |]. split; [exact Hix |].
    split; cbn; [unfold len; lia |]. intros i Hi. apply Hnone. lia.
Qed.

Lemma sweep_timeout_on_relay (r : Relay) :
  relay_inv r ->
  exists r',
    _sweep_timeout r = (Ret tt, r')
    /\ relay_inv r'
    /\ (forall hid h,
          handlers r !! hid = Some h ->
          kept_or_expired (time_time (wire (shared r))) (_timeout (shared r)) h
            (handlers r' !! hid))
    /\ (forall hid, handlers r !! hid = None -> handlers r' !! hid = None).
Proof.
  intros (Hok & Hix & Hoff).
  destruct (decide (_timeouts (shared r) = [])) as [Hnil | Hne].
  { exists r. unfold _sweep_timeout. rewrite Hnil.
    split; [reflexivity |]. split; [exact (conj Hok (conj Hix Hoff)) |].
    split; [intros hid h Hh; left; exact Hh | auto]. }
  destruct Hoff as [[Hoff0 Hofflen] Hnone].
  destruct (sweep_timeout_run r Hok Hix Hoff0 Hne)
    as (pos' & r1 & Hrun & Hok1 & Hix1 & Hle & Hle' & Hsw).
  destruct Hsw as (S1 & S2 & S3 & S4 & S5 & S6).
  set (start := Z.to_nat (_timeout_offset (shared r))) in *.
  unfold len in Hofflen.
  assert (Hstart : (start <= length (_timeouts (shared r)))%nat) by lia.
  specialize (Hle' Hstart).
  exists (sweep_finish (len (_timeouts (shared r))) (Z.of_nat pos') r1).
  split; [exact Hrun |].
  destruct (sweep_finish_handlers (len (_timeouts (shared r))) (Z.of_nat pos') r1)
    as [-> _].
  split; [| split].
  - apply sweep_finish_inv; [exact Hok1 | exact Hix1 | lia |].
    intros i Hi. destruct (decide (start <= i)%nat) as [Hin | Hout].
    + exact (proj1 (S3 i ltac:(lia))).
    + rewrite S4 by lia. apply Hnone. lia.
  - intros hid h Hh.
    destruct (_handler_to_timeouts (shared r) !! hid) as [index |] eqn:Hm.
    + destruct (Hix hid index Hm) as (j & -> & Hj).
      destruct (decide (start <= j < pos')%nat) as [Hin | Hout].
      * right. exact (proj2 (S3 j Hin) hid h Hj Hh).
      * left. rewrite S5; [exact Hh |]. intros i Hi Hl.
        pose proof (queue_slot_unique r i j hid Hok Hl Hj). lia.
    + left. rewrite S5; [exact Hh |]. intros i Hi Hl.
      destruct (proj1 Hok i hid Hl) as (_ & _ & _ & _ & Hm'). congruence.
  - intros hid Hh. rewrite S5; [exact Hh |]. intros i Hi Hl.
    destruct (proj1 Hok i hid Hl) as (h & Hh' & _). congruence.
Qed.

(** X3.  [TCPRelay._sweep_timeout] on a consistent relay returns normally
    and leaves the relay consistent, whether or not it compacts the queue
    (the index table is shifted with the queue).  It never destroys a handler
    that is still fresh: each handler is afterwards as it was, or it had been
    idle for the timeout or longer and is destroyed. *)
Theorem sweep_timeout_keeps_relay_consistent (r : Relay) :
  relay_inv r ->
  exists r',
    _sweep_timeout r = (Ret tt, r')
    /\ relay_inv r'
    /\ (forall hid h,
          handlers r !! hid = Some h ->
          kept_or_expired (time_time (wire (shared r))) (_timeout (shared r)) h
            (handlers r' !! hid))
    /\ (forall hid, handlers r !! hid = None -> handlers r' !! hid = None).
Proof. exact (sweep_timeout_on_relay r). Qed.

Lemma fresh_mono (now : Q) (timeout : Z) (a b : Handler) :
  last_activity a <= last_activity b ->
  fresh now timeout a = true -> fresh now timeout b = true.
Proof.
  intros Hab Ha. apply fresh_lt in Ha. apply fresh_lt.
  eapply Qle_lt_trans; [| exact Ha].
  unfold Qminus. apply Qplus_le_r. apply Qopp_le_compat.
  rewrite <- Zle_Qle. exact Hab.
Qed.

(** X4.  When the live entries of the queue are in the order of their last
    activity, [TCPRelay._sweep_timeout] leaves no expired handler in the
    queue: every handler still queued after the sweep has been idle for less
    than the timeout.  The queue is still in order afterwards. *)
Theorem sweep_leaves_only_fresh (r : Relay) :
  relay_inv r ->
  queue_sorted r ->
  _timeouts (shared r) <> [] ->
  exists r',
    _sweep_timeout r = (Ret tt, r')
    /\ (forall i hid h,
          _timeouts (shared r') !! i = Some (Some hid) ->
          handlers r' !! hid = Some h ->
          fresh (time_time (wire (shared r))) (_timeout (shared r')) h = true)
    /\ queue_sorted r'.
Proof.
  intros (Hok & Hix & [[Hoff0 Hofflen] Hnone]) Hsorted Hne.
  destruct (sweep_timeout_run r Hok Hix Hoff0 Hne)
    as (pos' & r1 & Hrun & Hok1 & Hix1 & Hle & Hle' & Hsw).
  destruct Hsw as (S1 & S2 & S3 & S4 & S5 & S6).
  set (start := Z.to_nat (_timeout_offset (shared r))) in *.
  exists (sweep_finish (len (_timeouts (shared r))) (Z.of_nat pos') r1).
  split; [exact Hrun |].
  destruct (sweep_finish_handlers (len (_timeouts (shared r))) (Z.of_nat pos') r1)
    as [-> ->].
  destruct (sweep_finish_queue (len (_timeouts (shared r))) pos' r1)
    as (shift & _ & Hq).
  assert (Hlive : forall k hid h,
            _timeouts (shared r1) !! k = Some (Some hid) ->
            handlers r1 !! hid = Some h ->
            (pos' <= k)%nat
            /\ _timeouts (shared r) !! k = Some (Some hid)
            /\ handlers r !! hid = Some h).
  { intros k hid h Hi Hh.
    assert (Hk : (pos' <= k)%nat).
    { destruct (decide (pos' <= k)%nat) as [? | Hlt]; [assumption |].
      destruct (decide (start <= k)%nat) as [Hin | Hout].
      - rewrite (proj1 (S3 k ltac:(lia))) in Hi. discriminate.
      - rewrite S4, Hnone in Hi by lia. discriminate. }
    rewrite S4 in Hi by lia. rewrite S5 in Hh; [auto |].
    intros j Hj Hl. pose proof (queue_slot_unique r j k hid Hok Hl Hi). lia. }
  split.
  - intros i hid h Hi Hh. rewrite Hq in Hi. rewrite S2.
    destruct (Hlive _ hid h Hi Hh) as (Hk & Hi' & Hh').
    assert (Hklen : (shift + i < length (_timeouts (shared r)))%nat)
      by (apply lookup_lt_is_Some; eauto).
    destruct (S6 ltac:(lia)) as (hid0 & h0 & H0 & Hh0 & Hf0).
    apply (fresh_mono _ _ h0 h); [| exact Hf0].
    exact (Hsorted pos' _ hid0 hid h0 h Hk H0 Hi' Hh0 Hh').
  - intros i j hi hj a b Hij Hi Hj Ha Hb.
    destruct (sweep_finish_handlers (len (_timeouts (shared r))) (Z.of_nat pos') r1)
      as [Hhs _].
    rewrite Hhs in Ha, Hb. rewrite Hq in Hi, Hj.
    destruct (Hlive _ hi a Hi Ha) as (_ & Hi' & Ha').
    destruct (Hlive _ hj b Hj Hb) as (_ & Hj' & Hb').
    exact (Hsorted (shift + i)%nat (shift + j)%nat hi hj a b ltac:(lia)
             Hi' Hj' Ha' Hb').
Qed.

(** * More of the handler: [destroy] *)

Lemma remove_handler_fields (h : Handler) (s : Shared) :
  (forall index, _handler_to_timeouts s !! h_id h = Some index ->
     0 <= index < len (_timeouts s)) ->
  exists s',
    remove_handler (h, s) = (Ret tt, (h, s'))
    /\ _timeouts s' = tombstoned (h_id h) s
    /\ _handler_to_timeouts s' = delete (h_id h) (_handler_to_timeouts s)
    /\ _fd_to_handlers s' = _fd_to_handlers s
    /\ _loop s' = _loop s
    /\ wire s' = wire s
    /\ _dns_resolver s' = _dns_resolver s
    /\ _timeout s' = _timeout s
    /\ _timeout_offset s' = _timeout_offset s.
Proof.
  intros Hq. unfold remove_handler, tombstoned. munfold.
  destruct (_handler_to_timeouts s !! h_id h) as [index |] eqn:Hm; cbn.
  - destruct (Hq index eq_refl) as [H0 H1].
    assert (Hz : (0 <=? index) = true) by (apply Z.leb_le; exact H0).
    rewrite Hz. unfold len in H1.
    assert (Hset : setitem (_timeouts s) index None
                   = Some (<[Z.to_nat index := None]> (_timeouts s))).
    { rewrite <- (Z2Nat.id index H0) at 1. apply setitem_nat. lia. }
    eexists. split; [rewrite Hset; reflexivity |]. cbn.
    repeat split; reflexivity.
  - exists s. split; [reflexivity |].
    rewrite delete_id by exact Hm. repeat split; reflexivity.
Qed.

Lemma destroy_fields (h : Handler) (s : Shared) :
  _stage h <> STAGE_DESTROYED ->
  (forall sk, _local_sock h = Some sk -> is_Some (_fd_to_handlers s !! fileno sk)) ->
  (forall sk, _remote_sock h = Some sk -> is_Some (_fd_to_handlers s !! fileno sk)) ->
  (forall l rm, _local_sock h = Some l -> _remote_sock h = Some rm ->
     fileno l <> fileno rm) ->
  (forall index, _handler_to_timeouts s !! h_id h = Some index ->
     0 <= index < len (_timeouts s)) ->
  exists s',
    destroy (h, s) = (Ret tt, (destroyed_handler h, s'))
    /\ _timeouts s' = tombstoned (h_id h) s
    /\ _handler_to_timeouts s' = delete (h_id h) (_handler_to_timeouts s)
    /\ _fd_to_handlers s' = without_fds h (_fd_to_handlers s)
    /\ _loop s' = unwatched h (_loop s)
    /\ wire s' = wire s ++ closes h
    /\ _dns_resolver s' = (_dns_resolver s ∖ {[h_id h]})
    /\ _timeout s' = _timeout s
    /\ _timeout_offset s' = _timeout_offset s.
Proof.
  intros Hst Hl Hr Hne Hq. unfold destroy, without_fds, unwatched, closes.
  munfold. destruct (decide (_stage h = STAGE_DESTROYED)); [contradiction |].
  cbn.
  destruct (_remote_sock h) as [rm |] eqn:Hrm; cbn.
  - destruct (decide (is_Some (_fd_to_handlers s !! fileno rm))) as [_ | Hn];
      [| exfalso; apply Hn, Hr; reflexivity]. cbn.
    destruct (_local_sock h) as [l |] eqn:Hloc; cbn.
    + destruct (decide (is_Some (delete (fileno rm) (_fd_to_handlers s) !! fileno l)))
        as [_ | Hn].
      2:{ exfalso. apply Hn. rewrite lookup_delete_ne.
          - apply Hl. reflexivity.
          - intros Heq. apply (Hne l rm); auto. }
      cbn.
      match goal with |- context [remove_handler (?h', ?s')] =>
        destruct (remove_handler_fields h' s' Hq)
          as (s2 & -> & F1 & F2 & F3 & F4 & F5 & F6 & F7 & F8) end.
      eexists. split; [reflexivity |].
      rewrite F1, F2, F3, F4, F5, F6, F7, F8. cbn.
      rewrite <- !app_assoc. repeat split; reflexivity.
    + match goal with |- context [remove_handler (?h', ?s')] =>
        destruct (remove_handler_fields h' s' Hq)
          as (s2 & -> & F1 & F2 & F3 & F4 & F5 & F6 & F7 & F8) end.
      rewrite (destroyed_handler_no_local h Hloc).
      eexists. split; [reflexivity |].
      rewrite F1, F2, F3, F4, F5, F6, F7, F8. cbn.
      rewrite <- !app_assoc. repeat split; reflexivity.
  - destruct (_local_sock h) as [l |] eqn:Hloc; cbn.
    + destruct (decide (is_Some (_fd_to_handlers s !! fileno l))) as [_ | Hn];
        [| exfalso; apply Hn, Hl; reflexivity]. cbn.
      match goal with |- context [remove_handler (?h', ?s')] =>
        destruct (remove_handler_fields h' s' Hq)
          as (s2 & -> & F1 & F2 & F3 & F4 & F5 & F6 & F7 & F8) end.
      rewrite (destroyed_handler_no_remote h Hrm).
      eexists. split; [reflexivity |].
      rewrite F1, F2, F3, F4, F5, F6, F7, F8. cbn.
      rewrite <- !app_assoc. repeat split; reflexivity.
    + match goal with |- context [remove_handler (?h', ?s')] =>
        destruct (remove_handler_fields h' s' Hq)
          as (s2 & -> & F1 & F2 & F3 & F4 & F5 & F6 & F7 & F8) end.
      rewrite (destroyed_handler_no_sock h Hloc Hrm).
      eexists. split; [reflexivity |].
      rewrite F1, F2, F3, F4, F5, F6, F7, F8. cbn.
      repeat split; reflexivity.
Qed.

Lemma destroyed_relay_inv (r : Relay) (hid : positive) (h : Handler) (s' : Shared) :
  relay_inv r ->
  handlers r !! hid = Some h ->
  _timeouts s' = tombstoned hid (shared r) ->
  _handler_to_timeouts s' = delete hid (_handler_to_timeouts (shared r)) ->
  _fd_to_handlers s' = without_fds h (_fd_to_handlers (shared r)) ->
  _timeout_offset s' = _timeout_offset (shared r) ->
  relay_inv (mkRelay s' (<[hid := destroyed_handler h]> (handlers r)))
  /\ (forall i, _timeouts s' !! i <> Some (Some hid)).
Proof.
  intros (Hok & Hix & Hoff) Hh Hts Hm Hfd Hoffset.
  destruct (proj2 Hok hid h Hh) as (Hl & Hr & Hne).
  destruct (tombstoned_lookup r hid Hok Hix) as [Tlen Tlook].
  assert (Hgone : forall i, _timeouts s' !! i <> Some (Some hid)).
  { intros i Hi. rewrite Hts, Tlook in Hi.
    destruct (decide _) as [_ | Hn]; [discriminate | contradiction]. }
  split; [| exact Hgone].
  destruct Hok as [Hq Hf].
  split; [split |]; [| | split].
  + intros i hid' Hi. cbn in Hi |- *. rewrite Hts, Tlook in Hi.
    destruct (decide _) as [_ | Hn]; [discriminate |].
    assert (Hne' : hid' <> hid) by (intros ->; contradiction).
    destruct (Hq i hid' Hi) as (h0 & Hh0 & Hid0 & Hst0 & Hm0).
    exists h0. rewrite Hm, lookup_insert_ne, lookup_delete_ne by auto. auto.
  + intros hid' h' Hh'. cbn in Hh' |- *. rewrite Hfd.
    destruct (decide (hid' = hid)) as [-> | Hne'].
    * rewrite lookup_insert_eq in Hh'. injection Hh' as <-. cbn.
      split; [intros sk [=] |]. split; [intros sk [=] | intros l rm [=]].
    * rewrite lookup_insert_ne in Hh' by auto.
      destruct (Hf hid' h' Hh') as (Hl' & Hr' & Hne2).
      assert (Hother : forall sk fd,
                _fd_to_handlers (shared r) !! fd = Some hid' ->
                (_local_sock h = Some sk \/ _remote_sock h = Some sk) ->
                fileno sk <> fd).
      { intros sk fd Hfdl [Hs | Hs] Heq; subst fd.
        - rewrite (Hl sk Hs) in Hfdl. congruence.
        - rewrite (Hr sk Hs) in Hfdl. congruence. }
      split; [| split; [| exact Hne2]].
      -- intros sk Hsk. rewrite without_fds_lookup_ne; [exact (Hl' sk Hsk) | |];
           intros sk0 Hs0; apply (Hother sk0 _ (Hl' sk Hsk)); auto.
      -- intros sk Hsk. rewrite without_fds_lookup_ne; [exact (Hr' sk Hsk) | |];
           intros sk0 Hs0; apply (Hother sk0 _ (Hr' sk Hsk)); auto.
  + intros hid' index Hl'. cbn in Hl' |- *. rewrite Hm in Hl'.
    destruct (decide (hid' = hid)) as [-> | Hne'].
    * rewrite lookup_delete_eq in Hl'. discriminate.
    * rewrite lookup_delete_ne in Hl' by auto.
      destruct (Hix hid' index Hl') as (j & -> & Hj). exists j.
      split; [reflexivity |]. rewrite Hts, Tlook.
      destruct (decide _) as [Heq | _]; [congruence | exact Hj].
  + destruct Hoff as [Hb Hnone]. unfold offset_ok. cbn.
    rewrite Hoffset, Hts. split.
    * unfold len in *. rewrite Tlen. exact Hb.
    * intros i Hi. rewrite Tlook.
      destruct (decide _) as [_ | _]; [reflexivity | exact (Hnone i Hi)].
Qed.

Lemma live_handler_bounds (r : Relay) (hid : positive) (h : Handler) :
  relay_inv r ->
  handlers r !! hid = Some h ->
  h_id h = hid ->
  (forall sk, _local_sock h = Some sk ->
     is_Some (_fd_to_handlers (shared r) !! fileno sk))
  /\ (forall sk, _remote_sock h = Some sk ->
        is_Some (_fd_to_handlers (shared r) !! fileno sk))
  /\ (forall l rm, _local_sock h = Some l -> _remote_sock h = Some rm ->
        fileno l <> fileno rm)
  /\ (forall index, _handler_to_timeouts (shared r) !! h_id h = Some index ->
        0 <= index < len (_timeouts (shared r))).
Proof.
  intros (Hok & Hix & Hoff) Hh Hid.
  destruct (proj2 Hok hid h Hh) as (Hl & Hr & Hne).
  split; [| split; [| split; [exact Hne |]]].
  - intros sk Hsk. rewrite (Hl sk Hsk). eauto.
  - intros sk Hsk. rewrite (Hr sk Hsk). eauto.
  - rewrite Hid. intros index Hl'. destruct (Hix hid index Hl') as (i & -> & Hi).
    apply lookup_lt_Some in Hi. unfold len. lia.
Qed.

(** X5.  [destroy] on a live handler of a consistent relay returns normally
    and releases everything the handler holds: the handler ends in
    [STAGE_DESTROYED] without sockets, its sockets are closed (the remote one
    first) and are gone from the fd table and from the event loop, its
    callback is taken from the resolver, and it is out of the timeout queue
    and of the index table.  The relay is still consistent, and no other
    handler is touched. *)
Theorem destroy_releases_the_handler (r : Relay) (hid : positive) (h : Handler) :
  relay_inv r ->
  handlers r !! hid = Some h ->
  h_id h = hid ->
  _stage h <> STAGE_DESTROYED ->
  exists r',
    on_handler hid destroy r = (Ret tt, r')
    /\ relay_inv r'
    /\ handlers r' = <[hid := destroyed_handler h]> (handlers r)
    /\ _fd_to_handlers (shared r') = without_fds h (_fd_to_handlers (shared r))
    /\ _loop (shared r') = unwatched h (_loop (shared r))
    /\ wire (shared r') = wire (shared r) ++ closes h
    /\ (hid ∉ _dns_resolver (shared r'))
    /\ _handler_to_timeouts (shared r') !! hid = None
    /\ (forall i, _timeouts (shared r') !! i <> Some (Some hid)).
Proof.
  intros Hinv Hh Hid Hst.
  destruct (live_handler_bounds r hid h Hinv Hh Hid) as (Hl & Hr & Hne & Hq).
  destruct (destroy_fields h (shared r) Hst Hl Hr Hne Hq) as
    (s' & Hrun & Hts & Hm & Hfd & Hloop & Hwire & Hdns & _ & Hoffset).
  rewrite Hid in *.
  destruct (destroyed_relay_inv r hid h s' Hinv Hh Hts Hm Hfd Hoffset)
    as [Hinv' Hgone].
  unfold on_handler. rewrite Hh, Hrun.
  eexists. split; [reflexivity |]. cbn.
  split; [exact Hinv' |]. split; [reflexivity |]. split; [exact Hfd |].
  split; [exact Hloop |]. split; [exact Hwire |].
  split; [| split; [| exact Hgone]].
  - rewrite Hdns. intros Hin. apply elem_of_difference in Hin as [_ Hn].
    apply Hn, elem_of_singleton. reflexivity.
  - rewrite Hm. apply lookup_delete_eq.
Qed.

(** X6.  [destroy] does raise when the fd table does not hold the remote
    socket of the handler: [del self._fd_to_handlers[fd]] raises [KeyError]
    after the stage is set and the socket is taken from the event loop, and
    before the socket is closed.  The handler is then in [STAGE_DESTROYED]
    with its sockets still set, and a second [destroy] only logs: the sockets
    are not closed. *)
Theorem destroy_raises_on_missing_fd (h : Handler) (s : Shared) (rm : Sock) :
  _stage h <> STAGE_DESTROYED ->
  _remote_sock h = Some rm ->
  _fd_to_handlers s !! fileno rm = None ->
  exists s',
    destroy (h, s) = (Raise KeyError, (set_stage STAGE_DESTROYED h, s'))
    /\ wire s' = wire s
    /\ _fd_to_handlers s' = _fd_to_handlers s
    /\ _loop s' = delete (fileno rm) (_loop s)
    /\ destroy (set_stage STAGE_DESTROYED h, s')
       = (Ret tt,
          (set_stage STAGE_DESTROYED h,
           set_log (log s' ++ [(DEBUG, Msg "already destroyed")]) s')).
Proof.
  intros Hst Hrm Hfd. unfold destroy at 1. munfold.
  destruct (decide (_stage h = STAGE_DESTROYED)); [contradiction |].
  cbn. rewrite Hrm. cbn.
  destruct (decide (is_Some (_fd_to_handlers s !! fileno rm))) as [Hsome | _].
  { rewrite Hfd in Hsome. destruct Hsome as [? [=]]. }
  cbn. eexists. split; [reflexivity |]. cbn.
  do 3 (split; [reflexivity |]).
  unfold destroy. munfold. reflexivity.
Qed.

(** * More of the handler: writing, and what makes a socket writable *)

(** X7.  [_write_to_sock] when [send] raises.  On [EAGAIN], [EINPROGRESS] or
    [EWOULDBLOCK] nothing is lost: all of the data goes to the buffer of that
    socket, the stream waits for writing, and the call returns [True].  On
    any other error the exception is printed, the handler is destroyed and
    the data is dropped; the call does not return [True]. *)
Theorem write_to_sock_on_send_error
    (side : Side) (h : Handler) (s : Shared) (sk : Sock) (data : bytes)
    (e : Errno) :
  data <> [] ->
  sock_of side h = Some sk ->
  (forall sk', sock_of (other side) h = Some sk' -> fileno sk' <> fileno sk) ->
  send_result (wire s) sk data = inl e ->
  let sent := set_wire (wire s ++ [IOSend sk data (inl e)]) s in
  let result := _write_to_sock data (Some sk) (h, s) in
  (transient_write e = true ->
     fst result = Ret true
     /\ wire (snd (snd result)) = wire sent
     /\ pending side (fst (snd result)) = pending side h ++ [data]
     /\ pending (other side) (fst (snd result)) = pending (other side) h
     /\ wait_of side (fst (snd result)) = WAIT_STATUS_WRITING
     /\ _stage (fst (snd result)) = _stage h)
  /\ (transient_write e = false ->
      result = (destroy ≫= fun _ => mret false)
                 (h, set_log (log sent ++ [(ERROR, MsgException (OSError e))]) sent)
      /\ is_destroyed (snd result)
      /\ fst result <> Ret true).
Proof.
  intros Hd Hsk Hother Hsend. cbn zeta. split.
  - intros Ht.
    assert (Hne : side = Remote -> _local_sock h <> Some sk).
    { intros -> Heq. apply (Hother sk Heq). reflexivity. }
    rewrite (write_to_sock_run side h s sk data Hd Hsk Hne)
      by (intros e' He'; congruence).
    cbn zeta. rewrite Hsend. unfold unsent. rewrite update_stream_run.
    destruct (wait (stream_of side) (push side data h) =? WAIT_STATUS_WRITING)
      eqn:Hw; cbn [fst snd].
    + apply Z.eqb_eq in Hw. destruct side; cbn in *; repeat split; auto.
    + rewrite reregister_wire. destruct side; cbn in *; repeat split; auto.
  - intros Hf. destruct data as [| b data]; [congruence |].
    assert (Hrun : _write_to_sock (b :: data) (Some sk) (h, s)
                   = (destroy ≫= fun _ => mret false)
                       (h, set_log
                             (log s ++ [(ERROR, MsgException (OSError e))])
                             (set_wire (wire s ++ [IOSend sk (b :: data) (inl e)]) s))).
    { unfold _write_to_sock. munfold. rewrite Hsend. cbn. rewrite Hf. cbn.
      destruct (destroy _) as [[[] | e' |] st']; reflexivity. }
    rewrite Hrun. split; [reflexivity |].
    rewrite run_bind.
    pose proof (destroy_destroys
                  (h, set_log (log s ++ [(ERROR, MsgException (OSError e))])
                        (set_wire (wire s ++ [IOSend sk (b :: data) (inl e)]) s)))
      as Hdes.
    destruct (destroy _) as [[[] | e' |] st']; cbn in *;
      (split; [exact Hdes | discriminate]).
Qed.

Lemma write_run_inr (side : Side) (h : Handler) (s : Shared) (sk : Sock)
    (data : bytes) (n : Z) :
  data <> [] ->
  sock_of side h = Some sk ->
  (forall sk', sock_of (other side) h = Some sk' -> fileno sk' <> fileno sk) ->
  send_result (wire s) sk data = inr n ->
  let s1 := set_wire (wire s ++ [IOSend sk data (inr n)]) s in
  snd (_write_to_sock data (Some sk) (h, s)) =
  if n <? len data then
    let h1 := push side (slice_from data n) h in
    if wait (stream_of side) h =? WAIT_STATUS_WRITING then (h1, s1)
    else (set_wait (stream_of side) WAIT_STATUS_WRITING h1,
          reregister (set_wait (stream_of side) WAIT_STATUS_WRITING h1) s1)
  else
    if wait (stream_of side) h =? WAIT_STATUS_READING then (h, s1)
    else (set_wait (stream_of side) WAIT_STATUS_READING h,
          reregister (set_wait (stream_of side) WAIT_STATUS_READING h) s1).
Proof.
  intros Hd Hsk Hother Hsend. cbn zeta.
  assert (Hne : side = Remote -> _local_sock h <> Some sk).
  { intros -> Heq. apply (Hother sk Heq). reflexivity. }
  rewrite (write_to_sock_run side h s sk data Hd Hsk Hne)
    by (intros e He; congruence).
  cbn zeta. rewrite Hsend. unfold unsent.
  destruct (n <? len data); rewrite update_stream_run; cbn [snd].
  - replace (wait (stream_of side) (push side (slice_from data n) h))
      with (wait (stream_of side) h) by (destruct side; reflexivity).
    reflexivity.
  - reflexivity.
Qed.

(** X8.  Flow control.  When a write to one socket of a handler is partial
    and the stream starts to wait for writing, [_update_stream] stops asking
    the event loop for [POLL_IN] on the other socket: the handler reads no
    more from the side that feeds a socket that is not writable.  When a
    later write to that socket is complete, [POLL_IN] on the other socket is
    asked for again. *)
Theorem partial_write_pauses_the_reader
    (h : Handler) (s : Shared) (l rm : Sock) (data : bytes) (n : Z) :
  _local_sock h = Some l ->
  _remote_sock h = Some rm ->
  fileno l <> fileno rm ->
  data <> [] ->
  (send_result (wire s) rm data = inr n ->
   let s' := snd (snd (_write_to_sock data (Some rm) (h, s))) in
   (n < len data -> _upstream_status h <> WAIT_STATUS_WRITING ->
      _loop s' !! fileno l
      = Some (if has (_downstream_status h) WAIT_STATUS_WRITING
              then Z.lor POLL_ERR POLL_OUT else POLL_ERR))
   /\ (len data <= n -> _upstream_status h = WAIT_STATUS_WRITING ->
      _loop s' !! fileno l
      = Some (Z.lor (if has (_downstream_status h) WAIT_STATUS_WRITING
                     then Z.lor POLL_ERR POLL_OUT else POLL_ERR) POLL_IN)))
  /\ (send_result (wire s) l data = inr n ->
      let s' := snd (snd (_write_to_sock data (Some l) (h, s))) in
      (n < len data -> _downstream_status h <> WAIT_STATUS_WRITING ->
         _loop s' !! fileno rm
         = Some (if has (_upstream_status h) WAIT_STATUS_WRITING
                 then Z.lor POLL_ERR POLL_OUT else POLL_ERR))
      /\ (len data <= n -> _downstream_status h = WAIT_STATUS_WRITING ->
         _loop s' !! fileno rm
         = Some (let event := Z.lor POLL_ERR POLL_IN in
                 if has (_upstream_status h) WAIT_STATUS_WRITING
                 then Z.lor event POLL_OUT else event))).
Proof.
  intros Hl Hrm Hne Hd. split; intros Hsend; cbn zeta.
  - rewrite (write_run_inr Remote h s rm data n Hd Hrm) by
      (try exact Hsend; intros sk' Hsk'; cbn in Hsk'; congruence).
    cbn zeta. split.
    + intros Hn Hst. apply Z.ltb_lt in Hn. rewrite Hn. cbn [wait stream_of].
      apply Z.eqb_neq in Hst. rewrite Hst. cbn [snd].
      unfold reregister. cbn. rewrite Hl, Hrm. cbn.
      rewrite lookup_insert_ne by auto. rewrite lookup_insert_eq.
      unfold local_events. cbn. reflexivity.
    + intros Hn Hst. apply Z.ltb_ge in Hn. rewrite Hn. cbn [wait stream_of].
      rewrite Hst. cbn [snd Z.eqb WAIT_STATUS_WRITING WAIT_STATUS_READING Pos.eqb].
      unfold reregister. cbn. rewrite Hl, Hrm. cbn.
      rewrite lookup_insert_ne by auto. rewrite lookup_insert_eq.
      unfold local_events. cbn. reflexivity.
  - rewrite (write_run_inr Local h s l data n Hd Hl) by
      (try exact Hsend; intros sk' Hsk'; cbn in Hsk'; congruence).
    cbn zeta. split.
    + intros Hn Hst. apply Z.ltb_lt in Hn. rewrite Hn. cbn [wait stream_of].
      apply Z.eqb_neq in Hst. rewrite Hst. cbn [snd].
      unfold reregister. cbn. rewrite Hl, Hrm. cbn.
      rewrite lookup_insert_eq.
      unfold remote_events. cbn. reflexivity.
    + intros Hn Hst. apply Z.ltb_ge in Hn. rewrite Hn. cbn [wait stream_of].
      rewrite Hst. cbn [snd Z.eqb WAIT_STATUS_WRITING WAIT_STATUS_READING Pos.eqb].
      unfold reregister. cbn. rewrite Hl, Hrm. cbn.
      rewrite lookup_insert_eq.
      unfold remote_events. cbn. reflexivity.
Qed.

Lemma connecting_server_plain (data : bytes) (h : Handler) (s : Shared) :
  _is_local h = false ->
  _ota_enable_session h = false ->
  _handle_stage_connecting data (h, s)
  = (Ret tt,
     (set_data_to_write_to_remote (_data_to_write_to_remote h ++ [data]) h, s)).
Proof.
  intros Hl Hota. unfold _handle_stage_connecting, exception_handle.
  munfold. rewrite Hl, Hota. reflexivity.
Qed.

Lemma connecting_reads_server_plain (reads : list bytes) :
  forall (h : Handler) (s : Shared),
    _is_local h = false ->
    _ota_enable_session h = false ->
    connecting_reads reads (h, s)
    = (set_data_to_write_to_remote (_data_to_write_to_remote h ++ reads) h, s).
Proof.
  induction reads as [| data reads IH]; intros h s Hl Hota; cbn [connecting_reads].
  - rewrite app_nil_r. destruct h; reflexivity.
  - rewrite connecting_server_plain by assumption. cbn [snd].
    rewrite IH by assumption. cbn. rewrite <- app_assoc. reflexivity.
Qed.

(** X9.  What a server-role handler without one-time auth reads while its
    remote socket is connecting is kept, in order, in
    [_data_to_write_to_remote], and nothing is sent.  When the remote socket
    becomes writable, [_on_remote_write] moves the handler to [STAGE_STREAM]
    and sends all of it, joined in the order it was read, in one [send]; what
    [send] does not take stays in the buffer. *)
Theorem connecting_reads_are_sent_in_order
    (h : Handler) (s : Shared) (rm : Sock) (reads : list bytes) :
  _is_local h = false ->
  _ota_enable_session h = false ->
  _remote_sock h = Some rm ->
  _local_sock h <> Some rm ->
  let buffered := _data_to_write_to_remote h ++ reads in
  let st := connecting_reads reads (h, s) in
  let sent := send_result (wire s) rm (join buffered) in
  st = (set_data_to_write_to_remote buffered h, s)
  /\ (join buffered <> [] ->
      let result := _on_remote_write st in
      (wire s ++ [IOSend rm (join buffered) sent])
        `prefix_of` wire (snd (snd result))
      /\ (fatal sent = false ->
          fst result = Ret tt
          /\ _stage (fst (snd result)) = STAGE_STREAM
          /\ wire (snd (snd result)) = wire s ++ [IOSend rm (join buffered) sent]
          /\ _data_to_write_to_remote (fst (snd result))
             = if snd (unsent (join buffered) sent)
               then [fst (unsent (join buffered) sent)] else [])).
Proof.
  intros Hl Hota Hrm Hne. cbn zeta.
  rewrite connecting_reads_server_plain by assumption.
  split; [reflexivity |]. intros Hjoin.
  set (buffered := _data_to_write_to_remote h ++ reads) in *.
  set (h1 := set_data_to_write_to_remote []
               (set_stage STAGE_STREAM (set_data_to_write_to_remote buffered h))).
  assert (Hbuf : buffered <> []) by (intros Hb; rewrite Hb in Hjoin; apply Hjoin; reflexivity).
  assert (Hrun : _on_remote_write (set_data_to_write_to_remote buffered h, s)
                 = (_write_to_sock (join buffered) (Some rm) ≫= fun _ => pass)
                     (h1, s)).
  { unfold _on_remote_write. munfold.
    destruct buffered as [| b bs]; [congruence |]. rewrite Hrm. reflexivity. }
  rewrite Hrun, run_bind. split.
  - pose proof (write_to_sock_sends_first h1 s rm (join buffered) Hjoin) as Hp.
    destruct (_write_to_sock _ _ _) as [[b | e |] st']; exact Hp.
  - intros Hfatal.
    rewrite (write_to_sock_run Remote h1 s rm (join buffered) Hjoin).
    + cbn zeta. destruct (unsent (join buffered) _) as [rest uncomplete] eqn:Hun.
      rewrite update_stream_run. cbn [fst snd].
      destruct uncomplete.
      * destruct (wait _ _ =? _); cbn; rewrite ?reregister_wire;
          repeat split; reflexivity.
      * destruct (wait _ _ =? _); cbn; rewrite ?reregister_wire;
          repeat split; reflexivity.
    + exact Hrm.
    + intros _. exact Hne.
    + intros e He. unfold fatal in Hfatal. rewrite He in Hfatal.
      apply negb_false_iff in Hfatal. exact Hfatal.
Qed.

(** * More of the handler: events *)

Lemma error_event_run
    (side : Side) (h : Handler) (s : Shared) (sk : Sock) (event : Z) :
  _stage h <> STAGE_DESTROYED ->
  sock_of side h = Some sk ->
  (forall sk', sock_of (other side) h = Some sk' -> fileno sk' <> fileno sk) ->
  (forall sk', _local_sock h = Some sk' \/ _remote_sock h = Some sk' ->
     is_Some (_fd_to_handlers s !! fileno sk')) ->
  (forall index, _handler_to_timeouts s !! h_id h = Some index ->
     0 <= index < len (_timeouts s)) ->
  has event POLL_ERR = true ->
  exists s',
    handle_event sk event (h, s) = (Ret tt, (destroyed_handler h, s'))
    /\ _timeouts s' = tombstoned (h_id h) s
    /\ _handler_to_timeouts s' = delete (h_id h) (_handler_to_timeouts s)
    /\ _fd_to_handlers s' = without_fds h (_fd_to_handlers s)
    /\ _loop s' = unwatched h (_loop s)
    /\ wire s' = wire s ++ closes h
    /\ _timeout_offset s' = _timeout_offset s.
Proof.
  intros Hst Hsk Hother Hfd Hq Herr.
  assert (Hdiff : forall l rm, _local_sock h = Some l -> _remote_sock h = Some rm ->
                    fileno l <> fileno rm).
  { intros l rm Hl Hr. destruct side; cbn in *.
    - rewrite Hl in Hsk. injection Hsk as ->. intros Heq.
      apply (Hother rm Hr). symmetry. exact Heq.
    - rewrite Hr in Hsk. injection Hsk as ->. apply (Hother l Hl). }
  unfold handle_event, exception_handle, unless_destroyed. munfold.
  destruct (decide (_stage h = STAGE_DESTROYED)) as [? | _]; [contradiction |].
  rewrite Herr.
  destruct side; cbn in Hsk, Hother.
  - (* the local socket *)
    destruct (decide (Some sk = _remote_sock h)) as [Heq | _].
    { exfalso. apply (Hother sk); [symmetry; exact Heq | reflexivity]. }
    rewrite Hsk. destruct (decide (Some sk = Some sk)); [| congruence].
    unfold _on_local_error. munfold. rewrite Hsk. cbn.
    match goal with |- context [destroy (?h', ?s')] =>
      destruct (destroy_fields h' s' Hst) as
        (s2 & -> & F1 & F2 & F3 & F4 & F5 & _ & _ & F8) end; cbn; auto.
    destruct (decide (STAGE_DESTROYED = STAGE_DESTROYED)); [| congruence].
    cbn. eexists. split; [reflexivity |]. rewrite F1, F2, F3, F4, F5, F8.
    repeat split; try reflexivity.
  - (* the remote socket *)
    rewrite Hsk. destruct (decide (Some sk = Some sk)); [| congruence].
    unfold _on_remote_error. munfold. rewrite Hsk. cbn.
    match goal with |- context [destroy (?h', ?s')] =>
      destruct (destroy_fields h' s' Hst) as
        (s2 & -> & F1 & F2 & F3 & F4 & F5 & _ & _ & F8) end; cbn; auto.
    destruct (decide (STAGE_DESTROYED = STAGE_DESTROYED)); [| congruence].
    cbn. eexists. split; [reflexivity |]. rewrite F1, F2, F3, F4, F5, F8.
    repeat split; try reflexivity.
Qed.

(** X10.  An event that reports an error on a socket of a live handler
    destroys the handler and does nothing else: whatever else the event
    reports (readable, writable), [handle_event] reads nothing and sends
    nothing; the only calls it makes are those that close the sockets. *)
Theorem error_event_destroys_without_io
    (side : Side) (h : Handler) (s : Shared) (sk : Sock) (event : Z) :
  _stage h <> STAGE_DESTROYED ->
  sock_of side h = Some sk ->
  (forall sk', sock_of (other side) h = Some sk' -> fileno sk' <> fileno sk) ->
  (forall sk', _local_sock h = Some sk' \/ _remote_sock h = Some sk' ->
     is_Some (_fd_to_handlers s !! fileno sk')) ->
  (forall index, _handler_to_timeouts s !! h_id h = Some index ->
     0 <= index < len (_timeouts s)) ->
  has event POLL_ERR = true ->
  exists s',
    handle_event sk event (h, s) = (Ret tt, (destroyed_handler h, s'))
    /\ wire s' = wire s ++ closes h
    /\ _fd_to_handlers s' = without_fds h (_fd_to_handlers s)
    /\ _loop s' = unwatched h (_loop s).
Proof.
  intros Hst Hsk Hother Hfd Hq Herr.
  destruct (error_event_run side h s sk event Hst Hsk Hother Hfd Hq Herr)
    as (s' & Hrun & _ & _ & Hfds & Hloop & Hwire & _).
  exists s'. auto.
Qed.

Lemma create_remote_socket_run
    (ip : string) (port : Z) (h : Handler) (s : Shared)
    (af : Family) (sa : Address) (rest : list (Family * Address)) :
  getaddrinfo (wire s) ip port = inr ((af, sa) :: rest) ->
  _forbidden_iplist h = None ->
  let remote_sock := mkSock (socket_fileno (wire s) af) af in
  _create_remote_socket ip port (h, s)
  = (Ret remote_sock,
     (set_remote_sock (Some remote_sock) h,
      set_fd_to_handlers
        (<[fileno remote_sock := h_id h]> (_fd_to_handlers s))
        (set_wire (wire s ++ [IOSocket remote_sock]) s))).
Proof.
  intros Haddr Hf. cbn zeta. unfold _create_remote_socket. munfold.
  rewrite Haddr. cbn. rewrite Hf. reflexivity.
Qed.

Lemma reregister_fd (h : Handler) (s : Shared) :
  _fd_to_handlers (reregister h s) = _fd_to_handlers s.
Proof.
  unfold reregister. destruct (_local_sock h), (_remote_sock h); reflexivity.
Qed.

Arguments reregister : simpl never.

Lemma reregister_remote_out (h : Handler) (s : Shared) (rs : Sock) :
  _remote_sock h = Some rs ->
  has (_upstream_status h) WAIT_STATUS_WRITING = true ->
  registered_for (reregister h s) rs POLL_OUT.
Proof.
  intros Hrs Hw. unfold registered_for, reregister. rewrite Hrs.
  exists (remote_events h). split.
  - destruct (_local_sock h); cbn; apply lookup_insert_eq.
  - apply remote_events_out. exact Hw.
Qed.

Lemma dns_resolved_fails (result : option (string * string)) (error : option Exn)
    (st : St) :
  is_Some error \/ result = None \/ (exists host, result = Some (host, EmptyString)) ->
  is_destroyed (snd (_handle_dns_resolved result error st)).
Proof.
  intros Hcase.
  assert (Hbody : forall st0 : St,
            is_destroyed (snd (destroy st0)) ->
            forall m : M unit, m st0 = destroy st0 ->
            is_destroyed
              (snd (exception_handle false true m st0))).
  { intros st0 Hd m Hm. unfold exception_handle, try_except. rewrite Hm.
    destruct (destroy st0) as [[[] | e |] st'] eqn:Hdes; cbn in *; try exact Hd.
    munfold. destruct (cfg_verbose _); exact Hd. }
  unfold _handle_dns_resolved.
  destruct Hcase as [[err ->] | [-> | [host ->]]].
  - unfold exception_handle, try_except. munfold.
    match goal with |- context [destroy ?st0] =>
      pose proof (destroy_destroys st0) as Hd;
      destruct (destroy st0) as [[[] | e |] st'] end; cbn in *; try exact Hd.
    destruct (cfg_verbose _); exact Hd.
  - destruct error as [err |].
    + unfold exception_handle, try_except. munfold.
      match goal with |- context [destroy ?st0] =>
        pose proof (destroy_destroys st0) as Hd;
        destruct (destroy st0) as [[[] | e |] st'] end; cbn in *; try exact Hd.
      destruct (cfg_verbose _); exact Hd.
    + apply Hbody; [apply destroy_destroys |]. munfold. reflexivity.
  - destruct error as [err |].
    + unfold exception_handle, try_except. munfold.
      match goal with |- context [destroy ?st0] =>
        pose proof (destroy_destroys st0) as Hd;
        destruct (destroy st0) as [[[] | e |] st'] end; cbn in *; try exact Hd.
      destruct (cfg_verbose _); exact Hd.
    + apply Hbody; [apply destroy_destroys |]. munfold. reflexivity.
Qed.

(** X11.  [_handle_dns_resolved].  A resolution that fails (an error, no
    result, or an empty address) destroys the handler.  A resolution that
    gives an address, for a handler without a forbidden list that does not
    use fast open, makes the remote socket for the first address of
    [getaddrinfo], enters it in the fd table under the handler, starts to
    connect, and leaves the handler in [STAGE_CONNECTING], reading from the
    local socket and waiting for the remote socket to become writable: the
    event loop watches the new socket for [POLL_OUT]. *)
Theorem dns_resolved_connects
    (h : Handler) (s : Shared) (host ip : string) (port : Z)
    (af : Family) (sa : Address) (rest : list (Family * Address)) :
  (forall result error,
     is_Some error \/ result = None
     \/ (exists host, result = Some (host, EmptyString)) ->
     is_destroyed (snd (_handle_dns_resolved result error (h, s))))
  /\ (ip <> EmptyString ->
      connect_port h = Some port ->
      _is_local h && cfg_fast_open (_config s) = false ->
      _forbidden_iplist h = None ->
      getaddrinfo (wire s) ip port = inr ((af, sa) :: rest) ->
      let remote_sock := mkSock (socket_fileno (wire s) af) af in
      let result := _handle_dns_resolved (Some (host, ip)) None (h, s) in
      let h' := fst (snd result) in
      let s' := snd (snd result) in
      fst result = Ret tt
      /\ _remote_sock h' = Some remote_sock
      /\ _local_sock h' = _local_sock h
      /\ _stage h' = STAGE_CONNECTING
      /\ _upstream_status h' = WAIT_STATUS_READWRITING
      /\ _downstream_status h' = WAIT_STATUS_READING
      /\ _data_to_write_to_remote h' = _data_to_write_to_remote h
      /\ _fd_to_handlers s'
         = <[fileno remote_sock := h_id h]> (_fd_to_handlers s)
      /\ wire s'
         = wire s ++ [IOSocket remote_sock;
                      IOConnect remote_sock (ip, port)
                        (connect_result (wire s ++ [IOSocket remote_sock])
                           remote_sock (ip, port))]
      /\ registered_for s' remote_sock POLL_OUT).
Proof.
  split; [intros result error Hcase; apply dns_resolved_fails; exact Hcase |].
  intros Hip Hport Hfast Hforbid Haddr. cbn zeta.
  unfold _handle_dns_resolved, exception_handle, try_except. munfold.
  rewrite bool_decide_eq_false_2 by exact Hip. cbn.
  assert (Hp : forall st : St,
            (if _is_local h
             then
               fun st : St =>
                 let (o, st') := or_raise (_chosen_server h) AttributeError st in
                 match o with
                 | Ret a => (Ret (snd a), st')
                 | Raise e => (Raise e, st')
                 | Hang => (Hang, st')
                 end
             else
               fun st : St =>
                 let (o, st') := or_raise (_remote_address h) TypeError st in
                 match o with
                 | Ret a => (Ret (snd a), st')
                 | Raise e => (Raise e, st')
                 | Hang => (Hang, st')
                 end) st
            = (Ret port, st)).
  { intros st. unfold connect_port in Hport. destruct (_is_local h).
    - destruct (_chosen_server h) as [[a p] |]; [| discriminate].
      injection Hport as <-. reflexivity.
    - destruct (_remote_address h) as [[a p] |]; [| discriminate].
      injection Hport as <-. reflexivity. }
  rewrite Hp. cbn. rewrite Hfast.
  rewrite (create_remote_socket_run ip port (set_stage STAGE_CONNECTING h) s
             af sa rest Haddr Hforbid).
  cbn. rewrite update_stream_run. cbn.
  set (rs := mkSock (socket_fileno (wire s) af) af).
  destruct (_upstream_status h =? WAIT_STATUS_READWRITING) eqn:Hup; cbn;
    rewrite update_stream_run; cbn;
    destruct (_downstream_status h =? WAIT_STATUS_READING) eqn:Hdown; cbn;
    rewrite ?reregister_wire, ?reregister_fd; cbn; rewrite <- ?app_assoc; cbn;
    repeat match goal with
           | H : (_ =? _) = true |- _ => apply Z.eqb_eq in H
           end;
    (split; [reflexivity |]); (split; [reflexivity |]);
    (split; [reflexivity |]); (split; [reflexivity |]);
    (split; [auto |]); (split; [auto |]); (split; [reflexivity |]);
    (split; [reflexivity |]); (split; [reflexivity |]).
  - exists (Z.lor POLL_ERR POLL_OUT). cbn. rewrite lookup_insert_eq.
    split; [reflexivity | apply land_lor_same].
  - apply reregister_remote_out; [reflexivity |]. cbn. rewrite Hup. reflexivity.
  - apply reregister_remote_out; reflexivity.
  - apply reregister_remote_out; reflexivity.
Qed.

(** * More of the handler: the address stage *)

(** X12.  [_handle_stage_addr] on a server-role handler that does not ask
    for one-time auth, when the request parses and carries no one-time-auth
    flag, and the resolver does not answer inside the call to [resolve] (it
    calls back later): the handler records the requested address, stops
    reading (the upstream waits for writing), moves to [STAGE_DNS], keeps the
    bytes that follow the header for the remote socket, and asks the
    resolver for the address, which holds the handler's callback from then
    on.  Nothing is sent, and no socket is made in this call.  (A resolver
    that answers at once runs [_handle_dns_resolved] inside the same call;
    that case is not stated here.) *)
Theorem server_address_request_is_resolved
    (data : bytes) (h : Handler) (s : Shared)
    (addrtype remote_port header_length : Z) (remote_addr : bytes) :
  _is_local h = false ->
  _ota_enable h = false ->
  parse_header data = Some (addrtype, remote_addr, remote_port, header_length) ->
  Z.land addrtype ADDRTYPE_AUTH = 0 ->
  resolve_now (wire s ++ [IOResolve (to_str remote_addr)]) (to_str remote_addr)
    = None ->
  let result := _handle_stage_addr data (h, s) in
  let h' := fst (snd result) in
  let s' := snd (snd result) in
  fst result = Ret tt
  /\ _stage h' = STAGE_DNS
  /\ _remote_address h' = Some (to_str remote_addr, remote_port)
  /\ _upstream_status h' = WAIT_STATUS_WRITING
  /\ _data_to_write_to_remote h'
     = _data_to_write_to_remote h
       ++ (if header_length <? len data then [slice_from data header_length]
           else [])
  /\ _remote_sock h' = _remote_sock h
  /\ wire s' = wire s ++ [IOResolve (to_str remote_addr)]
  /\ h_id h ∈ _dns_resolver s'.
Proof.
  intros Hl Hota Hparse Hflag Hres. cbn zeta.
  unfold _handle_stage_addr, exception_handle, try_except. munfold.
  rewrite Hl. cbn. rewrite Hparse. cbn. rewrite Hflag. cbn. rewrite Hota. cbn.
  rewrite update_stream_run. cbn.
  destruct (_upstream_status h =? WAIT_STATUS_WRITING) eqn:Hup; cbn;
    rewrite Hl; cbn;
    (destruct (header_length <? len data); cbn;
     unfold resolve; munfold; rewrite ?reregister_wire; cbn;
     rewrite Hres; cbn; rewrite ?reregister_wire; cbn;
     repeat match goal with
            | H : (_ =? _) = true |- _ => apply Z.eqb_eq in H
            end;
     rewrite ?app_nil_r;
     repeat split; auto; apply elem_of_union_l, elem_of_singleton; reflexivity).
Qed.

(** X13.  [_handle_stage_addr] on a client-role handler (no tunnel, no
    one-time auth) that reads a SOCKS5 CONNECT request, when the [send] of
    the reply does not raise and the resolver does not answer inside the
    call to [resolve] (it calls back later): the handler answers the client
    [05 00 00 01 00 00 00 00 10 10] at once, moves to [STAGE_DNS], keeps the
    request without its first three bytes, encrypted, for the remote socket,
    and asks the resolver for the chosen server, which holds the handler's
    callback from then on.  (A resolver that answers at once runs
    [_handle_dns_resolved] inside the same call; that case is not stated
    here.)  A request with a command that is neither CONNECT nor UDP
    ASSOCIATE destroys the handler, and nothing is sent. *)
Theorem client_connect_request_is_answered
    (data : bytes) (h : Handler) (s : Shared) (cmd : byte) :
  _is_local h = true ->
  _is_tunnel h = false ->
  getitem data 1 = Some cmd ->
  (ord cmd = CMD_CONNECT ->
   forall (l : Sock) (n addrtype remote_port header_length : Z)
          (remote_addr out : bytes) (c : Cryptor) (server : Address),
     let reply := [x05; x00; x00; x01; x00; x00; x00; x00; x10; x10] in
     parse_header (slice_from data 3)
       = Some (addrtype, remote_addr, remote_port, header_length) ->
     _ota_enable_session h = false ->
     _local_sock h = Some l ->
     (forall rm, _remote_sock h = Some rm -> fileno rm <> fileno l) ->
     send_result (wire s) l reply = inr n ->
     encrypt (_cryptor h) (slice_from data 3) = (c, out) ->
     _chosen_server h = Some server ->
     resolve_now (wire s ++ [IOSend l reply (inr n); IOResolve (fst server)])
       (fst server) = None ->
     let result := _handle_stage_addr data (h, s) in
     let h' := fst (snd result) in
     let s' := snd (snd result) in
     fst result = Ret tt
     /\ _stage h' = STAGE_DNS
     /\ _remote_address h' = Some (to_str remote_addr, remote_port)
     /\ _data_to_write_to_remote h' = _data_to_write_to_remote h ++ [out]
     /\ _data_to_write_to_local h'
        = _data_to_write_to_local h
          ++ (if n <? len reply then [slice_from reply n] else [])
     /\ _cryptor h' = c
     /\ wire s' = wire s ++ [IOSend l reply (inr n); IOResolve (fst server)]
     /\ h_id h ∈ _dns_resolver s')
  /\ (ord cmd <> CMD_CONNECT -> ord cmd <> CMD_UDP_ASSOCIATE ->
      let result := _handle_stage_addr data (h, s) in
      is_destroyed (snd result)
      /\ filter is_send (wire (snd (snd result))) = filter is_send (wire s)).
Proof.
  intros Hl Htun Hcmd. split.
  - intros Hconnect l n addrtype remote_port header_length remote_addr out c
      server reply Hparse Hota Hlocal Hother Hsend Henc Hserver Hres. cbn zeta.
    change (slice_from data 3) with (drop (Z.to_nat 3) data) in *.
    subst reply.
    unfold _handle_stage_addr, exception_handle, try_except. munfold.
    rewrite Hl, Htun. cbn. rewrite Hcmd. cbn. rewrite Hconnect. cbn.
    rewrite Hparse. cbn. rewrite ?Hl. cbn.
    rewrite update_stream_run. cbn.
    destruct (_upstream_status h =? WAIT_STATUS_WRITING) eqn:Hup; cbn;
      rewrite ?Hl, ?Htun; cbn; rewrite ?Hlocal.
    + rewrite (write_to_sock_run Local _ _ l) by
        solve [ discriminate | cbn; exact Hlocal | intros; congruence
              | intros e He; cbn in He; rewrite ?reregister_wire in He;
                cbn in He; congruence ].
      cbn zeta. rewrite ?reregister_wire. cbn [wire set_wire set_log]. cbn.
      rewrite ?reregister_wire. cbn. rewrite Hsend. cbn [unsent].
      destruct (n <? _) eqn:Hn; rewrite update_stream_run; cbn;
        (destruct (_downstream_status h =? _) eqn:Hdown; cbn;
         rewrite Hota; cbn; unfold cryptor_encrypt; munfold; rewrite Henc; cbn;
         rewrite Hserver; cbn; unfold resolve; munfold;
         rewrite ?reregister_wire; cbn; rewrite <- ?app_assoc; cbn;
         rewrite Hres; cbn; rewrite ?reregister_wire; cbn;
         rewrite <- ?app_assoc, ?app_nil_r; cbn;
         repeat split; auto; apply elem_of_union_l, elem_of_singleton; reflexivity).
    + rewrite (write_to_sock_run Local _ _ l) by
        solve [ discriminate | cbn; exact Hlocal | intros; congruence
              | intros e He; cbn in He; rewrite ?reregister_wire in He;
                cbn in He; congruence ].
      cbn zeta. rewrite ?reregister_wire. cbn [wire set_wire set_log]. cbn.
      rewrite ?reregister_wire. cbn. rewrite Hsend. cbn [unsent].
      destruct (n <? _) eqn:Hn; rewrite update_stream_run; cbn;
        (destruct (_downstream_status h =? _) eqn:Hdown; cbn;
         rewrite Hota; cbn; unfold cryptor_encrypt; munfold; rewrite Henc; cbn;
         rewrite Hserver; cbn; unfold resolve; munfold;
         rewrite ?reregister_wire; cbn; rewrite <- ?app_assoc; cbn;
         rewrite Hres; cbn; rewrite ?reregister_wire; cbn;
         rewrite <- ?app_assoc, ?app_nil_r; cbn;
         repeat split; auto; apply elem_of_union_l, elem_of_singleton; reflexivity).
  - intros Hnc Hnu. cbn zeta.
    unfold _handle_stage_addr, exception_handle, try_except. munfold.
    rewrite Hl, Htun. cbn. rewrite Hcmd. cbn.
    apply Z.eqb_neq in Hnc, Hnu. rewrite Hnc, Hnu. cbn.
    match goal with |- context [destroy ?st0] =>
      pose proof (destroy_destroys st0) as Hd;
      pose proof (destroy_sends_nothing st0) as Hw;
      destruct (destroy st0) as [[[] | e |] st'] end; cbn in *;
      try (split; [exact Hd | exact Hw]).
    destruct (cfg_verbose _); cbn.
    + match goal with |- context [destroy ?st0] =>
        pose proof (destroy_destroys st0) as Hd2;
        pose proof (destroy_sends_nothing st0) as Hw2 end.
      split; [exact Hd2 |]. rewrite Hw2. exact Hw.
    + match goal with |- context [destroy ?st0] =>
        pose proof (destroy_destroys st0) as Hd2;
        pose proof (destroy_sends_nothing st0) as Hw2 end.
      split; [exact Hd2 |]. rewrite Hw2. exact Hw.
Qed.

(** * More of the handler: the server it talks to *)

(** X14.  [_get_a_server] returns what the configuration names: a server
    and a port that are the configured scalars or members of the configured
    lists, and it logs the choice.  An empty list of ports or of servers
    raises [IndexError] (as [random.choice] does), the port list first. *)
Theorem get_a_server_chooses_from_config (h : Handler) (s : Shared) :
  let result := _get_a_server (h, s) in
  (cfg_server_port (_config s) = inr [] -> result = (Raise IndexError, (h, s)))
  /\ (choosable (cfg_server_port (_config s)) ->
      cfg_server (_config s) = inr [] -> result = (Raise IndexError, (h, s)))
  /\ (choosable (cfg_server (_config s)) ->
      choosable (cfg_server_port (_config s)) ->
      exists server port,
        result
        = (Ret (server, port),
           (h, set_log (log s ++ [(DEBUG, MsgChosenServer (server, port))]) s))
        /\ match cfg_server (_config s) with
           | inl a => server = a
           | inr l => server ∈ l
           end
        /\ match cfg_server_port (_config s) with
           | inl p => port = p
           | inr ps => port ∈ ps
           end).
Proof.
  cbn zeta. unfold _get_a_server, choosable. munfold.
  split; [| split].
  - intros ->. reflexivity.
  - intros Hp ->. destruct (cfg_server_port (_config s)) as [p | ps]; cbn.
    + reflexivity.
    + destruct (choice_lookup ps (random_choice (wire s) (length ps)) Hp)
        as [p Hlook]. rewrite Hlook. reflexivity.
  - intros Hs Hp.
    destruct (cfg_server_port (_config s)) as [p | ps]; cbn.
    + destruct (cfg_server (_config s)) as [a | l]; cbn.
      * exists a, p. auto.
      * destruct (choice_lookup l (random_choice (wire s) (length l)) Hs)
          as [a Hlook]. rewrite Hlook. cbn. exists a, p.
        split; [reflexivity |]. split; [| reflexivity].
        apply list_elem_of_lookup. eauto.
    + destruct (choice_lookup ps (random_choice (wire s) (length ps)) Hp)
        as [p Hplook]. rewrite Hplook. cbn.
      assert (Hpin : p ∈ ps) by (apply list_elem_of_lookup; eauto).
      destruct (cfg_server (_config s)) as [a | l]; cbn.
      * exists a, p. auto.
      * destruct (choice_lookup l (random_choice (wire s) (length l)) Hs)
          as [a Hlook]. rewrite Hlook. cbn. exists a, p.
        split; [reflexivity |]. split; [| exact Hpin].
        apply list_elem_of_lookup. eauto.
Qed.

(** * More of the relay: accepting, dispatching, closing *)





(** X16.  An event that reports an error on a socket of a live handler,
    dispatched by the relay: [TCPRelay.handle_event] finds the handler by the
    descriptor and the handler is destroyed.  Nothing is read or sent; the
    handler's sockets are closed and leave the fd table and the event loop,
    and the relay's bookkeeping stays consistent. *)
Theorem relay_error_event_releases_the_handler
    (r : Relay) (side : Side) (hid : positive) (h : Handler) (sk : Sock)
    (event : Z) :
  relay_inv r ->
  handlers r !! hid = Some h ->
  h_id h = hid ->
  _stage h <> STAGE_DESTROYED ->
  sock_of side h = Some sk ->
  Some sk <> _server_socket (shared r) ->
  has event POLL_ERR = true ->
  exists r',
    relay_handle_event (Some sk) (fileno sk) event r = (Ret tt, r')
    /\ relay_inv r'
    /\ handlers r' = <[hid := destroyed_handler h]> (handlers r)
    /\ wire (shared r') = wire (shared r) ++ closes h
    /\ _fd_to_handlers (shared r') = without_fds h (_fd_to_handlers (shared r))
    /\ _loop (shared r') = unwatched h (_loop (shared r))
    /\ (forall i, _timeouts (shared r') !! i <> Some (Some hid)).
Proof.
  intros Hinv Hh Hid Hst Hsk Hsrv Herr.
  destruct (live_handler_bounds r hid h Hinv Hh Hid) as (Hl & Hr & Hne & Hq).
  destruct (proj2 (proj1 Hinv) hid h Hh) as (Hfl & Hfr & _).
  assert (Hfd : _fd_to_handlers (shared r) !! fileno sk = Some hid).
  { destruct side; cbn in Hsk; auto. }
  set (s0 := set_log (log (shared r) ++ [(VERBOSE, Msg "fd event")]) (shared r)).
  destruct (error_event_run side h s0 sk event Hst Hsk) as
    (s' & Hrun & Hts & Hm & Hfds & Hloop & Hwire & Hoffset); auto.
  { intros sk' Hsk' Heq. destruct side; cbn in Hsk, Hsk'.
    - apply (Hne sk sk'); auto.
    - apply (Hne sk' sk); auto. }
  { intros sk' [Hsk' | Hsk']; cbn; auto. }
  rewrite Hid in *.
  destruct (destroyed_relay_inv r hid h s' Hinv Hh Hts Hm Hfds Hoffset)
    as [Hinv' Hgone].
  unfold relay_handle_event. cbn zeta. fold s0.
  change (_server_socket s0) with (_server_socket (shared r)).
  destruct (decide (Some sk = _server_socket (shared r))); [contradiction |].
  change (_fd_to_handlers s0) with (_fd_to_handlers (shared r)).
  rewrite Hfd. unfold on_handler. cbn [handlers shared]. rewrite Hh, Hrun.
  eexists. split; [reflexivity |]. cbn. auto 10.
Qed.

(** X17.  Events on the listening socket that give no connection.  An event
    that reports an error raises [Exception('server_socket error')] before
    [accept] is called.  Otherwise a failing [accept] never escapes: with
    EAGAIN, EINPROGRESS or EWOULDBLOCK the relay returns silently, with any
    other error it logs the exception (and a traceback when verbose) and
    returns.  In every case no handler is created and the fd table, the
    event loop and the timeout queue are as they were. *)
Theorem listener_failures_create_no_handler
    (r : Relay) (srv : Sock) (fd event : Z) :
  _server_socket (shared r) = Some srv ->
  (has event POLL_ERR = true
   \/ exists error_no, accept_result (wire (shared r)) = inl error_no) ->
  let fd_event := (VERBOSE, Msg "fd event") in
  let res := relay_handle_event (Some srv) fd event r in
  handlers (snd res) = handlers r
  /\ _fd_to_handlers (shared (snd res)) = _fd_to_handlers (shared r)
  /\ _loop (shared (snd res)) = _loop (shared r)
  /\ _timeouts (shared (snd res)) = _timeouts (shared r)
  /\ (has event POLL_ERR = true ->
      fst res = Raise (Exception "server_socket error")
      /\ wire (shared (snd res)) = wire (shared r)
      /\ log (shared (snd res)) = log (shared r) ++ [fd_event])
  /\ (forall error_no : Errno,
        has event POLL_ERR = false ->
        accept_result (wire (shared r)) = inl error_no ->
        fst res = Ret tt
        /\ wire (shared (snd res)) = wire (shared r) ++ [IOAccept (inl error_no)]
        /\ log (shared (snd res))
           = (log (shared r) ++ [fd_event; (DEBUG, Msg "accept")])
             ++ (if transient_write error_no then []
                 else (ERROR, MsgException (OSError error_no))
                      :: if cfg_verbose (_config (shared r))
                         then [(ERROR, MsgTraceback)] else [])).
Proof.
  intros Hsrv Hfail. cbn zeta.
  unfold relay_handle_event. cbn zeta. cbn [shared handlers].
  change (_server_socket (set_log _ (shared r))) with (_server_socket (shared r)).
  rewrite Hsrv. destruct (decide (Some srv = Some srv)); [| congruence].
  destruct (has event POLL_ERR) eqn:Herr.
  { cbn. repeat split; try reflexivity; discriminate. }
  destruct Hfail as [[=] | [error_no He]].
  unfold accept. cbn zeta. cbn [shared handlers].
  change (_server_socket (set_log _ (set_log _ (shared r))))
    with (_server_socket (shared r)).
  rewrite Hsrv.
  change (wire (set_log _ (set_log _ (shared r)))) with (wire (shared r)).
  rewrite He. unfold relay_log_exception.
  destruct (transient_write error_no) eqn:Htr; cbn -[transient_write];
    [| destruct (cfg_verbose (_config (shared r))); cbn -[transient_write]];
    (split; [reflexivity |]; split; [reflexivity |]; split; [reflexivity |];
     split; [reflexivity |]; split; [discriminate |];
     intros e' _ [= <-]; rewrite Htr, ?app_nil_r, <- ?app_assoc;
     repeat split; reflexivity).
Qed.

(** * The periodic job of a closed relay *)

Lemma only_releases_refl (s : Shared) : only_releases s s.
Proof.
  unfold only_releases. repeat split; auto. exists []. rewrite app_nil_r.
  reflexivity.
Qed.

Lemma only_releases_trans (a b c : Shared) :
  only_releases a b -> only_releases b c -> only_releases a c.
Proof.
  intros (A1 & A2 & A3 & A4 & m1 & A5) (B1 & B2 & B3 & B4 & m2 & B5).
  unfold only_releases.
  split; [congruence |]. split; [congruence |]. split; [congruence |].
  split; [auto |]. exists (m1 ++ m2). rewrite B5, A5, app_assoc. reflexivity.
Qed.

Lemma only_releases_same (s s' : Shared) :
  _server_socket s' = _server_socket s ->
  _closed s' = _closed s ->
  loop_stopped s' = loop_stopped s ->
  _loop s' = _loop s ->
  wire s' = wire s ->
  only_releases s s'.
Proof.
  intros H1 H2 H3 H4 H5. unfold only_releases. rewrite H1, H2, H3, H4, H5.
  apply only_releases_refl.
Qed.

Lemma remove_handler_only_releases (h : Handler) (s : Shared) :
  only_releases s (snd (snd (remove_handler (h, s)))).
Proof.
  unfold remove_handler. munfold.
  destruct (0 <=? _); cbn; [| apply only_releases_refl].
  destruct (setitem _ _ _); cbn; apply only_releases_same; reflexivity.
Qed.

Lemma delete_keeps_none (loop : gmap Z Z) (fd fd' : Z) :
  loop !! fd = None -> delete fd' loop !! fd = None.
Proof.
  intros H. destruct (decide (fd' = fd)) as [-> | Hne].
  - apply lookup_delete_eq.
  - rewrite lookup_delete_ne by exact Hne. exact H.
Qed.

Lemma destroy_only_releases (h : Handler) (s : Shared) :
  only_releases s (snd (snd (destroy (h, s)))).
Proof.
  unfold destroy. munfold.
  destruct (decide (_stage h = STAGE_DESTROYED));
    [cbn; apply only_releases_same; reflexivity |].
  cbn.
  destruct (_remote_sock h) as [rm |]; cbn.
  - destruct (decide (is_Some (_fd_to_handlers s !! fileno rm))); cbn.
    2:{ unfold only_releases. cbn. repeat split; auto using delete_keeps_none.
        exists []. rewrite app_nil_r. reflexivity. }
    destruct (_local_sock h) as [l |]; cbn.
    + destruct (decide (is_Some _)); cbn.
      2:{ unfold only_releases. cbn.
          repeat split; auto using delete_keeps_none.
          eexists. reflexivity. }
      match goal with |- context [remove_handler (?h', ?s')] =>
        pose proof (remove_handler_only_releases h' s') as Hr;
        destruct (remove_handler (h', s')) as [out [h2 s2]] end.
      cbn in Hr |- *. refine (only_releases_trans _ _ _ _ Hr).
      unfold only_releases. cbn. repeat split; auto using delete_keeps_none.
      rewrite <- !app_assoc. eexists. reflexivity.
    + match goal with |- context [remove_handler (?h', ?s')] =>
        pose proof (remove_handler_only_releases h' s') as Hr;
        destruct (remove_handler (h', s')) as [out [h2 s2]] end.
      cbn in Hr |- *. refine (only_releases_trans _ _ _ _ Hr).
      unfold only_releases. cbn. repeat split; auto using delete_keeps_none.
      rewrite <- !app_assoc. eexists. reflexivity.
  - destruct (_local_sock h) as [l |]; cbn.
    + destruct (decide (is_Some _)); cbn.
      2:{ unfold only_releases. cbn.
          repeat split; auto using delete_keeps_none.
          exists []. rewrite app_nil_r. reflexivity. }
      match goal with |- context [remove_handler (?h', ?s')] =>
        pose proof (remove_handler_only_releases h' s') as Hr;
        destruct (remove_handler (h', s')) as [out [h2 s2]] end.
      cbn in Hr |- *. refine (only_releases_trans _ _ _ _ Hr).
      unfold only_releases. cbn. repeat split; auto using delete_keeps_none.
      rewrite <- !app_assoc. eexists. reflexivity.
    + match goal with |- context [remove_handler (?h', ?s')] =>
        pose proof (remove_handler_only_releases h' s') as Hr;
        destruct (remove_handler (h', s')) as [out [h2 s2]] end.
      cbn in Hr |- *. refine (only_releases_trans _ _ _ _ Hr).
      unfold only_releases. cbn. repeat split; auto.
      eexists. reflexivity.
Qed.

Lemma sweep_expire_only_releases
    (r : Relay) (hid : positive) (pos : Z) (handler : Handler) :
  only_releases (shared r)
    (shared (snd (on_handler hid (sweep_expire pos handler) r))).
Proof.
  unfold on_handler. destruct (handlers r !! hid) as [h |];
    [| apply only_releases_refl].
  unfold sweep_expire. rewrite run_bind. cbn [logging modify_s fst snd].
  rewrite run_bind.
  match goal with |- context [destroy (?h', ?s')] =>
    pose proof (destroy_only_releases h' s') as Hd;
    destruct (destroy (h', s')) as [out [h2 s2]] end.
  cbn in Hd.
  assert (H0 : only_releases (shared r) s2).
  { refine (only_releases_trans _ _ _ _ Hd). apply only_releases_same; reflexivity. }
  destruct out; cbn; try exact H0.
  munfold. destruct (setitem _ _ _); cbn; exact H0.
Qed.

Lemma sweep_loop_only_releases (now : Q) (n : Z) (fuel : nat) :
  forall (pos : Z) (r : Relay),
    only_releases (shared r)
      (shared (snd (_sweep_timeout_loop fuel now n pos r))).
Proof.
  induction fuel as [| fuel IH]; intros pos r; [apply only_releases_refl |].
  rewrite sweep_loop_unfold.
  destruct (pos <? n); [| apply only_releases_refl].
  destruct (getitem _ _) as [[hid |] |]; [| apply IH | apply only_releases_refl].
  destruct (handlers r !! hid) as [h |]; [| apply only_releases_refl].
  destruct (fresh _ _ _); [apply only_releases_refl |].
  pose proof (sweep_expire_only_releases r hid pos h) as Hstep.
  destruct (on_handler hid (sweep_expire pos h) r) as [out r1].
  cbn in Hstep. destruct out; try exact Hstep.
  exact (only_releases_trans _ _ _ Hstep (IH _ r1)).
Qed.

Lemma sweep_timeout_only_releases (r : Relay) :
  only_releases (shared r) (shared (snd (_sweep_timeout r))).
Proof.
  unfold _sweep_timeout. cbn zeta.
  destruct (_timeouts (shared r)) eqn:Hts; [apply only_releases_refl |].
  match goal with |- context [_sweep_timeout_loop ?f ?now ?n ?pos ?r0] =>
    pose proof (sweep_loop_only_releases now n f pos r0) as Hl;
    destruct (_sweep_timeout_loop f now n pos r0) as [out r1] end.
  cbn in Hl.
  assert (H0 : only_releases (shared r) (shared r1)).
  { refine (only_releases_trans _ _ _ _ Hl). apply only_releases_same; reflexivity. }
  destruct out; cbn; try exact H0.
  destruct (_ && _); cbn;
    (refine (only_releases_trans _ _ _ H0 _); apply only_releases_same; reflexivity).
Qed.

(** X18.  The periodic job of a consistent relay that has been closed and
    still has its listening socket: [handle_periodic] returns normally; the
    listening socket is taken from the event loop, closed and forgotten
    before anything else is done; the loop is told to stop exactly when the
    fd table was empty on entry (a handler that the sweep destroys in this
    very call does not stop the loop yet); and the sweep that follows leaves
    the relay consistent, with every handler as it was or expired. *)
Theorem periodic_shuts_the_listener (r : Relay) (srv : Sock) :
  relay_inv r ->
  _closed (shared r) = true ->
  _server_socket (shared r) = Some srv ->
  exists r',
    handle_periodic r = (Ret tt, r')
    /\ relay_inv r'
    /\ _server_socket (shared r') = None
    /\ _loop (shared r') !! fileno srv = None
    /\ (exists more, wire (shared r') = wire (shared r) ++ IOClose srv :: more)
    /\ loop_stopped (shared r')
       = bool_decide (_fd_to_handlers (shared r) = ∅) || loop_stopped (shared r)
    /\ (forall hid h,
          handlers r !! hid = Some h ->
          kept_or_expired (time_time (wire (shared r) ++ [IOClose srv]))
            (_timeout (shared r)) h (handlers r' !! hid)).
Proof.
  intros Hinv Hclosed Hsrv.
  unfold handle_periodic. cbn zeta. rewrite Hclosed, Hsrv.
  fold (listener_shut srv (shared r)).
  set (s1 := if decide (_fd_to_handlers (listener_shut srv (shared r)) = ∅)
             then _ else _).
  assert (Hs1 : _timeouts s1 = _timeouts (shared r)
                /\ _handler_to_timeouts s1 = _handler_to_timeouts (shared r)
                /\ _fd_to_handlers s1 = _fd_to_handlers (shared r)
                /\ _timeout_offset s1 = _timeout_offset (shared r)
                /\ _timeout s1 = _timeout (shared r)
                /\ _server_socket s1 = None
                /\ _loop s1 = delete (fileno srv) (_loop (shared r))
                /\ wire s1 = wire (shared r) ++ [IOClose srv]
                /\ loop_stopped s1
                   = bool_decide (_fd_to_handlers (shared r) = ∅)
                     || loop_stopped (shared r)).
  { subst s1. change (_fd_to_handlers (listener_shut srv (shared r)))
      with (_fd_to_handlers (shared r)).
    destruct (decide (_fd_to_handlers (shared r) = ∅)) as [He | Hn].
    - rewrite (bool_decide_eq_true_2 _ He). cbn. repeat split; reflexivity.
    - rewrite (bool_decide_eq_false_2 _ Hn). cbn. repeat split; reflexivity. }
  clearbody s1.
  destruct Hs1 as (T1 & T2 & T3 & T4 & T5 & T6 & T7 & T8 & T9).
  assert (Hinv1 : relay_inv (mkRelay s1 (handlers r))).
  { apply (relay_inv_same r); auto. }
  destruct (sweep_timeout_on_relay _ Hinv1) as (r' & Hrun & Hinv' & Hkept & _).
  pose proof (sweep_timeout_only_releases (mkRelay s1 (handlers r))) as Hrel.
  rewrite Hrun in Hrel. cbn in Hrel.
  destruct Hrel as (R1 & _ & R3 & R4 & more & R5).
  exists r'. split; [exact Hrun |]. split; [exact Hinv' |].
  split; [congruence |].
  split; [apply R4; rewrite T7; apply lookup_delete_eq |].
  split; [exists more; rewrite R5, T8, <- app_assoc; reflexivity |].
  split; [congruence |].
  intros hid h Hh. specialize (Hkept hid h Hh). cbn in Hkept.
  rewrite T8, T5 in Hkept. exact Hkept.
Qed.

(** * One-time authentication: from the framing side to the reassembler *)

Lemma ota_chunk_data_gen_state (payload frame : bytes) (h : Handler) (s : Shared)
    (st : St) :
  _ota_chunk_data_gen payload (h, s) = (Ret frame, st) ->
  st = (set_ota_chunk_idx (_ota_chunk_idx h + 1) h, s).
Proof.
  unfold _ota_chunk_data_gen. munfold.
  destruct (pack_H _); [| discriminate]. destruct (pack_I _); [| discriminate].
  cbn. intros [= _ <-]. reflexivity.
Qed.

Lemma ota_gen_all_state (payloads : list bytes) :
  forall (h : Handler) (s : Shared) (framed : list bytes) (st : St),
    ota_gen_all payloads (h, s) = (Ret framed, st) ->
    st = (set_ota_chunk_idx (_ota_chunk_idx h + Z.of_nat (length payloads)) h, s).
Proof.
  induction payloads as [| p payloads IH]; intros h s framed st Hgen.
  - cbn in Hgen. injection Hgen as _ <-. cbn. rewrite Z.add_0_r.
    destruct h; reflexivity.
  - cbn [ota_gen_all] in Hgen.
    destruct (_ota_chunk_data_gen p (h, s)) as [[frame | e |] st1] eqn:Hg;
      try discriminate.
    apply ota_chunk_data_gen_state in Hg. subst st1.
    destruct (ota_gen_all payloads _) as [[frames | e |] st2] eqn:Hrest;
      try discriminate.
    apply IH in Hrest. injection Hgen as _ <-. rewrite Hrest. cbn [length].
    cbn. replace (_ota_chunk_idx h + 1 + Z.of_nat (length payloads))
      with (_ota_chunk_idx h + Z.of_nat (S (length payloads))) by lia.
    destruct h; reflexivity.
Qed.

(** X19.  One-time authentication, end to end, when every read brings whole
    chunks.  The sender frames the payloads with [_ota_chunk_data_gen]; the
    receiver, whose reassembler is idle and at the sender's index, with the
    sender's IV, gets the frames group by group, one read for each group,
    and its callback is the one [_handle_stage_connecting] passes (append to
    [_data_to_write_to_remote]).  Then [_ota_chunk_data] appends each group's
    payloads, joined, in order: nothing is lost, dropped or reordered, and
    the receiver's index ends where the sender's does. *)
Theorem ota_round_trip_at_frame_boundaries (groups : list (list bytes)) :
  (forall k d, ONETIMEAUTH_BYTES <= len (sha1_hmac k d)) ->
  forall (sender receiver : Handler) (s s' : Shared) (reads : list bytes)
         (st : St),
    cipher_iv (_cryptor sender) = decipher_iv (_cryptor receiver) ->
    _ota_chunk_idx sender = _ota_chunk_idx receiver ->
    ota_idle receiver ->
    0 <= _ota_chunk_idx receiver ->
    _ota_chunk_idx receiver + Z.of_nat (length (concat groups)) <= 4294967296 ->
    ota_gen_groups groups (sender, s) = (Ret reads, st) ->
    ota_feed reads (receiver, s')
    = (set_data_to_write_to_remote
         (_data_to_write_to_remote receiver
          ++ map (fun payloads => concat payloads) groups)
         (set_ota_chunk_idx
            (_ota_chunk_idx receiver + Z.of_nat (length (concat groups)))
            receiver),
       s')
    /\ st = (set_ota_chunk_idx
               (_ota_chunk_idx sender + Z.of_nat (length (concat groups)))
               sender, s).
Proof.
  intros Hmac.
  induction groups as [| g groups IH];
    intros sender receiver s s' reads st Hiv Hidx Hidle Hi Hn Hgen.
  - cbn in Hgen. injection Hgen as <- <-. cbn. rewrite app_nil_r, !Z.add_0_r.
    split; [destruct receiver | destruct sender]; reflexivity.
  - cbn [ota_gen_groups] in Hgen. cbn [concat] in Hn.
    rewrite length_app, Nat2Z.inj_add in Hn.
    destruct (ota_gen_all g (sender, s)) as [[frames | e |] st1] eqn:Hg;
      try discriminate.
    pose proof (ota_gen_all_state g sender s frames st1 Hg) as Hst1.
    pose proof (ota_round_trip_one_read sender receiver s s' g frames st1
                  append_to_remote Hmac Hiv Hidx Hidle Hi ltac:(lia) Hg) as Hread.
    subst st1.
    destruct (ota_gen_groups groups _) as [[reads' | e |] st2] eqn:Hrest;
      try discriminate.
    injection Hgen as <- <-.
    cbn [ota_feed]. rewrite Hread. cbn [append_to_remote modify_h snd fst].
    destruct (IH (set_ota_chunk_idx
                    (_ota_chunk_idx sender + Z.of_nat (length g)) sender)
                 (set_data_to_write_to_remote
                      (_data_to_write_to_remote
                         (set_ota_chunk_idx
                            (_ota_chunk_idx receiver + Z.of_nat (length g))
                            receiver) ++ [concat g])
                      (set_ota_chunk_idx
                         (_ota_chunk_idx receiver + Z.of_nat (length g))
                         receiver))
                 s s' reads' st2) as [Hfeed Hst2]; try exact Hrest.
    + cbn. exact Hiv.
    + cbn. rewrite Hidx. reflexivity.
    + destruct Hidle as (A & B & C). unfold ota_idle. cbn. auto.
    + cbn. lia.
    + cbn. lia.
    + rewrite Hfeed, Hst2. cbn [concat map].
      rewrite length_app, Nat2Z.inj_add. cbn.
      rewrite <- app_assoc, !Z.add_assoc. cbn.
      split; [destruct receiver | destruct sender]; reflexivity.
Qed.

(** * Tearing a handler down *)

Lemma destroy_tears_down (h : Handler) (s : Shared) :
  _stage h <> STAGE_DESTROYED ->
  held h s ->
  torn_down h s (destroy (h, s)).
Proof.
  intros Hst (Hl & Hr & Hne & Hq).
  destruct (destroy_fields h s Hst Hl Hr Hne Hq)
    as (s' & Hrun & Hts & Hm & Hfd & Hloop & Hwire & Hdns & _).
  unfold torn_down. rewrite Hrun. cbn [fst snd]. auto 10.
Qed.

Lemma held_same (h h' : Handler) (s s' : Shared) :
  _local_sock h' = _local_sock h ->
  _remote_sock h' = _remote_sock h ->
  h_id h' = h_id h ->
  _fd_to_handlers s' = _fd_to_handlers s ->
  _handler_to_timeouts s' = _handler_to_timeouts s ->
  _timeouts s' = _timeouts s ->
  held h s -> held h' s'.
Proof.
  intros Hl Hr Hid Hfd Hm Hts. unfold held.
  rewrite Hl, Hr, Hid, Hfd, Hm, Hts. auto.
Qed.

(** C9. For a handler that is not destroyed, a read on the local or on the
    remote socket that returns no bytes runs [destroy]: the handler ends in
    [STAGE_DESTROYED], and where the relay's tables hold the handler it is
    torn down (its sockets are closed and taken from the fd table and the
    event loop, its callback is taken from the resolver, its slot in the
    timeout queue becomes a tombstone) and the call returns normally.  A read
    that fails with [ETIMEDOUT], [EAGAIN] or [EWOULDBLOCK] returns with the
    handler as it was (only the [recv] call is added to the record of
    calls). *)
Theorem read_eof_destroys_transient_keeps
    (h : Handler) (s : Shared) (sk : Sock) :
  _stage h <> STAGE_DESTROYED ->
  (_local_sock h = Some sk ->
     (recv_result (wire s) sk (buf_size h) = inr [] ->
        _on_local_read (h, s) = destroy (h, after_recv h s sk)
        /\ _stage (fst (snd (_on_local_read (h, s)))) = STAGE_DESTROYED
        /\ (held h s ->
            torn_down h (after_recv h s sk) (_on_local_read (h, s))))
     /\ (forall e, recv_result (wire s) sk (buf_size h) = inl e ->
        transient_read e = true ->
        _on_local_read (h, s) = (Ret tt, (h, after_recv h s sk))))
  /\ (_remote_sock h = Some sk ->
     (recv_result (wire s) sk (buf_size h) = inr [] ->
        _on_remote_read (h, s) = destroy (h, after_recv h s sk)
        /\ _stage (fst (snd (_on_remote_read (h, s)))) = STAGE_DESTROYED
        /\ (held h s ->
            torn_down h (after_recv h s sk) (_on_remote_read (h, s))))
     /\ (forall e, recv_result (wire s) sk (buf_size h) = inl e ->
        transient_read e = true ->
        _on_remote_read (h, s) = (Ret tt, (h, after_recv h s sk)))).
Proof.
  intros Hst. split; intros Hs.
  - pose proof (on_local_read_no_data h s sk Hs) as L. split.
    + intros Hr. rewrite Hr in L. rewrite L.
      split; [reflexivity |]. split; [apply destroy_destroys |].
      intros Hheld. apply destroy_tears_down; [exact Hst |].
      apply (held_same h h s); try reflexivity. exact Hheld.
    + intros e Hr Ht. rewrite Hr, Ht in L. exact L.
  - pose proof (on_remote_read_no_data h s sk Hs) as L. split.
    + intros Hr. rewrite Hr in L. rewrite L.
      split; [reflexivity |]. split; [apply destroy_destroys |].
      intros Hheld. apply destroy_tears_down; [exact Hst |].
      apply (held_same h h s); try reflexivity. exact Hheld.
    + intros e Hr Ht. rewrite Hr, Ht in L. exact L.
Qed.

Lemma unwatched_reregister (h h' : Handler) (s : Shared) :
  _local_sock h' = _local_sock h ->
  _remote_sock h' = _remote_sock h ->
  unwatched h (_loop (reregister h' s)) = unwatched h (_loop s).
Proof.
  intros Hl Hr. unfold unwatched, reregister. rewrite Hl, Hr.
  apply map_eq. intros fd.
  destruct (_local_sock h) as [l |], (_remote_sock h) as [rm |]; cbn;
    try reflexivity.
  - destruct (decide (fd = fileno l)) as [-> | Hnl];
      [rewrite !lookup_delete_eq; reflexivity |].
    rewrite !(lookup_delete_ne _ (fileno l)) by auto.
    destruct (decide (fd = fileno rm)) as [-> | Hnr];
      [rewrite !lookup_delete_eq; reflexivity |].
    rewrite !lookup_delete_ne, !lookup_insert_ne by auto. reflexivity.
  - destruct (decide (fd = fileno l)) as [-> | Hnl];
      [rewrite !lookup_delete_eq; reflexivity |].
    rewrite !lookup_delete_ne, lookup_insert_ne by auto. reflexivity.
  - destruct (decide (fd = fileno rm)) as [-> | Hnr];
      [rewrite !lookup_delete_eq; reflexivity |].
    rewrite !lookup_delete_ne, lookup_insert_ne by auto. reflexivity.
Qed.

Lemma reregister_tables (h : Handler) (s : Shared) :
  _fd_to_handlers (reregister h s) = _fd_to_handlers s
  /\ _timeouts (reregister h s) = _timeouts s
  /\ _handler_to_timeouts (reregister h s) = _handler_to_timeouts s
  /\ _dns_resolver (reregister h s) = _dns_resolver s.
Proof.
  unfold reregister.
  destruct (_local_sock h), (_remote_sock h); repeat split; reflexivity.
Qed.

Lemma write_to_sock_fatal (h : Handler) (s : Shared) (sk : Sock) (data : bytes)
    (e : Errno) :
  data <> [] ->
  send_result (wire s) sk data = inl e ->
  transient_write e = false ->
  _write_to_sock data (Some sk) (h, s)
  = (destroy ≫= fun _ => mret false)
      (h, set_log (log s ++ [(ERROR, MsgException (OSError e))])
            (set_wire (wire s ++ [IOSend sk data (inl e)]) s)).
Proof.
  intros Hd Hsend Hf. destruct data as [| b data]; [congruence |].
  unfold _write_to_sock. munfold. rewrite Hsend. cbn. rewrite Hf. cbn.
  destruct (destroy _) as [[[] | e' |] st']; reflexivity.
Qed.

Lemma write_to_sock_alive (side : Side) (h : Handler) (s : Shared) (sk : Sock)
    (data : bytes) :
  data <> [] ->
  sock_of side h = Some sk ->
  (side = Remote -> _local_sock h <> Some sk) ->
  fatal (send_result (wire s) sk data) = false ->
  exists h1 s1,
    _write_to_sock data (Some sk) (h, s) = (Ret true, (h1, s1))
    /\ _stage h1 = _stage h
    /\ _local_sock h1 = _local_sock h
    /\ _remote_sock h1 = _remote_sock h
    /\ h_id h1 = h_id h
    /\ wire s1 = wire s ++ [IOSend sk data (send_result (wire s) sk data)]
    /\ _fd_to_handlers s1 = _fd_to_handlers s
    /\ _timeouts s1 = _timeouts s
    /\ _handler_to_timeouts s1 = _handler_to_timeouts s
    /\ _dns_resolver s1 = _dns_resolver s
    /\ unwatched h (_loop s1) = unwatched h (_loop s).
Proof.
  intros Hd Hsk Hne Hf.
  rewrite (write_to_sock_run side h s sk data Hd Hsk Hne).
  2:{ intros e He. rewrite He in Hf. cbn in Hf.
      destruct (transient_write e); [reflexivity | discriminate]. }
  cbn zeta. destruct (unsent _ _) as [rest uncomplete].
  rewrite update_stream_run. cbn [snd].
  destruct uncomplete; destruct (_ =? _); do 2 eexists;
    (split; [reflexivity |]);
    rewrite ?reregister_wire, ?unwatched_reregister;
    try match goal with |- context [reregister ?h' ?s'] =>
      destruct (reregister_tables h' s') as (-> & -> & -> & ->) end;
    destruct side; cbn; auto 12.
Qed.

Lemma torn_down_same (h h1 : Handler) (s s1 : Shared) (more : list IO)
    (result : Outcome unit * St) :
  _local_sock h1 = _local_sock h ->
  _remote_sock h1 = _remote_sock h ->
  h_id h1 = h_id h ->
  wire s1 = wire s ++ more ->
  _fd_to_handlers s1 = _fd_to_handlers s ->
  _timeouts s1 = _timeouts s ->
  _handler_to_timeouts s1 = _handler_to_timeouts s ->
  _dns_resolver s1 = _dns_resolver s ->
  unwatched h (_loop s1) = unwatched h (_loop s) ->
  torn_down h1 s1 result ->
  fst result = Ret tt
  /\ _stage (fst (snd result)) = STAGE_DESTROYED
  /\ _local_sock (fst (snd result)) = None
  /\ _remote_sock (fst (snd result)) = None
  /\ wire (snd (snd result)) = (wire s ++ more) ++ closes h
  /\ _fd_to_handlers (snd (snd result)) = without_fds h (_fd_to_handlers s)
  /\ _loop (snd (snd result)) = unwatched h (_loop s)
  /\ _dns_resolver (snd (snd result)) = (_dns_resolver s ∖ {[h_id h]})
  /\ _timeouts (snd (snd result)) = tombstoned (h_id h) s
  /\ _handler_to_timeouts (snd (snd result))
     = delete (h_id h) (_handler_to_timeouts s).
Proof.
  intros Hl Hr Hid Hw Hfd Hts Hm Hdns Hloop
    (T1 & T2 & T3 & T4 & T5 & T6 & T7 & T8).
  rewrite T2, T3, T4, T5, T6, T7, T8.
  unfold closes, without_fds, tombstoned.
  replace (unwatched h1 (_loop s1)) with (unwatched h (_loop s1))
    by (unfold unwatched; rewrite Hl, Hr; reflexivity).
  rewrite Hl, Hr, Hid, Hw, Hfd, Hts, Hm, Hdns, Hloop. cbn. auto 12.
Qed.

(** What [_write_to_sock] followed by [destroy] leaves of a live handler
    that the relay's tables hold, however [send] answers. *)
Lemma reply_then_destroy (h : Handler) (s : Shared) (sk : Sock) (data : bytes) :
  data <> [] ->
  _local_sock h = Some sk ->
  _stage h <> STAGE_DESTROYED ->
  held h s ->
  let result := (_write_to_sock data (Some sk) ≫= fun _ => destroy) (h, s) in
  fst result = Ret tt
  /\ _stage (fst (snd result)) = STAGE_DESTROYED
  /\ _local_sock (fst (snd result)) = None
  /\ _remote_sock (fst (snd result)) = None
  /\ wire (snd (snd result))
     = (wire s ++ [IOSend sk data (send_result (wire s) sk data)]) ++ closes h
  /\ _fd_to_handlers (snd (snd result)) = without_fds h (_fd_to_handlers s)
  /\ _loop (snd (snd result)) = unwatched h (_loop s)
  /\ _dns_resolver (snd (snd result)) = (_dns_resolver s ∖ {[h_id h]})
  /\ _timeouts (snd (snd result)) = tombstoned (h_id h) s
  /\ _handler_to_timeouts (snd (snd result))
     = delete (h_id h) (_handler_to_timeouts s).
Proof.
  intros Hd Hsk Hst Hheld. cbn zeta. rewrite run_bind.
  destruct (fatal (send_result (wire s) sk data)) eqn:Hf.
  - destruct (send_result (wire s) sk data) as [e | n] eqn:Hsend;
      [| discriminate Hf].
    cbn in Hf. apply negb_true_iff in Hf.
    rewrite (write_to_sock_fatal h s sk data e Hd Hsend Hf), run_bind.
    match goal with |- context [destroy (h, ?sent)] =>
      assert (Htd : torn_down h sent (destroy (h, sent)))
        by (apply destroy_tears_down;
            [exact Hst | apply (held_same h h s); auto]);
      pose proof (torn_down_same h h s sent
                    [IOSend sk data (inl e)] _ eq_refl eq_refl eq_refl eq_refl
                    eq_refl eq_refl eq_refl eq_refl eq_refl Htd) as Hfacts;
      destruct Htd as (T1 & T2 & _);
      destruct (destroy (h, sent)) as [[[] | e' |] [h2 s2]] end;
      try discriminate T1.
    cbn [fst snd] in T2, Hfacts. cbn [M_ret mret].
    change ((mret false : M bool) (h2, s2)) with (Ret false, (h2, s2)).
    cbn match.
    destruct (destroyed_calls_only_log h2 s2 sk 0) as [_ ->];
      [rewrite T2; reflexivity |].
    exact Hfacts.
  - destruct (write_to_sock_alive Local h s sk data Hd Hsk
                ltac:(discriminate) Hf)
      as (h1 & s1 & -> & Hst1 & Hl1 & Hr1 & Hid1 & Hw1 & Hfd1 & Hts1 & Hm1
          & Hdns1 & Hloop1).
    apply (torn_down_same h h1 s s1 _ _ Hl1 Hr1 Hid1 Hw1 Hfd1 Hts1 Hm1 Hdns1
             Hloop1).
    apply destroy_tears_down; [rewrite Hst1; exact Hst |].
    apply (held_same h h1 s); auto.
Qed.

(** C6. [_handle_stage_init] on the first bytes of a client.  A well formed
    selection that offers "no authentication" is answered [05 00] and the
    handler's stage becomes [STAGE_ADDR] (also when [send] fails for good:
    [_write_to_sock] then tears the handler down, and the stage is set all
    the same).  A malformed selection destroys the handler and nothing is
    sent.  A well formed selection without "no authentication" is answered
    [05 FF] and the handler is destroyed.  Destroyed means torn down: where
    the relay's tables hold the handler, its sockets are closed and taken
    from the fd table and the event loop, its callback is taken from the
    resolver and its slot in the timeout queue becomes a tombstone. *)
Theorem method_selection_reply
    (body : bytes) (h : Handler) (s : Shared) (sk : Sock) :
  _local_sock h = Some sk ->
  let result := _handle_stage_init body (h, s) in
  let h' := fst (snd result) in
  let s' := snd (snd result) in
  let warned := set_log (log s ++ [(WARN, method_selection_warning body)]) s in
  (method_selection_wellformed body = true -> offers_noauth body = true ->
     let sent := send_result (wire s) sk [x05; x00] in
     let reply := IOSend sk [x05; x00] sent in
     (wire s ++ [reply]) `prefix_of` wire s'
     /\ (fatal sent = false ->
           fst result = Ret tt /\ _stage h' = STAGE_ADDR
           /\ wire s' = wire s ++ [reply] /\ _local_sock h' = Some sk)
     /\ (_stage h <> STAGE_DESTROYED -> held h s ->
           fst result = Ret tt /\ _stage h' = STAGE_ADDR
           /\ (fatal sent = true ->
                 h' = set_stage STAGE_ADDR (destroyed_handler h)
                 /\ wire s' = (wire s ++ [reply]) ++ closes h
                 /\ _fd_to_handlers s' = without_fds h (_fd_to_handlers s)
                 /\ _loop s' = unwatched h (_loop s))))
  /\ (method_selection_wellformed body = false ->
        result = destroy (h, warned)
        /\ _stage h' = STAGE_DESTROYED
        /\ filter is_send (wire s') = filter is_send (wire s)
        /\ (_stage h <> STAGE_DESTROYED -> held h s ->
              torn_down h warned result))
  /\ (method_selection_wellformed body = true -> offers_noauth body = false ->
        let reply := IOSend sk [x05; xff] (send_result (wire s) sk [x05; xff]) in
        (wire s ++ [reply]) `prefix_of` wire s'
        /\ _stage h' = STAGE_DESTROYED
        /\ (_stage h <> STAGE_DESTROYED -> held h s ->
              fst result = Ret tt
              /\ _local_sock h' = None
              /\ _remote_sock h' = None
              /\ wire s' = (wire s ++ [reply]) ++ closes h
              /\ _fd_to_handlers s' = without_fds h (_fd_to_handlers s)
              /\ _loop s' = unwatched h (_loop s)
              /\ _dns_resolver s' = (_dns_resolver s ∖ {[h_id h]})
              /\ _timeouts s' = tombstoned (h_id h) s
              /\ _handler_to_timeouts s'
                 = delete (h_id h) (_handler_to_timeouts s))).
Proof.
  intros Hsk. cbn zeta. rewrite handle_stage_init_run. cbn zeta. rewrite Hsk.
  split; [| split].
  - intros -> ->. split; [| split].
    + rewrite run_bind.
      pose proof (write_to_sock_sends_first h s sk [x05; x00]) as Hp.
      destruct (_write_to_sock _ _ _) as [[b | e |] st'];
        cbn in *; apply Hp; discriminate.
    + intros Hf.
      rewrite run_bind, (write_to_sock_run Local h s sk [x05; x00]);
        [| discriminate | exact Hsk | discriminate |].
      2:{ intros e He. rewrite He in Hf. cbn in Hf.
          destruct (transient_write e); [reflexivity | discriminate]. }
      cbn zeta. destruct (unsent _ _) as [rest uncomplete].
      rewrite update_stream_run. cbn.
      destruct uncomplete; destruct (_ =? _); cbn;
        rewrite ?reregister_wire; auto.
    + intros Hst Hheld. rewrite run_bind.
      destruct (fatal (send_result (wire s) sk [x05; x00])) eqn:Hf.
      * destruct (send_result (wire s) sk [x05; x00]) as [e | n] eqn:Hsend;
          [| discriminate Hf].
        cbn in Hf. apply negb_true_iff in Hf.
        rewrite (write_to_sock_fatal h s sk [x05; x00] e ltac:(discriminate)
                   Hsend Hf), run_bind.
        match goal with |- context [destroy (h, ?sent)] =>
          assert (Htd : torn_down h sent (destroy (h, sent)))
            by (apply destroy_tears_down;
                [exact Hst | apply (held_same h h s); auto]);
          destruct Htd as (T1 & T2 & T3 & T4 & T5 & _);
          destruct (destroy (h, sent)) as [[[] | e' |] [h2 s2]] end;
          try discriminate T1.
        cbn in T2, T3, T4, T5 |- *. subst h2.
        split; [reflexivity |]. split; [reflexivity |]. intros _.
        split; [reflexivity |]. auto.
      * destruct (write_to_sock_alive Local h s sk [x05; x00]
                    ltac:(discriminate) Hsk ltac:(discriminate) Hf)
          as (h1 & s1 & -> & _).
        cbn. split; [reflexivity |]. split; [reflexivity | discriminate].
  - intros ->. split; [reflexivity |]. split; [apply destroy_destroys |].
    split; [apply destroy_sends_nothing |].
    intros Hst Hheld. apply destroy_tears_down; [exact Hst |].
    apply (held_same h h s); auto.
  - intros -> ->. split; [| split].
    + rewrite run_bind.
      pose proof (write_to_sock_sends_first h
                    (set_log (log s ++ [(WARN, method_selection_warning body)]) s)
                    sk [x05; xff]) as Hp.
      destruct (_write_to_sock _ _ _) as [[b | e |] st']; cbn in Hp |- *.
      * apply destroy_extends_wire. apply Hp. discriminate.
      * apply Hp. discriminate.
      * apply Hp. discriminate.
    + rewrite run_bind.
      pose proof (write_to_sock_returns_or_destroyed [x05; xff] (Some sk)
                    (h, set_log (log s ++ [(WARN, method_selection_warning body)]) s))
        as Hr.
      destruct (_write_to_sock _ _ _) as [[b | e |] st']; cbn in Hr |- *.
      * apply destroy_destroys.
      * destruct Hr as [[b Hb] | Hr]; [discriminate | exact Hr].
      * destruct Hr as [[b Hb] | Hr]; [discriminate | exact Hr].
    + intros Hst Hheld.
      destruct (reply_then_destroy h
                  (set_log (log s ++ [(WARN, method_selection_warning body)]) s)
                  sk [x05; xff] ltac:(discriminate) Hsk Hst
                  ltac:(apply (held_same h h s); auto))
        as (R1 & _ & R3 & R4 & R5 & R6 & R7 & R8 & R9 & R10).
      split; [exact R1 |]. split; [exact R3 |]. split; [exact R4 |].
      split; [exact R5 |]. split; [exact R6 |]. split; [exact R7 |].
      split; [exact R8 |]. split; [exact R9 | exact R10].
Qed.

End Proofs.

(** * The theorems at concrete inputs *)

(** C1 fails on the code.  A client in [STAGE_ADDR] reads a request to
    connect, and the [send] of its reply fails with EPIPE: [_write_to_sock]
    destroys the handler, and [_handle_stage_addr] goes on to ask the
    resolver, so that the event leaves the handler in [STAGE_DESTROYED] with
    its callback registered.  When the resolver answers,
    [_handle_dns_resolved], which does not look at the stage, makes a remote
    socket and moves the handler to [STAGE_CONNECTING]: the stage was not
    terminal.  An event on the new socket is then handled, not ignored, and
    [destroy] runs a second time in full and closes the new socket. *)
Theorem destroyed_handler_is_revived :
  let h0 := set_stage STAGE_ADDR
              (fst (demo_st (E := world_reply_fails) demo_config true)) in
  let s0 := snd (demo_st (E := world_reply_fails) demo_config true) in
  let reply := [x05; x00; x00; x01; x00; x00; x00; x00; x10; x10] in
  let remote := mkSock 9 AF_INET in
  let server := "203.0.113.7"%string in
  let event1 := handle_event demo_sock 1 (h0, s0) in
  let h1 := fst (snd event1) in
  let s1 := snd (snd event1) in
  let answer := _handle_dns_resolved (Some (server, server)) None (h1, s1) in
  let h2 := fst (snd answer) in
  let s2 := snd (snd answer) in
  let event2 := handle_event remote 4 (h2, s2) in
  let again := destroy (h2, s2) in
  (recv_result (Externals := world_reply_fails) (wire s0) demo_sock (buf_size h0)
   = inr connect_request
   /\ send_result (Externals := world_reply_fails)
        (wire s0 ++ [IORecv demo_sock (buf_size h0) (inr connect_request)])
        demo_sock reply
      = inl (EOTHER 32))
  /\ (fst event1 = Ret tt
      /\ _stage h1 = STAGE_DESTROYED
      /\ _local_sock h1 = None
      /\ _remote_sock h1 = None
      /\ wire s1 = [IORecv demo_sock (buf_size h0) (inr connect_request);
                    IOSend demo_sock reply (inl (EOTHER 32));
                    IOClose demo_sock; IORemoveCallback; IOResolve server]
      /\ _dns_resolver s1 = {[h_id h1]})
  /\ (fst answer = Ret tt
      /\ _stage h2 = STAGE_CONNECTING
      /\ _remote_sock h2 = Some remote
      /\ _fd_to_handlers s2 !! 9 = Some (h_id h2)
      /\ _loop s2 !! 9 = Some 13)
  /\ (_stage (fst (snd event2)) = STAGE_DESTROYED
      /\ wire (snd (snd event2))
         = wire s2 ++ [IOSend remote plain_header (inl (EOTHER 32));
                       IOClose remote; IORemoveCallback])
  /\ (fst again = Ret tt
      /\ _stage (fst (snd again)) = STAGE_DESTROYED
      /\ _remote_sock (fst (snd again)) = None
      /\ wire (snd (snd again)) = wire s2 ++ [IOClose remote; IORemoveCallback]
      /\ _fd_to_handlers (snd (snd again)) !! 9 = None).
Proof. vm_compute. repeat split. Qed.

(** C9 at a client handler whose peer has closed, and at one whose read would
    block. *)
Lemma read_eof_destroys_transient_keeps_witness :
  let h := fst (demo_st (E := world_eof) demo_config true) in
  let s := snd (demo_st (E := world_eof) demo_config true) in
  let h' := fst (demo_st (E := world_again) demo_config true) in
  let s' := snd (demo_st (E := world_again) demo_config true) in
  (_stage h <> STAGE_DESTROYED
   /\ _local_sock h = Some demo_sock
   /\ held h s
   /\ recv_result (Externals := world_eof) (wire s) demo_sock (buf_size h)
      = inr []
   /\ torn_down h (after_recv h s demo_sock) (_on_local_read (h, s))
   /\ wire (snd (snd (_on_local_read (h, s))))
      = [IORecv demo_sock 16384 (inr []); IOClose demo_sock; IORemoveCallback]
   /\ _fd_to_handlers (snd (snd (_on_local_read (h, s)))) !! 5 = None
   /\ _loop (snd (snd (_on_local_read (h, s)))) !! 5 = None)
  /\ (_stage h' <> STAGE_DESTROYED
      /\ recv_result (Externals := world_again) (wire s') demo_sock (buf_size h')
         = inl EAGAIN
      /\ _on_local_read (h', s') = (Ret tt, (h', after_recv h' s' demo_sock))).
Proof.
  cbv zeta. split.
  - assert (Hst : _stage (fst (demo_st (E := world_eof) demo_config true))
                  <> STAGE_DESTROYED) by (vm_compute; discriminate).
    assert (Hheld : held (fst (demo_st (E := world_eof) demo_config true))
                      (snd (demo_st (E := world_eof) demo_config true))).
    { split; [| split; [| split]].
      - intros sk Hsk. injection Hsk as <-. eexists. reflexivity.
      - intros sk Hsk. discriminate Hsk.
      - intros l rm _ Hrm. discriminate Hrm.
      - intros index Hm. vm_compute in Hm. injection Hm as <-.
        split; vm_compute; [discriminate | reflexivity]. }
    split; [exact Hst |]. split; [reflexivity |]. split; [exact Hheld |].
    split; [reflexivity |].
    destruct (read_eof_destroys_transient_keeps (E := world_eof) _
                (snd (demo_st (E := world_eof) demo_config true)) demo_sock Hst)
      as [Hlocal _].
    destruct (Hlocal eq_refl) as [Heof _].
    destruct (Heof eq_refl) as (_ & _ & Htorn).
    pose proof (Htorn Hheld) as Hdown.
    split; [exact Hdown |].
    destruct Hdown as (_ & _ & Hwire & Hfd & Hloop & _).
    rewrite Hwire, Hfd, Hloop. split; [| split]; vm_compute; reflexivity.
  - assert (Hst : _stage (fst (demo_st (E := world_again) demo_config true))
                  <> STAGE_DESTROYED) by (vm_compute; discriminate).
    split; [exact Hst |]. split; [reflexivity |].
    destruct (read_eof_destroys_transient_keeps (E := world_again) _
                (snd (demo_st (E := world_again) demo_config true)) demo_sock Hst)
      as [Hlocal _].
    destruct (Hlocal eq_refl) as [_ Hagain].
    exact (Hagain EAGAIN eq_refl eq_refl).
Defined.

(** C10 at a tunnel whose configuration names none of the tunnel keys. *)
Lemma tunnel_keys_default_witness :
  let built :=
    __init__ (E := world_eof) 1%positive demo_sock true demo_tunnel_shared in
  let h := fst (snd built) in
  relay_is_tunnel demo_tunnel_shared = true
  /\ _handler_to_timeouts demo_tunnel_shared !! 1%positive = None
  /\ cfg_tunnel_remote (_config demo_tunnel_shared) = None
  /\ cfg_tunnel_remote_port (_config demo_tunnel_shared) = None
  /\ cfg_tunnel_port (_config demo_tunnel_shared) = None
  /\ fst built = Ret tt
  /\ _is_tunnel h = true
  /\ tunnel_remote h = "8.8.8.8"%string
  /\ tunnel_remote_port h = 53
  /\ tunnel_port h = 53.
Proof.
  cbv zeta. do 5 (split; [reflexivity |]).
  destruct (tunnel_keys_default (E := world_eof) demo_tunnel_shared 1%positive
              demo_sock true eq_refl eq_refl (fun _ => conj I I))
    as (Hret & Htun & Hhost & Hport & Hlisten).
  split; [exact Hret |]. split; [exact Htun |].
  split; [exact (Hhost eq_refl) |]. split; [exact (Hport eq_refl) |].
  exact (Hlisten eq_refl).
Defined.

(** C8 at a client handler whose first [send] takes one byte of two. *)
Lemma write_to_sock_buffers_remainder_witness :
  let h := fst (demo_st (E := world_short_send) demo_config true) in
  let s := snd (demo_st (E := world_short_send) demo_config true) in
  ([x05; x00] <> []
   /\ sock_of Local h = Some demo_sock
   /\ _stage h <> STAGE_DESTROYED
   /\ send_result (Externals := world_short_send) (wire s) demo_sock [x05; x00]
      = inr 1)
  /\ exists h' s',
       _write_to_sock [x05; x00] (Some demo_sock) (h, s) = (Ret true, (h', s'))
       /\ wire s' = [IOSend demo_sock [x05; x00] (inr 1)]
       /\ pending Local h' = [[x00]]
       /\ wait_of Local h' = WAIT_STATUS_WRITING
       /\ registered_for s' demo_sock (POLL_OUT (Externals := world_short_send))
       /\ exists h'' s'',
            handle_event demo_sock 4 (h', s') = (Ret tt, (h'', s''))
            /\ pending Local h'' = []
            /\ wait_of Local h'' = WAIT_STATUS_READING.
Proof.
  cbv zeta.
  assert (Hne : [x05; x00] <> ([] : bytes)) by discriminate.
  assert (Hst : _stage (fst (demo_st (E := world_short_send) demo_config true))
                <> STAGE_DESTROYED) by (vm_compute; discriminate).
  split; [split; [exact Hne |]; split; [reflexivity |]; split;
          [exact Hst | reflexivity] |].
  destruct (write_to_sock_buffers_remainder (E := world_short_send) Local
              (fst (demo_st (E := world_short_send) demo_config true))
              (snd (demo_st (E := world_short_send) demo_config true))
              demo_sock [x05; x00] 1 Hne eq_refl)
    as (h' & s' & Hrun & Hw & Hpart & _).
  - intros sk' Hsk'. vm_compute in Hsk'. discriminate Hsk'.
  - exact Hst.
  - reflexivity.
  - intros Hwait. vm_compute in Hwait. discriminate Hwait.
  - destruct (Hpart eq_refl) as (Hp & Hwt & Hreg & Hdrain).
    exists h', s'. split; [exact Hrun |]. split; [exact Hw |].
    split; [exact Hp |]. split; [exact Hwt |]. split; [exact Hreg |].
    destruct (Hdrain 4 1) as (h'' & s'' & Hrun2 & _ & Hp2 & Hw2).
    + repeat split; reflexivity.
    + rewrite Hw, Hp. reflexivity.
    + rewrite Hp. vm_compute. discriminate.
    + exists h'', s''. split; [exact Hrun2 |]. split; [exact Hp2 | exact Hw2].
Defined.

(** C6 at a client handler: a selection that offers "no authentication", a
    selection whose count of methods is wrong, and one that offers only
    another method; and at a client whose reply cannot be sent. *)
Lemma method_selection_reply_witness :
  let h := fst (demo_st (E := world_eof) demo_config true) in
  let s := snd (demo_st (E := world_eof) demo_config true) in
  let hb := fst (demo_st (E := world_send_broken) demo_config true) in
  let sb := snd (demo_st (E := world_send_broken) demo_config true) in
  (_local_sock h = Some demo_sock /\ _stage h <> STAGE_DESTROYED /\ held h s)
  /\ (let result := _handle_stage_init [x05; x01; x00] (h, s) in
      fst result = Ret tt
      /\ _stage (fst (snd result)) = STAGE_ADDR
      /\ wire (snd (snd result)) = [IOSend demo_sock [x05; x00] (inr 2)])
  /\ (let body := [x05; x02; x00] in
      let result := _handle_stage_init body (h, s) in
      torn_down h
        (set_log (log s ++ [(WARN, method_selection_warning body)]) s) result
      /\ wire (snd (snd result)) = [IOClose demo_sock; IORemoveCallback]
      /\ _fd_to_handlers (snd (snd result)) !! 5 = None)
  /\ (let result := _handle_stage_init [x05; x01; x02] (h, s) in
      fst result = Ret tt
      /\ _stage (fst (snd result)) = STAGE_DESTROYED
      /\ _local_sock (fst (snd result)) = None
      /\ wire (snd (snd result))
         = [IOSend demo_sock [x05; xff] (inr 2); IOClose demo_sock;
            IORemoveCallback]
      /\ _fd_to_handlers (snd (snd result)) !! 5 = None
      /\ _loop (snd (snd result)) !! 5 = None)
  /\ (let result := _handle_stage_init [x05; x01; x00] (hb, sb) in
      send_result (Externals := world_send_broken) (wire sb) demo_sock [x05; x00]
      = inl (EOTHER 32)
      /\ fst result = Ret tt
      /\ fst (snd result) = set_stage STAGE_ADDR (destroyed_handler hb)
      /\ wire (snd (snd result))
         = [IOSend demo_sock [x05; x00] (inl (EOTHER 32)); IOClose demo_sock;
            IORemoveCallback]).
Proof.
  cbv zeta.
  assert (Hst : _stage (fst (demo_st (E := world_eof) demo_config true))
                <> STAGE_DESTROYED) by (vm_compute; discriminate).
  assert (Hheld : held (fst (demo_st (E := world_eof) demo_config true))
                    (snd (demo_st (E := world_eof) demo_config true))).
  { split; [| split; [| split]].
    - intros sk Hsk. injection Hsk as <-. eexists. reflexivity.
    - intros sk Hsk. discriminate Hsk.
    - intros l rm _ Hrm. discriminate Hrm.
    - intros index Hm. vm_compute in Hm. injection Hm as <-.
      split; vm_compute; [discriminate | reflexivity]. }
  split; [split; [reflexivity | split; [exact Hst | exact Hheld]] |].
  split; [| split; [| split]].
  - pose proof (method_selection_reply (E := world_eof) [x05; x01; x00]
                  (fst (demo_st (E := world_eof) demo_config true))
                  (snd (demo_st (E := world_eof) demo_config true))
                  demo_sock eq_refl) as H.
    cbv zeta in H. destruct H as (Hok & _ & _).
    destruct (Hok eq_refl eq_refl) as (_ & Hsent & _).
    destruct (Hsent eq_refl) as (Hret & Hstage & Hwire & _).
    split; [exact Hret |]. split; [exact Hstage | exact Hwire].
  - pose proof (method_selection_reply (E := world_eof) [x05; x02; x00]
                  (fst (demo_st (E := world_eof) demo_config true))
                  (snd (demo_st (E := world_eof) demo_config true))
                  demo_sock eq_refl) as H.
    cbv zeta in H. destruct H as (_ & Hbad & _).
    destruct (Hbad eq_refl) as (_ & _ & _ & Htorn).
    pose proof (Htorn Hst Hheld) as Hdown.
    split; [exact Hdown |].
    destruct Hdown as (_ & _ & Hwire & Hfd & _).
    rewrite Hwire, Hfd. split; vm_compute; reflexivity.
  - pose proof (method_selection_reply (E := world_eof) [x05; x01; x02]
                  (fst (demo_st (E := world_eof) demo_config true))
                  (snd (demo_st (E := world_eof) demo_config true))
                  demo_sock eq_refl) as H.
    cbv zeta in H. destruct H as (_ & _ & Hnone).
    destruct (Hnone eq_refl eq_refl) as (_ & Hstage & Hdown).
    destruct (Hdown Hst Hheld) as (Hret & Hl & _ & Hwire & Hfd & Hloop & _).
    split; [exact Hret |]. split; [exact Hstage |]. split; [exact Hl |].
    rewrite Hwire, Hfd, Hloop. split; [| split]; vm_compute; reflexivity.
  - assert (Hstb : _stage (fst (demo_st (E := world_send_broken) demo_config true))
                   <> STAGE_DESTROYED) by (vm_compute; discriminate).
    assert (Hheldb : held (fst (demo_st (E := world_send_broken) demo_config true))
                       (snd (demo_st (E := world_send_broken) demo_config true))).
    { split; [| split; [| split]].
      - intros sk Hsk. injection Hsk as <-. eexists. reflexivity.
      - intros sk Hsk. discriminate Hsk.
      - intros l rm _ Hrm. discriminate Hrm.
      - intros index Hm. vm_compute in Hm. injection Hm as <-.
        split; vm_compute; [discriminate | reflexivity]. }
    split; [reflexivity |].
    pose proof (method_selection_reply (E := world_send_broken) [x05; x01; x00]
                  (fst (demo_st (E := world_send_broken) demo_config true))
                  (snd (demo_st (E := world_send_broken) demo_config true))
                  demo_sock eq_refl) as H.
    cbv zeta in H. destruct H as (Hok & _ & _).
    destruct (Hok eq_refl eq_refl) as (_ & _ & Hany).
    destruct (Hany Hstb Hheldb) as (Hret & _ & Hfatal).
    destruct (Hfatal eq_refl) as (Hh & Hwire & _).
    split; [exact Hret |]. split; [exact Hh |].
    rewrite Hwire. vm_compute. reflexivity.
Defined.

(** C7, as amended, at a server handler that requires one-time auth and
    reads a header without the flag. *)
Lemma missing_ota_is_dropped_witness :
  let h := fst (demo_st (E := world_eof) demo_config_ota false) in
  let s := snd (demo_st (E := world_eof) demo_config_ota false) in
  _is_local h = false
  /\ _ota_enable h = true
  /\ parse_header (Externals := world_eof) plain_header
     = Some (1, [x08; x08; x08; x08], 53, 7)
  /\ Z.land 1 ADDRTYPE_AUTH = 0
  /\ _handle_stage_addr plain_header (h, s) =
     (Ret tt,
      (set_ota_enable_session false h,
       set_log (log s ++ [(INFO, MsgConnecting (to_str [x08; x08; x08; x08], 53)
                                   (_client_address h));
                          (WARN, Msg "client one time auth is required")]) s)).
Proof.
  cbv zeta. do 4 (split; [reflexivity |]).
  exact (missing_ota_is_dropped (E := world_eof) plain_header
           (fst (demo_st (E := world_eof) demo_config_ota false))
           (snd (demo_st (E := world_eof) demo_config_ota false))
           1 53 7 [x08; x08; x08; x08] eq_refl eq_refl eq_refl eq_refl).
Defined.

(** C7 as the claim has it fails: the session is not ignored until it is
    closed.  A server that requires one-time auth reads a header without the
    flag, warns, and stays in its stage; the next read on the same
    connection, a header with the flag and its MAC, is served: the handler
    asks for the address to be resolved and moves to the DNS stage. *)
Lemma missing_ota_session_is_served_later :
  let st := demo_st (E := world_header_twice) demo_config_ota false in
  let first := handle_event demo_sock 1 st in
  let second := handle_event demo_sock 1 (snd first) in
  (_is_local (fst st) = false /\ _ota_enable (fst st) = true
   /\ _stage (fst st) = STAGE_INIT)
  /\ (wire (snd (snd first)) = [IORecv demo_sock 32768 (inr plain_header)]
      /\ last (log (snd (snd first)))
         = Some (WARN, Msg "client one time auth is required")
      /\ _stage (fst (snd first)) = STAGE_INIT)
  /\ (wire (snd (snd second))
      = [IORecv demo_sock 32768 (inr plain_header);
         IORecv demo_sock 32768 (inr auth_header);
         IOResolve (to_str [x08; x08; x08; x08])]
      /\ _stage (fst (snd second)) = STAGE_DNS).
Proof. vm_compute. repeat split. Qed.

(** C5, as amended, at a server handler and at a client handler whose cipher
    cannot decrypt what they read. *)
Lemma decrypt_failure_by_role_witness :
  let h := fst (demo_streaming (E := world_bad_cipher) demo_config false) in
  let s := snd (demo_streaming (E := world_bad_cipher) demo_config false) in
  let hc := fst (demo_streaming (E := world_bad_cipher) demo_config true) in
  let sc := snd (demo_streaming (E := world_bad_cipher) demo_config true) in
  (recv_result (Externals := world_bad_cipher) (wire s) demo_sock (buf_size h)
   = inr [x2a; x2b]
   /\ decrypt (_cryptor h) [x2a; x2b] = (tt, inl CryptoError)
   /\ fst (_on_local_read (h, s)) = Ret tt
   /\ _stage (fst (snd (_on_local_read (h, s)))) = _stage h
   /\ _data_to_write_to_remote (fst (snd (_on_local_read (h, s))))
      = _data_to_write_to_remote h)
  /\ (recv_result (Externals := world_bad_cipher) (wire sc) demo_remote (buf_size hc)
      = inr [x2a; x2b]
      /\ fst (_on_remote_read (hc, sc)) = Raise CryptoError
      /\ _stage (fst (snd (handle_event demo_remote 1 (hc, sc)))) = STAGE_DESTROYED).
Proof.
  cbv zeta. split.
  - do 2 (split; [reflexivity |]).
    destruct (decrypt_failure_by_role (E := world_bad_cipher)
                (fst (demo_streaming (E := world_bad_cipher) demo_config false))
                (snd (demo_streaming (E := world_bad_cipher) demo_config false))
                demo_sock [x2a; x2b] tt CryptoError eq_refl
                ltac:(discriminate) eq_refl eq_refl) as [Hserver _].
    pose proof (Hserver eq_refl eq_refl) as H. cbv zeta in H.
    destruct H as (Hrun & Hstage & _ & _ & _ & Hbuf).
    split; [rewrite Hrun; reflexivity |]. split; [exact Hstage | exact Hbuf].
  - split; [reflexivity |].
    destruct (decrypt_failure_by_role (E := world_bad_cipher)
                (fst (demo_streaming (E := world_bad_cipher) demo_config true))
                (snd (demo_streaming (E := world_bad_cipher) demo_config true))
                demo_remote [x2a; x2b] tt CryptoError eq_refl
                ltac:(discriminate) eq_refl eq_refl) as [_ Hclient].
    destruct (Hclient eq_refl eq_refl) as [Hraise Hdestroy].
    split; [exact Hraise |]. apply Hdestroy.
    + vm_compute. discriminate.
    + split; reflexivity.
Defined.

(** C5 as the claim has it fails: a client-role handler in STREAM reads from
    its remote socket bytes that its cipher cannot decrypt (the downstream
    direction); the exception leaves [_on_remote_read], which logs nothing
    and drops nothing, and [handle_event] destroys the handler. *)
Lemma downstream_decrypt_failure_destroys :
  let st := demo_streaming (E := world_bad_cipher) demo_config true in
  (_stage (fst st) = STAGE_STREAM
   /\ _is_local (fst st) = true
   /\ _remote_sock (fst st) = Some demo_remote
   /\ decrypt (_cryptor (fst st)) [x2a; x2b] = (tt, inl CryptoError))
  /\ fst (_on_remote_read st) = Raise CryptoError
  /\ fst (handle_event demo_remote 1 st) = Ret tt
  /\ _stage (fst (snd (handle_event demo_remote 1 st))) = STAGE_DESTROYED
  /\ _local_sock (fst (snd (handle_event demo_remote 1 st))) = None.
Proof. vm_compute. repeat split. Qed.

(** C4 at a server handler that reads two chunks, the second with a MAC
    that does not verify.  In one read: the first payload is delivered, the
    second is dropped with a warning, and the index counts one chunk.  In
    two reads, cut between the head and the payload of the second chunk: the
    first read hands on the first payload, the second read hands on nothing
    of the dropped chunk.  The framer of the same handler counts the two
    chunks it frames. *)
Lemma ota_index_counts_chunks_witness :
  let h := fst (demo_st (E := world_eof) demo_config_ota false) in
  let s := snd (demo_st (E := world_eof) demo_config_ota false) in
  let evs := frame_events (E := world_eof) (decipher_iv (_cryptor h))
               (_ota_chunk_idx h) forged_frames in
  let reads := [take 25 forged_stream; drop 25 forged_stream] in
  (ota_idle h
   /\ _ota_chunk_idx h = 0
   /\ frames_stream forged_frames = Some forged_stream
   /\ evs = [Verified [x61]; Rejected]
   /\ concat reads = forged_stream)
  /\ _ota_chunk_data forged_stream append_to_remote (h, s)
     = (Ret tt,
        (set_data_to_write_to_remote [[x61]] (set_ota_chunk_idx 1 h),
         chunk_warnings 1 s))
  /\ (exists (out : list bytes) (kept : list OtaEvent),
        ota_feed reads (h, s)
        = (set_data_to_write_to_remote (_data_to_write_to_remote h ++ out)
             (set_ota_chunk_idx (_ota_chunk_idx h + Z.of_nat (verified evs)) h),
           chunk_warnings (rejected evs) s)
        /\ kept `sublist_of` evs
        /\ concat out = delivered kept)
  /\ _data_to_write_to_remote (fst (ota_feed reads (h, s))) = [[x61]; []]
  /\ _ota_chunk_idx (fst (ota_feed reads (h, s))) = 1
  /\ (exists framed,
        ota_gen_all two_payloads (h, s) = (Ret framed, (set_ota_chunk_idx 2 h, s))
        /\ length framed = 2%nat).
Proof.
  cbv zeta. split.
  { split; [repeat split |]. do 3 (split; [reflexivity |]).
    vm_compute. reflexivity. }
  destruct (ota_index_counts_chunks (E := world_eof)
              (fst (demo_st (E := world_eof) demo_config_ota false))
              (snd (demo_st (E := world_eof) demo_config_ota false))
              forged_frames forged_stream
              [take 25 forged_stream; drop 25 forged_stream] two_payloads)
    as (Hone & Hsplit & _ & Hgen & _).
  - repeat split.
  - vm_compute. discriminate.
  - vm_compute. discriminate.
  - repeat constructor.
  - reflexivity.
  - vm_compute. reflexivity.
  - vm_compute. discriminate.
  - repeat constructor.
  - split; [exact (Hone append_to_remote) |]. split; [exact Hsplit |].
    split; [vm_compute; reflexivity |]. split; [vm_compute; reflexivity |].
    exact Hgen.
Defined.

(** The relay of the examples is well formed, whenever its handler was last
    active. *)
Lemma demo_relay_ok (last : Z) : relay_ok (demo_relay (E := world_eof) last).
Proof.
  split.
  - intros i hid Hi. destruct i as [| i]; [| destruct i; discriminate Hi].
    injection Hi as <-. eexists. split; [reflexivity |].
    split; [reflexivity |]. split; [discriminate | reflexivity].
  - intros hid h Hh.
    change (handlers (demo_relay (E := world_eof) last))
      with ({[1%positive :=
                set_last_activity last
                  (fst (demo_st (E := world_eof) demo_config false))]}
            : gmap positive Handler) in Hh.
    apply lookup_singleton_Some in Hh as [<- <-].
    split; [| split].
    + intros sk Hsk. injection Hsk as <-. reflexivity.
    + intros sk Hsk. discriminate Hsk.
    + intros l rm _ Hrm. discriminate Hrm.
Qed.

(** C3, as amended, at a relay with one handler: idle for 200 of the 300
    seconds of the timeout it is left alone, idle for 400 seconds it is
    destroyed and its slot is a tombstone. *)
Lemma sweep_destroys_from_timeout_on_witness :
  let young := demo_relay (E := world_eof) 800 in
  let old := demo_relay (E := world_eof) 600 in
  (relay_ok young
   /\ _timeouts (shared young) !! 0%nat = Some (Some 1%positive)
   /\ exists r',
        _sweep_timeout young = (Ret tt, r')
        /\ _timeout_offset (shared r') = 0
        /\ _timeouts (shared r') !! 0%nat = Some (Some 1%positive)
        /\ handlers r' !! 1%positive = handlers young !! 1%positive)
  /\ (relay_ok old
      /\ exists h r',
           handlers old !! 1%positive = Some h
           /\ _sweep_timeout old = (Ret tt, r')
           /\ handlers r' !! 1%positive = Some (destroyed_handler h)
           /\ _timeouts (shared r') !! 0%nat = Some None).
Proof.
  cbv zeta. split.
  - split; [apply demo_relay_ok |]. split; [reflexivity |].
    destruct (sweep_destroys_from_timeout_on (E := world_eof)
                (demo_relay (E := world_eof) 800) 0 1%positive
                (set_last_activity 800
                   (fst (demo_st (E := world_eof) demo_config false)))
                (demo_relay_ok 800))
      as (r' & Hrun & Hfresh & _).
    + split; vm_compute; discriminate.
    + reflexivity.
    + reflexivity.
    + intros i hid h _ Hi. inversion Hi.
    + destruct Hfresh as (Hoff & Hslots & Hkeep); [reflexivity |].
      exists r'. split; [exact Hrun |]. split; [exact Hoff |].
      split; [exact (Hslots 0%nat (le_n 0)) |].
      exact (Hkeep 0%nat 1%positive _ (le_n 0) eq_refl eq_refl).
  - split; [apply demo_relay_ok |].
    destruct (sweep_destroys_from_timeout_on (E := world_eof)
                (demo_relay (E := world_eof) 600) 0 1%positive
                (set_last_activity 600
                   (fst (demo_st (E := world_eof) demo_config false)))
                (demo_relay_ok 600))
      as (r' & Hrun & _ & Hold).
    + split; vm_compute; discriminate.
    + reflexivity.
    + reflexivity.
    + intros i hid h _ Hi. inversion Hi.
    + destruct Hold as (Hdead & _ & Hslot); [vm_compute; discriminate |].
      eexists. exists r'. split; [reflexivity |]. split; [exact Hrun |].
      split; [exact Hdead |]. apply Hslot. vm_compute. discriminate.
Defined.

(** C3 as the claim has it fails: a handler that has been idle for exactly
    the timeout (last activity at 700, a timeout of 300 seconds, the sweep at
    1000) is destroyed by the sweep, and its slot is a tombstone. *)
Lemma sweep_at_exact_timeout_destroys :
  let r := demo_relay (E := world_eof) 700 in
  let swept_relay := snd (_sweep_timeout r) in
  (_timeouts (shared r) = [Some 1%positive]
   /\ (last_activity (E := world_eof) <$> (handlers r !! 1%positive))
      = Some 700
   /\ (_stage (E := world_eof) <$> (handlers r !! 1%positive))
      = Some STAGE_INIT
   /\ _timeout (shared r) = 300
   /\ time_time (Externals := world_eof) (wire (shared r)) = 1000%Q)
  /\ (1000 - inject_Z 700 == inject_Z 300)%Q
  /\ fst (_sweep_timeout r) = Ret tt
  /\ (_stage (E := world_eof) <$> (handlers swept_relay !! 1%positive))
     = Some STAGE_DESTROYED
  /\ _timeouts (shared swept_relay) = [None].
Proof. vm_compute. repeat split. Qed.

(** C2 fails on the code.  Two payloads of one byte are framed with chunk
    indices 0 and 1.  Read in one piece, the framed bytes give the callback
    both payloads.  Read in two pieces, the first ending one byte into the
    second chunk, they give the callback the second payload only: the first,
    already verified, is lost when [_ota_chunk_data] returns to wait for the
    rest of the second chunk's head, although both chunks are counted. *)
Theorem ota_split_read_loses_verified_chunk :
  let receiver := demo_st (E := world_eof) demo_config_ota false in
  (length two_frames = 2%nat
   /\ concat split_reads = concat two_frames
   /\ concat one_read = concat two_frames)
  /\ (join (_data_to_write_to_remote (fst (ota_feed one_read receiver)))
      = [x61; x62]
      /\ _ota_chunk_idx (fst (ota_feed one_read receiver)) = 2)
  /\ (join (_data_to_write_to_remote (fst (ota_feed split_reads receiver)))
      = [x62]
      /\ _ota_chunk_idx (fst (ota_feed split_reads receiver)) = 2).
Proof. vm_compute. repeat split. Qed.

(** * The further properties at concrete inputs *)

(** The relay of the examples is consistent, and its queue is in order. *)
Lemma demo_relay_inv (last : Z) : relay_inv (demo_relay (E := world_eof) last).
Proof.
  split; [apply demo_relay_ok |]. split.
  - intros hid index Hm.
    change (_handler_to_timeouts (shared (demo_relay (E := world_eof) last)))
      with ({[1%positive := 0]} : gmap positive Z) in Hm.
    apply lookup_singleton_Some in Hm as [<- <-].
    exists 0%nat. split; reflexivity.
  - split; [split; [reflexivity | discriminate] |].
    intros i Hi. exfalso. change (Z.of_nat i < 0) in Hi. lia.
Qed.

Lemma demo_relay_sorted (last : Z) : queue_sorted (demo_relay (E := world_eof) last).
Proof.
  intros i j hi hj a b _ Hi Hj Ha Hb.
  destruct i as [| i]; [| destruct i; discriminate Hi].
  destruct j as [| j]; [| destruct j; discriminate Hj].
  injection Hi as <-. injection Hj as <-.
  rewrite Ha in Hb. injection Hb as <-. lia.
Qed.

(** The relay with two handlers is consistent, and its queue is in order
    when the first handler was not active after the second. *)
Lemma two_relay_inv (first second : Z) :
  relay_inv (two_relay (E := world_eof) first second).
Proof.
  assert (Hts : _timeouts (shared (two_relay (E := world_eof) first second))
                = [Some 1%positive; Some 2%positive])
    by (vm_compute; reflexivity).
  assert (Hmap : _handler_to_timeouts
                   (shared (two_relay (E := world_eof) first second))
                 = <[2%positive := 1]> {[1%positive := 0]})
    by (vm_compute; reflexivity).
  assert (Hoff : _timeout_offset (shared (two_relay (E := world_eof) first second))
                 = 0) by (vm_compute; reflexivity).
  unfold relay_inv, relay_ok, queue_ok, fds_ok, index_ok, offset_ok.
  rewrite Hts, Hmap, Hoff. unfold two_relay. cbn [handlers].
  split; [split |]; [| | split].
  - intros i hid Hi.
    destruct i as [| [| i]]; [| | destruct i; discriminate Hi];
      injection Hi as <-; eexists.
    + split; [rewrite lookup_insert_ne by discriminate;
              apply lookup_singleton_eq |].
      split; [reflexivity |]. split; [discriminate | reflexivity].
    + split; [apply lookup_insert_eq |].
      split; [reflexivity |]. split; [discriminate | reflexivity].
  - intros hid h Hh.
    apply lookup_insert_Some in Hh as [[<- <-] | [_ Hh]];
      [| apply lookup_singleton_Some in Hh as [<- <-]];
      (split; [| split];
       [intros sk Hsk; injection Hsk as <-; vm_compute; reflexivity
       | intros sk Hsk; discriminate Hsk
       | intros l rm _ Hrm; discriminate Hrm]).
  - intros hid index Hm.
    apply lookup_insert_Some in Hm as [[<- <-] | [_ Hm]];
      [exists 1%nat; split; reflexivity |].
    apply lookup_singleton_Some in Hm as [<- <-].
    exists 0%nat. split; reflexivity.
  - split; [split; [reflexivity | discriminate] |].
    intros i Hi. exfalso. lia.
Qed.

Lemma two_relay_sorted (first second : Z) :
  first <= second ->
  queue_sorted (two_relay (E := world_eof) first second).
Proof.
  intros Hle i j hi hj a b Hij Hi Hj Ha Hb.
  assert (Hts : _timeouts (shared (two_relay (E := world_eof) first second))
                = [Some 1%positive; Some 2%positive])
    by (vm_compute; reflexivity).
  rewrite Hts in Hi, Hj. unfold two_relay in Ha, Hb. cbn [handlers] in Ha, Hb.
  assert (Hone : forall k hid h,
            [Some 1%positive; Some 2%positive] !! k = Some (Some hid) ->
            (<[2%positive :=
                 set_last_activity second
                   (fst (snd (__init__ (E := world_eof) 2%positive
                                (mkSock 6 AF_INET) false
                                (snd (snd (__init__ (E := world_eof) 1%positive
                                             demo_sock false
                                             (demo_shared demo_config false)))))))]>
               {[1%positive :=
                   set_last_activity first
                     (fst (snd (__init__ (E := world_eof) 1%positive demo_sock
                                  false (demo_shared demo_config false))))]}
             : gmap positive Handler) !! hid = Some h ->
            (k = 0%nat /\ last_activity h = first)
            \/ (k = 1%nat /\ last_activity h = second)).
  { intros k hid h Hk Hh.
    destruct k as [| [| k]]; [| | destruct k; discriminate Hk];
      injection Hk as <-.
    - left. rewrite lookup_insert_ne in Hh by discriminate.
      rewrite lookup_singleton_eq in Hh. injection Hh as <-.
      split; reflexivity.
    - right. rewrite lookup_insert_eq in Hh. injection Hh as <-.
      split; reflexivity. }
  destruct (Hone i hi a Hi Ha) as [[-> ->] | [-> ->]];
    destruct (Hone j hj b Hj Hb) as [[-> ->] | [-> ->]]; lia.
Qed.

(** X1 at a relay whose one handler was last active 200 seconds ago: its
    slot becomes a tombstone and it is queued again at the tail. *)
Lemma update_activity_moves_to_tail_witness :
  let r := demo_relay (E := world_eof) 800 in
  relay_inv r
  /\ _timeouts (shared r) = [Some 1%positive]
  /\ exists r',
       on_handler 1%positive (update_activity 0) r = (Ret tt, r')
       /\ relay_inv r'
       /\ _timeouts (shared r') = [None; Some 1%positive]
       /\ _handler_to_timeouts (shared r') !! 1%positive = Some 1.
Proof.
  cbv zeta. split; [apply demo_relay_inv |]. split; [reflexivity |].
  destruct (update_activity_moves_to_tail (E := world_eof)
              (demo_relay (E := world_eof) 800) 1%positive
              (set_last_activity 800
                 (fst (demo_st (E := world_eof) demo_config false))) 0
              (demo_relay_inv 800) eq_refl eq_refl)
    as (r' & Hrun & Hinv & _ & Hmoved).
  - vm_compute. discriminate.
  - destruct Hmoved as (_ & Hts & Hm); [vm_compute; discriminate |].
    exists r'. split; [exact Hrun |]. split; [exact Hinv |].
    split; [exact Hts | exact Hm].
Defined.

(** X2 at a relay with two handlers, last active at 700 and at 800, when
    the first is active again at 1000: it leaves the head of the queue for
    the tail, behind the second, and the queue is in order again. *)
Lemma update_activity_keeps_order_witness :
  let r := two_relay (E := world_eof) 700 800 in
  let r' := snd (on_handler 1%positive (update_activity 0) r) in
  relay_inv r /\ queue_sorted r
  /\ _timeouts (shared r) = [Some 1%positive; Some 2%positive]
  /\ _timeouts (shared r') = [None; Some 2%positive; Some 1%positive]
  /\ (last_activity (E := world_eof) <$> (handlers r' !! 2%positive)) = Some 800
  /\ (last_activity (E := world_eof) <$> (handlers r' !! 1%positive)) = Some 1000
  /\ queue_sorted r'.
Proof.
  cbv zeta. split; [apply two_relay_inv |].
  assert (Hsorted : queue_sorted (two_relay (E := world_eof) 700 800))
    by (apply two_relay_sorted; lia).
  split; [exact Hsorted |].
  do 4 (split; [vm_compute; reflexivity |]).
  apply (update_activity_keeps_order (E := world_eof)
           (two_relay (E := world_eof) 700 800) 1%positive
           (set_last_activity 700
              (fst (snd (__init__ (E := world_eof) 1%positive demo_sock false
                           (demo_shared demo_config false))))) 0
           (two_relay_inv 700 800) Hsorted).
  - unfold two_relay. cbn [handlers].
    rewrite lookup_insert_ne by discriminate. apply lookup_singleton_eq.
  - reflexivity.
  - vm_compute. discriminate.
  - intros hid' h' Hh'. unfold two_relay in Hh'. cbn [handlers] in Hh'.
    apply lookup_insert_Some in Hh' as [[_ <-] | [_ Hh']];
      [| apply lookup_singleton_Some in Hh' as [_ <-]];
      vm_compute; discriminate.
Defined.

(** X3 at a relay whose handler has been idle for 400 of the 300 seconds of
    the timeout: the sweep returns, the relay stays consistent, and the
    handler is as it was or expired and destroyed. *)
Lemma sweep_timeout_keeps_relay_consistent_witness :
  let r := demo_relay (E := world_eof) 600 in
  let h := set_last_activity 600 (fst (demo_st (E := world_eof) demo_config false)) in
  relay_inv r
  /\ handlers r !! 1%positive = Some h
  /\ exists r',
       _sweep_timeout r = (Ret tt, r')
       /\ relay_inv r'
       /\ kept_or_expired (time_time (Externals := world_eof) (wire (shared r))) (_timeout (shared r)) h
            (handlers r' !! 1%positive).
Proof.
  cbv zeta. split; [apply demo_relay_inv |]. split; [reflexivity |].
  destruct (sweep_timeout_keeps_relay_consistent (E := world_eof)
              (demo_relay (E := world_eof) 600) (demo_relay_inv 600))
    as (r' & Hrun & Hinv & Hkept & _).
  exists r'. split; [exact Hrun |]. split; [exact Hinv |].
  exact (Hkept 1%positive _ eq_refl).
Defined.

(** X4 at a relay with two handlers in the order of their last activity,
    the first idle for 400 seconds (expired) and the second for 200 (fresh),
    with a timeout of 300: the sweep destroys the first and makes its slot a
    tombstone, and what is still live in the queue, the second, is fresh. *)
Lemma sweep_leaves_only_fresh_witness :
  let r := two_relay (E := world_eof) 600 800 in
  let swept_relay := snd (_sweep_timeout r) in
  relay_inv r /\ queue_sorted r
  /\ _timeouts (shared r) = [Some 1%positive; Some 2%positive]
  /\ _timeout (shared r) = 300
  /\ time_time (Externals := world_eof) (wire (shared r)) = 1000%Q
  /\ _timeouts (shared swept_relay) = [None; Some 2%positive]
  /\ (_stage (E := world_eof) <$> (handlers swept_relay !! 1%positive))
     = Some STAGE_DESTROYED
  /\ (_stage (E := world_eof) <$> (handlers swept_relay !! 2%positive))
     = Some STAGE_INIT
  /\ exists r',
       _sweep_timeout r = (Ret tt, r')
       /\ queue_sorted r'
       /\ forall i hid h,
            _timeouts (shared r') !! i = Some (Some hid) ->
            handlers r' !! hid = Some h ->
            fresh (time_time (Externals := world_eof) (wire (shared r)))
              (_timeout (shared r')) h = true.
Proof.
  cbv zeta. split; [apply two_relay_inv |].
  assert (Hsorted : queue_sorted (two_relay (E := world_eof) 600 800))
    by (apply two_relay_sorted; lia).
  split; [exact Hsorted |].
  do 6 (split; [vm_compute; reflexivity |]).
  destruct (sweep_leaves_only_fresh (E := world_eof)
              (two_relay (E := world_eof) 600 800) (two_relay_inv 600 800)
              Hsorted)
    as (r' & Hrun & Hfresh & Hsorted').
  - vm_compute. discriminate.
  - exists r'. split; [exact Hrun |]. split; [exact Hsorted' | exact Hfresh].
Defined.

(** The relay whose handler relays is consistent. *)
Lemma streaming_relay_inv (last : Z) :
  relay_inv (streaming_relay (E := world_eof) last).
Proof.
  split; [split |]; [| | split].
  - intros i hid Hi. destruct i as [| i]; [| destruct i; discriminate Hi].
    injection Hi as <-. eexists. split; [apply lookup_singleton_eq |].
    split; [reflexivity |]. split; [discriminate | reflexivity].
  - intros hid h Hh. unfold streaming_relay in Hh. cbn [handlers] in Hh.
    apply lookup_singleton_Some in Hh as [<- <-].
    split; [| split].
    + intros sk Hsk. injection Hsk as <-. reflexivity.
    + intros sk Hsk. injection Hsk as <-. reflexivity.
    + intros l rm Hl Hrm. injection Hl as <-. injection Hrm as <-. discriminate.
  - intros hid index Hm.
    change (_handler_to_timeouts (shared (streaming_relay (E := world_eof) last)))
      with ({[1%positive := 0]} : gmap positive Z) in Hm.
    apply lookup_singleton_Some in Hm as [<- <-].
    exists 0%nat. split; reflexivity.
  - split; [split; [reflexivity | discriminate] |].
    intros i Hi. exfalso. change (Z.of_nat i < 0) in Hi. lia.
Qed.

(** X5 at a relay whose handler relays between descriptors 5 and 7. *)
Lemma destroy_releases_the_handler_witness :
  let r := streaming_relay (E := world_eof) 800 in
  let h := set_last_activity 800
             (fst (demo_streaming (E := world_eof) demo_config false)) in
  relay_inv r
  /\ handlers r !! 1%positive = Some h
  /\ _stage h = STAGE_STREAM
  /\ exists r',
       on_handler 1%positive destroy r = (Ret tt, r')
       /\ relay_inv r'
       /\ handlers r' !! 1%positive = Some (destroyed_handler h)
       /\ wire (shared r') = [IOClose demo_remote; IOClose demo_sock; IORemoveCallback]
       /\ _fd_to_handlers (shared r') !! 5 = None
       /\ _fd_to_handlers (shared r') !! 7 = None
       /\ _loop (shared r') !! 5 = None
       /\ _loop (shared r') !! 7 = None
       /\ _handler_to_timeouts (shared r') !! 1%positive = None.
Proof.
  cbv zeta. split; [apply streaming_relay_inv |].
  split; [apply lookup_singleton_eq |]. split; [reflexivity |].
  destruct (destroy_releases_the_handler (E := world_eof)
              (streaming_relay (E := world_eof) 800) 1%positive
              (set_last_activity 800
                 (fst (demo_streaming (E := world_eof) demo_config false)))
              (streaming_relay_inv 800) (lookup_singleton_eq _ _) eq_refl)
    as (r' & Hrun & Hinv & Hh & Hfd & Hloop & Hwire & _ & Hm & _).
  - discriminate.
  - exists r'. split; [exact Hrun |]. split; [exact Hinv |].
    rewrite Hh, Hfd, Hloop, Hwire.
    split; [apply lookup_insert_eq |]. split; [vm_compute; reflexivity |].
    split; [vm_compute; reflexivity |]. split; [vm_compute; reflexivity |].
    split; [vm_compute; reflexivity |].
    split; [vm_compute; reflexivity | exact Hm].
Defined.

(** X6 at a handler whose remote socket the fd table does not know. *)
Lemma destroy_raises_on_missing_fd_witness :
  let h := set_remote_sock (Some demo_remote)
             (fst (demo_st (E := world_eof) demo_config false)) in
  let s := snd (demo_st (E := world_eof) demo_config false) in
  _stage h <> STAGE_DESTROYED
  /\ _fd_to_handlers s !! 7 = None
  /\ exists s',
       destroy (h, s) = (Raise KeyError, (set_stage STAGE_DESTROYED h, s'))
       /\ wire s' = wire s
       /\ _fd_to_handlers s' = _fd_to_handlers s.
Proof.
  cbv zeta.
  assert (Hst : _stage (set_remote_sock (Some demo_remote)
                          (fst (demo_st (E := world_eof) demo_config false)))
                <> STAGE_DESTROYED) by (vm_compute; discriminate).
  assert (Hfd0 : _fd_to_handlers (snd (demo_st (E := world_eof) demo_config false))
                 !! fileno demo_remote = None) by (vm_compute; reflexivity).
  split; [exact Hst |]. split; [exact Hfd0 |].
  destruct (destroy_raises_on_missing_fd (E := world_eof)
              (set_remote_sock (Some demo_remote)
                 (fst (demo_st (E := world_eof) demo_config false)))
              (snd (demo_st (E := world_eof) demo_config false))
              demo_remote Hst eq_refl Hfd0)
    as (s' & Hrun & Hwire & Hfd & _).
  exists s'. split; [exact Hrun |]. split; [exact Hwire | exact Hfd].
Defined.

(** X7 at a handler that relays: a [send] that fails with EAGAIN buffers the
    data, one that fails with EPIPE destroys the handler. *)
Lemma write_to_sock_on_send_error_witness :
  let h := fst (demo_streaming (E := world_send_again) demo_config false) in
  let s := snd (demo_streaming (E := world_send_again) demo_config false) in
  let h' := fst (demo_streaming (E := world_send_broken) demo_config false) in
  let s' := snd (demo_streaming (E := world_send_broken) demo_config false) in
  let result := _write_to_sock [x61] (Some demo_remote) (h, s) in
  let result' := _write_to_sock [x61] (Some demo_remote) (h', s') in
  (send_result (Externals := world_send_again) (wire s) demo_remote [x61]
   = inl EAGAIN
   /\ fst result = Ret true
   /\ pending Remote (fst (snd result)) = [[x61]]
   /\ _stage (fst (snd result)) = STAGE_STREAM)
  /\ (send_result (Externals := world_send_broken) (wire s') demo_remote [x61]
      = inl (EOTHER 32)
      /\ is_destroyed (snd result')
      /\ fst result' <> Ret true).
Proof.
  cbv zeta.
  assert (Hne : [x61] <> ([] : bytes)) by discriminate.
  split.
  - split; [reflexivity |].
    destruct (write_to_sock_on_send_error (E := world_send_again) Remote
                (fst (demo_streaming (E := world_send_again) demo_config false))
                (snd (demo_streaming (E := world_send_again) demo_config false))
                demo_remote [x61] EAGAIN Hne) as [Hagain _].
    + reflexivity.
    + intros sk' Hsk'. injection Hsk' as <-. discriminate.
    + reflexivity.
    + destruct (Hagain eq_refl) as (Hret & _ & Hp & _ & _ & Hst).
      split; [exact Hret |]. rewrite Hp, Hst.
      split; vm_compute; reflexivity.
  - split; [reflexivity |].
    destruct (write_to_sock_on_send_error (E := world_send_broken) Remote
                (fst (demo_streaming (E := world_send_broken) demo_config false))
                (snd (demo_streaming (E := world_send_broken) demo_config false))
                demo_remote [x61] (EOTHER 32) Hne) as [_ Hfatal].
    + reflexivity.
    + intros sk' Hsk'. injection Hsk' as <-. discriminate.
    + reflexivity.
    + destruct (Hfatal eq_refl) as (_ & Hd & Hn). split; [exact Hd | exact Hn].
Defined.

(** X8 at a handler that relays, when [send] takes one byte of two: the
    loop stops watching the local socket for input. *)
Lemma partial_write_pauses_the_reader_witness :
  let h := fst (demo_streaming (E := world_short_send) demo_config false) in
  let s := snd (demo_streaming (E := world_short_send) demo_config false) in
  send_result (Externals := world_short_send) (wire s) demo_remote [x61; x62]
  = inr 1
  /\ _upstream_status h <> WAIT_STATUS_WRITING
  /\ _loop s !! 5 = Some 9
  /\ _loop (snd (snd (_write_to_sock [x61; x62] (Some demo_remote) (h, s)))) !! 5
     = Some 8.
Proof.
  cbv zeta. split; [reflexivity |].
  assert (Hup : _upstream_status
                  (fst (demo_streaming (E := world_short_send) demo_config false))
                <> WAIT_STATUS_WRITING) by (vm_compute; discriminate).
  split; [exact Hup |]. split; [vm_compute; reflexivity |].
  destruct (partial_write_pauses_the_reader (E := world_short_send)
              (fst (demo_streaming (E := world_short_send) demo_config false))
              (snd (demo_streaming (E := world_short_send) demo_config false))
              demo_sock demo_remote [x61; x62] 1 eq_refl eq_refl)
    as [Hremote _].
  - discriminate.
  - discriminate.
  - destruct (Hremote eq_refl) as [Hpart _].
    change 5 with (fileno demo_sock).
    rewrite (Hpart eq_refl Hup). vm_compute. reflexivity.
Defined.

(** X9 at a server handler that is connecting: two reads are kept in order
    and leave in one [send] when the remote socket becomes writable. *)
Lemma connecting_reads_are_sent_in_order_witness :
  let h := set_stage STAGE_CONNECTING
             (fst (demo_streaming (E := world_eof) demo_config false)) in
  let s := snd (demo_streaming (E := world_eof) demo_config false) in
  let reads := [[x61]; [x62]] in
  let result := _on_remote_write (connecting_reads reads (h, s)) in
  connecting_reads reads (h, s)
  = (set_data_to_write_to_remote (_data_to_write_to_remote h ++ reads) h, s)
  /\ fst result = Ret tt
  /\ _stage (fst (snd result)) = STAGE_STREAM
  /\ wire (snd (snd result)) = [IOSend demo_remote [x61; x62] (inr 2)]
  /\ _data_to_write_to_remote (fst (snd result)) = [].
Proof.
  cbv zeta.
  destruct (connecting_reads_are_sent_in_order (E := world_eof)
              (set_stage STAGE_CONNECTING
                 (fst (demo_streaming (E := world_eof) demo_config false)))
              (snd (demo_streaming (E := world_eof) demo_config false))
              demo_remote [[x61]; [x62]] eq_refl eq_refl eq_refl)
    as [Hkept Hsent].
  - discriminate.
  - split; [exact Hkept |].
    destruct Hsent as [_ Hok]; [vm_compute; discriminate |].
    destruct (Hok eq_refl) as (Hret & Hst & Hwire & Hleft).
    split; [exact Hret |]. split; [exact Hst |].
    rewrite Hwire, Hleft. split; vm_compute; reflexivity.
Defined.

(** X10 at a handler that relays, for an error reported on its local
    socket. *)
Lemma error_event_destroys_without_io_witness :
  let h := fst (demo_streaming (E := world_eof) demo_config false) in
  let s := snd (demo_streaming (E := world_eof) demo_config false) in
  _stage h <> STAGE_DESTROYED
  /\ has 8 (POLL_ERR (Externals := world_eof)) = true
  /\ exists s',
       handle_event demo_sock 8 (h, s) = (Ret tt, (destroyed_handler h, s'))
       /\ wire s' = [IOClose demo_remote; IOClose demo_sock; IORemoveCallback]
       /\ _fd_to_handlers s' !! 5 = None
       /\ _loop s' !! 5 = None.
Proof.
  cbv zeta.
  assert (Hst : _stage (fst (demo_streaming (E := world_eof) demo_config false))
                <> STAGE_DESTROYED) by (vm_compute; discriminate).
  split; [exact Hst |]. split; [reflexivity |].
  destruct (error_event_destroys_without_io (E := world_eof) Local
              (fst (demo_streaming (E := world_eof) demo_config false))
              (snd (demo_streaming (E := world_eof) demo_config false))
              demo_sock 8 Hst eq_refl)
    as (s' & Hrun & Hwire & Hfd & Hloop).
  - intros sk' Hsk'. injection Hsk' as <-. discriminate.
  - intros sk' [Hsk' | Hsk']; injection Hsk' as <-; eexists; reflexivity.
  - intros index Hm. vm_compute in Hm. injection Hm as <-.
    split; vm_compute; [discriminate | reflexivity].
  - reflexivity.
  - exists s'. split; [exact Hrun |]. rewrite Hwire, Hfd, Hloop.
    split; [| split]; vm_compute; reflexivity.
Defined.

(** X11 at a server handler whose request named example.org, port 80, when
    the resolver answers with an address. *)
Lemma dns_resolved_connects_witness :
  let h := set_remote_address (Some ("example.org"%string, 80))
             (fst (demo_st (E := world_eof) demo_config false)) in
  let s := snd (demo_st (E := world_eof) demo_config false) in
  let ip := "93.184.216.34"%string in
  let remote_sock := mkSock 9 AF_INET in
  let result := _handle_dns_resolved (Some ("example.org"%string, ip)) None (h, s) in
  connect_port h = Some 80
  /\ getaddrinfo (Externals := world_eof) (wire s) ip 80
     = inr [(AF_INET, (ip, 80))]
  /\ fst result = Ret tt
  /\ _stage (fst (snd result)) = STAGE_CONNECTING
  /\ _remote_sock (fst (snd result)) = Some remote_sock
  /\ _fd_to_handlers (snd (snd result)) !! 9 = Some 1%positive
  /\ wire (snd (snd result))
     = [IOSocket remote_sock; IOConnect remote_sock (ip, 80) (Some EINPROGRESS)]
  /\ is_destroyed (snd (_handle_dns_resolved None None (h, s))).
Proof.
  cbv zeta. split; [reflexivity |]. split; [reflexivity |].
  destruct (dns_resolved_connects (E := world_eof)
              (set_remote_address (Some ("example.org"%string, 80))
                 (fst (demo_st (E := world_eof) demo_config false)))
              (snd (demo_st (E := world_eof) demo_config false))
              "example.org"%string "93.184.216.34"%string 80 AF_INET
              ("93.184.216.34"%string, 80) [])
    as [Hfail Hok].
  destruct Hok as (Hret & Hrm & _ & Hst & _ & _ & _ & Hfd & Hwire & _);
    [discriminate | reflexivity | reflexivity | reflexivity | reflexivity |].
  split; [exact Hret |]. split; [exact Hst |]. split; [exact Hrm |].
  rewrite Hfd, Hwire. split; [apply lookup_insert_eq |].
  split; [vm_compute; reflexivity |].
  apply Hfail. right. left. reflexivity.
Defined.

(** X12 at a server handler that reads a request for 8.8.8.8, port 53. *)
Lemma server_address_request_is_resolved_witness :
  let h := fst (demo_st (E := world_eof) demo_config false) in
  let s := snd (demo_st (E := world_eof) demo_config false) in
  let result := _handle_stage_addr plain_header (h, s) in
  parse_header (Externals := world_eof) plain_header
  = Some (1, [x08; x08; x08; x08], 53, 7)
  /\ fst result = Ret tt
  /\ _stage (fst (snd result)) = STAGE_DNS
  /\ _remote_address (fst (snd result)) = Some (to_str [x08; x08; x08; x08], 53)
  /\ _data_to_write_to_remote (fst (snd result)) = []
  /\ wire (snd (snd result)) = [IOResolve (to_str [x08; x08; x08; x08])].
Proof.
  cbv zeta. split; [reflexivity |].
  destruct (server_address_request_is_resolved (E := world_eof) plain_header
              (fst (demo_st (E := world_eof) demo_config false))
              (snd (demo_st (E := world_eof) demo_config false))
              1 53 7 [x08; x08; x08; x08]
              eq_refl eq_refl eq_refl eq_refl eq_refl)
    as (Hret & Hst & Haddr & _ & Hdata & _ & Hwire & _).
  split; [exact Hret |]. split; [exact Hst |]. split; [exact Haddr |].
  rewrite Hdata, Hwire. split; vm_compute; reflexivity.
Defined.

(** X13 at a client handler that reads a request to connect to 8.8.8.8,
    port 53. *)
Lemma client_connect_request_is_answered_witness :
  let h := fst (demo_st (E := world_eof) demo_config true) in
  let s := snd (demo_st (E := world_eof) demo_config true) in
  let reply := [x05; x00; x00; x01; x00; x00; x00; x00; x10; x10] in
  let result := _handle_stage_addr connect_request (h, s) in
  getitem connect_request 1 = Some x01
  /\ _chosen_server h = Some ("203.0.113.7"%string, 8388)
  /\ fst result = Ret tt
  /\ _stage (fst (snd result)) = STAGE_DNS
  /\ _data_to_write_to_remote (fst (snd result)) = [plain_header]
  /\ _data_to_write_to_local (fst (snd result)) = []
  /\ wire (snd (snd result))
     = [IOSend demo_sock reply (inr 10); IOResolve "203.0.113.7"%string].
Proof.
  cbv zeta. split; [reflexivity |]. split; [reflexivity |].
  destruct (client_connect_request_is_answered (E := world_eof) connect_request
              (fst (demo_st (E := world_eof) demo_config true))
              (snd (demo_st (E := world_eof) demo_config true))
              x01 eq_refl eq_refl eq_refl)
    as [Hconnect _].
  destruct (Hconnect eq_refl demo_sock 10 1 53 7 [x08; x08; x08; x08]
              plain_header tt ("203.0.113.7"%string, 8388)
              eq_refl eq_refl eq_refl)
    as (Hret & Hst & _ & Hup & Hdown & _ & Hwire & _);
    [intros rm Hrm; discriminate Hrm | reflexivity | reflexivity | reflexivity
    | reflexivity |].
  split; [exact Hret |]. split; [exact Hst |].
  rewrite Hup, Hdown, Hwire. split; [| split]; vm_compute; reflexivity.
Defined.



(** X16 at a relay whose handler relays, for an error reported on the
    remote socket. *)
Lemma relay_error_event_releases_the_handler_witness :
  let r := streaming_relay (E := world_eof) 800 in
  let h := set_last_activity 800
             (fst (demo_streaming (E := world_eof) demo_config false)) in
  relay_inv r
  /\ handlers r !! 1%positive = Some h
  /\ Some demo_remote <> _server_socket (shared r)
  /\ exists r',
       relay_handle_event (Some demo_remote) 7 8 r = (Ret tt, r')
       /\ relay_inv r'
       /\ handlers r' !! 1%positive = Some (destroyed_handler h)
       /\ wire (shared r') = [IOClose demo_remote; IOClose demo_sock; IORemoveCallback]
       /\ _fd_to_handlers (shared r') !! 5 = None
       /\ _fd_to_handlers (shared r') !! 7 = None.
Proof.
  cbv zeta. split; [apply streaming_relay_inv |].
  split; [apply lookup_singleton_eq |].
  assert (Hsrv : Some demo_remote
                 <> _server_socket (shared (streaming_relay (E := world_eof) 800)))
    by (vm_compute; discriminate).
  split; [exact Hsrv |].
  destruct (relay_error_event_releases_the_handler (E := world_eof)
              (streaming_relay (E := world_eof) 800) Remote 1%positive
              (set_last_activity 800
                 (fst (demo_streaming (E := world_eof) demo_config false)))
              demo_remote 8
              (streaming_relay_inv 800) (lookup_singleton_eq _ _) eq_refl)
    as (r' & Hrun & Hinv & Hh & Hwire & Hfd & _).
  - discriminate.
  - reflexivity.
  - exact Hsrv.
  - reflexivity.
  - exists r'. split; [exact Hrun |]. split; [exact Hinv |].
    rewrite Hh, Hwire, Hfd. split; [apply lookup_insert_eq |].
    split; [| split]; vm_compute; reflexivity.
Defined.

(** The closed relay of the examples is consistent. *)
Lemma closed_relay_inv (last : Z) : relay_inv (closed_relay (E := world_eof) last).
Proof.
  apply (relay_inv_same (demo_relay (E := world_eof) last));
    try reflexivity; apply demo_relay_inv.
Qed.

(** X18 at a closed relay that still listens on descriptor 3 and has one
    connection: the listening socket is shut, the loop is not stopped. *)
Lemma periodic_shuts_the_listener_witness :
  let r := closed_relay (E := world_eof) 800 in
  let srv := mkSock 3 AF_INET in
  relay_inv r
  /\ _closed (shared r) = true
  /\ _server_socket (shared r) = Some srv
  /\ _loop (shared r) !! 3 = Some 9
  /\ exists r',
       handle_periodic r = (Ret tt, r')
       /\ relay_inv r'
       /\ _server_socket (shared r') = None
       /\ _loop (shared r') !! 3 = None
       /\ loop_stopped (shared r') = false.
Proof.
  cbv zeta. split; [apply closed_relay_inv |]. split; [reflexivity |].
  split; [reflexivity |]. split; [vm_compute; reflexivity |].
  destruct (periodic_shuts_the_listener (E := world_eof)
              (closed_relay (E := world_eof) 800) (mkSock 3 AF_INET)
              (closed_relay_inv 800) eq_refl eq_refl)
    as (r' & Hrun & Hinv & Hsrv & Hloop & _ & Hstop & _).
  exists r'. split; [exact Hrun |]. split; [exact Hinv |].
  split; [exact Hsrv |]. split; [exact Hloop |].
  rewrite Hstop. vm_compute. reflexivity.
Defined.

(** X17 at a relay whose listening socket is readable while [accept] fails
    with EAGAIN, and at the same relay for an error event. *)
Lemma listener_failures_create_no_handler_witness :
  let r := demo_relay (E := world_eof) 800 in
  let srv := mkSock 3 AF_INET in
  let res := relay_handle_event (Some srv) 3 1 r in
  let res' := relay_handle_event (Some srv) 3 8 r in
  (accept_result (Externals := world_eof) (wire (shared r)) = inl EAGAIN
   /\ handlers (snd res) = handlers r
   /\ fst res = Ret tt
   /\ wire (shared (snd res)) = [IOAccept (inl EAGAIN)])
  /\ (has 8 (POLL_ERR (Externals := world_eof)) = true
      /\ handlers (snd res') = handlers r
      /\ fst res' = Raise (Exception "server_socket error")
      /\ wire (shared (snd res')) = []).
Proof.
  cbv zeta. split.
  - split; [reflexivity |].
    destruct (listener_failures_create_no_handler (E := world_eof)
                (demo_relay (E := world_eof) 800) (mkSock 3 AF_INET) 3 1 eq_refl)
      as (Hh & _ & _ & _ & _ & Hfail).
    + right. exists EAGAIN. reflexivity.
    + destruct (Hfail EAGAIN eq_refl eq_refl) as (Hret & Hwire & _).
      split; [exact Hh |]. split; [exact Hret |]. rewrite Hwire. reflexivity.
  - split; [reflexivity |].
    destruct (listener_failures_create_no_handler (E := world_eof)
                (demo_relay (E := world_eof) 800) (mkSock 3 AF_INET) 3 8 eq_refl)
      as (Hh & _ & _ & _ & Herr & _).
    + left. reflexivity.
    + destruct (Herr eq_refl) as (Hret & Hwire & _).
      split; [exact Hh |]. split; [exact Hret |]. rewrite Hwire. reflexivity.
Defined.

Lemma demo_hmac_long (k d : bytes) :
  ONETIMEAUTH_BYTES <= len (sha1_hmac (Externals := world_eof) k d).
Proof.
  unfold len. cbn [sha1_hmac world_eof demo_externals]. unfold demo_hmac.
  rewrite length_replicate. vm_compute. discriminate.
Qed.

(** X19 at a client that frames three payloads and a server that reads them
    in two reads, the first with two chunks and the second with one. *)
Lemma ota_round_trip_at_frame_boundaries_witness :
  let sender := fst (demo_st (E := world_eof) demo_config_ota true) in
  let s := snd (demo_st (E := world_eof) demo_config_ota true) in
  let receiver := fst (demo_st (E := world_eof) demo_config_ota false) in
  let s' := snd (demo_st (E := world_eof) demo_config_ota false) in
  fst (ota_gen_groups two_groups (sender, s)) = Ret two_reads
  /\ length two_reads = 2%nat
  /\ map (fun payloads : list bytes => concat payloads) two_groups
     = [[x61; x62]; [x63]]
  /\ ota_feed two_reads (receiver, s')
     = (set_data_to_write_to_remote
          (_data_to_write_to_remote receiver
           ++ map (fun payloads => concat payloads) two_groups)
          (set_ota_chunk_idx
             (_ota_chunk_idx receiver + Z.of_nat (length (concat two_groups)))
             receiver),
        s').
Proof.
  cbv zeta.
  assert (Hgen : fst (ota_gen_groups two_groups
                        (fst (demo_st (E := world_eof) demo_config_ota true),
                         snd (demo_st (E := world_eof) demo_config_ota true)))
                 = Ret two_reads) by (vm_compute; reflexivity).
  split; [exact Hgen |]. split; [vm_compute; reflexivity |].
  split; [reflexivity |].
  destruct (ota_gen_groups two_groups
              (fst (demo_st (E := world_eof) demo_config_ota true),
               snd (demo_st (E := world_eof) demo_config_ota true)))
    as [out st] eqn:Hrun.
  cbn [fst] in Hgen. subst out.
  destruct (ota_round_trip_at_frame_boundaries (E := world_eof) two_groups
              demo_hmac_long
              (fst (demo_st (E := world_eof) demo_config_ota true))
              (fst (demo_st (E := world_eof) demo_config_ota false))
              (snd (demo_st (E := world_eof) demo_config_ota true))
              (snd (demo_st (E := world_eof) demo_config_ota false))
              two_reads st eq_refl eq_refl)
    as [Hfeed _].
  - repeat split.
  - vm_compute. discriminate.
  - vm_compute. discriminate.
  - exact Hrun.
  - exact Hfeed.
Defined.

(** X14 at a client whose configuration names one server and one port. *)
Lemma get_a_server_chooses_from_config_witness :
  let h := fst (demo_st (E := world_eof) demo_config true) in
  let s := snd (demo_st (E := world_eof) demo_config true) in
  exists server port,
    _get_a_server (h, s)
    = (Ret (server, port),
       (h, set_log (log s ++ [(DEBUG, MsgChosenServer (server, port))]) s))
    /\ server = "203.0.113.7"%string
    /\ port = 8388.
Proof.
  cbv zeta.
  destruct (get_a_server_chooses_from_config (E := world_eof)
              (fst (demo_st (E := world_eof) demo_config true))
              (snd (demo_st (E := world_eof) demo_config true)))
    as (_ & _ & Hok).
  destruct Hok as (server & port & Hrun & Hserver & Hport).
  - exact I.
  - exact I.
  - exists server, port. split; [exact Hrun |]. split; [exact Hserver | exact Hport].
Defined.
